(** * MediaRenamer_v2: the renaming pipeline, embedded and verified

    The development follows [src/MediaRenamer_v2.py].  Python objects that the
    program mutates in place ([FileMetadata] instances held by
    [list_metadata]) live in an explicit store; the pandas table
    [df_global_media] is a snapshot of that store whose rows keep a pointer to
    the live object; exceptions are explicit outcomes.  The companion
    scripts [src/MoveMedia.py] and [src/lib/lib_logger.py] are embedded in
    modules of their own towards the end. *)

From Stdlib Require Import ZArith List String Ascii Bool Lia Arith DecimalString
  DecimalNat FinFun.
Import ListNotations.
Local Open Scope string_scope.

(** ** Python values used by the program *)

Module Py.

(** Truthiness of a [str | None] value: [None] and the empty string are falsy. *)
Definition truthy (o : option string) : bool :=
  match o with
  | Some s => negb (s =? "")
  | None => false
  end.

(** [a or b] on [str | None] values. *)
Definition por (a b : option string) : option string :=
  if truthy a then a else b.

(** [a or b] on [int] values: zero is falsy. *)
Definition por_int (a b : Z) : Z :=
  if (a =? 0)%Z then b else a.

(** Rendering of a [str | None] value inside an f-string. *)
Definition fstr (o : option string) : string :=
  match o with
  | Some s => s
  | None => "None"
  end.

(** [str(n)] for an [int]. *)
Definition str_int (n : Z) : string :=
  NilZero.string_of_int (Z.to_int n).

(** [ch * n]. *)
Fixpoint repeat_str (ch : string) (n : nat) : string :=
  match n with
  | O => ""
  | S k => ch ++ repeat_str ch k
  end.

(** Zero padding of the decimal digits [s] up to [width] characters. *)
Definition zfill (width : nat) (s : string) : string :=
  repeat_str "0" (width - String.length s) ++ s.

(** [f"{n:02d}"]: sign-aware zero padding to two characters. *)
Definition format_02d (n : Z) : string :=
  if (n <? 0)%Z
  then "-" ++ zfill 1 (str_int (Z.abs n))
  else zfill 2 (str_int n).

(** [str.center(s, width, fill)] as CPython pads it. *)
Definition center (s : string) (width : nat) (fill : string) : string :=
  let len := String.length s in
  if (width <=? len)%nat then s
  else
    let marg := (width - len)%nat in
    let left := (marg / 2 + (if Nat.odd marg && Nat.odd width then 1 else 0))%nat in
    repeat_str fill left ++ s ++ repeat_str fill (marg - left).

Definition upper_ascii (c : ascii) : ascii :=
  let n := nat_of_ascii c in
  if ((97 <=? n) && (n <=? 122))%nat then ascii_of_nat (n - 32) else c.

Definition lower_ascii (c : ascii) : ascii :=
  let n := nat_of_ascii c in
  if ((65 <=? n) && (n <=? 90))%nat then ascii_of_nat (n + 32) else c.

Fixpoint map_str (f : ascii -> ascii) (s : string) : string :=
  match s with
  | EmptyString => EmptyString
  | String c r => String (f c) (map_str f r)
  end.

(** [s.upper()] and [s.lower()] on the ASCII letters (other bytes are kept). *)
Definition upper : string -> string := map_str upper_ascii.
Definition lower : string -> string := map_str lower_ascii.

(** [s.split(".", 1)] unpacked into two names: [None] stands for the
    [ValueError] raised when [s] holds no dot. *)
Fixpoint split_dot (s : string) : option (string * string) :=
  match s with
  | EmptyString => None
  | String c r =>
      if Ascii.eqb c "."%char then Some ("", r)
      else match split_dot r with
           | Some (a, b) => Some (String c a, b)
           | None => None
           end
  end.

(** [s.replace("Z", "+00:00")]. *)
Fixpoint replace_Z (s : string) : string :=
  match s with
  | EmptyString => EmptyString
  | String c r =>
      if Ascii.eqb c "Z"%char then "+00:00" ++ replace_Z r
      else String c (replace_Z r)
  end.

(** Exceptions the program can meet. *)
Inductive exn : Type :=
  | TypeError
  | AttributeError
  | ValueError
  | OSError
  | LookupError
  | Exception (msg : string).

Inductive outcome (A : Type) : Type :=
  | Ok (a : A)
  | Raise (e : exn).
Arguments Ok {A} a.
Arguments Raise {A} e.

End Py.
Import Py.

(** ** A state monad with exceptions *)

Definition M (S A : Type) : Type := S -> outcome A * S.

Definition ret {S A} (a : A) : M S A := fun s => (Ok a, s).

Definition raise {S A} (e : exn) : M S A := fun s => (Raise e, s).

Definition bind {S A B} (c : M S A) (k : A -> M S B) : M S B :=
  fun s =>
    match c s with
    | (Ok a, s') => k a s'
    | (Raise e, s') => (Raise e, s')
    end.

Definition get {S} : M S S := fun s => (Ok s, s).

Definition modify {S} (f : S -> S) : M S unit := fun s => (Ok tt, f s).

(** [try: c except Exception: h]. *)
Definition try_except {S A} (c : M S A) (h : exn -> M S A) : M S A :=
  fun s =>
    match c s with
    | (Ok a, s') => (Ok a, s')
    | (Raise e, s') => h e s'
    end.

(** A pure computation that may raise. *)
Definition lift {S A} (o : outcome A) : M S A := fun s => (o, s).

Notation "x <- c ;; k" := (bind c (fun x => k))
  (at level 61, c at next level, right associativity).
Notation "c ;;; k" := (bind c (fun _ => k))
  (at level 61, right associativity).

(** [for x in xs: body x]. *)
Fixpoint for_each {S X} (xs : list X) (body : X -> M S unit) : M S unit :=
  match xs with
  | [] => ret tt
  | x :: r => body x ;;; for_each r body
  end.

(** ** Constants *)

Definition SLASH : string := "\".
Definition LINE_LENGTH : nat := 50.
Definition YES : bool := true.
Definition NO : bool := false.

Definition FILE_EXTENSIONS : list string :=
  ["jpg"; "heic"; "mov"; "mp4"; "mpg"; "gif"; "m4a"].
Definition EXIF_TAGS : list string :=
  ["Image DateTime"; "EXIF DateTimeOriginal"; "EXIF DateTimeDigitized"].
Definition FFMPEG_TAGS : list string :=
  ["com.apple.quicktime.creationdate"; "creation_time"].

(** ** Timestamps

    Every [datetime] the program compares has been stamped with UTC by
    [get_utc_time], which keeps the fields; comparison is therefore the
    lexicographic order of the fields. *)

Record datetime : Type := mkDT {
  year : nat; month : nat; day : nat;
  hour : nat; minute : nat; second : nat; microsecond : nat
}.

Definition dt_key (d : datetime) : list nat :=
  [year d; month d; day d; hour d; minute d; second d; microsecond d].

Fixpoint lex_ltb (a b : list nat) : bool :=
  match a, b with
  | x :: a', y :: b' => ((x <? y) || ((x =? y) && lex_ltb a' b'))%nat
  | [], _ :: _ => true
  | _, [] => false
  end.

Definition dt_ltb (a b : datetime) : bool := lex_ltb (dt_key a) (dt_key b).
Definition dt_leb (a b : datetime) : bool := negb (dt_ltb b a).

(** [min(a, b)] returns [a] unless [b < a]. *)
Definition dt_min (a b : datetime) : datetime :=
  if dt_ltb b a then b else a.

(** [date_obj.strftime(NAME_FORMAT)] with NAME_FORMAT = "%Y%m%d-%H%M%S". *)
Definition dec (n : nat) : string := NilZero.string_of_uint (Nat.to_uint n).

Definition strftime_NAME (d : datetime) : string :=
  zfill 4 (dec (year d)) ++ zfill 2 (dec (month d)) ++ zfill 2 (dec (day d))
  ++ "-" ++
  zfill 2 (dec (hour d)) ++ zfill 2 (dec (minute d)) ++ zfill 2 (dec (second d)).

Definition date_to_str (date_obj : option datetime) : option string :=
  match date_obj with
  | Some d => Some (strftime_NAME d)
  | None => None
  end.

Definition get_min (value1 value2 : option datetime) : option datetime :=
  match value1, value2 with
  | Some a, Some b => Some (dt_min a b)
  | Some a, None => Some a
  | None, _ => value2
  end.

Definition get_utc_time (_time : datetime) : datetime := _time.

(** ** The metadata record *)

Record FileMetadata : Type := mkMeta {
  no : Z;
  folder : option string;
  first_name : option string;
  actual_name : option string;
  actual_full_name : option string;
  actual_full_path : option string;
  date_taken : option string;
  new_name : option string;
  new_full_name : option string;
  new_full_path : option string;
  ext : option string;
  is_mutual : bool;
  mutual_order : Z;
  mutual_suffix : string;
  has_conflict : bool;
  conflict_suffix : string
}.

(** [FileMetadata()]. *)
Definition FileMetadata0 : FileMetadata :=
  mkMeta 0 None None None None None None None None None None NO 0 "" NO "".

(** Field assignments [meta.f = v]. *)
Definition set_no v (m : FileMetadata) :=
  mkMeta v (folder m) (first_name m) (actual_name m) (actual_full_name m)
    (actual_full_path m) (date_taken m) (new_name m) (new_full_name m)
    (new_full_path m) (ext m) (is_mutual m) (mutual_order m) (mutual_suffix m)
    (has_conflict m) (conflict_suffix m).
Definition set_folder v (m : FileMetadata) :=
  mkMeta (no m) v (first_name m) (actual_name m) (actual_full_name m)
    (actual_full_path m) (date_taken m) (new_name m) (new_full_name m)
    (new_full_path m) (ext m) (is_mutual m) (mutual_order m) (mutual_suffix m)
    (has_conflict m) (conflict_suffix m).
Definition set_first_name v (m : FileMetadata) :=
  mkMeta (no m) (folder m) v (actual_name m) (actual_full_name m)
    (actual_full_path m) (date_taken m) (new_name m) (new_full_name m)
    (new_full_path m) (ext m) (is_mutual m) (mutual_order m) (mutual_suffix m)
    (has_conflict m) (conflict_suffix m).
Definition set_actual_name_field v (m : FileMetadata) :=
  mkMeta (no m) (folder m) (first_name m) v (actual_full_name m)
    (actual_full_path m) (date_taken m) (new_name m) (new_full_name m)
    (new_full_path m) (ext m) (is_mutual m) (mutual_order m) (mutual_suffix m)
    (has_conflict m) (conflict_suffix m).
Definition set_actual_full_name v (m : FileMetadata) :=
  mkMeta (no m) (folder m) (first_name m) (actual_name m) v
    (actual_full_path m) (date_taken m) (new_name m) (new_full_name m)
    (new_full_path m) (ext m) (is_mutual m) (mutual_order m) (mutual_suffix m)
    (has_conflict m) (conflict_suffix m).
Definition set_actual_full_path v (m : FileMetadata) :=
  mkMeta (no m) (folder m) (first_name m) (actual_name m) (actual_full_name m)
    v (date_taken m) (new_name m) (new_full_name m)
    (new_full_path m) (ext m) (is_mutual m) (mutual_order m) (mutual_suffix m)
    (has_conflict m) (conflict_suffix m).
Definition set_date_taken v (m : FileMetadata) :=
  mkMeta (no m) (folder m) (first_name m) (actual_name m) (actual_full_name m)
    (actual_full_path m) v (new_name m) (new_full_name m)
    (new_full_path m) (ext m) (is_mutual m) (mutual_order m) (mutual_suffix m)
    (has_conflict m) (conflict_suffix m).
Definition set_new_name_field v (m : FileMetadata) :=
  mkMeta (no m) (folder m) (first_name m) (actual_name m) (actual_full_name m)
    (actual_full_path m) (date_taken m) v (new_full_name m)
    (new_full_path m) (ext m) (is_mutual m) (mutual_order m) (mutual_suffix m)
    (has_conflict m) (conflict_suffix m).
Definition set_new_full_name v (m : FileMetadata) :=
  mkMeta (no m) (folder m) (first_name m) (actual_name m) (actual_full_name m)
    (actual_full_path m) (date_taken m) (new_name m) v
    (new_full_path m) (ext m) (is_mutual m) (mutual_order m) (mutual_suffix m)
    (has_conflict m) (conflict_suffix m).
Definition set_new_full_path v (m : FileMetadata) :=
  mkMeta (no m) (folder m) (first_name m) (actual_name m) (actual_full_name m)
    (actual_full_path m) (date_taken m) (new_name m) (new_full_name m)
    v (ext m) (is_mutual m) (mutual_order m) (mutual_suffix m)
    (has_conflict m) (conflict_suffix m).
Definition set_ext v (m : FileMetadata) :=
  mkMeta (no m) (folder m) (first_name m) (actual_name m) (actual_full_name m)
    (actual_full_path m) (date_taken m) (new_name m) (new_full_name m)
    (new_full_path m) v (is_mutual m) (mutual_order m) (mutual_suffix m)
    (has_conflict m) (conflict_suffix m).
Definition set_is_mutual v (m : FileMetadata) :=
  mkMeta (no m) (folder m) (first_name m) (actual_name m) (actual_full_name m)
    (actual_full_path m) (date_taken m) (new_name m) (new_full_name m)
    (new_full_path m) (ext m) v (mutual_order m) (mutual_suffix m)
    (has_conflict m) (conflict_suffix m).
Definition set_mutual_order v (m : FileMetadata) :=
  mkMeta (no m) (folder m) (first_name m) (actual_name m) (actual_full_name m)
    (actual_full_path m) (date_taken m) (new_name m) (new_full_name m)
    (new_full_path m) (ext m) (is_mutual m) v (mutual_suffix m)
    (has_conflict m) (conflict_suffix m).
Definition set_mutual_suffix v (m : FileMetadata) :=
  mkMeta (no m) (folder m) (first_name m) (actual_name m) (actual_full_name m)
    (actual_full_path m) (date_taken m) (new_name m) (new_full_name m)
    (new_full_path m) (ext m) (is_mutual m) (mutual_order m) v
    (has_conflict m) (conflict_suffix m).
Definition set_has_conflict v (m : FileMetadata) :=
  mkMeta (no m) (folder m) (first_name m) (actual_name m) (actual_full_name m)
    (actual_full_path m) (date_taken m) (new_name m) (new_full_name m)
    (new_full_path m) (ext m) (is_mutual m) (mutual_order m) (mutual_suffix m)
    v (conflict_suffix m).
Definition set_conflict_suffix v (m : FileMetadata) :=
  mkMeta (no m) (folder m) (first_name m) (actual_name m) (actual_full_name m)
    (actual_full_path m) (date_taken m) (new_name m) (new_full_name m)
    (new_full_path m) (ext m) (is_mutual m) (mutual_order m) (mutual_suffix m)
    (has_conflict m) v.

(** ** Name building *)

(** ['file_name.ext'] if the extension exists, otherwise [file_name]. *)
Definition concat_full_name (file_name : string) (ext : option string) : string :=
  match ext with
  | Some e => if e =? "" then file_name else file_name ++ "." ++ e
  | None => file_name
  end.

(** [SLASH.join([folder, full_name])]: joining [None] is a [TypeError]. *)
Definition concat_full_path (folder : option string) (file_name : string)
    (ext : option string) : outcome string :=
  let full_name := concat_full_name file_name ext in
  match folder with
  | Some f => Ok (f ++ SLASH ++ full_name)
  | None => Raise TypeError
  end.

Definition set_actual_name : M FileMetadata unit :=
  meta <- get ;;
  match actual_name meta with
  | None => ret tt
  | Some name =>
      if name =? "" then ret tt
      else
        let full := concat_full_name name (ext meta) in
        modify (set_actual_full_name (Some full)) ;;;
        path <- lift (concat_full_path (folder meta) full None) ;;
        modify (set_actual_full_path (Some path))
  end.

Definition set_new_name : M FileMetadata unit :=
  meta <- get ;;
  if negb (truthy (date_taken meta)) && negb (truthy (new_name meta))
  then ret tt
  else
    let base := por (date_taken meta) (new_name meta) in
    let suffix := mutual_suffix meta ++ conflict_suffix meta in
    let name := fstr base ++ suffix in
    modify (set_new_name_field (Some name)) ;;;
    let full := concat_full_name name (ext meta) in
    modify (set_new_full_name (Some full)) ;;;
    path <- lift (concat_full_path (folder meta) full None) ;;
    modify (set_new_full_path (Some path)).

(** The keyword arguments of [set_file_metadata], with their defaults. *)
Record kwargs : Type := mkKw {
  kw_folder : option string;
  kw_first_name : option string;
  kw_actual_name : option string;
  kw_date_taken : option string;
  kw_new_name : option string;
  kw_ext : option string;
  kw_is_mutual : option bool;
  kw_mutual_order : Z;
  kw_has_conflict : option bool;
  kw_conflict_suffix : option string;
  kw_no : Z
}.

Definition kw0 : kwargs :=
  mkKw None None None None None None None 0 None None 0.

Definition set_file_metadata (kw : kwargs) : M FileMetadata unit :=
  (* Update basic fields only when provided *)
  modify (fun m => set_no (por_int (kw_no kw) (no m)) m) ;;;
  modify (fun m => set_folder (por (kw_folder kw) (folder m)) m) ;;;
  modify (fun m => set_first_name (por (kw_first_name kw) (first_name m)) m) ;;;
  modify (fun m => set_actual_name_field (por (kw_actual_name kw) (actual_name m)) m) ;;;
  modify (fun m => set_date_taken (por (kw_date_taken kw) (date_taken m)) m) ;;;
  modify (fun m => set_new_name_field (por (kw_new_name kw) (new_name m)) m) ;;;
  modify (fun m => set_ext (por (kw_ext kw) (ext m)) m) ;;;
  (* Mutual group flags *)
  match kw_is_mutual kw with
  | Some b => modify (set_is_mutual b)
  | None => ret tt
  end ;;;
  (if (kw_mutual_order kw >? 0)%Z
   then modify (set_mutual_order (kw_mutual_order kw)) ;;;
        modify (set_mutual_suffix ("-" ++ format_02d (kw_mutual_order kw)))
   else ret tt) ;;;
  (* Conflict flags *)
  match kw_has_conflict kw with
  | Some b => modify (set_has_conflict b)
  | None => ret tt
  end ;;;
  match kw_conflict_suffix kw with
  | Some s => modify (set_conflict_suffix s)
  | None => ret tt
  end ;;;
  (* Rebuild full names and paths *)
  set_actual_name ;;;
  set_new_name.

Example format_02d_examples :
  map format_02d [1; 2; 12; 100; 0]%Z = ["01"; "02"; "12"; "100"; "00"].
Proof. reflexivity. Qed.

Example center_example : center " JPG " 9 "=" = "== JPG ==".
Proof. reflexivity. Qed.

Example split_dot_examples :
  map split_dot ["IMG_1.jpg"; "a.b.jpg"; "nodot"; "x."]
  = [Some ("IMG_1", "jpg"); Some ("a", "b.jpg"); None; Some ("x", "")].
Proof. reflexivity. Qed.

(** ** The world the pipeline runs in *)

Definition opt_str_eqb (a b : option string) : bool :=
  match a, b with
  | Some x, Some y => x =? y
  | None, None => true
  | _, _ => false
  end.

(** [xs[i] = v]; the program never writes outside the list. *)
Fixpoint list_update {A} (i : nat) (v : A) (xs : list A) : list A :=
  match xs, i with
  | [], _ => []
  | _ :: r, O => v :: r
  | x :: r, S k => x :: list_update k v r
  end.

(** [Series.unique()]: first occurrences, in order. *)
Fixpoint unique (xs : list (option string)) : list (option string) :=
  match xs with
  | [] => []
  | x :: r => x :: filter (fun y => negb (opt_str_eqb x y)) (unique r)
  end.

(** A row of [df_global_media]: the [asdict] copy of a record taken when the
    table was built, and the ["metadata"] cell pointing to the live object. *)
Record Row : Type := mkRow {
  row : FileMetadata;
  metadata : nat
}.

Inductive level : Type := INFO | ERROR.

Section Pipeline.

(** The file system and the decoders are external collaborators. *)
Variable FS : Type.
(** [os.walk(base_folder)]: the directories visited. *)
Variable fs_walk : FS -> string -> list string.
(** [dir /B /o:d "root\*.ext"]: the lines printed, or [None] when the shell
    command fails ([CalledProcessError]). *)
Variable fs_dir : FS -> string -> string -> option (list string).
(** [open] followed by [exifread.process_file]: the printable value of each
    tag that is present. *)
Variable fs_exif : FS -> string -> outcome (string -> option string).
(** [datetime.strptime(s, DT_FORMAT)]; [None] stands for [ValueError]. *)
Variable strptime_DT : string -> option datetime.
(** [ffmpeg.probe]: the format tags, or [None] when probing raises. *)
Variable fs_probe : FS -> string -> option (string -> option string).
(** [datetime.fromisoformat]; [None] stands for [ValueError]. *)
Variable fromisoformat : string -> option datetime.
(** [os.path.getctime] and [os.path.getmtime] through
    [datetime.fromtimestamp]; [None] stands for [OSError]. *)
Variable fs_ctime : FS -> string -> option datetime.
Variable fs_mtime : FS -> string -> option datetime.
(** [os.rename(src, dst)]; [None] stands for [OSError]. *)
Variable fs_rename : FS -> string -> string -> option FS.

Record World : Type := mkWorld {
  list_metadata : list FileMetadata;
  df_global_media : list Row;
  dict_file_counts : list (string * nat);
  logger : list (level * string);
  disk : FS;
  rename_calls : list (string * string)
}.

Definition set_list_metadata v (w : World) :=
  mkWorld v (df_global_media w) (dict_file_counts w) (logger w) (disk w)
    (rename_calls w).
Definition set_df v (w : World) :=
  mkWorld (list_metadata w) v (dict_file_counts w) (logger w) (disk w)
    (rename_calls w).
Definition set_counts v (w : World) :=
  mkWorld (list_metadata w) (df_global_media w) v (logger w) (disk w)
    (rename_calls w).
Definition set_logger v (w : World) :=
  mkWorld (list_metadata w) (df_global_media w) (dict_file_counts w) v (disk w)
    (rename_calls w).
Definition set_disk v (w : World) :=
  mkWorld (list_metadata w) (df_global_media w) (dict_file_counts w) (logger w)
    v (rename_calls w).
Definition set_rename_calls v (w : World) :=
  mkWorld (list_metadata w) (df_global_media w) (dict_file_counts w) (logger w)
    (disk w) v.

Definition log_info (msg : string) : M World unit :=
  modify (fun w => set_logger (logger w ++ [(INFO, msg)])%list w).
Definition log_error (msg : string) : M World unit :=
  modify (fun w => set_logger (logger w ++ [(ERROR, msg)])%list w).

(** Reading the object behind pointer [i]. *)
Definition get_meta (i : nat) : M World FileMetadata :=
  fun w =>
    match nth_error (list_metadata w) i with
    | Some m => (Ok m, w)
    | None => (Raise LookupError, w)
    end.

(** Running a mutator on the object behind pointer [i]. *)
Definition on_meta {A} (i : nat) (c : M FileMetadata A) : M World A :=
  fun w =>
    match nth_error (list_metadata w) i with
    | Some m =>
        let (r, m') := c m in
        (r, set_list_metadata (list_update i m' (list_metadata w)) w)
    | None => (Raise LookupError, w)
    end.

(** [for meta in list_metadata]: the pointers of the list, in order. *)
Definition pointers (w : World) : list nat := seq 0 (List.length (list_metadata w)).

(** ** Date extraction *)

Definition get_os_date (fs : FS) (full_path : string) : outcome (option datetime) :=
  match fs_ctime fs full_path with
  | None => Raise OSError
  | Some c =>
      let c_time := get_utc_time c in
      match fs_mtime fs full_path with
      | None => Raise OSError
      | Some t =>
          let m_time := get_utc_time t in
          Ok (get_min (Some c_time) (Some m_time))
      end
  end.

Definition get_date_taken (fs : FS) (full_path : string) : outcome (option datetime) :=
  match fs_exif fs full_path with
  | Raise e => Raise e
  | Ok exif =>
      Ok (fold_left
            (fun date_taken tag =>
               match exif tag with
               | None => date_taken
               | Some raw =>
                   match strptime_DT raw with
                   | Some dt => get_min date_taken (Some (get_utc_time dt))
                   | None => date_taken
                   end
               end)
            EXIF_TAGS None)
  end.

Definition get_ffmpeg_time (fs : FS) (full_path : string) : outcome (option datetime) :=
  match fs_probe fs full_path with
  | None => Ok None
  | Some format_tags =>
      fold_left
        (fun acc tag =>
           match acc with
           | Raise e => Raise e
           | Ok date_ffmpeg =>
               match format_tags tag with
               | None => Ok date_ffmpeg
               | Some dt =>
                   if dt =? "" then Ok date_ffmpeg
                   else match fromisoformat (replace_Z dt) with
                        | None => Raise ValueError
                        | Some d => Ok (get_min date_ffmpeg (Some (get_utc_time d)))
                        end
               end
           end)
        FFMPEG_TAGS (Ok None)
  end.

Definition ext_in (e : option string) (l : list string) : bool :=
  match e with
  | Some s => existsb (String.eqb s) l
  | None => false
  end.

(** The first half of [find_date_taken]: EXIF or FFmpeg depending on the
    file type. *)
Definition decoder_date (fs : FS) (full_path : string) (ext : option string)
  : outcome (option datetime) :=
  if ext_in ext ["jpg"; "heic"] then get_date_taken fs full_path
  else if ext_in ext ["mov"; "mp4"; "mpg"; "gif"] then get_ffmpeg_time fs full_path
  else Ok None.

(** [Path(None)] and [os.path.getctime(None)] raise [TypeError]. *)
Definition find_date_taken (fs : FS) (meta : FileMetadata) : outcome (option datetime) :=
  match actual_full_path meta with
  | None => Raise TypeError
  | Some full_path =>
      match decoder_date fs full_path (ext meta) with
      | Raise e => Raise e
      | Ok date_taken =>
          match get_os_date fs full_path with
          | Raise e => Raise e
          | Ok date_os => Ok (get_min date_taken date_os)
          end
      end
  end.

(** ** The directory index *)

Definition create_df_global_media : M World unit :=
  modify (fun w =>
    set_df (map (fun p => mkRow (snd p) (fst p))
              (combine (seq 0 (List.length (list_metadata w))) (list_metadata w)))
           w).

(** [df.query('date_taken == "{date_value}" and ext == "{ext}"')]. *)
Definition query_mutual (df : list Row) (date_value : option string) (e : string)
  : list Row :=
  filter (fun r => opt_str_eqb (date_taken (row r)) (Some (fstr date_value))
                   && opt_str_eqb (ext (row r)) (Some e)) df.

(** [df.query('actual_full_name == "{new_full_name}" and no != {no}')]. *)
Definition query_conflict (df : list Row) (new_full_name : option string) (n : Z)
  : list Row :=
  filter (fun r => opt_str_eqb (actual_full_name (row r)) (Some (fstr new_full_name))
                   && negb (no (row r) =? n)%Z) df.

Definition conflict_exists (w : World) : bool :=
  negb (match filter (fun r => has_conflict (row r)) (df_global_media w) with
        | [] => true
        | _ => false
        end).

(** ** Mutual groups *)

(** The inner loop of [search_mutual_names]: [idx] counts from one. *)
Fixpoint mark_mutual (idx : Z) (ptrs : list nat) : M World unit :=
  match ptrs with
  | [] => ret tt
  | p :: r =>
      let idx := (idx + 1)%Z in
      on_meta p (set_file_metadata
                   (mkKw None None None None None None (Some YES) idx None None 0)) ;;;
      mark_mutual idx r
  end.

Definition search_mutual_names (only_conflicts : bool) : M World unit :=
  if only_conflicts then ret tt
  else
    w <- get ;;
    let unique_dates := unique (map (fun r => date_taken (row r)) (df_global_media w)) in
    for_each (list_prod unique_dates FILE_EXTENSIONS)
      (fun de =>
         let df_mutual := query_mutual (df_global_media w) (fst de) (snd de) in
         if (List.length df_mutual <=? 1)%nat then ret tt
         else mark_mutual 0 (map metadata df_mutual)) ;;;
    create_df_global_media.

(** ** Conflicts *)

Definition reset_conflicts : M World unit :=
  w <- get ;;
  for_each (pointers w)
    (fun i =>
       meta <- get_meta i ;;
       if negb (has_conflict meta) then ret tt
       else on_meta i (set_file_metadata
                         (mkKw None None None None None None None 0
                               (Some NO) (Some "") 0))).

Definition check_conflicts (only_conflicts : bool) : M World unit :=
  if only_conflicts then ret tt
  else
    w <- get ;;
    for_each (pointers w)
      (fun i =>
         meta <- get_meta i ;;
         w <- get ;;
         let df_conflict :=
           query_conflict (df_global_media w) (new_full_name meta) (no meta) in
         match df_conflict with
         | [] => ret tt
         | first :: _ =>
             on_meta i (set_file_metadata
                          (mkKw None None None None None None None 0
                                (Some YES) (Some (str_int (no meta))) 0)) ;;;
             meta <- get_meta i ;;
             log_info (str_int (no meta) ++ "- "
                       ++ fstr (actual_full_name (row first))
                       ++ ": Conflict detected")
         end).

Definition initialize_conflicts : M World unit :=
  w <- get ;;
  if negb (conflict_exists w) then ret tt
  else
    log_info (repeat_str "*" LINE_LENGTH) ;;;
    log_info (center "CONFLICTS RUNNING" LINE_LENGTH " ") ;;;
    reset_conflicts.

(** ** Renaming *)

(** [Path(None)] raises [TypeError] before [os.rename] is reached. *)
Definition os_rename (i : nat) : M World unit :=
  meta <- get_meta i ;;
  match actual_full_path meta, new_full_path meta with
  | Some src, Some dst =>
      modify (fun w => set_rename_calls (rename_calls w ++ [(src, dst)])%list w) ;;;
      w <- get ;;
      match fs_rename (disk w) src dst with
      | Some fs' => modify (set_disk fs')
      | None => raise OSError
      end
  | _, _ => raise TypeError
  end.

Definition rename_file (i : nat) (only_conflicts : bool) : M World unit :=
  meta <- get_meta i ;;
  (* Skip if only conflicts should be processed *)
  if only_conflicts && negb (has_conflict meta) then ret tt
  else
    (* Safety check *)
    if negb (truthy (new_full_path meta))
    then raise (Exception (str_int (no meta) ++ " - Error: File path cannot be none!"))
    else
      (* No rename needed *)
      let same_name := opt_str_eqb (new_full_name meta) (actual_full_name meta) in
      (if same_name
       then log_info (str_int (no meta) ++ "- " ++ fstr (actual_full_name meta)
                      ++ ": File names are identical")
       else os_rename i ;;;
            log_info (str_int (no meta) ++ "- " ++ fstr (actual_full_name meta)
                      ++ " >> " ++ fstr (new_full_name meta) ++ ": Completed")) ;;;
      (* Update metadata after rename *)
      on_meta i (set_file_metadata
                   (mkKw None None (new_name meta) None None None None 0 None None 0)).

Definition dict_get (d : list (string * nat)) (k : option string) : nat :=
  match k with
  | Some s =>
      match find (fun p => fst p =? s) d with
      | Some p => snd p
      | None => 0
      end
  | None => 0
  end.

(** The header printed for the first file of each extension loop;
    [None.upper()] is an [AttributeError]. *)
Definition log_header (meta : FileMetadata) (what : string) : M World unit :=
  if (no meta =? 1)%Z
  then
    match ext meta with
    | None => raise AttributeError
    | Some e =>
        log_info (center (" " ++ upper e ++ " ") LINE_LENGTH "=") ;;;
        w <- get ;;
        let file_number := dict_get (dict_file_counts w) (ext meta) in
        log_info (dec file_number ++ " files being " ++ what ++ "... ") ;;;
        log_info (repeat_str "-" LINE_LENGTH)
    end
  else ret tt.

(** The body of the loop of [run_renamer]. *)
Definition run_renamer_step (only_conflicts : bool) (i : nat) : M World unit :=
  meta <- get_meta i ;;
  log_header meta "renamed" ;;;
  try_except
    (log_info "-" ;;; rename_file i only_conflicts)
    (fun _ =>
       meta <- get_meta i ;;
       log_error (str_int (no meta) ++ "- " ++ fstr (actual_full_name meta)
                  ++ " - " ++ fstr (new_full_name meta) ++ ": "
                  ++ "Error: An error occurred while renaming file.")).

Definition run_renamer (only_conflicts : bool) : M World unit :=
  log_info (repeat_str "*" LINE_LENGTH) ;;;
  w <- get ;;
  for_each (pointers w) (run_renamer_step only_conflicts).

Definition find_file_counts (only_conflicts : bool) : M World unit :=
  modify (fun w =>
    set_counts
      (map (fun e =>
              (e, List.length
                    (filter (fun meta =>
                               opt_str_eqb (ext meta) (Some e)
                               && (if only_conflicts then has_conflict meta else true))
                            (list_metadata w))))
           FILE_EXTENSIONS)
      w).

(** ** The pipeline *)

Definition process_files (only_conflicts : bool) : M World unit :=
  w <- get ;;
  if only_conflicts && negb (conflict_exists w) then ret tt
  else
    check_conflicts only_conflicts ;;;
    find_file_counts only_conflicts ;;;
    w <- get ;;
    for_each (pointers w)
      (fun i =>
         meta <- get_meta i ;;
         log_header meta "processed" ;;;
         (if negb only_conflicts || has_conflict meta
          then log_info (str_int (no meta) ++ "- " ++ fstr (actual_full_name meta))
          else ret tt) ;;;
         w <- get ;;
         date_taken <-
           (if negb only_conflicts
            then d <- lift (find_date_taken (disk w) meta) ;; ret (date_to_str d)
            else ret None) ;;
         on_meta i (set_file_metadata
                      (mkKw None None None date_taken None None None 0 None None 0))) ;;;
    (if negb only_conflicts then create_df_global_media else ret tt) ;;;
    search_mutual_names only_conflicts ;;;
    run_renamer only_conflicts.

(** One listing of [fetch_list_files]: the records built from the lines of
    [dir], numbered from one. *)
Fixpoint build_records (root : string) (i : nat) (lines : list string)
  : M World unit :=
  match lines with
  | [] => ret tt
  | file :: r =>
      match split_dot file with
      | None => raise ValueError
      | Some (name, extension) =>
          let extension := lower extension in
          let (res, file_meta) :=
            set_file_metadata
              (mkKw (Some root) (Some name) (Some name) None None
                    (Some extension) None 0 None None (Z.of_nat i + 1))
              FileMetadata0 in
          lift res ;;;
          modify (fun w => set_list_metadata (list_metadata w ++ [file_meta])%list w) ;;;
          build_records root (S i) r
      end
  end.

Definition fetch_list_files (base_folder : string) : M World unit :=
  modify (set_list_metadata []) ;;;
  w <- get ;;
  for_each (fs_walk (disk w) base_folder)
    (fun root =>
       for_each FILE_EXTENSIONS
         (fun e =>
            w <- get ;;
            match fs_dir (disk w) root e with
            | Some lines => build_records root 0 lines
            | None => ret tt
            end) ;;;
       create_df_global_media).

(** The module body: one full pass, then the conflict-only pass. *)
Definition main (dir_year : string) : M World unit :=
  fetch_list_files dir_year ;;;
  process_files NO ;;;
  initialize_conflicts ;;;
  process_files YES.

Definition initial_world (fs : FS) : World := mkWorld [] [] [] [] fs [].

End Pipeline.

(** ** A reference decoder for the EXIF stamp format

    [datetime.strptime(s, "%Y:%m:%d %H:%M:%S")] on stamps written with all
    their digits, the way cameras write them: four digits for the year, two
    for every other field, fields within their calendar ranges. *)

Definition digit (c : ascii) : option nat :=
  let n := nat_of_ascii c in
  if ((48 <=? n) && (n <=? 57))%nat then Some (n - 48)%nat else None.

Fixpoint digits (k : nat) (s : string) (acc : nat) : option (nat * string) :=
  match k with
  | O => Some (acc, s)
  | S k' =>
      match s with
      | String c r =>
          match digit c with
          | Some d => digits k' r (10 * acc + d)%nat
          | None => None
          end
      | EmptyString => None
      end
  end.

Definition expect (c : ascii) (s : string) : option string :=
  match s with
  | String c' r => if Ascii.eqb c c' then Some r else None
  | EmptyString => None
  end.

Definition strptime_stamp (s : string) : option datetime :=
  match digits 4 s 0 with
  | Some (y, s) =>
  match expect ":" s with
  | Some s =>
  match digits 2 s 0 with
  | Some (mo, s) =>
  match expect ":" s with
  | Some s =>
  match digits 2 s 0 with
  | Some (d, s) =>
  match expect " " s with
  | Some s =>
  match digits 2 s 0 with
  | Some (h, s) =>
  match expect ":" s with
  | Some s =>
  match digits 2 s 0 with
  | Some (mi, s) =>
  match expect ":" s with
  | Some s =>
  match digits 2 s 0 with
  | Some (se, EmptyString) =>
      if ((1 <=? mo) && (mo <=? 12) && (1 <=? d) && (d <=? 31)
          && (h <=? 23) && (mi <=? 59) && (se <=? 61))%nat
      then Some (mkDT y mo d h mi se 0)
      else None
  | _ => None end
  | None => None end
  | None => None end
  | None => None end
  | None => None end
  | None => None end
  | None => None end
  | None => None end
  | None => None end
  | None => None end
  | None => None end.

Example strptime_stamp_examples :
  map strptime_stamp ["2020:01:02 10:00:00"; "2020:13:02 10:00:00"; "garbage"]
  = [Some (mkDT 2020 1 2 10 0 0 0); None; None].
Proof. reflexivity. Qed.

(** ** Order facts about timestamps *)

Lemma lex_ltb_irrefl : forall a, lex_ltb a a = false.
Proof.
  induction a as [|x a IH]; simpl; [reflexivity|].
  rewrite Nat.ltb_irrefl, Nat.eqb_refl, IH. reflexivity.
Qed.

Lemma lex_ltb_trans : forall a b c,
  lex_ltb a b = true -> lex_ltb b c = true -> lex_ltb a c = true.
Proof.
  induction a as [|x a IH]; intros [|y b] [|z c]; simpl; try congruence.
  intros H1 H2.
  apply orb_true_iff in H1. apply orb_true_iff in H2. apply orb_true_iff.
  destruct H1 as [H1|H1], H2 as [H2|H2].
  - left. apply Nat.ltb_lt in H1. apply Nat.ltb_lt in H2. apply Nat.ltb_lt. lia.
  - apply andb_true_iff in H2 as [H2 _]. apply Nat.eqb_eq in H2. subst. now left.
  - apply andb_true_iff in H1 as [H1 _]. apply Nat.eqb_eq in H1. subst. now left.
  - apply andb_true_iff in H1 as [E1 L1]. apply andb_true_iff in H2 as [E2 L2].
    apply Nat.eqb_eq in E1. apply Nat.eqb_eq in E2. subst. right.
    rewrite Nat.eqb_refl. simpl. eauto.
Qed.

(** On keys of equal length the order is total. *)
Lemma lex_ltb_total : forall a b,
  List.length a = List.length b ->
  lex_ltb a b = false -> lex_ltb b a = false -> a = b.
Proof.
  induction a as [|x a IH]; intros [|y b]; simpl; try congruence; try discriminate.
  intros L H1 H2.
  apply orb_false_iff in H1 as [A1 B1]. apply orb_false_iff in H2 as [A2 B2].
  apply Nat.ltb_ge in A1. apply Nat.ltb_ge in A2.
  assert (x = y) by lia. subst.
  rewrite Nat.eqb_refl in B1, B2. simpl in B1, B2.
  f_equal. apply IH; auto.
Qed.

Lemma dt_leb_refl : forall a, dt_leb a a = true.
Proof. intros a. unfold dt_leb, dt_ltb. now rewrite lex_ltb_irrefl. Qed.

Lemma dt_ltb_leb : forall a b, dt_ltb a b = true -> dt_leb a b = true.
Proof.
  intros a b H. unfold dt_leb, dt_ltb in *.
  destruct (lex_ltb (dt_key b) (dt_key a)) eqn:E; [|reflexivity].
  pose proof (lex_ltb_trans _ _ _ H E) as C.
  rewrite lex_ltb_irrefl in C. discriminate.
Qed.

Lemma dt_key_inj : forall a b, dt_key a = dt_key b -> a = b.
Proof. intros [] [] H. unfold dt_key in H. simpl in H. now inversion H. Qed.

Lemma dt_leb_trans : forall a b c,
  dt_leb a b = true -> dt_leb b c = true -> dt_leb a c = true.
Proof.
  intros a b c H1 H2. unfold dt_leb, dt_ltb in *.
  apply negb_true_iff in H1. apply negb_true_iff in H2. apply negb_true_iff.
  destruct (lex_ltb (dt_key c) (dt_key a)) eqn:E; [|reflexivity].
  destruct (lex_ltb (dt_key a) (dt_key b)) eqn:F.
  - pose proof (lex_ltb_trans _ _ _ E F). congruence.
  - assert (a = b) by (apply dt_key_inj, lex_ltb_total; auto). subst. congruence.
Qed.

Lemma dt_min_l : forall a b, dt_leb (dt_min a b) a = true.
Proof.
  intros a b. unfold dt_min. destruct (dt_ltb b a) eqn:E.
  - now apply dt_ltb_leb.
  - apply dt_leb_refl.
Qed.

Lemma dt_min_r : forall a b, dt_leb (dt_min a b) b = true.
Proof.
  intros a b. unfold dt_min. destruct (dt_ltb b a) eqn:E.
  - apply dt_leb_refl.
  - unfold dt_leb. now rewrite E.
Qed.

Lemma dt_min_cases : forall a b, dt_min a b = a \/ dt_min a b = b.
Proof. intros a b. unfold dt_min. destruct (dt_ltb b a); auto. Qed.

Arguments mkWorld {FS}.
Arguments list_metadata {FS}.
Arguments df_global_media {FS}.
Arguments dict_file_counts {FS}.
Arguments logger {FS}.
Arguments disk {FS}.
Arguments rename_calls {FS}.
Arguments set_list_metadata {FS}.
Arguments set_df {FS}.
Arguments set_counts {FS}.
Arguments set_logger {FS}.
Arguments set_disk {FS}.
Arguments set_rename_calls {FS}.
Arguments log_info {FS}.
Arguments log_error {FS}.
Arguments get_meta {FS}.
Arguments on_meta {FS A}.
Arguments pointers {FS}.
Arguments create_df_global_media {FS}.
Arguments conflict_exists {FS}.
Arguments mark_mutual {FS}.
Arguments search_mutual_names {FS}.
Arguments reset_conflicts {FS}.
Arguments check_conflicts {FS}.
Arguments initialize_conflicts {FS}.
Arguments os_rename {FS}.
Arguments rename_file {FS}.
Arguments log_header {FS}.
Arguments run_renamer_step {FS}.
Arguments run_renamer {FS}.
Arguments find_file_counts {FS}.
Arguments process_files {FS}.
Arguments build_records {FS}.
Arguments fetch_list_files {FS}.
Arguments main {FS}.
Arguments initial_world {FS}.
Arguments get_os_date {FS}.
Arguments get_date_taken {FS}.
Arguments get_ffmpeg_time {FS}.
Arguments decoder_date {FS}.
Arguments find_date_taken {FS}.

(** ** Facts about date resolution *)

Section DateFacts.

Variable FS : Type.
Variable fs_exif : FS -> string -> outcome (string -> option string).
Variable strptime_DT : string -> option datetime.
Variable fs_probe : FS -> string -> option (string -> option string).
Variable fromisoformat : string -> option datetime.
Variable fs_ctime : FS -> string -> option datetime.
Variable fs_mtime : FS -> string -> option datetime.

(** The body of the loop of [get_date_taken]. *)
Definition exif_step (exif : string -> option string)
    (date_taken : option datetime) (tag : string) : option datetime :=
  match exif tag with
  | None => date_taken
  | Some raw =>
      match strptime_DT raw with
      | Some dt => get_min date_taken (Some (get_utc_time dt))
      | None => date_taken
      end
  end.

Lemma exif_fold_keeps : forall exif tags acc e,
  acc = Some e ->
  exists r, fold_left (exif_step exif) tags acc = Some r /\ dt_leb r e = true.
Proof.
  induction tags as [|t tags IH]; intros acc e ->; simpl.
  - exists e. split; [reflexivity | apply dt_leb_refl].
  - unfold exif_step at 2.
    destruct (exif t) as [raw|]; [destruct (strptime_DT raw) as [d|]|].
    + simpl. unfold get_utc_time.
      destruct (IH (Some (dt_min e d)) (dt_min e d) eq_refl) as (r & Hr & Hle).
      exists r. split; [exact Hr|].
      eapply dt_leb_trans; [exact Hle | apply dt_min_l].
    + apply IH. reflexivity.
    + apply IH. reflexivity.
Qed.

Lemma exif_fold_below : forall exif tags acc tag raw d,
  In tag tags -> exif tag = Some raw -> strptime_DT raw = Some d ->
  exists r, fold_left (exif_step exif) tags acc = Some r /\ dt_leb r d = true.
Proof.
  induction tags as [|t tags IH]; intros acc tag raw d HIn He Hp; [destruct HIn|].
  destruct HIn as [->|HIn]; simpl.
  - unfold exif_step at 2. rewrite He, Hp. unfold get_utc_time.
    destruct acc as [a|]; simpl.
    + destruct (exif_fold_keeps exif tags (Some (dt_min a d)) (dt_min a d) eq_refl)
        as (r & Hr & Hle).
      exists r. split; [exact Hr|].
      eapply dt_leb_trans; [exact Hle | apply dt_min_r].
    + apply exif_fold_keeps. reflexivity.
  - eapply IH; eauto.
Qed.

Lemma exif_fold_source : forall exif tags acc r,
  fold_left (exif_step exif) tags acc = Some r ->
  acc = Some r \/
  exists tag raw, In tag tags /\ exif tag = Some raw /\ strptime_DT raw = Some r.
Proof.
  induction tags as [|t tags IH]; intros acc r H; simpl in H; [now left|].
  apply IH in H. destruct H as [H | (tag & raw & HIn & He & Hp)].
  - unfold exif_step in H.
    destruct (exif t) as [raw|] eqn:He; [destruct (strptime_DT raw) as [d|] eqn:Hp|];
      try (now left).
    unfold get_utc_time in H. destruct acc as [a|]; simpl in H.
    + inversion H as [Hm]. destruct (dt_min_cases a d) as [E|E].
      * left. now rewrite E.
      * right. exists t, raw. rewrite E. simpl. auto.
    + inversion H; subst. right. exists t, raw. simpl. auto.
  - right. exists tag, raw. simpl. auto.
Qed.

Lemma get_date_taken_fold : forall fs path exif,
  fs_exif fs path = Ok exif ->
  get_date_taken fs_exif strptime_DT fs path
  = Ok (fold_left (exif_step exif) EXIF_TAGS None).
Proof. intros fs path exif H. unfold get_date_taken. rewrite H. reflexivity. Qed.

(** The earliest parsed tag wins, malformed tags count as absent. *)
Lemma get_date_taken_min : forall fs path exif,
  fs_exif fs path = Ok exif ->
  exists r,
    get_date_taken fs_exif strptime_DT fs path = Ok r /\
    (forall tag raw d,
        In tag EXIF_TAGS -> exif tag = Some raw -> strptime_DT raw = Some d ->
        exists e, r = Some e /\ dt_leb e d = true) /\
    (forall e, r = Some e ->
        exists tag raw,
          In tag EXIF_TAGS /\ exif tag = Some raw /\ strptime_DT raw = Some e) /\
    (r = None <->
       forall tag raw, In tag EXIF_TAGS -> exif tag = Some raw ->
                       strptime_DT raw = None).
Proof.
  intros fs path exif H. eexists. split; [apply get_date_taken_fold, H|].
  split; [|split; [|split]].
  - intros tag raw d HIn He Hp. eapply exif_fold_below; eauto.
  - intros e Hr. apply exif_fold_source in Hr.
    destruct Hr as [Hr|Hr]; [discriminate | exact Hr].
  - intros Hn tag raw HIn He.
    destruct (strptime_DT raw) as [d|] eqn:Hp; [|reflexivity].
    destruct (exif_fold_below exif EXIF_TAGS None tag raw d HIn He Hp) as (r & Hr & _).
    congruence.
  - intros Hall.
    destruct (fold_left (exif_step exif) EXIF_TAGS None) as [e|] eqn:E; [|reflexivity].
    apply exif_fold_source in E. destruct E as [E | (tag & raw & HIn & He & Hp)].
    + discriminate.
    + rewrite (Hall _ _ HIn He) in Hp. discriminate.
Qed.

(** [get_os_date] on a file whose two stamps can be read. *)
Lemma get_os_date_present : forall fs path c t,
  fs_ctime fs path = Some c -> fs_mtime fs path = Some t ->
  get_os_date fs_ctime fs_mtime fs path = Ok (Some (dt_min c t)).
Proof. intros fs path c t Hc Ht. unfold get_os_date. now rewrite Hc, Ht. Qed.

Lemma get_min_present : forall x d, exists r, get_min x (Some d) = Some r.
Proof. intros [a|] d; simpl; eauto. Qed.

Lemma zfill_nonempty : forall s, zfill 4 s <> "".
Proof.
  intros s. unfold zfill.
  destruct s as [|c1 [|c2 [|c3 [|c4 s]]]]; simpl; discriminate.
Qed.

Lemma strftime_NAME_nonempty : forall d, strftime_NAME d <> "".
Proof.
  intros d. unfold strftime_NAME.
  pose proof (zfill_nonempty (dec (year d))) as H.
  destruct (zfill 4 (dec (year d))); [congruence | simpl; discriminate].
Qed.

End DateFacts.

(** ** Facts about the record mutator *)

Ltac run_m :=
  cbv beta iota delta [bind ret raise get modify lift try_except].

(** The record with its derived name fields erased. *)
Definition basic (m : FileMetadata) : FileMetadata :=
  mkMeta (no m) (folder m) (first_name m) (actual_name m) None None
    (date_taken m) None None None (ext m) (is_mutual m) (mutual_order m)
    (mutual_suffix m) (has_conflict m) (conflict_suffix m).

(** The first half of [set_file_metadata]: the writes to the basic fields. *)
Definition basic_update (kw : kwargs) (m : FileMetadata) : FileMetadata :=
  let m := set_no (por_int (kw_no kw) (no m)) m in
  let m := set_folder (por (kw_folder kw) (folder m)) m in
  let m := set_first_name (por (kw_first_name kw) (first_name m)) m in
  let m := set_actual_name_field (por (kw_actual_name kw) (actual_name m)) m in
  let m := set_date_taken (por (kw_date_taken kw) (date_taken m)) m in
  let m := set_new_name_field (por (kw_new_name kw) (new_name m)) m in
  let m := set_ext (por (kw_ext kw) (ext m)) m in
  let m := match kw_is_mutual kw with Some b => set_is_mutual b m | None => m end in
  let m := if (kw_mutual_order kw >? 0)%Z
           then set_mutual_suffix ("-" ++ format_02d (kw_mutual_order kw))
                  (set_mutual_order (kw_mutual_order kw) m)
           else m in
  let m := match kw_has_conflict kw with Some b => set_has_conflict b m | None => m end in
  match kw_conflict_suffix kw with Some s => set_conflict_suffix s m | None => m end.

Lemma set_file_metadata_split : forall kw m,
  set_file_metadata kw m = (set_actual_name ;;; set_new_name) (basic_update kw m).
Proof.
  intros kw m. unfold set_file_metadata, basic_update. run_m.
  destruct (kw_is_mutual kw), (kw_mutual_order kw >? 0)%Z,
    (kw_has_conflict kw), (kw_conflict_suffix kw); reflexivity.
Qed.

Lemma set_actual_name_basic : forall m, basic (snd (set_actual_name m)) = basic m.
Proof.
  intros m. unfold set_actual_name. run_m.
  destruct (actual_name m) as [name|]; [|reflexivity].
  destruct (name =? ""); [reflexivity|].
  simpl. destruct (folder m); reflexivity.
Qed.

Lemma set_new_name_basic : forall m, basic (snd (set_new_name m)) = basic m.
Proof.
  intros m. unfold set_new_name. run_m.
  destruct (negb (truthy (date_taken m)) && negb (truthy (new_name m))); [reflexivity|].
  simpl. destruct (folder m); reflexivity.
Qed.

Lemma rebuild_basic : forall m,
  basic (snd ((set_actual_name ;;; set_new_name) m)) = basic m.
Proof.
  intros m. unfold bind at 1.
  pose proof (set_actual_name_basic m) as H1.
  destruct (set_actual_name m) as [[[]|e] m1]; simpl in *.
  - rewrite set_new_name_basic. exact H1.
  - exact H1.
Qed.

Lemma set_file_metadata_basic : forall kw m,
  basic (snd (set_file_metadata kw m)) = basic (basic_update kw m).
Proof. intros. rewrite set_file_metadata_split. apply rebuild_basic. Qed.

(** Reading a basic field through [basic]. *)
Lemma basic_no : forall m, no (basic m) = no m.
Proof. reflexivity. Qed.
Lemma basic_folder : forall m, folder (basic m) = folder m.
Proof. reflexivity. Qed.
Lemma basic_first_name : forall m, first_name (basic m) = first_name m.
Proof. reflexivity. Qed.
Lemma basic_actual_name : forall m, actual_name (basic m) = actual_name m.
Proof. reflexivity. Qed.
Lemma basic_date_taken : forall m, date_taken (basic m) = date_taken m.
Proof. reflexivity. Qed.
Lemma basic_ext : forall m, ext (basic m) = ext m.
Proof. reflexivity. Qed.
Lemma basic_is_mutual : forall m, is_mutual (basic m) = is_mutual m.
Proof. reflexivity. Qed.
Lemma basic_mutual_order : forall m, mutual_order (basic m) = mutual_order m.
Proof. reflexivity. Qed.
Lemma basic_mutual_suffix : forall m, mutual_suffix (basic m) = mutual_suffix m.
Proof. reflexivity. Qed.
Lemma basic_has_conflict : forall m, has_conflict (basic m) = has_conflict m.
Proof. reflexivity. Qed.
Lemma basic_conflict_suffix : forall m, conflict_suffix (basic m) = conflict_suffix m.
Proof. reflexivity. Qed.

Create Rewrite HintDb basic_db.
#[global] Hint Rewrite basic_no basic_folder basic_first_name basic_actual_name
  basic_date_taken basic_ext basic_is_mutual basic_mutual_order
  basic_mutual_suffix basic_has_conflict basic_conflict_suffix : basic_db.

Ltac basic_field H f :=
  let E := fresh "E" in
  pose proof (f_equal f H) as E; autorewrite with basic_db in E.

Lemma truthy_some : forall s, s <> "" -> truthy (Some s) = true.
Proof.
  intros s H. simpl. destruct (s =? "") eqn:E; [|reflexivity].
  apply String.eqb_eq in E. contradiction.
Qed.

Lemma truthy_inv : forall o, truthy o = true -> exists s, o = Some s /\ s <> "".
Proof.
  intros [s|] H; simpl in H; [|discriminate].
  exists s. split; [reflexivity|]. intros ->. discriminate.
Qed.

Lemma por_falsy : forall a b, truthy (por a b) = false -> por a b = b.
Proof. intros a b H. unfold por in *. destruct (truthy a) eqn:E; congruence. Qed.

(** With a folder the rebuild cannot fail. *)
Lemma set_actual_name_ok : forall m f,
  folder m = Some f -> fst (set_actual_name m) = Ok tt.
Proof.
  intros m f Hf. unfold set_actual_name. run_m.
  destruct (actual_name m) as [name|]; [|reflexivity].
  destruct (name =? ""); [reflexivity|].
  unfold concat_full_path. rewrite Hf. reflexivity.
Qed.

Lemma set_new_name_ok : forall m f,
  folder m = Some f -> fst (set_new_name m) = Ok tt.
Proof.
  intros m f Hf. unfold set_new_name. run_m.
  destruct (negb (truthy (date_taken m)) && negb (truthy (new_name m)));
    [reflexivity|].
  unfold concat_full_path. rewrite Hf. reflexivity.
Qed.

Lemma rebuild_ok : forall m f,
  folder m = Some f -> fst ((set_actual_name ;;; set_new_name) m) = Ok tt.
Proof.
  intros m f Hf. unfold bind at 1.
  pose proof (set_actual_name_ok m f Hf) as H1.
  pose proof (set_actual_name_basic m) as H2.
  destruct (set_actual_name m) as [[[]|e] m1]; simpl in *; [|discriminate].
  apply set_new_name_ok with (f := f).
  basic_field H2 folder. congruence.
Qed.

Lemma set_file_metadata_ok : forall kw m f,
  por (kw_folder kw) (folder m) = Some f ->
  fst (set_file_metadata kw m) = Ok tt.
Proof.
  intros kw m f Hf. rewrite set_file_metadata_split.
  apply rebuild_ok with (f := f).
  pose proof (eq_refl (basic (basic_update kw m))) as H.
  unfold basic_update in *.
  destruct (kw_is_mutual kw), (kw_mutual_order kw >? 0)%Z,
    (kw_has_conflict kw), (kw_conflict_suffix kw); exact Hf.
Qed.

Ltac basic_update_cases kw :=
  unfold basic_update;
  destruct (kw_is_mutual kw), (kw_mutual_order kw >? 0)%Z,
    (kw_has_conflict kw), (kw_conflict_suffix kw); reflexivity.

Lemma basic_update_no : forall kw m,
  no (basic_update kw m) = por_int (kw_no kw) (no m).
Proof. intros; basic_update_cases kw. Qed.

Lemma basic_update_folder : forall kw m,
  folder (basic_update kw m) = por (kw_folder kw) (folder m).
Proof. intros; basic_update_cases kw. Qed.

Lemma basic_update_actual_name : forall kw m,
  actual_name (basic_update kw m) = por (kw_actual_name kw) (actual_name m).
Proof. intros; basic_update_cases kw. Qed.

Lemma basic_update_date_taken : forall kw m,
  date_taken (basic_update kw m) = por (kw_date_taken kw) (date_taken m).
Proof. intros; basic_update_cases kw. Qed.

Lemma basic_update_new_name : forall kw m,
  new_name (basic_update kw m) = por (kw_new_name kw) (new_name m).
Proof. intros; basic_update_cases kw. Qed.

Lemma basic_update_ext : forall kw m,
  ext (basic_update kw m) = por (kw_ext kw) (ext m).
Proof. intros; basic_update_cases kw. Qed.

Lemma basic_update_is_mutual : forall kw m,
  is_mutual (basic_update kw m)
  = match kw_is_mutual kw with Some b => b | None => is_mutual m end.
Proof. intros; basic_update_cases kw. Qed.

Lemma basic_update_mutual_order : forall kw m,
  mutual_order (basic_update kw m)
  = if (kw_mutual_order kw >? 0)%Z then kw_mutual_order kw else mutual_order m.
Proof. intros; basic_update_cases kw. Qed.

Lemma basic_update_mutual_suffix : forall kw m,
  mutual_suffix (basic_update kw m)
  = if (kw_mutual_order kw >? 0)%Z
    then "-" ++ format_02d (kw_mutual_order kw) else mutual_suffix m.
Proof. intros; basic_update_cases kw. Qed.

Lemma basic_update_has_conflict : forall kw m,
  has_conflict (basic_update kw m)
  = match kw_has_conflict kw with Some b => b | None => has_conflict m end.
Proof. intros; basic_update_cases kw. Qed.

Lemma basic_update_conflict_suffix : forall kw m,
  conflict_suffix (basic_update kw m)
  = match kw_conflict_suffix kw with Some s => s | None => conflict_suffix m end.
Proof. intros; basic_update_cases kw. Qed.

Lemma basic_update_derived : forall kw m,
  actual_full_name (basic_update kw m) = actual_full_name m /\
  actual_full_path (basic_update kw m) = actual_full_path m /\
  new_full_name (basic_update kw m) = new_full_name m /\
  new_full_path (basic_update kw m) = new_full_path m.
Proof.
  intros. unfold basic_update.
  destruct (kw_is_mutual kw), (kw_mutual_order kw >? 0)%Z,
    (kw_has_conflict kw), (kw_conflict_suffix kw); repeat split.
Qed.

(** The proposed-name fields, and the original-name fields. *)
Definition proposed (m : FileMetadata) :=
  (new_name m, new_full_name m, new_full_path m).
Definition original (m : FileMetadata) :=
  (actual_full_name m, actual_full_path m).

Lemma set_actual_name_proposed : forall m,
  proposed (snd (set_actual_name m)) = proposed m.
Proof.
  intros m. unfold set_actual_name. run_m.
  destruct (actual_name m) as [name|]; [|reflexivity].
  destruct (name =? ""); [reflexivity|].
  simpl. destruct (folder m); reflexivity.
Qed.

Lemma set_new_name_original : forall m,
  original (snd (set_new_name m)) = original m.
Proof.
  intros m. unfold set_new_name. run_m.
  destruct (negb (truthy (date_taken m)) && negb (truthy (new_name m))); [reflexivity|].
  simpl. destruct (folder m); reflexivity.
Qed.

(** Nothing is built without an original name. *)
Lemma set_actual_name_inert : forall m,
  truthy (actual_name m) = false -> set_actual_name m = (Ok tt, m).
Proof.
  intros m H. unfold set_actual_name. run_m.
  destruct (actual_name m) as [name|]; [|reflexivity].
  simpl in H. apply negb_false_iff in H. now rewrite H.
Qed.

Lemma set_actual_name_built : forall m name f,
  actual_name m = Some name -> name <> "" -> folder m = Some f ->
  original (snd (set_actual_name m))
  = (Some (concat_full_name name (ext m)),
     Some (f ++ SLASH ++ concat_full_name name (ext m))).
Proof.
  intros m name f Hn Hne Hf. unfold set_actual_name. run_m. rewrite Hn.
  destruct (name =? "") eqn:E; [apply String.eqb_eq in E; contradiction|].
  unfold concat_full_path. rewrite Hf. reflexivity.
Qed.

(** Nothing is built without a date and without a fallback name. *)
Lemma set_new_name_inert : forall m,
  truthy (date_taken m) = false -> truthy (new_name m) = false ->
  set_new_name m = (Ok tt, m).
Proof. intros m H1 H2. unfold set_new_name. run_m. now rewrite H1, H2. Qed.

Lemma set_new_name_dated : forall m d f,
  date_taken m = Some d -> d <> "" -> folder m = Some f ->
  let name := d ++ mutual_suffix m ++ conflict_suffix m in
  proposed (snd (set_new_name m))
  = (Some name, Some (concat_full_name name (ext m)),
     Some (f ++ SLASH ++ concat_full_name name (ext m))).
Proof.
  intros m d f Hd Hne Hf name. unfold set_new_name. run_m.
  rewrite Hd. rewrite (truthy_some d Hne). simpl negb. simpl andb.
  unfold por. rewrite (truthy_some d Hne).
  unfold concat_full_path. rewrite Hf. reflexivity.
Qed.

(** The whole update on a record that has a folder and a resolved date. *)
Lemma set_file_metadata_dated : forall kw m f d,
  por (kw_folder kw) (folder m) = Some f ->
  por (kw_date_taken kw) (date_taken m) = Some d -> d <> "" ->
  exists m',
    set_file_metadata kw m = (Ok tt, m') /\
    basic m' = basic (basic_update kw m) /\
    let name := d ++ mutual_suffix m' ++ conflict_suffix m' in
    proposed m'
    = (Some name, Some (concat_full_name name (ext m')),
       Some (f ++ SLASH ++ concat_full_name name (ext m'))).
Proof.
  intros kw m f d Hf Hd Hne.
  pose proof (set_file_metadata_ok kw m f Hf) as Hok.
  pose proof (set_file_metadata_basic kw m) as Hb.
  destruct (set_file_metadata kw m) as [r m'] eqn:E. simpl in Hok, Hb. subst r.
  exists m'. split; [reflexivity|]. split; [exact Hb|].
  rewrite set_file_metadata_split in E. unfold bind in E.
  set (m1 := basic_update kw m) in *.
  pose proof (set_actual_name_basic m1) as B1.
  pose proof (set_actual_name_ok m1 f) as O1.
  destruct (set_actual_name m1) as [[[]|e] m2]; simpl in B1, O1.
  2:{ unfold m1 in O1. rewrite (basic_update_folder kw m) in O1.
      specialize (O1 Hf). discriminate. }
  assert (E' : snd (set_new_name m2) = m') by (now rewrite E).
  assert (Hf2 : folder m2 = Some f).
  { basic_field B1 folder. rewrite E0. unfold m1. now rewrite basic_update_folder. }
  assert (Hd2 : date_taken m2 = Some d).
  { basic_field B1 date_taken. rewrite E0. unfold m1.
    now rewrite basic_update_date_taken. }
  pose proof (set_new_name_dated m2 d f Hd2 Hne Hf2) as P.
  pose proof (set_new_name_basic m2) as B2.
  rewrite E' in P, B2. cbv zeta in P |- *.
  basic_field B2 mutual_suffix. basic_field B2 conflict_suffix. basic_field B2 ext.
  rewrite E0, E1, E2. exact P.
Qed.

(** The whole update on a record with neither a date nor a fallback name. *)
Lemma set_file_metadata_unnamed : forall kw m,
  truthy (por (kw_date_taken kw) (date_taken m)) = false ->
  truthy (por (kw_new_name kw) (new_name m)) = false ->
  proposed (snd (set_file_metadata kw m)) = proposed m.
Proof.
  intros kw m Hd Hn. rewrite set_file_metadata_split. unfold bind.
  set (m1 := basic_update kw m).
  assert (P1 : proposed m1 = proposed m).
  { unfold proposed, m1. rewrite basic_update_new_name, (por_falsy _ _ Hn).
    destruct (basic_update_derived kw m) as (_ & _ & -> & ->). reflexivity. }
  pose proof (set_actual_name_proposed m1) as P2.
  pose proof (set_actual_name_basic m1) as B.
  destruct (set_actual_name m1) as [[[]|e] m2]; simpl in *; [|congruence].
  rewrite set_new_name_inert; simpl; [congruence| |].
  - basic_field B date_taken. rewrite E. unfold m1.
    now rewrite basic_update_date_taken.
  - assert (new_name m2 = new_name m) by (unfold proposed in *; congruence).
    rewrite H. rewrite <- (por_falsy _ _ Hn). exact Hn.
Qed.

(** ** Sample inputs *)

(** The EXIF payload of the earliest-wins example. *)
Definition sample_exif (tag : string) : option string :=
  if tag =? "EXIF DateTimeOriginal" then Some "2020:01:02 10:00:00"
  else if tag =? "Image DateTime" then Some "2020:01:01 09:00:00"
  else None.

(** The same payload with an unreadable third tag. *)
Definition sample_exif_malformed (tag : string) : option string :=
  if tag =? "EXIF DateTimeDigitized" then Some "0000:00:00 00:00:00"
  else sample_exif tag.

Definition kw_date (d : option string) : kwargs :=
  mkKw None None None d None None None 0 None None 0.

Definition kw_discovered (root name extension : string) (n : Z) : kwargs :=
  mkKw (Some root) (Some name) (Some name) None None (Some extension)
       None 0 None None n.

(** A record discovered from the line [IMG_1.m4a] of the folder [X:\2018]. *)
Definition sample_m4a : FileMetadata :=
  snd (set_file_metadata (kw_discovered "X:\2018" "IMG_1" "m4a" 1) FileMetadata0).

(** The proposed full name as the specification words it:
    base + mutual suffix + conflict suffix + "." + extension. *)
Definition spec_proposed_full_name (base : string) (m : FileMetadata) : string :=
  base ++ mutual_suffix m ++ conflict_suffix m ++ "."
  ++ match ext m with Some e => e | None => "" end.

(** The record discovered from the line [IMG_1.jpg], before its date is
    resolved. *)
Definition sample_undated : FileMetadata :=
  snd (set_file_metadata (kw_discovered "X:\2018" "IMG_1" "jpg" 1) FileMetadata0).

(** The same record given the fallback name [holiday] and the mutual order 1
    in one update, then updated again with no argument at all; and the
    record given a resolved date instead, updated the same way. *)
Definition sample_fallback_once : FileMetadata :=
  snd (set_file_metadata
         (mkKw None None None None (Some "holiday") None (Some YES) 1 None None 0)
         sample_undated).
Definition sample_fallback_twice : FileMetadata :=
  snd (set_file_metadata kw0 sample_fallback_once).
Definition sample_dated_once : FileMetadata :=
  snd (set_file_metadata
         (mkKw None None None (Some "20200101-090000") None None (Some YES) 1
               None None 0)
         sample_undated).
Definition sample_dated_twice : FileMetadata :=
  snd (set_file_metadata kw0 sample_dated_once).

(** ** Date resolution *)

(** C5. For a still image [get_date_taken] returns the earliest of all EXIF
    date tags that parsed, not the first in priority order; a tag whose value
    does not parse counts as absent and extraction goes on.  On the example
    (DateTimeOriginal = 2020:01:02 10:00:00, DateTime = 2020:01:01 09:00:00)
    the result is 2020-01-01 09:00:00, also when a third tag is malformed. *)
Theorem get_date_taken_earliest_wins :
  (forall (FS : Type) (fs_exif : FS -> string -> outcome (string -> option string))
          (strptime_DT : string -> option datetime) fs path exif,
      fs_exif fs path = Ok exif ->
      exists r,
        get_date_taken fs_exif strptime_DT fs path = Ok r /\
        (forall tag raw d,
            In tag EXIF_TAGS -> exif tag = Some raw -> strptime_DT raw = Some d ->
            exists e, r = Some e /\ dt_leb e d = true) /\
        (forall e, r = Some e ->
            exists tag raw,
              In tag EXIF_TAGS /\ exif tag = Some raw /\ strptime_DT raw = Some e) /\
        (r = None <->
           forall tag raw, In tag EXIF_TAGS -> exif tag = Some raw ->
                           strptime_DT raw = None)) /\
  get_date_taken (fun (_ : unit) _ => Ok sample_exif) strptime_stamp tt "a.jpg"
  = Ok (Some (mkDT 2020 1 1 9 0 0 0)) /\
  get_date_taken (fun (_ : unit) _ => Ok sample_exif_malformed) strptime_stamp tt "a.jpg"
  = Ok (Some (mkDT 2020 1 1 9 0 0 0)).
Proof.
  split; [|split; reflexivity].
  intros. now apply get_date_taken_min.
Qed.

Lemma get_date_taken_earliest_wins_witness :
  exists r,
    get_date_taken (fun (_ : unit) _ => Ok sample_exif) strptime_stamp tt "a.jpg" = Ok r /\
    (forall tag raw d,
        In tag EXIF_TAGS -> sample_exif tag = Some raw -> strptime_stamp raw = Some d ->
        exists e, r = Some e /\ dt_leb e d = true) /\
    (forall e, r = Some e ->
        exists tag raw,
          In tag EXIF_TAGS /\ sample_exif tag = Some raw /\ strptime_stamp raw = Some e) /\
    (r = None <->
       forall tag raw, In tag EXIF_TAGS -> sample_exif tag = Some raw ->
                       strptime_stamp raw = None).
Proof.
  exact (proj1 get_date_taken_earliest_wins unit (fun _ _ => Ok sample_exif)
           strptime_stamp tt "a.jpg" sample_exif eq_refl).
Defined.

(** X21.  For a file whose creation and modification stamps can be read and
    whose decoder stage returns (no exception leaves it), the resolved date is
    [get_min] of the decoder-extracted date and the OS fallback, the earlier
    of the two stamps; with the decoder side absent it is the OS fallback
    itself.  The result is then never empty and no later than either stamp
    or the decoder date, its formatted text is not the empty string, and the
    update of the record stores it. *)
Theorem find_date_taken_when_decoders_return :
  forall (FS : Type) fs_exif strptime_DT fs_probe fromisoformat fs_ctime fs_mtime
         (fs : FS) meta path c t x,
    actual_full_path meta = Some path ->
    fs_ctime fs path = Some c -> fs_mtime fs path = Some t ->
    decoder_date fs_exif strptime_DT fs_probe fromisoformat fs path (ext meta) = Ok x ->
    find_date_taken fs_exif strptime_DT fs_probe fromisoformat fs_ctime fs_mtime fs meta
    = Ok (get_min x (Some (dt_min c t))) /\
    (x = None -> get_min x (Some (dt_min c t)) = Some (dt_min c t)) /\
    (forall e, x = Some e ->
               get_min x (Some (dt_min c t)) = Some (dt_min e (dt_min c t))) /\
    exists d,
      get_min x (Some (dt_min c t)) = Some d /\
      dt_leb d c = true /\ dt_leb d t = true /\
      (forall e, x = Some e -> dt_leb d e = true) /\
      date_to_str (Some d) = Some (strftime_NAME d) /\
      strftime_NAME d <> "" /\
      date_taken (snd (set_file_metadata (kw_date (date_to_str (Some d))) meta))
      = Some (strftime_NAME d).
Proof.
  intros FS fs_exif strptime_DT fs_probe fromisoformat fs_ctime fs_mtime
         fs meta path c t x Hp Hc Ht Hx.
  split.
  { unfold find_date_taken. rewrite Hp, Hx.
    rewrite (get_os_date_present FS fs_ctime fs_mtime fs path c t Hc Ht).
    reflexivity. }
  split; [intros ->; reflexivity|].
  split; [intros e ->; reflexivity|].
  assert (Hos_c : dt_leb (dt_min c t) c = true) by apply dt_min_l.
  assert (Hos_t : dt_leb (dt_min c t) t = true) by apply dt_min_r.
  assert (Hstore : forall d,
    date_taken (snd (set_file_metadata (kw_date (date_to_str (Some d))) meta))
    = Some (strftime_NAME d)).
  { intros d. pose proof (set_file_metadata_basic (kw_date (date_to_str (Some d))) meta) as B.
    basic_field B date_taken. rewrite E, basic_update_date_taken.
    change (kw_date_taken (kw_date (date_to_str (Some d))))
      with (Some (strftime_NAME d)).
    unfold por. now rewrite (truthy_some _ (strftime_NAME_nonempty d)). }
  destruct x as [e|]; simpl get_min.
  - exists (dt_min e (dt_min c t)). split; [reflexivity|].
    split; [eapply dt_leb_trans; [apply dt_min_r | exact Hos_c]|].
    split; [eapply dt_leb_trans; [apply dt_min_r | exact Hos_t]|].
    split; [intros e' [= <-]; apply dt_min_l|].
    split; [reflexivity|]. split; [apply strftime_NAME_nonempty | apply Hstore].
  - exists (dt_min c t). split; [reflexivity|].
    split; [exact Hos_c|]. split; [exact Hos_t|].
    split; [intros e' [=]|].
    split; [reflexivity|]. split; [apply strftime_NAME_nonempty | apply Hstore].
Qed.

Lemma find_date_taken_when_decoders_return_witness :
  find_date_taken (fun (_ : unit) _ => Ok sample_exif) strptime_stamp
    (fun _ _ => None) (fun _ => None)
    (fun _ _ => Some (mkDT 2021 3 4 5 6 7 0)) (fun _ _ => Some (mkDT 2020 6 1 9 0 0 0))
    tt sample_undated
  = Ok (Some (mkDT 2020 1 1 9 0 0 0)) /\
  find_date_taken (fun (_ : unit) _ => Raise OSError) strptime_stamp
    (fun _ _ => None) (fun _ => None)
    (fun _ _ => Some (mkDT 2021 3 4 5 6 7 0)) (fun _ _ => Some (mkDT 2020 1 1 9 0 0 0))
    tt sample_m4a
  = Ok (Some (mkDT 2020 1 1 9 0 0 0)).
Proof.
  split.
  - refine (proj1 (find_date_taken_when_decoders_return unit
             (fun _ _ => Ok sample_exif) strptime_stamp (fun _ _ => None)
             (fun _ => None)
             (fun _ _ => Some (mkDT 2021 3 4 5 6 7 0))
             (fun _ _ => Some (mkDT 2020 6 1 9 0 0 0))
             tt sample_undated "X:\2018\IMG_1.jpg"
             (mkDT 2021 3 4 5 6 7 0) (mkDT 2020 6 1 9 0 0 0)
             (Some (mkDT 2020 1 1 9 0 0 0)) _ eq_refl eq_refl _));
      vm_compute; reflexivity.
  - exact (proj1 (find_date_taken_when_decoders_return unit (fun _ _ => Raise OSError)
             strptime_stamp (fun _ _ => None) (fun _ => None)
             (fun _ _ => Some (mkDT 2021 3 4 5 6 7 0))
             (fun _ _ => Some (mkDT 2020 1 1 9 0 0 0))
             tt sample_m4a "X:\2018\IMG_1.m4a"
             (mkDT 2021 3 4 5 6 7 0) (mkDT 2020 1 1 9 0 0 0) None
             eq_refl eq_refl eq_refl eq_refl)).
Defined.

(** ** The proposed name: the claims *)

(** X22.  Every update that has a folder and a resolved date completes and
    leaves the proposed name rebuilt from the record's current fields: stem =
    date + mutual suffix + conflict suffix, full name = stem followed by "."
    and the extension when the extension is non-empty (the bare stem
    otherwise), full path = folder + "\" + full name.  An update of a record
    with neither a date nor a fallback name builds nothing: the proposed
    fields stay as they were. *)
Theorem set_file_metadata_rebuilds_proposed_name :
  (forall kw m f d,
      por (kw_folder kw) (folder m) = Some f ->
      por (kw_date_taken kw) (date_taken m) = Some d -> d <> "" ->
      exists m',
        set_file_metadata kw m = (Ok tt, m') /\
        folder m' = Some f /\ date_taken m' = Some d /\
        let stem := d ++ mutual_suffix m' ++ conflict_suffix m' in
        new_name m' = Some stem /\
        new_full_name m'
        = Some (match ext m' with
                | Some e => if e =? "" then stem else stem ++ "." ++ e
                | None => stem
                end) /\
        new_full_path m' = Some (f ++ SLASH ++ fstr (new_full_name m'))) /\
  (forall kw m,
      truthy (por (kw_date_taken kw) (date_taken m)) = false ->
      truthy (por (kw_new_name kw) (new_name m)) = false ->
      new_name (snd (set_file_metadata kw m)) = new_name m /\
      new_full_name (snd (set_file_metadata kw m)) = new_full_name m /\
      new_full_path (snd (set_file_metadata kw m)) = new_full_path m).
Proof.
  split.
  - intros kw m f d Hf Hd Hne.
    destruct (set_file_metadata_dated kw m f d Hf Hd Hne) as (m' & E & B & P).
    exists m'. split; [exact E|].
    basic_field B folder. basic_field B date_taken.
    rewrite basic_update_folder in E0. rewrite basic_update_date_taken in E1.
    split; [congruence|]. split; [congruence|].
    cbv zeta in *. unfold proposed in P.
    pose proof (f_equal (fun p => fst (fst p)) P) as P1.
    pose proof (f_equal (fun p => snd (fst p)) P) as P2.
    pose proof (f_equal snd P) as P3. cbn [fst snd] in P1, P2, P3.
    split; [exact P1|]. split; [exact P2|].
    rewrite P2. exact P3.
  - intros kw m Hd Hn.
    pose proof (set_file_metadata_unnamed kw m Hd Hn) as P.
    unfold proposed in P.
    pose proof (f_equal (fun p => fst (fst p)) P) as P1.
    pose proof (f_equal (fun p => snd (fst p)) P) as P2.
    pose proof (f_equal snd P) as P3. cbn [fst snd] in P1, P2, P3. auto.
Qed.

Lemma set_file_metadata_rebuilds_proposed_name_witness :
  exists m',
    set_file_metadata (kw_date (Some "20200101-090000")) sample_undated = (Ok tt, m') /\
    new_full_name m' = Some "20200101-090000.jpg" /\
    new_full_path m' = Some "X:\2018\20200101-090000.jpg".
Proof.
  destruct (proj1 set_file_metadata_rebuilds_proposed_name
              (kw_date (Some "20200101-090000")) sample_undated
              "X:\2018" "20200101-090000" eq_refl eq_refl)
    as (m' & E & _ & _ & _ & Hn & Hp).
  - discriminate.
  - exists m'. split; [exact E|].
    assert (Hm : m' = snd (set_file_metadata (kw_date (Some "20200101-090000"))
                            sample_undated)) by (now rewrite E).
    subst m'. split; reflexivity.
Defined.

(** C4, where the code departs from it.  With a fallback name in place of
    the date, [set_new_name] writes the suffixed name back into [new_name],
    the field it reads the fallback from.  The first update of the record
    builds [holiday-01.jpg], as the claim says; a second update, which
    changes no field, appends the mutual suffix once more and proposes
    [holiday-01-01.jpg], although the record still has the mutual suffix
    [-01], no conflict suffix and the extension [jpg].  The dated record,
    updated the same way, keeps [20200101-090000-01.jpg]. *)
Theorem fallback_name_compounds :
  new_full_name sample_fallback_once = Some "holiday-01.jpg" /\
  new_full_name sample_fallback_once
  = Some (spec_proposed_full_name "holiday" sample_fallback_once) /\
  (mutual_suffix sample_fallback_twice, conflict_suffix sample_fallback_twice,
   ext sample_fallback_twice, date_taken sample_fallback_twice)
  = ("-01", "", Some "jpg", None) /\
  new_full_name sample_fallback_twice = Some "holiday-01-01.jpg" /\
  new_full_path sample_fallback_twice = Some "X:\2018\holiday-01-01.jpg" /\
  new_full_name sample_fallback_twice
  <> Some (spec_proposed_full_name "holiday" sample_fallback_twice) /\
  new_full_name sample_dated_once = Some "20200101-090000-01.jpg" /\
  new_full_name sample_dated_twice = Some "20200101-090000-01.jpg" /\
  new_full_name sample_dated_twice
  = Some (spec_proposed_full_name "20200101-090000" sample_dated_twice).
Proof.
  split; [vm_compute; reflexivity|]. split; [vm_compute; reflexivity|].
  split; [vm_compute; reflexivity|]. split; [vm_compute; reflexivity|].
  split; [vm_compute; reflexivity|].
  split; [vm_compute; discriminate|].
  split; [vm_compute; reflexivity|]. split; vm_compute; reflexivity.
Qed.

(** ** Reasoning about the store *)

Lemma list_update_length : forall A i (v : A) xs,
  List.length (list_update i v xs) = List.length xs.
Proof.
  intros A i v xs. revert i. induction xs as [|x xs IH]; intros [|i]; simpl; auto.
Qed.

Lemma list_update_other : forall A i j (v : A) xs,
  j <> i -> nth_error (list_update i v xs) j = nth_error xs j.
Proof.
  intros A i j v xs. revert i j.
  induction xs as [|x xs IH]; intros [|i] [|j] H; simpl; auto.
  contradiction.
Qed.

Lemma list_update_same : forall A i (v x : A) xs,
  nth_error xs i = Some x -> nth_error (list_update i v xs) i = Some v.
Proof.
  intros A i v x xs. revert i.
  induction xs as [|y xs IH]; intros [|i] H; simpl in *; try discriminate; auto.
Qed.

Lemma for_each_cons : forall S X (x : X) (xs : list X) (body : X -> M S unit),
  for_each (x :: xs) body = (body x ;;; for_each xs body).
Proof. reflexivity. Qed.

Lemma for_each_app : forall S X (xs ys : list X) (body : X -> M S unit) s s1,
  for_each xs body s = (Ok tt, s1) ->
  for_each (xs ++ ys)%list body s = for_each ys body s1.
Proof.
  intros S X xs ys body. induction xs as [|x xs IH]; intros s s1 H; simpl in *.
  - unfold ret in H. now inversion H.
  - unfold bind in *. destruct (body x s) as [[[]|e] s2]; [|discriminate].
    now apply IH.
Qed.

Section WorldFacts.

Variable FS : Type.
Local Abbreviation W := (World FS).

(** A relation between the world before and after a computation. *)
Definition respects {A} (Q : W -> W -> Prop) (c : M W A) : Prop :=
  forall w, Q w (snd (c w)).

Section Preorder.

Variable Q : W -> W -> Prop.
Hypothesis Q_refl : forall w, Q w w.
Hypothesis Q_trans : forall a b c, Q a b -> Q b c -> Q a c.

Lemma respects_ret : forall A (a : A), respects Q (ret a).
Proof. intros A a w. apply Q_refl. Qed.

Lemma respects_raise : forall A e, respects Q (@raise W A e).
Proof. intros A e w. apply Q_refl. Qed.

Lemma respects_lift : forall A (o : outcome A), respects Q (lift o).
Proof. intros A o w. apply Q_refl. Qed.

Lemma respects_get : respects Q get.
Proof. intros w. apply Q_refl. Qed.

Lemma respects_get_meta : forall i, respects Q (get_meta i).
Proof.
  intros i w. unfold get_meta.
  destruct (nth_error (list_metadata w) i); apply Q_refl.
Qed.

Lemma respects_bind : forall A B (c : M W A) (k : A -> M W B),
  respects Q c -> (forall a, respects Q (k a)) -> respects Q (bind c k).
Proof.
  intros A B c k Hc Hk w. unfold bind. specialize (Hc w).
  destruct (c w) as [[a|e] w1]; simpl in *; [|exact Hc].
  eapply Q_trans; [exact Hc | apply Hk].
Qed.

Lemma respects_try_except : forall A (c : M W A) h,
  respects Q c -> (forall e, respects Q (h e)) -> respects Q (try_except c h).
Proof.
  intros A c h Hc Hh w. unfold try_except. specialize (Hc w).
  destruct (c w) as [[a|e] w1]; simpl in *; [exact Hc|].
  eapply Q_trans; [exact Hc | apply Hh].
Qed.

Lemma respects_for_each : forall X (xs : list X) body,
  (forall x, In x xs -> respects Q (body x)) -> respects Q (for_each xs body).
Proof.
  intros X xs body. induction xs as [|x xs IH]; intros H; simpl.
  - apply respects_ret.
  - apply respects_bind; [apply H; now left|].
    intros _. apply IH. intros y Hy. apply H. now right.
Qed.

Lemma respects_if : forall A (b : bool) (c1 c2 : M W A),
  respects Q c1 -> respects Q c2 -> respects Q (if b then c1 else c2).
Proof. intros A [] c1 c2 H1 H2; assumption. Qed.

End Preorder.

(** [touches i]: only the object behind pointer [i] may change; the table and
    the counters are kept; the log and the list of rename calls grow. *)
Definition touches (i : nat) (w w' : W) : Prop :=
  List.length (list_metadata w') = List.length (list_metadata w) /\
  (forall j, j <> i -> nth_error (list_metadata w') j = nth_error (list_metadata w) j) /\
  df_global_media w' = df_global_media w /\
  dict_file_counts w' = dict_file_counts w /\
  (exists l, logger w' = (logger w ++ l)%list) /\
  (exists c, rename_calls w' = (rename_calls w ++ c)%list).

Lemma touches_refl : forall i w, touches i w w.
Proof.
  intros i w. repeat split; auto; exists []; now rewrite app_nil_r.
Qed.

Lemma touches_trans : forall i a b c, touches i a b -> touches i b c -> touches i a c.
Proof.
  intros i a b c (L1 & F1 & D1 & C1 & (l1 & G1) & (c1 & R1))
                 (L2 & F2 & D2 & C2 & (l2 & G2) & (c2 & R2)).
  repeat split; try congruence.
  - intros j Hj. rewrite F2, F1; auto.
  - exists (l1 ++ l2)%list. now rewrite G2, G1, app_assoc.
  - exists (c1 ++ c2)%list. now rewrite R2, R1, app_assoc.
Qed.

Lemma touches_log_info : forall i msg, respects (touches i) (log_info msg).
Proof.
  intros i msg w. unfold log_info, modify. simpl.
  split; [reflexivity|]. split; [reflexivity|].
  split; [reflexivity|]. split; [reflexivity|].
  split; [exists [(INFO, msg)]; reflexivity | exists []; now rewrite app_nil_r].
Qed.

Lemma touches_log_error : forall i msg, respects (touches i) (log_error msg).
Proof.
  intros i msg w. unfold log_error, modify. simpl.
  split; [reflexivity|]. split; [reflexivity|].
  split; [reflexivity|]. split; [reflexivity|].
  split; [exists [(ERROR, msg)]; reflexivity | exists []; now rewrite app_nil_r].
Qed.

Lemma touches_on_meta : forall A i (c : M FileMetadata A),
  respects (touches i) (on_meta i c).
Proof.
  intros A i c w. unfold on_meta.
  destruct (nth_error (list_metadata w) i) as [m|]; [|apply touches_refl].
  destruct (c m) as [r m']. simpl.
  repeat split; auto.
  - apply list_update_length.
  - intros j Hj. now apply list_update_other.
  - exists []. now rewrite app_nil_r.
  - exists []. now rewrite app_nil_r.
Qed.

End WorldFacts.

Lemma opt_str_eqb_eq : forall a b, opt_str_eqb a b = true <-> a = b.
Proof.
  intros [a|] [b|]; simpl; split; intros H; try discriminate; auto.
  - apply String.eqb_eq in H. now subst.
  - inversion H. apply String.eqb_refl.
Qed.

Lemma opt_str_eqb_neq : forall a b, a <> b -> opt_str_eqb a b = false.
Proof.
  intros a b H. destruct (opt_str_eqb a b) eqn:E; [|reflexivity].
  apply opt_str_eqb_eq in E. contradiction.
Qed.

(** ** Facts about the rename executor *)

Section RenameFacts.

Variable FS : Type.
Variable fs_rename : FS -> string -> string -> option FS.
Local Abbreviation W := (World FS).

(** Only the log changes. *)
Definition logs_only (w w' : W) : Prop :=
  list_metadata w' = list_metadata w /\
  df_global_media w' = df_global_media w /\
  dict_file_counts w' = dict_file_counts w /\
  disk w' = disk w /\
  rename_calls w' = rename_calls w.

Lemma logs_only_refl : forall w, logs_only w w.
Proof. intros w. repeat split. Qed.

Lemma logs_only_trans : forall a b c, logs_only a b -> logs_only b c -> logs_only a c.
Proof. intros a b c (?&?&?&?&?) (?&?&?&?&?). repeat split; congruence. Qed.

Lemma logs_only_log_info : forall msg, respects FS logs_only (log_info msg).
Proof. intros msg w. repeat split. Qed.

Lemma logs_only_log_error : forall msg, respects FS logs_only (log_error msg).
Proof. intros msg w. repeat split. Qed.

Lemma logs_only_log_header : forall meta what,
  respects FS logs_only (log_header meta what).
Proof.
  intros meta what. unfold log_header.
  destruct (no meta =? 1)%Z; [|apply respects_ret, logs_only_refl].
  destruct (ext meta) as [e|]; [|apply respects_raise, logs_only_refl].
  apply respects_bind; [apply logs_only_trans | |].
  { apply logs_only_log_info. }
  intros _.
  apply respects_bind; [apply logs_only_trans | |].
  { apply respects_get, logs_only_refl. }
  intros w0.
  apply respects_bind; [apply logs_only_trans | |].
  { apply logs_only_log_info. }
  intros _. apply logs_only_log_info.
Qed.

(** No file is moved and no rename is attempted. *)
Definition quiet (w w' : W) : Prop :=
  disk w' = disk w /\ rename_calls w' = rename_calls w.

Lemma quiet_refl : forall w, quiet w w.
Proof. intros w. split; reflexivity. Qed.

Lemma quiet_trans : forall a b c, quiet a b -> quiet b c -> quiet a c.
Proof. intros a b c [] []. split; congruence. Qed.

Lemma logs_only_quiet : forall w w', logs_only w w' -> quiet w w'.
Proof. intros w w' (?&?&?&?&?). split; assumption. Qed.

Lemma quiet_on_meta : forall A i (c : M FileMetadata A),
  respects FS quiet (on_meta i c).
Proof.
  intros A i c w. unfold on_meta.
  destruct (nth_error (list_metadata w) i) as [m|]; [|apply quiet_refl].
  destruct (c m). split; reflexivity.
Qed.

Lemma touches_logs_only : forall i w w', logs_only w w' ->
  (exists l, logger w' = (logger w ++ l)%list) -> touches FS i w w'.
Proof.
  intros i w w' (S & D & C & K & R) L. unfold touches. rewrite S, D, C, R.
  repeat split; auto. exists []. now rewrite app_nil_r.
Qed.

Lemma touches_log_header : forall i meta what,
  respects FS (touches FS i) (log_header meta what).
Proof.
  intros i meta what. unfold log_header.
  destruct (no meta =? 1)%Z; [|apply respects_ret, touches_refl].
  destruct (ext meta) as [e|]; [|apply respects_raise, touches_refl].
  apply respects_bind; [apply touches_trans | |].
  { apply touches_log_info. }
  intros _.
  apply respects_bind; [apply touches_trans | |].
  { apply respects_get, touches_refl. }
  intros w0.
  apply respects_bind; [apply touches_trans | |].
  { apply touches_log_info. }
  intros _. apply touches_log_info.
Qed.

Lemma touches_os_rename : forall i, respects FS (touches FS i) (os_rename fs_rename i).
Proof.
  intros i w. unfold os_rename. run_m. unfold get_meta.
  destruct (nth_error (list_metadata w) i) as [m|]; [|apply touches_refl].
  destruct (actual_full_path m) as [src|]; [|apply touches_refl].
  destruct (new_full_path m) as [dst|]; [|apply touches_refl].
  cbn [disk set_rename_calls].
  destruct (fs_rename (disk w) src dst) as [fs'|]; simpl;
    (split; [reflexivity|]; split; [reflexivity|]; split; [reflexivity|];
     split; [reflexivity|];
     split; [exists []; now rewrite app_nil_r | exists [(src, dst)]; reflexivity]).
Qed.

Lemma touches_rename_file : forall i oc,
  respects FS (touches FS i) (rename_file fs_rename i oc).
Proof.
  intros i oc. unfold rename_file.
  apply respects_bind; [apply touches_trans | |].
  { apply respects_get_meta, touches_refl. }
  intros meta.
  apply respects_if; [apply respects_ret, touches_refl|].
  apply respects_if; [apply respects_raise, touches_refl|].
  apply respects_bind; [apply touches_trans | |].
  - apply respects_if; [apply touches_log_info|].
    apply respects_bind; [apply touches_trans | |].
    + apply touches_os_rename.
    + intros _. apply touches_log_info.
  - intros _. apply touches_on_meta.
Qed.

Lemma touches_run_renamer_step : forall i oc,
  respects FS (touches FS i) (run_renamer_step fs_rename oc i).
Proof.
  intros i oc. unfold run_renamer_step.
  apply respects_bind; [apply touches_trans | |].
  { apply respects_get_meta, touches_refl. }
  intros meta.
  apply respects_bind; [apply touches_trans | |].
  { apply touches_log_header. }
  intros _.
  apply respects_try_except; [apply touches_trans | |].
  - apply respects_bind; [apply touches_trans | |].
    + apply touches_log_info.
    + intros _. apply touches_rename_file.
  - intros e.
    apply respects_bind; [apply touches_trans | |].
    + apply respects_get_meta, touches_refl.
    + intros m. apply touches_log_error.
Qed.

End RenameFacts.

(** The messages of the rename executor. *)
Definition msg_path_unset (m : FileMetadata) : string :=
  str_int (no m) ++ " - Error: File path cannot be none!".
Definition msg_identical (m : FileMetadata) : string :=
  str_int (no m) ++ "- " ++ fstr (actual_full_name m) ++ ": File names are identical".
Definition msg_completed (m : FileMetadata) : string :=
  str_int (no m) ++ "- " ++ fstr (actual_full_name m)
  ++ " >> " ++ fstr (new_full_name m) ++ ": Completed".
Definition msg_rename_error (m : FileMetadata) : string :=
  str_int (no m) ++ "- " ++ fstr (actual_full_name m)
  ++ " - " ++ fstr (new_full_name m) ++ ": "
  ++ "Error: An error occurred while renaming file.".

(** The header of a record can be printed. *)
Definition header_ok (m : FileMetadata) : Prop := no m = 1%Z -> ext m <> None.

(** The only failure of the mutator is the [TypeError] of a missing folder. *)
Lemma set_actual_name_outcome : forall m,
  fst (set_actual_name m) = Ok tt \/ fst (set_actual_name m) = Raise TypeError.
Proof.
  intros m. unfold set_actual_name. run_m.
  destruct (actual_name m) as [name|]; [|now left].
  destruct (name =? ""); [now left|].
  unfold concat_full_path. destruct (folder m); simpl; auto.
Qed.

Lemma set_new_name_outcome : forall m,
  fst (set_new_name m) = Ok tt \/ fst (set_new_name m) = Raise TypeError.
Proof.
  intros m. unfold set_new_name. run_m.
  destruct (negb (truthy (date_taken m)) && negb (truthy (new_name m))); [now left|].
  unfold concat_full_path. destruct (folder m); simpl; auto.
Qed.

Lemma set_file_metadata_outcome : forall kw m,
  fst (set_file_metadata kw m) = Ok tt \/
  fst (set_file_metadata kw m) = Raise TypeError.
Proof.
  intros kw m. rewrite set_file_metadata_split. unfold bind.
  destruct (set_actual_name_outcome (basic_update kw m)) as [H|H];
    destruct (set_actual_name (basic_update kw m)) as [[[]|e] m1]; simpl in H;
    try discriminate.
  - apply set_new_name_outcome.
  - right. simpl. exact H.
Qed.

Section RenameSteps.

Variable FS : Type.
Variable fs_rename : FS -> string -> string -> option FS.
Local Abbreviation W := (World FS).

Lemma rename_file_unfold : forall i oc (w : W) m,
  nth_error (list_metadata w) i = Some m ->
  rename_file fs_rename i oc w
  = (if oc && negb (has_conflict m) then ret tt
     else if negb (truthy (new_full_path m))
          then raise (Exception (msg_path_unset m))
          else
            (if opt_str_eqb (new_full_name m) (actual_full_name m)
             then log_info (msg_identical m)
             else os_rename fs_rename i ;;; log_info (msg_completed m)) ;;;
            on_meta i (set_file_metadata
                         (mkKw None None (new_name m) None None None None 0
                               None None 0))) w.
Proof.
  intros i oc w m H. unfold rename_file. unfold bind at 1. unfold get_meta.
  rewrite H. reflexivity.
Qed.

Lemma os_rename_unfold : forall i (w : W) m src dst,
  nth_error (list_metadata w) i = Some m ->
  actual_full_path m = Some src -> new_full_path m = Some dst ->
  os_rename fs_rename i w
  = match fs_rename (disk w) src dst with
    | Some fs' =>
        (Ok tt, set_disk fs' (set_rename_calls (rename_calls w ++ [(src, dst)])%list w))
    | None =>
        (Raise OSError, set_rename_calls (rename_calls w ++ [(src, dst)])%list w)
    end.
Proof.
  intros i w m src dst H Hs Hd. unfold os_rename. unfold bind at 1.
  unfold get_meta. rewrite H, Hs, Hd. run_m. cbn [disk set_rename_calls].
  destruct (fs_rename (disk w) src dst); reflexivity.
Qed.

Lemma os_rename_outcome : forall i (w : W) msg,
  fst (os_rename fs_rename i w) <> Raise (Exception msg).
Proof.
  intros i w msg. unfold os_rename. run_m. unfold get_meta.
  destruct (nth_error (list_metadata w) i) as [m|]; [|discriminate].
  destruct (actual_full_path m); [|discriminate].
  destruct (new_full_path m); [|discriminate].
  cbn [disk set_rename_calls].
  destruct (fs_rename _ _ _); discriminate.
Qed.

Lemma on_meta_set_file_metadata_outcome : forall i kw (w : W) msg,
  fst (on_meta i (set_file_metadata kw) w) <> Raise (Exception msg).
Proof.
  intros i kw w msg. unfold on_meta.
  destruct (nth_error (list_metadata w) i) as [m|]; [|discriminate].
  destruct (set_file_metadata_outcome kw m) as [H|H];
    destruct (set_file_metadata kw m) as [r m']; simpl in *; subst; discriminate.
Qed.

Lemma log_header_ok : forall m what (w : W),
  header_ok m -> fst (log_header m what w) = Ok tt.
Proof.
  intros m what w H. unfold log_header, header_ok in *.
  destruct (no m =? 1)%Z eqn:E; [|reflexivity].
  apply Z.eqb_eq in E. specialize (H E).
  destruct (ext m); [reflexivity | contradiction].
Qed.

Lemma run_renamer_step_unfold : forall oc i (w : W) m,
  nth_error (list_metadata w) i = Some m ->
  run_renamer_step fs_rename oc i w
  = (log_header m "renamed" ;;;
     try_except
       (log_info "-" ;;; rename_file fs_rename i oc)
       (fun _ => meta <- get_meta i ;; log_error (msg_rename_error meta))) w.
Proof.
  intros oc i w m H. unfold run_renamer_step. unfold bind at 1. unfold get_meta.
  rewrite H. reflexivity.
Qed.

(** A step never lets an exception of [rename_file] escape. *)
Lemma run_renamer_step_ok : forall oc i (w : W) m,
  nth_error (list_metadata w) i = Some m -> header_ok m ->
  fst (run_renamer_step fs_rename oc i w) = Ok tt.
Proof.
  intros oc i w m H Hh. rewrite (run_renamer_step_unfold oc i w m H).
  unfold bind at 1.
  pose proof (log_header_ok m "renamed" w Hh) as H1.
  pose proof (logs_only_log_header FS m "renamed" w) as L1.
  destruct (log_header m "renamed" w) as [r1 w1]. simpl in H1, L1. subst r1.
  unfold try_except.
  pose proof (respects_bind FS _ (touches_trans FS i) _ _ _ _
                (touches_log_info FS i "-")
                (fun _ => touches_rename_file FS fs_rename i oc) w1) as T.
  destruct ((log_info "-" ;;; rename_file fs_rename i oc) w1) as [[[]|e] w3];
    [reflexivity|].
  simpl in T. destruct T as (Len & _).
  destruct L1 as (S1 & _).
  assert (Hi : i < List.length (list_metadata w3)).
  { rewrite Len, S1. apply nth_error_Some. congruence. }
  apply nth_error_Some in Hi. unfold bind, get_meta.
  destruct (nth_error (list_metadata w3) i); [reflexivity | contradiction].
Qed.

End RenameSteps.

Lemma por_none : forall b, por None b = b.
Proof. reflexivity. Qed.

Lemma append_nonempty : forall a b, a <> "" -> a ++ b <> "".
Proof. intros [|c a] b H; [contradiction | simpl; discriminate]. Qed.

(** The original-name fields after an update of a record that has a folder
    and an original name. *)
Lemma set_file_metadata_original : forall kw m f name,
  por (kw_folder kw) (folder m) = Some f ->
  por (kw_actual_name kw) (actual_name m) = Some name -> name <> "" ->
  original (snd (set_file_metadata kw m))
  = (Some (concat_full_name name (por (kw_ext kw) (ext m))),
     Some (f ++ SLASH ++ concat_full_name name (por (kw_ext kw) (ext m)))).
Proof.
  intros kw m f name Hf Hn Hne. rewrite set_file_metadata_split. unfold bind.
  set (m1 := basic_update kw m).
  assert (F1 : folder m1 = Some f) by (unfold m1; now rewrite basic_update_folder).
  assert (N1 : actual_name m1 = Some name)
    by (unfold m1; now rewrite basic_update_actual_name).
  pose proof (set_actual_name_built m1 name f N1 Hne F1) as O.
  pose proof (set_actual_name_ok m1 f F1) as K.
  destruct (set_actual_name m1) as [[[]|e] m2]; simpl in O, K; [|discriminate].
  rewrite set_new_name_original. rewrite O. unfold m1.
  now rewrite basic_update_ext.
Qed.

Section RenameClaims.

Variable FS : Type.
Variable fs_rename : FS -> string -> string -> option FS.
Local Abbreviation W := (World FS).

Lemma os_rename_store : forall i (w : W),
  list_metadata (snd (os_rename fs_rename i w)) = list_metadata w.
Proof.
  intros i w. unfold os_rename. run_m. unfold get_meta.
  destruct (nth_error (list_metadata w) i) as [m|]; [|reflexivity].
  destruct (actual_full_path m); [|reflexivity].
  destruct (new_full_path m); [|reflexivity].
  cbn [disk set_rename_calls].
  destruct (fs_rename _ _ _); reflexivity.
Qed.

Lemma rename_file_path_unset : forall i oc (w : W) m,
  nth_error (list_metadata w) i = Some m ->
  (oc && negb (has_conflict m)) = false ->
  truthy (new_full_path m) = false ->
  rename_file fs_rename i oc w = (Raise (Exception (msg_path_unset m)), w).
Proof.
  intros i oc w m H Hs Hp. rewrite (rename_file_unfold FS fs_rename i oc w m H).
  rewrite Hs, Hp. reflexivity.
Qed.

(** Computations that never raise the exception of the safety check. *)
Definition plain {A} (c : M W A) : Prop :=
  forall w msg, fst (c w) <> Raise (Exception msg).

Lemma plain_bind : forall A B (c : M W A) (k : A -> M W B),
  plain c -> (forall a, plain (k a)) -> plain (bind c k).
Proof.
  intros A B c k Hc Hk w msg. unfold bind. specialize (Hc w msg).
  destruct (c w) as [[a|e] w1]; simpl in *.
  - apply Hk.
  - intros E. apply Hc. now inversion E.
Qed.

Lemma plain_log_info : forall msg, plain (log_info msg).
Proof. intros msg w m. discriminate. Qed.

Lemma rename_file_path_set : forall i oc (w : W) m msg,
  nth_error (list_metadata w) i = Some m ->
  truthy (new_full_path m) = true ->
  fst (rename_file fs_rename i oc w) <> Raise (Exception msg).
Proof.
  intros i oc w m msg H Hp. rewrite (rename_file_unfold FS fs_rename i oc w m H).
  destruct (oc && negb (has_conflict m)); [discriminate|].
  rewrite Hp. simpl negb. cbv iota.
  apply plain_bind.
  - destruct (opt_str_eqb (new_full_name m) (actual_full_name m)).
    + apply plain_log_info.
    + apply plain_bind.
      * intros w0 msg0. apply os_rename_outcome.
      * intros _. apply plain_log_info.
  - intros _ w0 msg0. apply on_meta_set_file_metadata_outcome.
Qed.

Lemma rename_file_same_name_quiet : forall i oc (w : W) m,
  nth_error (list_metadata w) i = Some m ->
  new_full_name m = actual_full_name m ->
  quiet FS w (snd (rename_file fs_rename i oc w)).
Proof.
  intros i oc w m H Hs. rewrite (rename_file_unfold FS fs_rename i oc w m H).
  destruct (oc && negb (has_conflict m)); [apply quiet_refl|].
  destruct (negb (truthy (new_full_path m))); [apply quiet_refl|].
  apply opt_str_eqb_eq in Hs. rewrite Hs.
  apply (respects_bind FS _ (quiet_trans FS)).
  - intros w0. apply logs_only_quiet, logs_only_log_info.
  - intros _. apply quiet_on_meta.
Qed.

Lemma run_renamer_step_quiet : forall oc i (w : W),
  (forall m, nth_error (list_metadata w) i = Some m ->
             new_full_name m = actual_full_name m) ->
  quiet FS w (snd (run_renamer_step fs_rename oc i w)).
Proof.
  intros oc i w Hs.
  destruct (nth_error (list_metadata w) i) as [m|] eqn:H.
  2:{ unfold run_renamer_step, bind, get_meta. rewrite H. apply quiet_refl. }
  rewrite (run_renamer_step_unfold FS fs_rename oc i w m H).
  unfold bind at 1.
  pose proof (logs_only_log_header FS m "renamed" w) as L1.
  destruct (log_header m "renamed" w) as [[[]|e] w1]; simpl in L1;
    [|now apply logs_only_quiet].
  eapply quiet_trans; [apply logs_only_quiet, L1|].
  destruct L1 as (S1 & _).
  unfold try_except.
  change ((log_info "-" ;;; rename_file fs_rename i oc) w1)
    with (rename_file fs_rename i oc
            (set_logger (logger w1 ++ [(INFO, "-")])%list w1)).
  set (w2 := set_logger (logger w1 ++ [(INFO, "-")])%list w1).
  assert (H2 : nth_error (list_metadata w2) i = Some m).
  { unfold w2. cbn [list_metadata set_logger]. now rewrite S1. }
  assert (Q2 : quiet FS w1 w2) by (split; reflexivity).
  pose proof (rename_file_same_name_quiet i oc w2 m H2 (Hs m eq_refl)) as Q.
  destruct (rename_file fs_rename i oc w2) as [[[]|e] w3]; cbn [fst snd] in *.
  - exact (quiet_trans FS _ _ _ Q2 Q).
  - apply (quiet_trans FS _ _ _ Q2). apply (quiet_trans FS _ _ _ Q).
    unfold bind, get_meta.
    destruct (nth_error (list_metadata w3) i); [|apply quiet_refl].
    split; reflexivity.
Qed.

Lemma run_renamer_unfold : forall oc (w : W),
  run_renamer fs_rename oc w
  = for_each (seq 0 (List.length (list_metadata w))) (run_renamer_step fs_rename oc)
      (set_logger (logger w ++ [(INFO, repeat_str "*" LINE_LENGTH)])%list w).
Proof. reflexivity. Qed.

(** A sweep over records that are all correctly named moves nothing. *)
Lemma sweep_quiet : forall oc xs (w : W),
  NoDup xs ->
  (forall j m, In j xs -> nth_error (list_metadata w) j = Some m ->
               new_full_name m = actual_full_name m) ->
  quiet FS w (snd (for_each xs (run_renamer_step fs_rename oc) w)).
Proof.
  intros oc xs. induction xs as [|x xs IH]; intros w ND Hs; simpl.
  - apply quiet_refl.
  - inversion ND as [|? ? Hx ND']; subst. unfold bind.
    pose proof (run_renamer_step_quiet oc x w
                  (fun m Hm => Hs x m (or_introl eq_refl) Hm)) as Q.
    pose proof (touches_run_renamer_step FS fs_rename x oc w) as T.
    destruct (run_renamer_step fs_rename oc x w) as [[[]|e] w1];
      cbn [fst snd] in *; [|exact Q].
    eapply quiet_trans; [exact Q|]. apply IH; [exact ND'|].
    intros j m Hj Hm. apply (Hs j m (or_intror Hj)).
    destruct T as (_ & F & _). rewrite <- F; [exact Hm|].
    intros ->. contradiction.
Qed.

Lemma run_renamer_quiet : forall oc (w : W),
  (forall j m, nth_error (list_metadata w) j = Some m ->
               new_full_name m = actual_full_name m) ->
  quiet FS w (snd (run_renamer fs_rename oc w)).
Proof.
  intros oc w Hs. rewrite run_renamer_unfold.
  set (w1 := set_logger _ w).
  eapply quiet_trans with (b := w1); [split; reflexivity|].
  apply sweep_quiet; [apply seq_NoDup|].
  intros j m _ Hm. apply (Hs j m). exact Hm.
Qed.

(** After a completed rename of a dated record the original name is the
    proposed name. *)
Lemma rename_file_settles : forall i oc (w : W) m f d,
  nth_error (list_metadata w) i = Some m ->
  (oc && negb (has_conflict m)) = false ->
  folder m = Some f -> date_taken m = Some d -> d <> "" ->
  new_name m = Some (d ++ mutual_suffix m ++ conflict_suffix m) ->
  fst (rename_file fs_rename i oc w) = Ok tt ->
  exists m',
    nth_error (list_metadata (snd (rename_file fs_rename i oc w))) i = Some m' /\
    new_full_name m' = actual_full_name m' /\
    new_full_name m'
    = Some (concat_full_name (d ++ mutual_suffix m ++ conflict_suffix m) (ext m)).
Proof.
  intros i oc w m f d H Hsk Hf Hd Hne Hn Hok.
  rewrite (rename_file_unfold FS fs_rename i oc w m H) in *. rewrite Hsk in *.
  destruct (negb (truthy (new_full_path m))); [discriminate|].
  unfold bind in Hok |- *.
  set (c := if opt_str_eqb (new_full_name m) (actual_full_name m)
            then log_info (msg_identical m)
            else fun s => match os_rename fs_rename i s with
                          | (Ok a, s') => log_info (msg_completed m) s'
                          | (Raise e, s') => (Raise e, s')
                          end) in *.
  assert (St : list_metadata (snd (c w)) = list_metadata w).
  { unfold c. destruct (opt_str_eqb _ _); [reflexivity|].
    pose proof (os_rename_store i w) as O.
    destruct (os_rename fs_rename i w) as [[[]|e] w1]; exact O. }
  destruct (c w) as [[[]|e] w3]; [|discriminate]. cbn [snd] in St.
  set (kw := mkKw None None (new_name m) None None None None 0 None None 0) in *.
  unfold on_meta in *. rewrite St, H in *.
  destruct (set_file_metadata_dated kw m f d) as (m' & E & B & P);
    [exact Hf | exact Hd | exact Hne |].
  pose proof (set_file_metadata_original kw m f
                (d ++ mutual_suffix m ++ conflict_suffix m)) as O.
  rewrite E in *. cbn [fst snd] in *.
  exists m'. split.
  { cbn [list_metadata set_list_metadata]. eapply list_update_same. exact H. }
  basic_field B mutual_suffix. basic_field B conflict_suffix. basic_field B ext.
  rewrite basic_update_mutual_suffix in E0.
  rewrite basic_update_conflict_suffix in E1.
  rewrite basic_update_ext in E2. cbn in E0, E1, E2.
  cbv zeta in P. rewrite E0, E1, E2 in P.
  unfold proposed in P. pose proof (f_equal (fun p => snd (fst p)) P) as P2.
  cbn [fst snd] in P2.
  specialize (O Hf).
  assert (Hna : por (kw_actual_name kw) (actual_name m)
                = Some (d ++ mutual_suffix m ++ conflict_suffix m)).
  { unfold kw. cbn [kw_actual_name]. rewrite Hn. unfold por.
    now rewrite (truthy_some _ (append_nonempty _ _ Hne)). }
  specialize (O Hna (append_nonempty _ _ Hne)).
  unfold original in O. pose proof (f_equal fst O) as O1. cbn [fst] in O1.
  cbn [kw_ext kw] in O1. rewrite por_none in O1.
  split; [congruence | exact P2].
Qed.

(** What a step does for a record that needs a rename: the call is made on
    the disk as the step finds it, and its outcome decides what is logged. *)
Lemma run_renamer_step_attempt : forall oc i (w : W) m src dst,
  nth_error (list_metadata w) i = Some m -> header_ok m ->
  (oc && negb (has_conflict m)) = false ->
  actual_full_path m = Some src -> new_full_path m = Some dst -> dst <> "" ->
  new_full_name m <> actual_full_name m ->
  rename_calls (snd (run_renamer_step fs_rename oc i w))
  = (rename_calls w ++ [(src, dst)])%list /\
  (fs_rename (disk w) src dst = None ->
   disk (snd (run_renamer_step fs_rename oc i w)) = disk w /\
   list_metadata (snd (run_renamer_step fs_rename oc i w)) = list_metadata w /\
   exists h,
     logger (snd (run_renamer_step fs_rename oc i w))
     = (logger w ++ h ++ [(INFO, "-"); (ERROR, msg_rename_error m)])%list) /\
  (forall fs', fs_rename (disk w) src dst = Some fs' ->
   disk (snd (run_renamer_step fs_rename oc i w)) = fs' /\
   exists h l,
     logger (snd (run_renamer_step fs_rename oc i w))
     = (logger w ++ h ++ [(INFO, "-"); (INFO, msg_completed m)] ++ l)%list).
Proof.
  intros oc i w m src dst H Hh Hsk Hs Hd Hne Hdiff.
  remember (run_renamer_step fs_rename oc i w) as res eqn:E.
  rewrite (run_renamer_step_unfold FS fs_rename oc i w m H) in E.
  unfold bind at 1 in E.
  pose proof (log_header_ok FS m "renamed" w Hh) as H1.
  pose proof (logs_only_log_header FS m "renamed" w) as L1.
  pose proof (touches_log_header FS i m "renamed" w) as T1.
  destruct (log_header m "renamed" w) as [r1 w1]. cbn [fst snd] in H1, L1, T1.
  subst r1. destruct L1 as (S1 & _ & _ & K1 & R1).
  destruct T1 as (_ & _ & _ & _ & (h & G1) & _).
  unfold try_except in E.
  change ((log_info "-" ;;; rename_file fs_rename i oc) w1)
    with (rename_file fs_rename i oc
            (set_logger (logger w1 ++ [(INFO, "-")])%list w1)) in E.
  set (w2 := set_logger (logger w1 ++ [(INFO, "-")])%list w1) in E.
  assert (H2 : nth_error (list_metadata w2) i = Some m).
  { unfold w2. cbn [list_metadata set_logger]. now rewrite S1. }
  assert (K2 : disk w2 = disk w) by exact K1.
  rewrite (rename_file_unfold FS fs_rename i oc w2 m H2) in E.
  rewrite Hsk, Hd, (truthy_some dst Hne), (opt_str_eqb_neq _ _ Hdiff) in E.
  cbn [negb] in E. unfold bind at 1 in E. unfold bind at 1 in E.
  rewrite (os_rename_unfold FS fs_rename i w2 m src dst H2 Hs Hd) in E.
  rewrite K2 in E.
  destruct (fs_rename (disk w) src dst) as [fs'|].
  - unfold log_info, modify, on_meta in E.
    cbn [list_metadata set_logger set_disk set_rename_calls logger rename_calls
         df_global_media dict_file_counts disk] in E.
    rewrite H2 in E.
    destruct (set_file_metadata _ m) as [[[]|e] m'].
    + subst res. cbn [fst snd rename_calls logger disk set_list_metadata].
      split; [unfold w2; cbn [rename_calls set_logger]; now rewrite R1|].
      split; [discriminate|]. intros fs2 F2. inversion F2; subst fs2.
      split; [reflexivity|]. exists h, []%list.
      unfold w2. cbn [logger set_logger]. rewrite G1, app_nil_r.
      now rewrite <- !app_assoc.
    + unfold bind, get_meta in E.
      cbn [list_metadata set_list_metadata] in E.
      rewrite (list_update_same _ i m' m _ H2) in E.
      unfold log_error, modify in E. subst res.
      cbn [fst snd rename_calls logger disk set_list_metadata set_logger].
      split; [unfold w2; cbn [rename_calls set_logger]; now rewrite R1|].
      split; [discriminate|]. intros fs2 F2. inversion F2; subst fs2.
      split; [reflexivity|]. exists h, [(ERROR, msg_rename_error m')]%list.
      unfold w2. cbn [logger set_logger]. rewrite G1.
      now rewrite <- !app_assoc.
  - unfold bind, get_meta in E. cbn [list_metadata set_rename_calls] in E.
    rewrite H2 in E. unfold log_error, modify in E. subst res.
    cbn [fst snd rename_calls logger disk list_metadata set_logger set_rename_calls].
    split; [unfold w2; cbn [rename_calls set_logger]; now rewrite R1|].
    split; [|intros fs2 F2; discriminate F2].
    intros _. split; [exact K2|]. split; [exact S1|].
    exists h. unfold w2. cbn [logger set_logger]. rewrite G1.
    now rewrite <- !app_assoc.
Qed.

(** The log and the list of rename calls only grow. *)
Definition grows (w w' : W) : Prop :=
  (exists l, logger w' = (logger w ++ l)%list) /\
  (exists c, rename_calls w' = (rename_calls w ++ c)%list).

Lemma touches_grows : forall i w w', touches FS i w w' -> grows w w'.
Proof. intros i w w' (_ & _ & _ & _ & L & C). split; assumption. Qed.

Lemma grows_refl : forall w, grows w w.
Proof. intros w. split; exists []; now rewrite app_nil_r. Qed.

Lemma grows_trans : forall a b c, grows a b -> grows b c -> grows a c.
Proof.
  intros a b c [(l1 & L1) (c1 & C1)] [(l2 & L2) (c2 & C2)]. split.
  - exists (l1 ++ l2)%list. now rewrite L2, L1, app_assoc.
  - exists (c1 ++ c2)%list. now rewrite C2, C1, app_assoc.
Qed.

Lemma sweep_grows : forall oc xs (w : W),
  grows w (snd (for_each xs (run_renamer_step fs_rename oc) w)).
Proof.
  intros oc xs w. apply (respects_for_each FS grows grows_refl grows_trans).
  intros x _ w0. eapply touches_grows. apply touches_run_renamer_step.
Qed.

(** A sweep over records whose headers can be printed reaches its end, and
    leaves the records outside the sweep as they were. *)
Lemma sweep_ok : forall oc xs (w : W),
  NoDup xs ->
  (forall j, In j xs -> exists m, nth_error (list_metadata w) j = Some m /\ header_ok m) ->
  fst (for_each xs (run_renamer_step fs_rename oc) w) = Ok tt /\
  (forall j, ~ In j xs ->
     nth_error (list_metadata (snd (for_each xs (run_renamer_step fs_rename oc) w))) j
     = nth_error (list_metadata w) j).
Proof.
  intros oc xs. induction xs as [|x xs IH]; intros w ND Hh; simpl.
  - split; [reflexivity | intros; reflexivity].
  - inversion ND as [|? ? Hx ND']; subst. unfold bind.
    destruct (Hh x (or_introl eq_refl)) as (m & Hm & Hok).
    pose proof (run_renamer_step_ok FS fs_rename oc x w m Hm Hok) as K.
    pose proof (touches_run_renamer_step FS fs_rename x oc w) as T.
    destruct (run_renamer_step fs_rename oc x w) as [r w1]. cbn [fst snd] in *.
    subst r. destruct T as (_ & F & _).
    destruct (IH w1 ND') as [K1 F1].
    + intros j Hj. destruct (Hh j (or_intror Hj)) as (mj & Hmj & Hokj).
      exists mj. split; [|exact Hokj]. rewrite F; [exact Hmj|].
      intros ->. contradiction.
    + split; [exact K1|]. intros j Hj.
      rewrite F1; [apply F; intros ->; apply Hj; now left
                  | intros C; apply Hj; now right].
Qed.

Lemma seq_split : forall j n, j < n ->
  seq 0 n = (seq 0 j ++ j :: seq (S j) (n - S j))%list.
Proof.
  intros j n H. replace n with (j + S (n - S j)) at 1 by lia.
  rewrite seq_app. reflexivity.
Qed.

Lemma grows_log : forall (a b : W) x, grows a b -> In x (logger a) -> In x (logger b).
Proof. intros a b x [(l & L) _] H. rewrite L. apply in_or_app. now left. Qed.

Lemma grows_calls : forall (a b : W) x,
  grows a b -> In x (rename_calls a) -> In x (rename_calls b).
Proof. intros a b x [_ (c & C)] H. rewrite C. apply in_or_app. now left. Qed.

(** The state of a run of [run_renamer] when the turn of record [j] comes:
    the separator line is logged and the records before [j] are done. *)
Definition before_turn (oc : bool) (w : W) (j : nat) : W :=
  snd (for_each (seq 0 j) (run_renamer_step fs_rename oc)
         (snd (log_info (repeat_str "*" LINE_LENGTH) w))).

Lemma before_turn_run : forall oc (w : W) j,
  (forall i m, nth_error (list_metadata w) i = Some m -> header_ok m) ->
  j <= List.length (list_metadata w) ->
  for_each (seq 0 j) (run_renamer_step fs_rename oc)
    (snd (log_info (repeat_str "*" LINE_LENGTH) w))
  = (Ok tt, before_turn oc w j) /\
  (forall k, j <= k ->
     nth_error (list_metadata (before_turn oc w j)) k
     = nth_error (list_metadata w) k).
Proof.
  intros oc w j Hh Hj. unfold before_turn.
  set (w0 := snd (log_info (repeat_str "*" LINE_LENGTH) w)).
  destruct (sweep_ok oc (seq 0 j) w0 (seq_NoDup _ _)) as [K F].
  { intros k Hk. apply in_seq in Hk.
    destruct (nth_error (list_metadata w) k) as [m|] eqn:E.
    - exists m. split; [exact E | eapply Hh; eauto].
    - apply nth_error_None in E. lia. }
  split.
  - destruct (for_each (seq 0 j) (run_renamer_step fs_rename oc) w0) as [r wj].
    cbn [fst snd] in *. now subst r.
  - intros k Hk. rewrite F; [reflexivity|]. intros C. apply in_seq in C. lia.
Qed.

Lemma run_renamer_from_turn : forall oc (w : W) j,
  (forall i m, nth_error (list_metadata w) i = Some m -> header_ok m) ->
  j <= List.length (list_metadata w) ->
  run_renamer fs_rename oc w
  = for_each (seq j (List.length (list_metadata w) - j))
      (run_renamer_step fs_rename oc) (before_turn oc w j).
Proof.
  intros oc w j Hh Hj. rewrite run_renamer_unfold.
  destruct (before_turn_run oc w j Hh Hj) as [E _].
  replace (List.length (list_metadata w))
    with (j + (List.length (list_metadata w) - j)) at 1 by lia.
  rewrite seq_app. exact (for_each_app _ _ _ _ _ _ _ E).
Qed.

Lemma before_turn_next : forall oc (w : W) j,
  (forall i m, nth_error (list_metadata w) i = Some m -> header_ok m) ->
  j < List.length (list_metadata w) ->
  before_turn oc w (S j) = snd (run_renamer_step fs_rename oc j (before_turn oc w j)).
Proof.
  intros oc w j Hh Hj.
  destruct (before_turn_run oc w j Hh (Nat.lt_le_incl _ _ Hj)) as [E _].
  unfold before_turn at 1. rewrite seq_S.
  rewrite (for_each_app _ _ _ _ _ _ _ E). simpl for_each. unfold bind.
  destruct (run_renamer_step fs_rename oc j (before_turn oc w j)) as [[[]|e] w1];
    reflexivity.
Qed.

(** The errors that leave [rename_file]: its own safety error, and those of
    the rename itself. *)
Lemma os_rename_errors : forall i (w : W) e,
  nth_error (list_metadata w) i <> None ->
  fst (os_rename fs_rename i w) = Raise e -> e = OSError \/ e = TypeError.
Proof.
  intros i w e H. unfold os_rename. run_m. unfold get_meta.
  destruct (nth_error (list_metadata w) i) as [m|]; [|contradiction].
  destruct (actual_full_path m); [|intros E; inversion E; now right].
  destruct (new_full_path m); [|intros E; inversion E; now right].
  cbn [disk set_rename_calls].
  destruct (fs_rename _ _ _); intros E; inversion E. now left.
Qed.

Lemma on_meta_set_file_metadata_errors : forall i kw (w : W) e,
  nth_error (list_metadata w) i <> None ->
  fst (on_meta i (set_file_metadata kw) w) = Raise e -> e = TypeError.
Proof.
  intros i kw w e H. unfold on_meta.
  destruct (nth_error (list_metadata w) i) as [m|]; [|contradiction].
  destruct (set_file_metadata_outcome kw m) as [K|K];
    destruct (set_file_metadata kw m) as [r m']; simpl in *; subst;
    intros E; inversion E. reflexivity.
Qed.

Lemma rename_file_errors : forall i oc (w : W) m e,
  nth_error (list_metadata w) i = Some m ->
  fst (rename_file fs_rename i oc w) = Raise e ->
  e = Exception (msg_path_unset m) \/ e = OSError \/ e = TypeError.
Proof.
  intros i oc w m e H. rewrite (rename_file_unfold FS fs_rename i oc w m H).
  destruct (oc && negb (has_conflict m)); [discriminate|].
  destruct (negb (truthy (new_full_path m))).
  { intros E. inversion E. now left. }
  intros E. right. unfold bind at 1 in E.
  assert (Hi : nth_error (list_metadata w) i <> None) by congruence.
  destruct (opt_str_eqb (new_full_name m) (actual_full_name m)).
  - unfold log_info, modify in E.
    right. eapply on_meta_set_file_metadata_errors; [|exact E]. exact Hi.
  - unfold bind at 1 in E.
    pose proof (os_rename_errors i w) as O.
    pose proof (os_rename_store i w) as St.
    destruct (os_rename fs_rename i w) as [[[]|e1] w1]; cbn [fst snd] in *.
    + unfold log_info, modify in E.
      right. eapply on_meta_set_file_metadata_errors; [|exact E].
      cbn [list_metadata set_logger]. now rewrite St.
    + inversion E; subst e1. now apply O.
Qed.

(** [OSError] leaves [rename_file] exactly when the file system refuses the
    rename of a record whose proposed name differs from its original one. *)
Lemma rename_file_refused : forall i oc (w : W) m,
  nth_error (list_metadata w) i = Some m ->
  (oc && negb (has_conflict m)) = false ->
  (fst (rename_file fs_rename i oc w) = Raise OSError <->
   exists src dst,
     actual_full_path m = Some src /\ new_full_path m = Some dst /\ dst <> "" /\
     new_full_name m <> actual_full_name m /\
     fs_rename (disk w) src dst = None).
Proof.
  intros i oc w m H Hsk. rewrite (rename_file_unfold FS fs_rename i oc w m H).
  rewrite Hsk. split.
  - destruct (truthy (new_full_path m)) eqn:T; [|discriminate].
    cbn [negb]. unfold bind at 1.
    destruct (opt_str_eqb (new_full_name m) (actual_full_name m)) eqn:Q.
    { unfold log_info, modify. intros E.
      apply on_meta_set_file_metadata_errors in E; [discriminate|].
      cbn [list_metadata set_logger]. congruence. }
    unfold bind at 1.
    destruct (new_full_path m) as [dst|] eqn:Hd; [|discriminate].
    destruct (actual_full_path m) as [src|] eqn:Hs.
    + rewrite (os_rename_unfold FS fs_rename i w m src dst H Hs Hd).
      destruct (fs_rename (disk w) src dst) as [fs'|] eqn:R.
      * unfold log_info, modify. intros E.
        apply on_meta_set_file_metadata_errors in E; [discriminate|].
        cbn [list_metadata set_logger set_disk set_rename_calls]. congruence.
      * intros _. exists src, dst. repeat split; auto.
        -- intros ->. discriminate.
        -- intros C. apply opt_str_eqb_eq in C. congruence.
    + unfold os_rename, bind, get_meta. rewrite H, Hs. discriminate.
  - intros (src & dst & Hs & Hd & Hne & Hdiff & R).
    rewrite Hd, (truthy_some dst Hne), (opt_str_eqb_neq _ _ Hdiff).
    cbn [negb]. unfold bind at 1. unfold bind at 1.
    rewrite (os_rename_unfold FS fs_rename i w m src dst H Hs Hd), R.
    reflexivity.
Qed.

(** A [TypeError] leaves [rename_file] only for a record that lacks its
    original path or its folder. *)
Lemma rename_file_type_error : forall i oc (w : W) m,
  nth_error (list_metadata w) i = Some m ->
  fst (rename_file fs_rename i oc w) = Raise TypeError ->
  actual_full_path m = None \/ folder m = None.
Proof.
  intros i oc w m H. rewrite (rename_file_unfold FS fs_rename i oc w m H).
  destruct (oc && negb (has_conflict m)); [discriminate|].
  destruct (truthy (new_full_path m)) eqn:T; [|discriminate]. cbn [negb].
  destruct (folder m) as [f|] eqn:F; [|now right].
  destruct (actual_full_path m) as [src|] eqn:Hs; [|now left].
  intros E. exfalso.
  set (kw := mkKw None None (new_name m) None None None None 0 None None 0) in E.
  assert (K : fst (set_file_metadata kw m) = Ok tt).
  { apply (set_file_metadata_ok kw m f). unfold kw. cbn [kw_folder].
    rewrite por_none. exact F. }
  unfold bind at 1 in E.
  destruct (opt_str_eqb (new_full_name m) (actual_full_name m)).
  - unfold log_info, modify, on_meta in E. cbn [list_metadata set_logger] in E.
    rewrite H in E. destruct (set_file_metadata kw m) as [r m'].
    cbn [fst] in K, E. rewrite K in E. discriminate.
  - unfold bind at 1 in E.
    destruct (new_full_path m) as [dst|] eqn:Hd; [|discriminate].
    rewrite (os_rename_unfold FS fs_rename i w m src dst H Hs Hd) in E.
    destruct (fs_rename (disk w) src dst) as [fs'|]; [|discriminate].
    unfold log_info, modify, on_meta in E.
    cbn [list_metadata set_logger set_disk set_rename_calls] in E.
    rewrite H in E. destruct (set_file_metadata kw m) as [r m'].
    cbn [fst] in K, E. rewrite K in E. discriminate.
Qed.

(** ** The rename executor: the claims *)

(** C9, as the code has it.  For a record that the current mode does not
    skip, [rename_file] raises its safety error ("File path cannot be none!")
    exactly when the proposed full path is unset, and then touches nothing.
    It is not the only error: with the path set the error of the rename
    itself leaves the function, [OSError] exactly when the file system
    refuses the rename of a record whose proposed name differs from the
    original one, and otherwise a [TypeError], only for a record without
    original path or folder; the step of [run_renamer] lets none of them
    escape.  A record with no resolved date and no fallback name gets no
    proposed name from any update, and such a record is never renamed on
    disk, in either mode. *)
Theorem rename_file_raises_iff_path_unset :
  forall oc i (w : W) m,
    nth_error (list_metadata w) i = Some m ->
    ((oc && negb (has_conflict m)) = false ->
     (fst (rename_file fs_rename i oc w) = Raise (Exception (msg_path_unset m))
      <-> truthy (new_full_path m) = false) /\
     (truthy (new_full_path m) = false -> snd (rename_file fs_rename i oc w) = w) /\
     (forall e, fst (rename_file fs_rename i oc w) = Raise e ->
        e = Exception (msg_path_unset m) \/ e = OSError \/ e = TypeError) /\
     (fst (rename_file fs_rename i oc w) = Raise OSError <->
      exists src dst,
        actual_full_path m = Some src /\ new_full_path m = Some dst /\ dst <> "" /\
        new_full_name m <> actual_full_name m /\
        fs_rename (disk w) src dst = None) /\
     (fst (rename_file fs_rename i oc w) = Raise TypeError ->
      actual_full_path m = None \/ folder m = None) /\
     (header_ok m -> fst (run_renamer_step fs_rename oc i w) = Ok tt)) /\
    (forall kw,
       truthy (por (kw_date_taken kw) (date_taken m)) = false ->
       truthy (por (kw_new_name kw) (new_name m)) = false ->
       new_full_name (snd (set_file_metadata kw m)) = new_full_name m /\
       new_full_path (snd (set_file_metadata kw m)) = new_full_path m) /\
    (new_full_path m = None ->
     disk (snd (rename_file fs_rename i oc w)) = disk w /\
     rename_calls (snd (rename_file fs_rename i oc w)) = rename_calls w).
Proof.
  intros oc i w m H. split; [|split].
  - intros Hsk. split; [split|split; [|split; [|split; [|split]]]].
    + intros E. destruct (truthy (new_full_path m)) eqn:T; [|reflexivity].
      exfalso. eapply rename_file_path_set; eauto.
    + intros T. now rewrite (rename_file_path_unset i oc w m H Hsk T).
    + intros T. now rewrite (rename_file_path_unset i oc w m H Hsk T).
    + intros e. now apply rename_file_errors.
    + now apply rename_file_refused.
    + now apply rename_file_type_error.
    + intros Hh. exact (run_renamer_step_ok FS fs_rename oc i w m H Hh).
  - intros kw Hd Hn. pose proof (set_file_metadata_unnamed kw m Hd Hn) as P.
    unfold proposed in P.
    pose proof (f_equal (fun p => snd (fst p)) P) as P2.
    pose proof (f_equal snd P) as P3. cbn [fst snd] in P2, P3. auto.
  - intros Hp. rewrite (rename_file_unfold FS fs_rename i oc w m H).
    destruct (oc && negb (has_conflict m)); [split; reflexivity|].
    rewrite Hp. split; reflexivity.
Qed.

(** C7. A record whose proposed full name equals its original full name
    causes no [os.rename] call and leaves the disk as it is; a sweep over a
    batch of such records therefore moves no file.  After a completed rename
    of a dated record the two names coincide, so a further sweep finds it
    correctly named. *)
Theorem rename_file_same_name_moves_nothing :
  forall oc,
    (forall i (w : W) m,
        nth_error (list_metadata w) i = Some m ->
        new_full_name m = actual_full_name m ->
        disk (snd (rename_file fs_rename i oc w)) = disk w /\
        rename_calls (snd (rename_file fs_rename i oc w)) = rename_calls w) /\
    (forall w : W,
        (forall j m, nth_error (list_metadata w) j = Some m ->
                     new_full_name m = actual_full_name m) ->
        disk (snd (run_renamer fs_rename oc w)) = disk w /\
        rename_calls (snd (run_renamer fs_rename oc w)) = rename_calls w) /\
    (forall i (w : W) m f d,
        nth_error (list_metadata w) i = Some m ->
        (oc && negb (has_conflict m)) = false ->
        folder m = Some f -> date_taken m = Some d -> d <> "" ->
        new_name m = Some (d ++ mutual_suffix m ++ conflict_suffix m) ->
        fst (rename_file fs_rename i oc w) = Ok tt ->
        exists m',
          nth_error (list_metadata (snd (rename_file fs_rename i oc w))) i = Some m' /\
          new_full_name m' = actual_full_name m').
Proof.
  intros oc. split; [|split].
  - intros i w m H Hs. exact (rename_file_same_name_quiet i oc w m H Hs).
  - intros w Hs. exact (run_renamer_quiet oc w Hs).
  - intros i w m f d H Hsk Hf Hd Hne Hn Hok.
    destruct (rename_file_settles i oc w m f d H Hsk Hf Hd Hne Hn Hok)
      as (m' & A & B & _).
    exists m'. split; assumption.
Qed.

(** C8. When every header of the batch can be printed, [run_renamer] ends
    normally whatever the file system does: an exception raised while
    renaming one record is caught at that record, and the run goes on with
    the records after it from the state that record left.  Every record that
    needs a rename has its [os.rename] attempted at its turn, on the disk as
    the records before it left it.  When the file system refuses that call
    (a missing source, a target that exists, a locked file) the disk and the
    record stay as they were and the ERROR line with the record's number and
    both names is logged; when it accepts, the disk is the one the call
    returns and the INFO line is logged. *)
Theorem run_renamer_isolates_failures :
  forall oc (w : W),
    (forall i m, nth_error (list_metadata w) i = Some m -> header_ok m) ->
    fst (run_renamer fs_rename oc w) = Ok tt /\
    (forall j, j <= List.length (list_metadata w) ->
       run_renamer fs_rename oc w
       = for_each (seq j (List.length (list_metadata w) - j))
           (run_renamer_step fs_rename oc) (before_turn oc w j)) /\
    forall j m src dst,
      nth_error (list_metadata w) j = Some m ->
      (oc && negb (has_conflict m)) = false ->
      actual_full_path m = Some src -> new_full_path m = Some dst -> dst <> "" ->
      new_full_name m <> actual_full_name m ->
      nth_error (list_metadata (before_turn oc w j)) j = Some m /\
      rename_calls (before_turn oc w (S j))
      = (rename_calls (before_turn oc w j) ++ [(src, dst)])%list /\
      In (src, dst) (rename_calls (snd (run_renamer fs_rename oc w))) /\
      (fs_rename (disk (before_turn oc w j)) src dst = None ->
       disk (before_turn oc w (S j)) = disk (before_turn oc w j) /\
       nth_error (list_metadata (before_turn oc w (S j))) j = Some m /\
       (exists h,
          logger (before_turn oc w (S j))
          = (logger (before_turn oc w j) ++ h
             ++ [(INFO, "-"); (ERROR, msg_rename_error m)])%list) /\
       In (ERROR, msg_rename_error m) (logger (snd (run_renamer fs_rename oc w)))) /\
      (forall fs', fs_rename (disk (before_turn oc w j)) src dst = Some fs' ->
       disk (before_turn oc w (S j)) = fs' /\
       In (INFO, msg_completed m) (logger (snd (run_renamer fs_rename oc w)))).
Proof.
  intros oc w Hh.
  split.
  { rewrite run_renamer_unfold. apply sweep_ok; [apply seq_NoDup|].
    intros j Hj. apply in_seq in Hj.
    destruct (nth_error (list_metadata w) j) as [m|] eqn:E.
    - exists m. split; [exact E | eapply Hh; eauto].
    - apply nth_error_None in E. lia. }
  split; [intros j Hj; now apply run_renamer_from_turn|].
  intros j m src dst Hm Hsk Hs Hd Hne Hdiff.
  assert (Hj : j < List.length (list_metadata w))
    by (apply nth_error_Some; congruence).
  destruct (before_turn_run oc w j Hh (Nat.lt_le_incl _ _ Hj)) as [_ F].
  assert (Hmj : nth_error (list_metadata (before_turn oc w j)) j = Some m)
    by (rewrite F; [exact Hm | lia]).
  pose proof (run_renamer_step_attempt oc j (before_turn oc w j) m src dst Hmj
                (Hh j m Hm) Hsk Hs Hd Hne Hdiff) as (A1 & A2 & A3).
  rewrite <- (before_turn_next oc w j Hh Hj) in A1, A2, A3.
  assert (G : grows (before_turn oc w (S j)) (snd (run_renamer fs_rename oc w))).
  { rewrite (run_renamer_from_turn oc w (S j) Hh Hj). apply sweep_grows. }
  split; [exact Hmj|]. split; [exact A1|].
  split.
  { apply (grows_calls _ _ _ G). rewrite A1. apply in_or_app. right. now left. }
  split.
  - intros R. destruct (A2 R) as (D & L & (h & Lg)).
    split; [exact D|]. split; [now rewrite L|]. split; [exists h; exact Lg|].
    apply (grows_log _ _ _ G). rewrite Lg.
    apply in_or_app. right. apply in_or_app. right. right. now left.
  - intros fs' R. destruct (A3 fs' R) as (D & (h & l & Lg)).
    split; [exact D|].
    apply (grows_log _ _ _ G). rewrite Lg.
    apply in_or_app. right. apply in_or_app. right.
    apply in_or_app. left. right. now left.
Qed.

End RenameClaims.

(** ** Sample batches for the rename executor *)

(** A file system as the list of its paths; [os.rename] refuses a missing
    source, an existing target, and the locked path. *)
Definition sample_rename (locked : string) (fs : list string) (src dst : string)
  : option (list string) :=
  if src =? locked then None
  else if existsb (String.eqb src) fs && negb (existsb (String.eqb dst) fs)
       then Some (dst :: filter (fun p => negb (p =? src)) fs)
       else None.

Definition discover_dated (root name extension : string) (n : Z) (date : string)
  : FileMetadata :=
  snd (set_file_metadata (kw_date (Some date))
         (snd (set_file_metadata (kw_discovered root name extension n) FileMetadata0))).

Definition sample_img1 : FileMetadata :=
  discover_dated "X:\2018" "IMG_1" "jpg" 1 "20200101-090000".
Definition sample_img2 : FileMetadata :=
  discover_dated "X:\2018" "IMG_2" "jpg" 2 "20200102-100000".
Definition sample_named : FileMetadata :=
  discover_dated "X:\2018" "20200101-090000" "jpg" 1 "20200101-090000".

Definition sample_disk : list string :=
  ["X:\2018\IMG_1.jpg"; "X:\2018\IMG_2.jpg"].

Definition world_of (metas : list FileMetadata) (fs : list string)
  : World (list string) :=
  mkWorld metas [] [] [] fs [].

Lemma rename_file_raises_iff_path_unset_witness :
  fst (rename_file (sample_rename "") 0 NO (world_of [sample_undated] sample_disk))
  = Raise (Exception "1 - Error: File path cannot be none!") /\
  snd (rename_file (sample_rename "") 0 NO (world_of [sample_undated] sample_disk))
  = world_of [sample_undated] sample_disk.
Proof.
  pose proof (rename_file_raises_iff_path_unset (list string)
                (sample_rename "") NO 0 (world_of [sample_undated] sample_disk)
                sample_undated eq_refl) as [H _].
  specialize (H eq_refl). destruct H as (H1 & H2 & _).
  split; [apply (proj2 H1) | apply H2]; vm_compute; reflexivity.
Defined.

(** C9 as worded fails: the proposed full path of the first picture is set,
    its source is locked, and [rename_file] raises the [OSError] of the
    rename. *)
Lemma rename_file_raises_with_path_set :
  new_full_path sample_img1 = Some "X:\2018\20200101-090000.jpg" /\
  fst (rename_file (sample_rename "X:\2018\IMG_1.jpg") 0 NO
         (world_of [sample_img1] sample_disk)) = Raise OSError /\
  ~ ((exists e, fst (rename_file (sample_rename "X:\2018\IMG_1.jpg") 0 NO
                       (world_of [sample_img1] sample_disk)) = Raise e)
     <-> truthy (new_full_path sample_img1) = false).
Proof.
  split; [vm_compute; reflexivity|]. split; [vm_compute; reflexivity|].
  intros [H _].
  assert (E : truthy (new_full_path sample_img1) = false).
  { apply H. exists OSError. vm_compute. reflexivity. }
  vm_compute in E. discriminate.
Qed.

Lemma rename_file_same_name_moves_nothing_witness :
  disk (snd (rename_file (sample_rename "") 0 NO
               (world_of [sample_named] ["X:\2018\20200101-090000.jpg"])))
  = ["X:\2018\20200101-090000.jpg"] /\
  rename_calls (snd (rename_file (sample_rename "") 0 NO
                       (world_of [sample_named] ["X:\2018\20200101-090000.jpg"])))
  = [].
Proof.
  apply (proj1 (rename_file_same_name_moves_nothing (list string)
                  (sample_rename "") NO) 0
           (world_of [sample_named] ["X:\2018\20200101-090000.jpg"])
           sample_named).
  - reflexivity.
  - vm_compute. reflexivity.
Defined.

Lemma sample_headers_ok : forall i m,
  nth_error [sample_img1; sample_img2] i = Some m -> header_ok m.
Proof.
  intros [|[|i]] m H; simpl in H; try (destruct i; discriminate);
    inversion H; subst; intros _; vm_compute; discriminate.
Defined.

(** The second picture is missing on the disk when its turn comes. *)
Definition sample_disk_missing : list string := ["X:\2018\IMG_1.jpg"].

Lemma run_renamer_isolates_failures_witness :
  fst (run_renamer (sample_rename "") NO
         (world_of [sample_img1; sample_img2] sample_disk_missing)) = Ok tt /\
  In ("X:\2018\IMG_2.jpg", "X:\2018\20200102-100000.jpg")
     (rename_calls (snd (run_renamer (sample_rename "") NO
                           (world_of [sample_img1; sample_img2] sample_disk_missing)))) /\
  In (ERROR, "2- IMG_2.jpg - 20200102-100000.jpg: Error: An error occurred while renaming file.")
     (logger (snd (run_renamer (sample_rename "") NO
                     (world_of [sample_img1; sample_img2] sample_disk_missing)))) /\
  disk (before_turn (list string) (sample_rename "") NO
          (world_of [sample_img1; sample_img2] sample_disk_missing) 1)
  = ["X:\2018\20200101-090000.jpg"] /\
  disk (before_turn (list string) (sample_rename "") NO
          (world_of [sample_img1; sample_img2] sample_disk_missing) 2)
  = ["X:\2018\20200101-090000.jpg"].
Proof.
  pose proof (run_renamer_isolates_failures (list string)
                (sample_rename "") NO
                (world_of [sample_img1; sample_img2] sample_disk_missing)
                sample_headers_ok) as (H1 & _ & H2).
  split; [exact H1|].
  assert (E1 : nth_error (list_metadata
                            (world_of [sample_img1; sample_img2] sample_disk_missing)) 0
               = Some sample_img1) by reflexivity.
  assert (E2 : nth_error (list_metadata
                            (world_of [sample_img1; sample_img2] sample_disk_missing)) 1
               = Some sample_img2) by reflexivity.
  destruct (H2 0 sample_img1 "X:\2018\IMG_1.jpg" "X:\2018\20200101-090000.jpg" E1)
    as (_ & _ & _ & _ & S1);
    [vm_compute; reflexivity | vm_compute; reflexivity | vm_compute; reflexivity
    | discriminate | vm_compute; discriminate |].
  destruct (H2 1 sample_img2 "X:\2018\IMG_2.jpg" "X:\2018\20200102-100000.jpg" E2)
    as (_ & _ & C2 & F2 & _);
    [vm_compute; reflexivity | vm_compute; reflexivity | vm_compute; reflexivity
    | discriminate | vm_compute; discriminate |].
  destruct (S1 ["X:\2018\20200101-090000.jpg"]) as [D1 _];
    [vm_compute; reflexivity|].
  destruct F2 as (D2 & _ & _ & L2); [vm_compute; reflexivity|].
  split; [exact C2|]. split; [exact L2|]. split; [exact D1|].
  rewrite D2. exact D1.
Defined.

(** The partial-failure example: the first file is locked, the second one is
    still renamed. *)
Example isolation_example :
  let w := snd (run_renamer (sample_rename "X:\2018\IMG_1.jpg") NO
                  (world_of [sample_img1; sample_img2] sample_disk)) in
  disk w = ["X:\2018\20200102-100000.jpg"; "X:\2018\IMG_1.jpg"] /\
  rename_calls w = [("X:\2018\IMG_1.jpg", "X:\2018\20200101-090000.jpg");
                    ("X:\2018\IMG_2.jpg", "X:\2018\20200102-100000.jpg")] /\
  filter (fun e => match fst e with ERROR => true | INFO => false end) (logger w)
  = [(ERROR, "1- IMG_1.jpg - 20200101-090000.jpg: Error: An error occurred while renaming file.")] /\
  existsb (fun e => snd e =? "2- IMG_2.jpg >> 20200102-100000.jpg: Completed")
          (logger w) = true.
Proof. vm_compute. repeat split. Qed.

(** ** Facts about conflict detection *)

Definition kw_conflict (n : Z) : kwargs :=
  mkKw None None None None None None None 0 (Some YES) (Some (str_int n)) 0.

(** What [check_conflicts] does to one record, given the table. *)
Definition check_one (df : list Row) (m : FileMetadata) : FileMetadata :=
  match query_conflict df (new_full_name m) (no m) with
  | [] => m
  | _ :: _ => snd (set_file_metadata (kw_conflict (no m)) m)
  end.

Lemma query_conflict_nonempty : forall df name n,
  query_conflict df name n <> [] <->
  exists r, In r df /\ actual_full_name (row r) = Some (fstr name) /\ no (row r) <> n.
Proof.
  intros df name n. unfold query_conflict. split.
  - intros H.
    destruct (filter _ df) as [|r l] eqn:E; [contradiction|].
    assert (Hr : In r (filter
      (fun r => opt_str_eqb (actual_full_name (row r)) (Some (fstr name))
                && negb (no (row r) =? n)%Z) df)) by (rewrite E; now left).
    apply filter_In in Hr. destruct Hr as [Hin Hb].
    apply andb_true_iff in Hb. destruct Hb as [H1 H2].
    exists r. split; [exact Hin|]. split; [now apply opt_str_eqb_eq|].
    apply negb_true_iff in H2. now apply Z.eqb_neq.
  - intros (r & Hin & H1 & H2) E.
    assert (Hr : In r (filter
      (fun r => opt_str_eqb (actual_full_name (row r)) (Some (fstr name))
                && negb (no (row r) =? n)%Z) df)).
    { apply filter_In. split; [exact Hin|]. apply andb_true_iff. split.
      - now apply opt_str_eqb_eq.
      - apply negb_true_iff. now apply Z.eqb_neq. }
    rewrite E in Hr. destruct Hr.
Qed.

Section ConflictFacts.

Variable FS : Type.
Local Abbreviation W := (World FS).

(** The body of the loop of [check_conflicts]. *)
Definition check_conflicts_step (i : nat) : M W unit :=
  meta <- get_meta i ;;
  w <- get ;;
  let df_conflict :=
    query_conflict (df_global_media w) (new_full_name meta) (no meta) in
  match df_conflict with
  | [] => ret tt
  | first :: _ =>
      on_meta i (set_file_metadata
                   (mkKw None None None None None None None 0
                         (Some YES) (Some (str_int (no meta))) 0)) ;;;
      meta <- get_meta i ;;
      log_info (str_int (no meta) ++ "- "
                ++ fstr (actual_full_name (row first))
                ++ ": Conflict detected")
  end.

Lemma check_conflicts_unfold : forall w : W,
  check_conflicts NO w
  = for_each (seq 0 (List.length (list_metadata w))) check_conflicts_step w.
Proof. reflexivity. Qed.

Lemma touches_check_conflicts_step : forall i,
  respects FS (touches FS i) (check_conflicts_step i).
Proof.
  intros i. unfold check_conflicts_step.
  apply respects_bind; [apply touches_trans | |].
  { apply respects_get_meta, touches_refl. }
  intros meta.
  apply respects_bind; [apply touches_trans | |].
  { apply respects_get, touches_refl. }
  intros w0.
  destruct (query_conflict _ _ _); [apply respects_ret, touches_refl|].
  apply respects_bind; [apply touches_trans | |].
  { apply touches_on_meta. }
  intros _.
  apply respects_bind; [apply touches_trans | |].
  { apply respects_get_meta, touches_refl. }
  intros m. apply touches_log_info.
Qed.

Lemma check_conflicts_step_run : forall i (w : W) m f,
  nth_error (list_metadata w) i = Some m -> folder m = Some f ->
  fst (check_conflicts_step i w) = Ok tt /\
  nth_error (list_metadata (snd (check_conflicts_step i w))) i
  = Some (check_one (df_global_media w) m).
Proof.
  intros i w m f H Hf.
  remember (check_conflicts_step i w) as res eqn:E.
  unfold check_conflicts_step in E. unfold bind at 1 in E. unfold get_meta at 1 in E.
  rewrite H in E. unfold bind at 1 in E. unfold get at 1 in E.
  unfold check_one.
  destruct (query_conflict (df_global_media w) (new_full_name m) (no m))
    as [|first rest].
  - subst res. split; [reflexivity | exact H].
  - unfold bind at 1 in E. unfold on_meta in E. rewrite H in E.
    pose proof (set_file_metadata_ok (kw_conflict (no m)) m f Hf) as K.
    unfold kw_conflict in *.
    destruct (set_file_metadata _ m) as [r m']. cbn [fst snd] in K. subst r.
    unfold bind, get_meta in E. cbn [list_metadata set_list_metadata] in E.
    rewrite (list_update_same _ i m' m _ H) in E.
    unfold log_info, modify in E. subst res. cbn [fst snd].
    split; [reflexivity|]. cbn [list_metadata set_logger set_list_metadata].
    apply (list_update_same _ i m' m _ H).
Qed.

Lemma check_conflicts_sweep : forall xs (w : W),
  NoDup xs ->
  (forall j, In j xs ->
     exists m, nth_error (list_metadata w) j = Some m /\ folder m <> None) ->
  fst (for_each xs check_conflicts_step w) = Ok tt /\
  df_global_media (snd (for_each xs check_conflicts_step w)) = df_global_media w /\
  (forall j, ~ In j xs ->
     nth_error (list_metadata (snd (for_each xs check_conflicts_step w))) j
     = nth_error (list_metadata w) j) /\
  (forall j m, In j xs -> nth_error (list_metadata w) j = Some m ->
     nth_error (list_metadata (snd (for_each xs check_conflicts_step w))) j
     = Some (check_one (df_global_media w) m)).
Proof.
  induction xs as [|x xs IH]; intros w ND Hf; simpl.
  - repeat split; auto. intros j m [].
  - inversion ND as [|? ? Hx ND']; subst. unfold bind.
    destruct (Hf x (or_introl eq_refl)) as (m & Hm & Hfm).
    destruct (folder m) as [f|] eqn:Ef; [|contradiction].
    destruct (check_conflicts_step_run x w m f Hm Ef) as [K R].
    pose proof (touches_check_conflicts_step x w) as T.
    destruct (check_conflicts_step x w) as [r w1]. cbn [fst snd] in *. subst r.
    destruct T as (_ & F & D & _).
    destruct (IH w1 ND') as (K1 & D1 & F1 & R1).
    { intros j Hj. destruct (Hf j (or_intror Hj)) as (mj & Hmj & Hfj).
      exists mj. split; [|exact Hfj]. rewrite F; [exact Hmj|].
      intros ->. contradiction. }
    split; [exact K1|]. split; [congruence|]. split.
    + intros j Hj. rewrite F1; [apply F; intros ->; apply Hj; now left
                               | intros C; apply Hj; now right].
    + intros j mj [->|Hj] Hmj.
      * rewrite F1; [|exact Hx]. rewrite R. congruence.
      * rewrite (R1 j mj Hj); [now rewrite D|].
        rewrite F; [exact Hmj|]. intros ->. contradiction.
Qed.

End ConflictFacts.

(** The batch of the conflict example: record #2 still carries the original
    name [20200101-090000.jpg]; record #5 resolves to that very date. *)
Definition sample_conflict_world : World unit :=
  snd (create_df_global_media
         (mkWorld
            [snd (set_file_metadata
                    (kw_discovered "X:\2018" "20200101-090000" "jpg" 2) FileMetadata0);
             discover_dated "X:\2018" "IMG_5" "jpg" 5 "20200101-090000"]
            [] [] [] tt [])).

Lemma flagged_record : forall m f,
  folder m = Some f ->
  has_conflict (snd (set_file_metadata (kw_conflict (no m)) m)) = true /\
  conflict_suffix (snd (set_file_metadata (kw_conflict (no m)) m)) = str_int (no m) /\
  no (snd (set_file_metadata (kw_conflict (no m)) m)) = no m /\
  forall d, date_taken m = Some d -> d <> "" ->
    new_full_name (snd (set_file_metadata (kw_conflict (no m)) m))
    = Some (concat_full_name (d ++ mutual_suffix m ++ str_int (no m)) (ext m)).
Proof.
  intros m f Hf.
  pose proof (set_file_metadata_basic (kw_conflict (no m)) m) as B.
  basic_field B has_conflict. basic_field B conflict_suffix. basic_field B no.
  basic_field B mutual_suffix. basic_field B ext.
  rewrite basic_update_has_conflict in E.
  rewrite basic_update_conflict_suffix in E0.
  rewrite basic_update_no in E1.
  rewrite basic_update_mutual_suffix in E2.
  rewrite basic_update_ext in E3.
  split; [exact E|]. split; [exact E0|]. split; [exact E1|].
  intros d Hd Hne.
  destruct (set_file_metadata_dated (kw_conflict (no m)) m f d Hf Hd Hne)
    as (m'' & Em & _ & P).
  rewrite Em in *. cbn [snd] in *.
  cbv zeta in P. unfold proposed in P.
  pose proof (f_equal (fun p => snd (fst p)) P) as P2. cbn [fst snd] in P2.
  rewrite P2, E0, E2, E3. reflexivity.
Qed.

(** ** Conflict detection: the claims *)

(** C2, as the code has it.  On a batch whose records all have a folder,
    [check_conflicts] ends normally; a record for which the table holds a row
    with a different [no] whose original full name equals the record's
    proposed full name is flagged [has_conflict] and gets its own [no], as
    text, for [conflict_suffix]; every other record is left as it is.  The
    suffix is appended without a separator: on the example, record #5 is
    flagged with suffix "5" and its proposed full name becomes
    [20200101-0900005.jpg]. *)
Theorem check_conflicts_flags_own_number :
  (forall (FS : Type) (w : World FS),
      (forall i m, nth_error (list_metadata w) i = Some m -> folder m <> None) ->
      fst (check_conflicts NO w) = Ok tt /\
      forall i m,
        nth_error (list_metadata w) i = Some m ->
        ((exists r, In r (df_global_media w) /\
                    actual_full_name (row r) = Some (fstr (new_full_name m)) /\
                    no (row r) <> no m) ->
         exists m',
           nth_error (list_metadata (snd (check_conflicts NO w))) i = Some m' /\
           has_conflict m' = true /\ conflict_suffix m' = str_int (no m) /\
           no m' = no m /\
           forall d, date_taken m = Some d -> d <> "" ->
             new_full_name m'
             = Some (concat_full_name (d ++ mutual_suffix m ++ str_int (no m))
                       (ext m))) /\
        (~ (exists r, In r (df_global_media w) /\
                      actual_full_name (row r) = Some (fstr (new_full_name m)) /\
                      no (row r) <> no m) ->
         nth_error (list_metadata (snd (check_conflicts NO w))) i = Some m)) /\
  map (fun m => (no m, has_conflict m, conflict_suffix m, new_full_name m))
      (list_metadata (snd (check_conflicts NO sample_conflict_world)))
  = [(2%Z, false, "", None);
     (5%Z, true, "5", Some "20200101-0900005.jpg")].
Proof.
  split; [|vm_compute; reflexivity].
  intros FS w Hf. rewrite check_conflicts_unfold.
  destruct (check_conflicts_sweep FS (seq 0 (List.length (list_metadata w))) w
              (seq_NoDup _ _)) as (K & _ & _ & R).
  { intros j Hj. apply in_seq in Hj.
    destruct (nth_error (list_metadata w) j) as [m|] eqn:E.
    - exists m. split; [reflexivity | eapply Hf; eauto].
    - apply nth_error_None in E. lia. }
  split; [exact K|]. intros i m Hm.
  assert (Hi : In i (seq 0 (List.length (list_metadata w)))).
  { apply in_seq. split; [lia|]. simpl. apply nth_error_Some. congruence. }
  specialize (R i m Hi Hm). rewrite R. unfold check_one.
  destruct (folder m) as [f|] eqn:Ef; [|exfalso; eapply Hf; eauto].
  split.
  - intros Hex. apply query_conflict_nonempty in Hex.
    destruct (query_conflict (df_global_media w) (new_full_name m) (no m));
      [contradiction|].
    eexists. split; [reflexivity|]. exact (flagged_record m f Ef).
  - intros Hno.
    destruct (query_conflict (df_global_media w) (new_full_name m) (no m)) eqn:E;
      [reflexivity|].
    exfalso. apply Hno. apply query_conflict_nonempty. rewrite E. discriminate.
Qed.

Lemma check_conflicts_flags_own_number_witness :
  fst (check_conflicts NO sample_conflict_world) = Ok tt.
Proof.
  refine (proj1 (proj1 check_conflicts_flags_own_number unit
                   sample_conflict_world _)).
  intros i m H. vm_compute in H.
  destruct i as [|[|i]]; [| |destruct i; discriminate];
    inversion H; subst; discriminate.
Defined.

(** C2 as worded fails on its own example: the proposed full name of the
    flagged record #5 is not [20200101-090000-5.jpg]. *)
Lemma conflict_suffix_has_no_dash :
  exists m5,
    nth_error (list_metadata (snd (check_conflicts NO sample_conflict_world))) 1
    = Some m5 /\
    no m5 = 5%Z /\ has_conflict m5 = true /\ conflict_suffix m5 = "5" /\
    new_full_name m5 <> Some "20200101-090000-5.jpg".
Proof.
  eexists. split; [vm_compute; reflexivity|].
  repeat split. discriminate.
Qed.

(** ** Relations kept by every stage of the pipeline *)

Definition kw_mutual (idx : Z) : kwargs :=
  mkKw None None None None None None (Some YES) idx None None 0.
Definition kw_renamed (n : option string) : kwargs :=
  mkKw None None n None None None None 0 None None 0.
Definition kw_reset : kwargs :=
  mkKw None None None None None None None 0 (Some NO) (Some "") 0.

Section PipelineRespects.

Variable FS : Type.
Variable fs_exif : FS -> string -> outcome (string -> option string).
Variable strptime_DT : string -> option datetime.
Variable fs_probe : FS -> string -> option (string -> option string).
Variable fromisoformat : string -> option datetime.
Variable fs_ctime : FS -> string -> option datetime.
Variable fs_mtime : FS -> string -> option datetime.
Variable fs_rename : FS -> string -> string -> option FS.
Local Abbreviation W := (World FS).

(** A preorder on worlds that the primitive steps respect, the record
    updates as long as their arguments are [good]. *)
Variable Q : W -> W -> Prop.
Variable good : kwargs -> Prop.
Hypothesis Q_refl : forall w, Q w w.
Hypothesis Q_trans : forall a b c, Q a b -> Q b c -> Q a c.
Hypothesis Q_log_info : forall msg, respects FS Q (log_info msg).
Hypothesis Q_log_error : forall msg, respects FS Q (log_error msg).
Hypothesis Q_create_df : respects FS Q create_df_global_media.
Hypothesis Q_counts : forall oc, respects FS Q (find_file_counts oc).
Hypothesis Q_os_rename : forall i, respects FS Q (os_rename fs_rename i).
Hypothesis Q_on_meta : forall i kw,
  good kw -> respects FS Q (on_meta i (set_file_metadata kw)).

Ltac q_bind := apply respects_bind; [apply Q_trans | |].
Ltac q_ret := apply respects_ret, Q_refl.
Ltac q_get := apply respects_get, Q_refl.
Ltac q_get_meta := apply respects_get_meta, Q_refl.

Lemma pr_log_header : forall meta what, respects FS Q (log_header meta what).
Proof.
  intros meta what. unfold log_header.
  destruct (no meta =? 1)%Z; [|q_ret].
  destruct (ext meta) as [e|]; [|apply respects_raise, Q_refl].
  q_bind. { apply Q_log_info. }
  intros _. q_bind. { q_get. }
  intros w0. q_bind. { apply Q_log_info. }
  intros _. apply Q_log_info.
Qed.

Lemma pr_rename_file : forall i oc,
  (forall n, good (kw_renamed n)) ->
  respects FS Q (rename_file fs_rename i oc).
Proof.
  intros i oc Hk. unfold rename_file.
  q_bind. { q_get_meta. }
  intros meta.
  apply respects_if; [q_ret|].
  apply respects_if; [apply respects_raise, Q_refl|].
  q_bind.
  - apply respects_if; [apply Q_log_info|].
    q_bind; [apply Q_os_rename | intros _; apply Q_log_info].
  - intros _. apply Q_on_meta. apply Hk.
Qed.

Lemma pr_run_renamer : forall oc,
  (forall n, good (kw_renamed n)) ->
  respects FS Q (run_renamer fs_rename oc).
Proof.
  intros oc Hk. unfold run_renamer.
  q_bind. { apply Q_log_info. }
  intros _. q_bind. { q_get. }
  intros w0. apply respects_for_each; [apply Q_refl | apply Q_trans |].
  intros i _. unfold run_renamer_step.
  q_bind. { q_get_meta. }
  intros meta. q_bind. { apply pr_log_header. }
  intros _. apply respects_try_except; [apply Q_trans | |].
  - q_bind; [apply Q_log_info | intros _; now apply pr_rename_file].
  - intros e. q_bind. { q_get_meta. }
    intros m. apply Q_log_error.
Qed.

Lemma pr_mark_mutual : forall ptrs idx,
  (forall k, good (kw_mutual k)) ->
  respects FS Q (mark_mutual idx ptrs).
Proof.
  induction ptrs as [|p ptrs IH]; intros idx Hk; simpl.
  - q_ret.
  - q_bind; [apply Q_on_meta, Hk | intros _; now apply IH].
Qed.

Lemma pr_search_mutual_names : forall oc,
  (forall k, good (kw_mutual k)) ->
  respects FS Q (search_mutual_names oc).
Proof.
  intros oc Hk. unfold search_mutual_names.
  destruct oc; [q_ret|].
  q_bind. { q_get. }
  intros w0. q_bind; [|intros _; apply Q_create_df].
  apply respects_for_each; [apply Q_refl | apply Q_trans |].
  intros de _.
  apply respects_if; [q_ret | now apply pr_mark_mutual].
Qed.

Lemma pr_check_conflicts : forall oc,
  (forall n, good (kw_conflict n)) ->
  respects FS Q (check_conflicts oc).
Proof.
  intros oc Hk. unfold check_conflicts.
  destruct oc; [q_ret|].
  q_bind. { q_get. }
  intros w0. apply respects_for_each; [apply Q_refl | apply Q_trans |].
  intros i _.
  q_bind. { q_get_meta. }
  intros meta. q_bind. { q_get. }
  intros w1. destruct (query_conflict _ _ _); [q_ret|].
  q_bind. { apply Q_on_meta. apply (Hk (no meta)). }
  intros _. q_bind. { q_get_meta. }
  intros m. apply Q_log_info.
Qed.

Lemma pr_reset_conflicts :
  good kw_reset -> respects FS Q reset_conflicts.
Proof.
  intros Hk. unfold reset_conflicts.
  q_bind. { q_get. }
  intros w0. apply respects_for_each; [apply Q_refl | apply Q_trans |].
  intros i _.
  q_bind. { q_get_meta. }
  intros meta.
  apply respects_if; [q_ret | now apply Q_on_meta].
Qed.

Lemma pr_initialize_conflicts :
  good kw_reset -> respects FS Q initialize_conflicts.
Proof.
  intros Hk. unfold initialize_conflicts.
  q_bind. { q_get. }
  intros w0. apply respects_if; [q_ret|].
  q_bind. { apply Q_log_info. }
  intros _. q_bind. { apply Q_log_info. }
  intros _. now apply pr_reset_conflicts.
Qed.

(** [process_files] after its conflict check. *)
Definition process_rest (only_conflicts : bool) : M W unit :=
  find_file_counts only_conflicts ;;;
  w <- get ;;
  for_each (pointers w)
    (fun i =>
       meta <- get_meta i ;;
       log_header meta "processed" ;;;
       (if negb only_conflicts || has_conflict meta
        then log_info (str_int (no meta) ++ "- " ++ fstr (actual_full_name meta))
        else ret tt) ;;;
       w <- get ;;
       date_taken <-
         (if negb only_conflicts
          then d <- lift (find_date_taken fs_exif strptime_DT fs_probe fromisoformat
                            fs_ctime fs_mtime (disk w) meta) ;;
               ret (date_to_str d)
          else ret None) ;;
       on_meta i (set_file_metadata (kw_date date_taken))) ;;;
  (if negb only_conflicts then create_df_global_media else ret tt) ;;;
  search_mutual_names only_conflicts ;;;
  run_renamer fs_rename only_conflicts.

Lemma process_files_unfold : forall oc (w : W),
  process_files fs_exif strptime_DT fs_probe fromisoformat fs_ctime fs_mtime
    fs_rename oc w
  = (if oc && negb (conflict_exists w) then ret tt
     else check_conflicts oc ;;; process_rest oc) w.
Proof. reflexivity. Qed.

Lemma pr_process_rest : forall oc,
  (forall d, good (kw_date d)) ->
  (forall k, good (kw_mutual k)) ->
  (forall n, good (kw_renamed n)) ->
  respects FS Q (process_rest oc).
Proof.
  intros oc Hd Hm Hr. unfold process_rest.
  q_bind. { apply Q_counts. }
  intros _. q_bind. { q_get. }
  intros w0. q_bind.
  { apply respects_for_each; [apply Q_refl | apply Q_trans |].
    intros i _.
    q_bind. { q_get_meta. }
    intros meta. q_bind. { apply pr_log_header. }
    intros _. q_bind.
    { apply respects_if; [apply Q_log_info | q_ret]. }
    intros _. q_bind. { q_get. }
    intros w1. q_bind.
    { apply respects_if; [|q_ret].
      q_bind; [apply respects_lift, Q_refl|].
      intros d. q_ret. }
    intros d. apply Q_on_meta, Hd. }
  intros _. q_bind.
  { apply respects_if; [apply Q_create_df | q_ret]. }
  intros _. q_bind; [now apply pr_search_mutual_names|].
  intros _. now apply pr_run_renamer.
Qed.

Lemma pr_process_files : forall oc,
  (forall n, good (kw_conflict n)) ->
  (forall d, good (kw_date d)) ->
  (forall k, good (kw_mutual k)) ->
  (forall n, good (kw_renamed n)) ->
  respects FS Q
    (process_files fs_exif strptime_DT fs_probe fromisoformat fs_ctime fs_mtime
       fs_rename oc).
Proof.
  intros oc Hc Hd Hm Hr w. rewrite process_files_unfold.
  destruct (oc && negb (conflict_exists w)); [apply Q_refl|].
  revert w. q_bind; [now apply pr_check_conflicts|].
  intros _. now apply pr_process_rest.
Qed.

End PipelineRespects.

Section StoreFacts.

Variable FS : Type.
Variable fs_exif : FS -> string -> outcome (string -> option string).
Variable strptime_DT : string -> option datetime.
Variable fs_probe : FS -> string -> option (string -> option string).
Variable fromisoformat : string -> option datetime.
Variable fs_ctime : FS -> string -> option datetime.
Variable fs_mtime : FS -> string -> option datetime.
Variable fs_rename : FS -> string -> string -> option FS.
Local Abbreviation W := (World FS).

(** A relation between the old and the new state of every record. *)
Variable R : FileMetadata -> FileMetadata -> Prop.
Hypothesis R_refl : forall m, R m m.
Hypothesis R_trans : forall a b c, R a b -> R b c -> R a c.

Definition store_rel (w w' : W) : Prop :=
  Forall2 R (list_metadata w) (list_metadata w').

Definition kw_keeps (kw : kwargs) : Prop :=
  forall m, R m (snd (set_file_metadata kw m)).

Lemma Forall2_refl : forall l : list FileMetadata, Forall2 R l l.
Proof. induction l; constructor; auto. Qed.

Lemma Forall2_trans : forall a b c : list FileMetadata,
  Forall2 R a b -> Forall2 R b c -> Forall2 R a c.
Proof.
  intros a b c H. revert c. induction H; intros c' H'; inversion H'; subst;
    constructor; eauto.
Qed.

Lemma Forall2_list_update : forall (l : list FileMetadata) i m m',
  nth_error l i = Some m -> R m m' -> Forall2 R l (list_update i m' l).
Proof.
  induction l as [|x l IH]; intros [|i] m m' H Hr; simpl in *; try discriminate.
  - inversion H; subst. constructor; [exact Hr | apply Forall2_refl].
  - constructor; [apply R_refl | eapply IH; eauto].
Qed.

Lemma store_rel_refl : forall w, store_rel w w.
Proof. intros w. apply Forall2_refl. Qed.

Lemma store_rel_trans : forall a b c, store_rel a b -> store_rel b c -> store_rel a c.
Proof. intros a b c. apply Forall2_trans. Qed.

Lemma store_rel_same : forall w w' : W,
  list_metadata w' = list_metadata w -> store_rel w w'.
Proof. intros w w' H. unfold store_rel. rewrite H. apply Forall2_refl. Qed.

Lemma sr_log_info : forall msg, respects FS store_rel (log_info msg).
Proof. intros msg w. apply store_rel_same. reflexivity. Qed.

Lemma sr_log_error : forall msg, respects FS store_rel (log_error msg).
Proof. intros msg w. apply store_rel_same. reflexivity. Qed.

Lemma sr_create_df : respects FS store_rel create_df_global_media.
Proof. intros w. apply store_rel_same. reflexivity. Qed.

Lemma sr_find_file_counts : forall oc, respects FS store_rel (find_file_counts oc).
Proof. intros oc w. apply store_rel_same. reflexivity. Qed.

Lemma sr_os_rename : forall i, respects FS store_rel (os_rename fs_rename i).
Proof. intros i w. apply store_rel_same. apply os_rename_store. Qed.

Lemma sr_on_meta : forall i kw,
  kw_keeps kw -> respects FS store_rel (on_meta i (set_file_metadata kw)).
Proof.
  intros i kw Hk w. unfold on_meta.
  destruct (nth_error (list_metadata w) i) as [m|] eqn:E; [|apply store_rel_refl].
  specialize (Hk m). destruct (set_file_metadata kw m) as [r m'].
  unfold store_rel. cbn [fst snd list_metadata set_list_metadata] in *.
  eapply Forall2_list_update; eauto.
Qed.

Lemma sr_process_files : forall oc,
  (forall n, kw_keeps (kw_conflict n)) ->
  (forall d, kw_keeps (kw_date d)) ->
  (forall k, kw_keeps (kw_mutual k)) ->
  (forall n, kw_keeps (kw_renamed n)) ->
  respects FS store_rel
    (process_files fs_exif strptime_DT fs_probe fromisoformat fs_ctime fs_mtime
       fs_rename oc).
Proof.
  intros oc Hc Hd Hm Hr.
  apply (pr_process_files FS fs_exif strptime_DT fs_probe fromisoformat fs_ctime
           fs_mtime fs_rename store_rel kw_keeps store_rel_refl store_rel_trans
           sr_log_info sr_log_error sr_create_df sr_find_file_counts sr_os_rename
           sr_on_meta); assumption.
Qed.

Lemma sr_initialize_conflicts :
  kw_keeps kw_reset -> respects FS store_rel initialize_conflicts.
Proof.
  intros Hk.
  apply (pr_initialize_conflicts FS store_rel kw_keeps store_rel_refl
           store_rel_trans sr_log_info sr_on_meta Hk).
Qed.

End StoreFacts.

(** ** Facts about discovery *)

(** The records built from one listing, numbered from [i + 1]. *)
Fixpoint records_of (root : string) (i : nat) (lines : list string)
  : list FileMetadata :=
  match lines with
  | [] => []
  | file :: r =>
      match split_dot file with
      | Some (name, extension) =>
          snd (set_file_metadata
                 (kw_discovered root name (lower extension) (Z.of_nat i + 1))
                 FileMetadata0)
          :: records_of root (S i) r
      | None => []
      end
  end.

(** The table built from a list of records. *)
Definition snapshot (l : list FileMetadata) : list Row :=
  map (fun p => mkRow (snd p) (fst p)) (combine (seq 0 (List.length l)) l).

Section FetchFacts.

Variable FS : Type.
Variable fs_walk : FS -> string -> list string.
Variable fs_dir : FS -> string -> string -> option (list string).
Local Abbreviation W := (World FS).

(** The records of one folder, and of the whole walk. *)
Definition folder_records (fs : FS) (root : string) (exts : list string)
  : list FileMetadata :=
  flat_map (fun e => match fs_dir fs root e with
                     | Some lines => records_of root 0 lines
                     | None => []
                     end) exts.

Definition discovered_batch (fs : FS) (base_folder : string) : list FileMetadata :=
  flat_map (fun root => folder_records fs root FILE_EXTENSIONS)
           (fs_walk fs base_folder).

(** Every folder has a name and every listed line has a dot. *)
Definition listing_ok (fs : FS) (base_folder : string) : Prop :=
  forall root, In root (fs_walk fs base_folder) ->
    root <> "" /\
    forall e lines, In e FILE_EXTENSIONS -> fs_dir fs root e = Some lines ->
      Forall (fun file => split_dot file <> None) lines.

Lemma build_records_run : forall lines root i (w : W),
  root <> "" -> Forall (fun file => split_dot file <> None) lines ->
  build_records root i lines w
  = (Ok tt, set_list_metadata (list_metadata w ++ records_of root i lines)%list w).
Proof.
  induction lines as [|file lines IH]; intros root i w Hr Hl.
  - simpl. rewrite app_nil_r. destruct w; reflexivity.
  - inversion Hl as [|? ? Hf Hl']; subst. simpl.
    destruct (split_dot file) as [[name extension]|]; [|contradiction].
    pose proof (set_file_metadata_ok
                  (kw_discovered root name (lower extension) (Z.of_nat i + 1))
                  FileMetadata0 root) as K.
    unfold kw_discovered in *.
    destruct (set_file_metadata _ FileMetadata0) as [res m].
    cbn [fst snd] in *.
    rewrite K.
    2:{ cbn [kw_folder folder FileMetadata0]. unfold por.
        now rewrite (truthy_some root Hr). }
    unfold bind, lift, modify. rewrite (IH root (S i) _ Hr Hl').
    cbn [list_metadata set_list_metadata]. rewrite <- app_assoc. reflexivity.
Qed.

Lemma fetch_folder_run : forall exts root (w : W),
  root <> "" ->
  (forall e lines, In e exts -> fs_dir (disk w) root e = Some lines ->
     Forall (fun file => split_dot file <> None) lines) ->
  for_each exts
    (fun e => w <- get ;;
              match fs_dir (disk w) root e with
              | Some lines => build_records root 0 lines
              | None => ret tt
              end) w
  = (Ok tt, set_list_metadata
              (list_metadata w ++ folder_records (disk w) root exts)%list w).
Proof.
  induction exts as [|e exts IH]; intros root w Hr Hl.
  - simpl. unfold folder_records. simpl. rewrite app_nil_r. destruct w; reflexivity.
  - simpl. unfold bind at 1. unfold bind at 1. unfold get at 1.
    unfold folder_records. simpl flat_map. fold (folder_records (disk w) root exts).
    destruct (fs_dir (disk w) root e) as [lines|] eqn:E.
    + rewrite (build_records_run lines root 0 w Hr (Hl e lines (or_introl eq_refl) E)).
      rewrite IH; [|exact Hr|].
      * cbn [list_metadata set_list_metadata disk]. now rewrite <- app_assoc.
      * intros e' lines' He'. cbn [disk set_list_metadata]. apply Hl. now right.
    + unfold ret. rewrite IH; [reflexivity | exact Hr |].
      intros e' lines' He'. apply Hl. now right.
Qed.

Lemma fetch_walk_run : forall roots (w : W),
  (forall root, In root roots ->
     root <> "" /\
     forall e lines, In e FILE_EXTENSIONS -> fs_dir (disk w) root e = Some lines ->
       Forall (fun file => split_dot file <> None) lines) ->
  exists w',
    for_each roots
      (fun root =>
         for_each FILE_EXTENSIONS
           (fun e => w <- get ;;
                     match fs_dir (disk w) root e with
                     | Some lines => build_records root 0 lines
                     | None => ret tt
                     end) ;;;
         create_df_global_media) w = (Ok tt, w') /\
    list_metadata w'
    = (list_metadata w
       ++ flat_map (fun root => folder_records (disk w) root FILE_EXTENSIONS) roots)%list /\
    df_global_media w'
    = match roots with [] => df_global_media w | _ => snapshot (list_metadata w') end /\
    disk w' = disk w /\ logger w' = logger w /\ rename_calls w' = rename_calls w.
Proof.
  induction roots as [|root roots IH]; intros w Hl.
  - exists w. simpl. rewrite app_nil_r. repeat split.
  - destruct (Hl root (or_introl eq_refl)) as [Hr Hf].
    rewrite for_each_cons. unfold bind at 1. unfold bind at 1.
    rewrite (fetch_folder_run FILE_EXTENSIONS root w Hr Hf).
    unfold create_df_global_media at 1, modify.
    cbn [list_metadata set_list_metadata].
    set (w1 := set_df _ _).
    destruct (IH w1) as (w' & E & S & D & K & L & C).
    { intros r Hin. apply Hl. now right. }
    exists w'. split; [exact E|]. split.
    { rewrite S. unfold w1. cbn [list_metadata set_df set_list_metadata disk].
      simpl flat_map. now rewrite <- app_assoc. }
    split.
    { rewrite D. destruct roots; [|reflexivity].
      simpl in E. unfold ret in E. inversion E; subst w'. reflexivity. }
    repeat split; assumption.
Qed.

Lemma fetch_list_files_run : forall base_folder (w : W),
  listing_ok (disk w) base_folder ->
  exists w',
    fetch_list_files fs_walk fs_dir base_folder w = (Ok tt, w') /\
    list_metadata w' = discovered_batch (disk w) base_folder /\
    df_global_media w'
    = match fs_walk (disk w) base_folder with
      | [] => df_global_media w
      | _ => snapshot (list_metadata w')
      end /\
    disk w' = disk w /\ logger w' = logger w /\ rename_calls w' = rename_calls w.
Proof.
  intros base_folder w Hl. unfold fetch_list_files.
  unfold bind at 1. unfold modify at 1. unfold bind at 1. unfold get at 1.
  cbn [disk set_list_metadata].
  destruct (fetch_walk_run (fs_walk (disk w) base_folder) (set_list_metadata [] w))
    as (w' & E & S & D & K & L & C).
  { intros root Hin. exact (Hl root Hin). }
  exists w'. split; [exact E|]. repeat split; assumption.
Qed.

Lemma records_of_no : forall lines root i,
  Forall (fun file => split_dot file <> None) lines ->
  map no (records_of root i lines)
  = map (fun k => (Z.of_nat k + 1)%Z) (seq i (List.length lines)).
Proof.
  induction lines as [|file lines IH]; intros root i Hl; [reflexivity|].
  inversion Hl as [|? ? Hf Hl']; subst. simpl.
  destruct (split_dot file) as [[name extension]|]; [|contradiction].
  simpl. rewrite (IH root (S i) Hl'). f_equal.
  pose proof (set_file_metadata_basic
                (kw_discovered root name (lower extension) (Z.of_nat i + 1))
                FileMetadata0) as B.
  basic_field B no. rewrite E, basic_update_no.
  unfold kw_discovered, por_int. cbn [kw_no no FileMetadata0].
  destruct (Z.of_nat i + 1 =? 0)%Z eqn:Z0; [|reflexivity].
  apply Z.eqb_eq in Z0. lia.
Qed.

End FetchFacts.

Lemma map_flat_map : forall A B C (f : B -> C) (g : A -> list B) l,
  map f (flat_map g l) = flat_map (fun x => map f (g x)) l.
Proof.
  intros A B C f g l. induction l as [|x l IH]; simpl; [reflexivity|].
  now rewrite map_app, IH.
Qed.

Lemma flat_map_ext_in : forall A B (f g : A -> list B) l,
  (forall x, In x l -> f x = g x) -> flat_map f l = flat_map g l.
Proof.
  intros A B f g l H. induction l as [|x l IH]; simpl; [reflexivity|].
  rewrite (H x (or_introl eq_refl)), IH; [reflexivity|].
  intros y Hy. apply H. now right.
Qed.

Lemma numbering_NoDup : forall n,
  NoDup (map (fun k => (Z.of_nat k + 1)%Z) (seq 0 n)).
Proof.
  intros n. apply Injective_map_NoDup; [|apply seq_NoDup].
  intros a b H. lia.
Qed.

(** The sequence number is kept by an update that does not pass [no]. *)
Definition same_no (m m' : FileMetadata) : Prop := no m' = no m.

Lemma same_no_keeps : forall kw, kw_no kw = 0%Z -> kw_keeps same_no kw.
Proof.
  intros kw H m. unfold same_no.
  pose proof (set_file_metadata_basic kw m) as B. basic_field B no.
  rewrite E, basic_update_no, H. reflexivity.
Qed.

Lemma same_no_store : forall FS (w w' : World FS),
  store_rel FS same_no w w' ->
  map no (list_metadata w') = map no (list_metadata w).
Proof.
  intros FS w w' H. unfold store_rel in H.
  induction H as [|a b l l' Hab H IH]; simpl; [reflexivity|].
  unfold same_no in Hab. now rewrite Hab, IH.
Qed.

Lemma lower_empty : forall x, lower x = "" -> x = "".
Proof. intros [|c x] H; [reflexivity | discriminate]. Qed.

(** The record that discovery builds for the line [name.x], numbered [n]. *)
Lemma discovered_record : forall root name x n,
  root <> "" -> n <> 0%Z ->
  no (snd (set_file_metadata (kw_discovered root name (lower x) n) FileMetadata0)) = n /\
  folder (snd (set_file_metadata (kw_discovered root name (lower x) n) FileMetadata0))
  = Some root /\
  (name <> "" ->
   first_name (snd (set_file_metadata (kw_discovered root name (lower x) n) FileMetadata0))
   = Some name /\
   actual_name (snd (set_file_metadata (kw_discovered root name (lower x) n) FileMetadata0))
   = Some name) /\
  (x <> "" ->
   ext (snd (set_file_metadata (kw_discovered root name (lower x) n) FileMetadata0))
   = Some (lower x)) /\
  (name <> "" -> x <> "" ->
   actual_full_name
     (snd (set_file_metadata (kw_discovered root name (lower x) n) FileMetadata0))
   = Some (name ++ "." ++ lower x)).
Proof.
  intros root name x n Hr Hno.
  set (kw := kw_discovered root name (lower x) n).
  pose proof (set_file_metadata_basic kw FileMetadata0) as B.
  assert (F : first_name (basic_update kw FileMetadata0)
              = por (kw_first_name kw) (first_name FileMetadata0))
    by basic_update_cases kw.
  basic_field B no. basic_field B folder. basic_field B first_name.
  basic_field B actual_name. basic_field B ext.
  rewrite basic_update_no in E. rewrite basic_update_folder in E0.
  rewrite F in E1. rewrite basic_update_actual_name in E2.
  rewrite basic_update_ext in E3.
  unfold kw in E, E0, E1, E2, E3.
  cbn [kw_discovered kw_no kw_folder kw_first_name kw_actual_name kw_ext
       FileMetadata0 no folder first_name actual_name ext] in E, E0, E1, E2, E3.
  unfold por in E0, E1, E2, E3. rewrite (truthy_some root Hr) in E0.
  subst kw.
  assert (Hlow : x <> "" -> lower x <> "").
  { intros Hx C. apply Hx. now apply lower_empty. }
  split.
  { rewrite E. unfold por_int. destruct (n =? 0)%Z eqn:Z0; [|reflexivity].
    apply Z.eqb_eq in Z0. contradiction. }
  split; [exact E0|]. split.
  { intros Hn. rewrite (truthy_some name Hn) in E1, E2. now split. }
  split.
  { intros Hx. rewrite E3. now rewrite (truthy_some (lower x) (Hlow Hx)). }
  intros Hn Hx'.
  set (kw := kw_discovered root name (lower x) n).
  pose proof (set_file_metadata_original kw FileMetadata0 root name) as O.
  assert (A1 : por (kw_folder kw) (folder FileMetadata0) = Some root).
  { unfold kw. cbn [kw_discovered kw_folder]. unfold por.
    now rewrite (truthy_some root Hr). }
  assert (A2 : por (kw_actual_name kw) (actual_name FileMetadata0) = Some name).
  { unfold kw. cbn [kw_discovered kw_actual_name]. unfold por.
    now rewrite (truthy_some name Hn). }
  specialize (O A1 A2 Hn). unfold original in O.
  pose proof (f_equal fst O) as O1. cbn [fst] in O1. rewrite O1.
  unfold kw. cbn [kw_discovered kw_ext ext FileMetadata0]. unfold por.
  pose proof (Hlow Hx') as Hl.
  rewrite (truthy_some (lower x) Hl). unfold concat_full_name.
  destruct (lower x =? "") eqn:Q; [apply String.eqb_eq in Q; contradiction|].
  reflexivity.
Qed.

(** The record of the [k]-th line of a listing. *)
Lemma records_of_nth : forall lines root i k line,
  Forall (fun file => split_dot file <> None) lines ->
  nth_error lines k = Some line ->
  exists name x,
    split_dot line = Some (name, x) /\
    nth_error (records_of root i lines) k
    = Some (snd (set_file_metadata
                   (kw_discovered root name (lower x) (Z.of_nat (i + k) + 1))
                   FileMetadata0)).
Proof.
  induction lines as [|file lines IH]; intros root i k line Hl Hk.
  - destruct k; discriminate.
  - inversion Hl as [|? ? Hf Hl']; subst. simpl records_of.
    destruct (split_dot file) as [[name x]|] eqn:E; [|contradiction].
    destruct k as [|k]; simpl in Hk.
    + inversion Hk; subst line. exists name, x. split; [exact E|].
      simpl. now rewrite Nat.add_0_r.
    + destruct (IH root (S i) k line Hl' Hk) as (name' & x' & E' & N').
      exists name', x'. split; [exact E'|]. simpl.
      replace (i + S k) with (S i + k) by lia. exact N'.
Qed.

Lemma records_of_length : forall lines root i,
  Forall (fun file => split_dot file <> None) lines ->
  List.length (records_of root i lines) = List.length lines.
Proof.
  induction lines as [|file lines IH]; intros root i Hl; [reflexivity|].
  inversion Hl as [|? ? Hf Hl']; subst. simpl.
  destruct (split_dot file) as [[name x]|]; [|contradiction].
  simpl. now rewrite IH.
Qed.

(** A folder with one picture and one film, and a folder with two pictures
    and one film. *)
Definition sample_walk (_ : unit) (_ : string) : list string := ["X:\2018"].
Definition sample_dir (_ : unit) (_ : string) (e : string) : option (list string) :=
  if e =? "jpg" then Some ["a.jpg"]
  else if e =? "mov" then Some ["b.mov"]
  else None.
Definition sample_dir_pair (_ : unit) (_ : string) (e : string)
  : option (list string) :=
  if e =? "jpg" then Some ["a.jpg"; "b.JPG"]
  else if e =? "mov" then Some ["c.mov"]
  else None.

(** ** Sequence numbers: the claims *)

(** C3, as the code has it.  Discovery builds the batch listing by listing
    (one folder, one extension), one record per line, in the order of the
    lines, and numbers the records of each listing from one: the record of
    the [k]-th line of a listing carries the number [k], the folder of the
    listing, the name of the line and its extension in lower case.  The
    numbers are therefore unique within a listing, not across the batch.  No
    later stage of the pipeline changes the number of a record. *)
Theorem sequence_numbers_per_listing :
  (forall (FS : Type) fs_walk fs_dir (fs : FS) base_folder,
      listing_ok FS fs_walk fs_dir fs base_folder ->
      fst (fetch_list_files fs_walk fs_dir base_folder (initial_world fs)) = Ok tt /\
      list_metadata
        (snd (fetch_list_files fs_walk fs_dir base_folder (initial_world fs)))
      = flat_map
          (fun root =>
             flat_map
               (fun e => match fs_dir fs root e with
                         | Some lines => records_of root 0 lines
                         | None => []
                         end)
               FILE_EXTENSIONS)
          (fs_walk fs base_folder) /\
      map no (list_metadata
                (snd (fetch_list_files fs_walk fs_dir base_folder (initial_world fs))))
      = flat_map
          (fun root =>
             flat_map
               (fun e => match fs_dir fs root e with
                         | Some lines =>
                             map (fun k => (Z.of_nat k + 1)%Z)
                                 (seq 0 (List.length lines))
                         | None => []
                         end)
               FILE_EXTENSIONS)
          (fs_walk fs base_folder)) /\
  (forall root lines,
      root <> "" -> Forall (fun file => split_dot file <> None) lines ->
      List.length (records_of root 0 lines) = List.length lines /\
      forall k line,
        nth_error lines k = Some line ->
        exists name x m,
          split_dot line = Some (name, x) /\
          nth_error (records_of root 0 lines) k = Some m /\
          no m = (Z.of_nat k + 1)%Z /\ folder m = Some root /\
          (name <> "" -> first_name m = Some name /\ actual_name m = Some name) /\
          (x <> "" -> ext m = Some (lower x)) /\
          (name <> "" -> x <> "" ->
           actual_full_name m = Some (name ++ "." ++ lower x))) /\
  (forall n, NoDup (map (fun k => (Z.of_nat k + 1)%Z) (seq 0 n))) /\
  (forall (FS : Type) fs_exif strptime_DT fs_probe fromisoformat fs_ctime fs_mtime
          fs_rename oc (w : World FS),
      map no (list_metadata
                (snd (process_files fs_exif strptime_DT fs_probe fromisoformat
                        fs_ctime fs_mtime fs_rename oc w)))
      = map no (list_metadata w) /\
      map no (list_metadata (snd (initialize_conflicts w)))
      = map no (list_metadata w)).
Proof.
  split; [|split; [|split; [exact numbering_NoDup|]]].
  - intros FS fs_walk fs_dir fs base_folder Hl.
    destruct (fetch_list_files_run FS fs_walk fs_dir base_folder (initial_world fs) Hl)
      as (w' & E & S & _).
    rewrite E. cbn [fst snd]. split; [reflexivity|].
    split; [rewrite S; reflexivity|].
    rewrite S. unfold discovered_batch. cbn [disk initial_world].
    rewrite map_flat_map. apply flat_map_ext_in. intros root Hr.
    unfold folder_records. rewrite map_flat_map.
    apply flat_map_ext_in. intros e He.
    destruct (fs_dir fs root e) as [lines|] eqn:D; [|reflexivity].
    apply records_of_no. destruct (Hl root Hr) as [_ Hf]. now apply (Hf e).
  - intros root lines Hr Hl. split; [now apply records_of_length|].
    intros k line Hk.
    destruct (records_of_nth lines root 0 k line Hl Hk) as (name & x & E & N).
    exists name, x,
      (snd (set_file_metadata
              (kw_discovered root name (lower x) (Z.of_nat (0 + k) + 1))
              FileMetadata0)).
    split; [exact E|]. split; [exact N|].
    assert (Hno : (Z.of_nat (0 + k) + 1)%Z <> 0%Z) by lia.
    destruct (discovered_record root name x (Z.of_nat (0 + k) + 1) Hr Hno)
      as (A1 & A2 & A3 & A4 & A5).
    split; [exact A1|]. split; [exact A2|]. split; [exact A3|].
    split; [exact A4 | exact A5].
  - intros FS fs_exif strptime_DT fs_probe fromisoformat fs_ctime fs_mtime
           fs_rename oc w.
    assert (Rr : forall m, same_no m m) by reflexivity.
    assert (Rt : forall a b c, same_no a b -> same_no b c -> same_no a c)
      by (unfold same_no; intros; congruence).
    split; apply same_no_store.
    + apply sr_process_files; auto; intros; now apply same_no_keeps.
    + apply sr_initialize_conflicts; auto. now apply same_no_keeps.
Qed.

Lemma sample_listing_ok : listing_ok unit sample_walk sample_dir tt "X:\".
Proof.
  intros root [<-|[]]. split; [discriminate|].
  intros e lines He Hd. unfold sample_dir in Hd.
  destruct (e =? "jpg"); [inversion Hd; repeat constructor; discriminate|].
  destruct (e =? "mov"); [inversion Hd; repeat constructor; discriminate|].
  discriminate.
Defined.

Lemma sample_pair_ok : listing_ok unit sample_walk sample_dir_pair tt "X:\".
Proof.
  intros root [<-|[]]. split; [discriminate|].
  intros e lines He Hd. unfold sample_dir_pair in Hd.
  destruct (e =? "jpg"); [inversion Hd; repeat constructor; discriminate|].
  destruct (e =? "mov"); [inversion Hd; repeat constructor; discriminate|].
  discriminate.
Defined.

Lemma sequence_numbers_per_listing_witness :
  fst (fetch_list_files sample_walk sample_dir_pair "X:\" (initial_world tt)) = Ok tt /\
  list_metadata
    (snd (fetch_list_files sample_walk sample_dir_pair "X:\" (initial_world tt)))
  = (records_of "X:\2018" 0 ["a.jpg"; "b.JPG"]
     ++ records_of "X:\2018" 0 ["c.mov"])%list /\
  exists m,
    nth_error (records_of "X:\2018" 0 ["a.jpg"; "b.JPG"]) 1 = Some m /\
    no m = 2%Z /\ first_name m = Some "b" /\ ext m = Some "jpg" /\
    actual_full_name m = Some "b.jpg".
Proof.
  destruct sequence_numbers_per_listing as (H1 & H2 & _).
  destruct (H1 unit sample_walk sample_dir_pair tt "X:\" sample_pair_ok)
    as (K & L & _).
  split; [exact K|]. split; [exact L|].
  destruct (H2 "X:\2018" ["a.jpg"; "b.JPG"]) as [_ R].
  { discriminate. }
  { repeat constructor; discriminate. }
  destruct (R 1 "b.JPG" eq_refl) as (name & x & m & E & N & A1 & _ & A3 & A4 & A5).
  vm_compute in E. inversion E; subst name x.
  exists m. split; [exact N|]. split; [exact A1|].
  split; [apply A3; discriminate|]. split; [apply A4; discriminate|].
  apply A5; discriminate.
Defined.

(** C3 as worded fails: the picture and the film of one folder both carry
    the number 1. *)
Lemma sequence_numbers_repeat_across_listings :
  map (fun m => (no m, actual_full_name m))
      (list_metadata
         (snd (fetch_list_files sample_walk sample_dir "X:\" (initial_world tt))))
  = [(1%Z, Some "a.jpg"); (1%Z, Some "b.mov")] /\
  ~ NoDup (map no (list_metadata
                     (snd (fetch_list_files sample_walk sample_dir "X:\"
                             (initial_world tt))))).
Proof.
  split; [vm_compute; reflexivity|].
  intros H. vm_compute in H. inversion H as [|? ? Hn _]. apply Hn. now left.
Qed.

(** ** Facts about a freshly discovered batch *)

Lemma split_dot_join : forall file name x,
  split_dot file = Some (name, x) -> file = name ++ "." ++ x.
Proof.
  induction file as [|c file IH]; intros name x H; simpl in H; [discriminate|].
  destruct (Ascii.eqb c ".") eqn:E.
  - apply Ascii.eqb_eq in E. subst c. inversion H; subst. reflexivity.
  - destruct (split_dot file) as [[a b]|]; [|discriminate].
    inversion H; subst. simpl. f_equal. now apply IH.
Qed.

Lemma dotted_not_None : forall name e, name ++ "." ++ e <> "None".
Proof.
  intros name e H.
  destruct name as [|c1 [|c2 [|c3 [|c4 [|c5 name]]]]]; simpl in H;
    inversion H.
Qed.

Lemma set_file_metadata_original_inert : forall kw m,
  truthy (por (kw_actual_name kw) (actual_name m)) = false ->
  original (snd (set_file_metadata kw m)) = original m.
Proof.
  intros kw m H. rewrite set_file_metadata_split. unfold bind.
  set (m1 := basic_update kw m).
  assert (O1 : original m1 = original m).
  { unfold original, m1.
    destruct (basic_update_derived kw m) as (-> & -> & _). reflexivity. }
  rewrite set_actual_name_inert.
  - cbn [snd]. rewrite set_new_name_original. exact O1.
  - unfold m1. now rewrite basic_update_actual_name.
Qed.

(** What the pipeline needs of a discovered record. *)
Definition fresh (m : FileMetadata) : Prop :=
  new_full_name m = None /\ has_conflict m = false /\
  actual_full_name m <> Some "None".

Lemma proposed_eq_inv : forall a b,
  proposed a = proposed b ->
  new_name a = new_name b /\ new_full_name a = new_full_name b /\
  new_full_path a = new_full_path b.
Proof. intros a b H. unfold proposed in H. inversion H. auto. Qed.

Lemma proposed_eq_inv' : forall a x y z,
  proposed a = (x, y, z) -> new_full_name a = y.
Proof. intros a x y z H. unfold proposed in H. now inversion H. Qed.

Lemma original_inv : forall a x y,
  original a = (x, y) -> actual_full_name a = x /\ actual_full_path a = y.
Proof. intros a x y H. unfold original in H. inversion H. auto. Qed.

Lemma kw_discovered_folder : forall root name e n m,
  root <> "" -> por (kw_folder (kw_discovered root name e n)) (folder m) = Some root.
Proof.
  intros root name e n m Hr. cbn [kw_discovered kw_folder]. unfold por.
  now rewrite (truthy_some root Hr).
Qed.

Lemma discovered_fresh : forall root name x n,
  root <> "" -> name ++ "." ++ x <> "None." ->
  fresh (snd (set_file_metadata (kw_discovered root name (lower x) n) FileMetadata0)).
Proof.
  intros root name x n Hr Hline.
  assert (Hp : new_full_name
                 (snd (set_file_metadata (kw_discovered root name (lower x) n)
                         FileMetadata0)) = None).
  { pose proof (set_file_metadata_unnamed (kw_discovered root name (lower x) n)
                  FileMetadata0) as P.
    cbn [kw_discovered kw_date_taken kw_new_name date_taken new_name FileMetadata0]
      in P.
    specialize (P eq_refl eq_refl). apply proposed_eq_inv in P.
    destruct P as (_ & P & _). rewrite P. reflexivity. }
  assert (Hc : has_conflict
                 (snd (set_file_metadata (kw_discovered root name (lower x) n)
                         FileMetadata0)) = false).
  { pose proof (set_file_metadata_basic (kw_discovered root name (lower x) n)
                  FileMetadata0) as B.
    basic_field B has_conflict. rewrite E, basic_update_has_conflict. reflexivity. }
  split; [exact Hp|]. split; [exact Hc|].
  destruct (name =? "") eqn:En.
  - pose proof (set_file_metadata_original_inert
                  (kw_discovered root name (lower x) n) FileMetadata0) as O.
    cbn [kw_discovered kw_actual_name actual_name FileMetadata0] in O.
    assert (T : truthy (por (Some name) None) = false).
    { unfold por. simpl truthy. now rewrite En. }
    specialize (O T). unfold original at 2 in O.
    cbn [actual_full_name actual_full_path FileMetadata0] in O.
    apply original_inv in O. destruct O as [O _]. rewrite O. discriminate.
  - assert (Hn : name <> "") by (intros ->; discriminate).
    pose proof (set_file_metadata_original (kw_discovered root name (lower x) n)
                  FileMetadata0 root name
                  (kw_discovered_folder root name (lower x) n FileMetadata0 Hr)) as O.
    cbn [kw_discovered kw_actual_name actual_name kw_ext ext FileMetadata0] in O.
    assert (A : por (Some name) None = Some name).
    { unfold por. now rewrite (truthy_some name Hn). }
    specialize (O A Hn). apply original_inv in O. destruct O as [O _].
    rewrite O. unfold por. simpl truthy.
    destruct (lower x =? "") eqn:Ex.
    + apply String.eqb_eq in Ex. apply lower_empty in Ex. subst x.
      simpl negb. cbv iota. simpl concat_full_name.
      intros C. inversion C; subst. apply Hline. reflexivity.
    + simpl negb. cbv iota. unfold concat_full_name. rewrite Ex.
      intros C. inversion C as [C']. exact (dotted_not_None _ _ C').
Qed.

Lemma records_of_fresh : forall lines root i,
  root <> "" -> ~ In "None." lines ->
  Forall fresh (records_of root i lines).
Proof.
  induction lines as [|file lines IH]; intros root i Hr Hn; simpl; [constructor|].
  destruct (split_dot file) as [[name x]|] eqn:E; [|constructor].
  constructor.
  - apply discovered_fresh; [exact Hr|].
    rewrite <- (split_dot_join file name x E). intros C. apply Hn. now left.
  - apply IH; [exact Hr|]. intros C. apply Hn. now right.
Qed.

Lemma snapshot_rows : forall l r, In r (snapshot l) -> In (row r) l.
Proof.
  intros l r H. unfold snapshot in H. apply in_map_iff in H.
  destruct H as ([i m] & <- & Hin). cbn [row snd].
  eapply in_combine_r. exact Hin.
Qed.

Lemma Forall_list_update : forall A (P : A -> Prop) i v l,
  Forall P l -> P v -> Forall P (list_update i v l).
Proof.
  intros A P i v l H. revert i. induction H; intros [|i] Hv; simpl;
    constructor; auto.
Qed.

(** ** The pipeline as wired never flags a conflict *)

Section WiredFacts.

Variable FS : Type.
Variable fs_walk : FS -> string -> list string.
Variable fs_dir : FS -> string -> string -> option (list string).
Variable fs_exif : FS -> string -> outcome (string -> option string).
Variable strptime_DT : string -> option datetime.
Variable fs_probe : FS -> string -> option (string -> option string).
Variable fromisoformat : string -> option datetime.
Variable fs_ctime : FS -> string -> option datetime.
Variable fs_mtime : FS -> string -> option datetime.
Variable fs_rename : FS -> string -> string -> option FS.
Local Abbreviation W := (World FS).

(** No record and no row of the table carries the conflict flag. *)
Definition conflict_free (w : W) : Prop :=
  Forall (fun m => has_conflict m = false) (list_metadata w) /\
  Forall (fun r => has_conflict (row r) = false) (df_global_media w).

Definition keeps_conflict_free (w w' : W) : Prop :=
  conflict_free w -> conflict_free w'.

(** Updates that do not raise the flag. *)
Definition no_flag (kw : kwargs) : Prop := kw_has_conflict kw <> Some true.

Lemma kcf_refl : forall w, keeps_conflict_free w w.
Proof. intros w H. exact H. Qed.

Lemma kcf_trans : forall a b c,
  keeps_conflict_free a b -> keeps_conflict_free b c -> keeps_conflict_free a c.
Proof. intros a b c H1 H2 H. auto. Qed.

Lemma kcf_same : forall w w' : W,
  list_metadata w' = list_metadata w -> df_global_media w' = df_global_media w ->
  keeps_conflict_free w w'.
Proof. intros w w' S D [H1 H2]. split; congruence. Qed.

Lemma kcf_log_info : forall msg, respects FS keeps_conflict_free (log_info msg).
Proof. intros msg w. apply kcf_same; reflexivity. Qed.

Lemma kcf_log_error : forall msg, respects FS keeps_conflict_free (log_error msg).
Proof. intros msg w. apply kcf_same; reflexivity. Qed.

Lemma kcf_counts : forall oc, respects FS keeps_conflict_free (find_file_counts oc).
Proof. intros oc w. apply kcf_same; reflexivity. Qed.

Lemma kcf_os_rename : forall i, respects FS keeps_conflict_free (os_rename fs_rename i).
Proof.
  intros i w. apply kcf_same; [apply os_rename_store|].
  now destruct (touches_os_rename FS fs_rename i w) as (_ & _ & D & _).
Qed.

Lemma kcf_create_df : respects FS keeps_conflict_free create_df_global_media.
Proof.
  intros w [H1 _]. split; [exact H1|].
  unfold create_df_global_media, modify. cbn [snd df_global_media set_df].
  apply Forall_forall. intros r Hr.
  apply (snapshot_rows (list_metadata w)) in Hr.
  rewrite Forall_forall in H1. now apply H1.
Qed.

Lemma kcf_on_meta : forall i kw,
  no_flag kw -> respects FS keeps_conflict_free (on_meta i (set_file_metadata kw)).
Proof.
  intros i kw Hk w [H1 H2]. unfold on_meta.
  destruct (nth_error (list_metadata w) i) as [m|] eqn:E; [|split; assumption].
  pose proof (set_file_metadata_basic kw m) as B. basic_field B has_conflict.
  rewrite basic_update_has_conflict in E0.
  destruct (set_file_metadata kw m) as [r m']. cbn [fst snd] in *.
  split; [|exact H2]. cbn [list_metadata set_list_metadata].
  apply Forall_list_update; [exact H1|]. rewrite E0.
  unfold no_flag in Hk. destruct (kw_has_conflict kw) as [[|]|].
  - contradiction.
  - reflexivity.
  - rewrite Forall_forall in H1. apply H1. eapply nth_error_In; eauto.
Qed.

Lemma conflict_free_process_rest : forall oc (w : W),
  conflict_free w ->
  conflict_free (snd (process_rest FS fs_exif strptime_DT fs_probe fromisoformat
                        fs_ctime fs_mtime fs_rename oc w)).
Proof.
  intros oc w.
  apply (pr_process_rest FS fs_exif strptime_DT fs_probe fromisoformat fs_ctime
           fs_mtime fs_rename keeps_conflict_free no_flag kcf_refl kcf_trans
           kcf_log_info kcf_log_error kcf_create_df kcf_counts kcf_os_rename
           kcf_on_meta); intros; discriminate.
Qed.

Lemma conflict_free_run_renamer : forall oc (w : W),
  conflict_free w -> conflict_free (snd (run_renamer fs_rename oc w)).
Proof.
  intros oc w.
  apply (pr_run_renamer FS fs_rename keeps_conflict_free no_flag kcf_refl kcf_trans
           kcf_log_info kcf_log_error kcf_os_rename kcf_on_meta);
    intros; discriminate.
Qed.

Lemma conflict_free_search_mutual_names : forall oc (w : W),
  conflict_free w -> conflict_free (snd (search_mutual_names oc w)).
Proof.
  intros oc w.
  apply (pr_search_mutual_names FS keeps_conflict_free no_flag kcf_refl kcf_trans
           kcf_create_df kcf_on_meta); intros; discriminate.
Qed.

Lemma conflict_free_no_conflict : forall w : W,
  conflict_free w -> conflict_exists w = false.
Proof.
  intros w [_ H]. unfold conflict_exists.
  induction H as [|r l Hr H IH]; simpl; [reflexivity|].
  rewrite Hr. exact IH.
Qed.

(** With nothing proposed and no file called [None], the conflict check
    finds nothing and changes nothing. *)
Definition pristine (w : W) : Prop :=
  Forall (fun m => new_full_name m = None) (list_metadata w) /\
  Forall (fun r => actual_full_name (row r) <> Some "None") (df_global_media w).

Lemma query_conflict_unset : forall (df : list Row) n,
  Forall (fun r => actual_full_name (row r) <> Some "None") df ->
  query_conflict df None n = [].
Proof.
  intros df n H. unfold query_conflict.
  induction H as [|r l Hr H IH]; simpl; [reflexivity|].
  rewrite (opt_str_eqb_neq _ _ Hr). simpl. exact IH.
Qed.

Lemma check_conflicts_sweep_pristine : forall xs (w : W),
  pristine w ->
  (forall j, In j xs -> j < List.length (list_metadata w)) ->
  for_each xs (check_conflicts_step FS) w = (Ok tt, w).
Proof.
  induction xs as [|x xs IH]; intros w P Hx; [reflexivity|].
  rewrite for_each_cons. unfold bind at 1.
  assert (E : check_conflicts_step FS x w = (Ok tt, w)).
  { unfold check_conflicts_step. unfold bind at 1. unfold get_meta.
    destruct (nth_error (list_metadata w) x) as [m|] eqn:N.
    - unfold bind at 1. unfold get at 1.
      destruct P as [P1 P2]. rewrite Forall_forall in P1.
      rewrite (P1 m (nth_error_In _ _ N)).
      rewrite (query_conflict_unset _ _ P2). reflexivity.
    - apply nth_error_None in N. specialize (Hx x (or_introl eq_refl)). lia. }
  rewrite E. apply IH; [exact P|]. intros j Hj. apply Hx. now right.
Qed.

Lemma check_conflicts_pristine : forall w : W,
  pristine w -> check_conflicts NO w = (Ok tt, w).
Proof.
  intros w P. rewrite check_conflicts_unfold.
  apply check_conflicts_sweep_pristine; [exact P|].
  intros j Hj. apply in_seq in Hj. lia.
Qed.

(** Every folder has a name, every listed line has a dot, and no listed
    line is [None.]. *)
Definition listing_sane (fs : FS) (base_folder : string) : Prop :=
  listing_ok FS fs_walk fs_dir fs base_folder /\
  forall root e lines,
    In root (fs_walk fs base_folder) -> In e FILE_EXTENSIONS ->
    fs_dir fs root e = Some lines -> ~ In "None." lines.

Definition after_fetch (fs : FS) (base_folder : string) : W :=
  snd (fetch_list_files fs_walk fs_dir base_folder (initial_world fs)).

Definition after_first_pass (fs : FS) (base_folder : string) : W :=
  snd (process_files fs_exif strptime_DT fs_probe fromisoformat fs_ctime fs_mtime
         fs_rename NO (after_fetch fs base_folder)).

Lemma discovered_batch_fresh : forall fs base_folder,
  listing_sane fs base_folder ->
  Forall fresh (discovered_batch FS fs_walk fs_dir fs base_folder).
Proof.
  intros fs base_folder [Hok Hnone]. unfold discovered_batch.
  apply Forall_flat_map. apply Forall_forall. intros root Hroot.
  unfold folder_records. apply Forall_flat_map. apply Forall_forall. intros e He.
  destruct (fs_dir fs root e) as [lines|] eqn:D; [|constructor].
  apply records_of_fresh.
  - now destruct (Hok root Hroot).
  - eapply Hnone; eauto.
Qed.

Lemma after_fetch_state : forall fs base_folder,
  listing_sane fs base_folder ->
  fetch_list_files fs_walk fs_dir base_folder (initial_world fs)
  = (Ok tt, after_fetch fs base_folder) /\
  Forall fresh (list_metadata (after_fetch fs base_folder)) /\
  Forall (fun r => fresh (row r)) (df_global_media (after_fetch fs base_folder)).
Proof.
  intros fs base_folder Hs. unfold after_fetch.
  destruct (fetch_list_files_run FS fs_walk fs_dir base_folder (initial_world fs)
              (proj1 Hs)) as (w' & E & S & D & _).
  rewrite E. cbn [snd]. split; [reflexivity|].
  assert (F : Forall fresh (list_metadata w')).
  { rewrite S. now apply discovered_batch_fresh. }
  split; [exact F|]. rewrite D. cbn [disk initial_world df_global_media].
  destruct (fs_walk fs base_folder); [constructor|].
  apply Forall_forall. intros r Hr. apply snapshot_rows in Hr.
  rewrite Forall_forall in F. now apply F.
Qed.

End WiredFacts.

Arguments conflict_free {FS}.
Arguments pristine {FS}.

(** A walk over one folder holding two pictures. *)
Definition sample_dir_two (_ : unit) (_ : string) (e : string) : option (list string) :=
  if e =? "jpg" then Some ["IMG_1.jpg"; "IMG_2.jpg"] else None.

(** C10. In the pipeline as wired the conflict check of the first pass runs
    on the freshly discovered batch, where no record has a proposed full name:
    it finds nothing and changes nothing (and in conflict-only mode it is
    skipped).  No later stage raises the flag, so after the first pass no
    record and no row of the table has [has_conflict = True],
    [conflict_exists()] is false, [initialize_conflicts] does nothing, and the
    conflict-only pass returns at once; the run ends in the state the first
    pass left. *)
Theorem pipeline_never_flags_conflicts :
  forall (FS : Type) fs_walk fs_dir fs_exif strptime_DT fs_probe fromisoformat
         fs_ctime fs_mtime fs_rename (fs : FS) base_folder,
    listing_sane FS fs_walk fs_dir fs base_folder ->
    Forall (fun m => new_full_name m = None /\ has_conflict m = false)
           (list_metadata (after_fetch FS fs_walk fs_dir fs base_folder)) /\
    check_conflicts NO (after_fetch FS fs_walk fs_dir fs base_folder)
    = (Ok tt, after_fetch FS fs_walk fs_dir fs base_folder) /\
    (forall w : World FS, check_conflicts YES w = (Ok tt, w)) /\
    (forall oc (w : World FS),
        conflict_free w ->
        conflict_free (snd (search_mutual_names oc w)) /\
        conflict_free (snd (run_renamer fs_rename oc w))) /\
    conflict_free
      (after_first_pass FS fs_walk fs_dir fs_exif strptime_DT fs_probe
         fromisoformat fs_ctime fs_mtime fs_rename fs base_folder) /\
    conflict_exists
      (after_first_pass FS fs_walk fs_dir fs_exif strptime_DT fs_probe
         fromisoformat fs_ctime fs_mtime fs_rename fs base_folder) = false /\
    initialize_conflicts
      (after_first_pass FS fs_walk fs_dir fs_exif strptime_DT fs_probe
         fromisoformat fs_ctime fs_mtime fs_rename fs base_folder)
    = (Ok tt, after_first_pass FS fs_walk fs_dir fs_exif strptime_DT fs_probe
                fromisoformat fs_ctime fs_mtime fs_rename fs base_folder) /\
    process_files fs_exif strptime_DT fs_probe fromisoformat fs_ctime fs_mtime
      fs_rename YES
      (after_first_pass FS fs_walk fs_dir fs_exif strptime_DT fs_probe
         fromisoformat fs_ctime fs_mtime fs_rename fs base_folder)
    = (Ok tt, after_first_pass FS fs_walk fs_dir fs_exif strptime_DT fs_probe
                fromisoformat fs_ctime fs_mtime fs_rename fs base_folder) /\
    snd (main fs_walk fs_dir fs_exif strptime_DT fs_probe fromisoformat fs_ctime
           fs_mtime fs_rename base_folder (initial_world fs))
    = after_first_pass FS fs_walk fs_dir fs_exif strptime_DT fs_probe
        fromisoformat fs_ctime fs_mtime fs_rename fs base_folder.
Proof.
  intros FS fs_walk fs_dir fs_exif strptime_DT fs_probe fromisoformat
         fs_ctime fs_mtime fs_rename fs base_folder Hs.
  destruct (after_fetch_state FS fs_walk fs_dir fs base_folder Hs) as (Ef & Fs & Fd).
  set (w1 := after_fetch FS fs_walk fs_dir fs base_folder) in *.
  assert (P1 : pristine w1).
  { split.
    - eapply Forall_impl; [|exact Fs]. intros m (H & _). exact H.
    - eapply Forall_impl; [|exact Fd]. intros r (_ & _ & H). exact H. }
  assert (C1 : conflict_free w1).
  { split.
    - eapply Forall_impl; [|exact Fs]. intros m (_ & H & _). exact H.
    - eapply Forall_impl; [|exact Fd]. intros r (_ & H & _). exact H. }
  pose proof (check_conflicts_pristine FS w1 P1) as Ec.
  assert (E2 : after_first_pass FS fs_walk fs_dir fs_exif strptime_DT fs_probe
                 fromisoformat fs_ctime fs_mtime fs_rename fs base_folder
               = snd (process_rest FS fs_exif strptime_DT fs_probe fromisoformat
                        fs_ctime fs_mtime fs_rename NO w1)).
  { unfold after_first_pass. fold w1. rewrite process_files_unfold.
    cbn [NO andb]. unfold bind. rewrite Ec. reflexivity. }
  set (w2 := after_first_pass FS fs_walk fs_dir fs_exif strptime_DT fs_probe
               fromisoformat fs_ctime fs_mtime fs_rename fs base_folder) in *.
  assert (C2 : conflict_free w2).
  { rewrite E2. now apply conflict_free_process_rest. }
  pose proof (conflict_free_no_conflict FS w2 C2) as X2.
  assert (I2 : initialize_conflicts w2 = (Ok tt, w2)).
  { unfold initialize_conflicts, bind, get. now rewrite X2. }
  assert (Y2 : process_files fs_exif strptime_DT fs_probe fromisoformat fs_ctime
                 fs_mtime fs_rename YES w2 = (Ok tt, w2)).
  { rewrite process_files_unfold. now rewrite X2. }
  split.
  { eapply Forall_impl; [|exact Fs]. intros m (H & H' & _). now split. }
  split; [exact Ec|]. split; [reflexivity|]. split.
  { intros oc w Hw. split.
    - now apply conflict_free_search_mutual_names.
    - now apply conflict_free_run_renamer. }
  split; [exact C2|]. split; [exact X2|]. split; [exact I2|]. split; [exact Y2|].
  unfold main. unfold bind at 1. rewrite Ef. fold w1.
  unfold bind at 1.
  assert (E3 : snd (process_files fs_exif strptime_DT fs_probe fromisoformat
                      fs_ctime fs_mtime fs_rename NO w1) = w2) by reflexivity.
  destruct (process_files fs_exif strptime_DT fs_probe fromisoformat fs_ctime
              fs_mtime fs_rename NO w1) as [[[]|e] w2'];
    cbn [snd] in E3; subst w2'; [|reflexivity].
  unfold bind at 1. rewrite I2. rewrite Y2. reflexivity.
Qed.

Definition sample_fs_exif (_ : unit) (_ : string) : outcome (string -> option string) :=
  Ok sample_exif.
Definition sample_fs_probe (_ : unit) (_ : string) : option (string -> option string) :=
  None.
Definition sample_fromisoformat (_ : string) : option datetime := None.
Definition sample_fs_time (_ : unit) (_ : string) : option datetime :=
  Some (mkDT 2021 3 4 5 6 7 0).
Definition sample_fs_rename (_ : unit) (_ _ : string) : option unit := Some tt.

Lemma sample_listing_sane :
  listing_sane unit sample_walk sample_dir_two tt "X:\".
Proof.
  split.
  - intros root [<-|[]]. split; [discriminate|].
    intros e lines He Hd. unfold sample_dir_two in Hd.
    destruct (e =? "jpg"); [|discriminate].
    inversion Hd. repeat constructor; discriminate.
  - intros root e lines Hr He Hd. unfold sample_dir_two in Hd.
    destruct (e =? "jpg"); [|discriminate].
    inversion Hd. intros [C|[C|[]]]; discriminate.
Defined.

Lemma pipeline_never_flags_conflicts_witness :
  conflict_exists
    (after_first_pass unit sample_walk sample_dir_two sample_fs_exif strptime_stamp
       sample_fs_probe sample_fromisoformat sample_fs_time sample_fs_time
       sample_fs_rename tt "X:\") = false.
Proof.
  exact (proj1 (proj2 (proj2 (proj2 (proj2 (proj2
           (pipeline_never_flags_conflicts unit sample_walk sample_dir_two
              sample_fs_exif strptime_stamp sample_fs_probe sample_fromisoformat
              sample_fs_time sample_fs_time sample_fs_rename tt "X:\"
              sample_listing_sane))))))).
Defined.

(** The whole run on that folder: both pictures resolve to the same date and
    are told apart by their mutual order; no conflict is ever flagged. *)
Example main_example :
  map (fun m => (no m, actual_full_name m, has_conflict m))
      (list_metadata
         (snd (main sample_walk sample_dir_two sample_fs_exif strptime_stamp
                 sample_fs_probe sample_fromisoformat sample_fs_time sample_fs_time
                 sample_fs_rename "X:\" (initial_world tt))))
  = [(1%Z, Some "20200101-090000-01.jpg", false);
     (2%Z, Some "20200101-090000-02.jpg", false)].
Proof. vm_compute. reflexivity. Qed.

(** ** Facts about mutual groups *)

Lemma for_each_ext : forall S X (xs : list X) (b1 b2 : X -> M S unit),
  (forall x, b1 x = b2 x) -> for_each xs b1 = for_each xs b2.
Proof.
  intros S X xs b1 b2 H. induction xs as [|x xs IH]; simpl; [reflexivity|].
  now rewrite H, IH.
Qed.

Lemma for_each_map : forall S X Y (f : X -> Y) (xs : list X) (body : Y -> M S unit),
  for_each (map f xs) body = for_each xs (fun x => body (f x)).
Proof.
  intros S X Y f xs body. induction xs as [|x xs IH]; simpl; [reflexivity|].
  now rewrite IH.
Qed.

Lemma NoDup_map_filter : forall A B (f : A -> B) (P : A -> bool) l,
  NoDup (map f l) -> NoDup (map f (filter P l)).
Proof.
  intros A B f P l. induction l as [|x l IH]; simpl; intros H; [constructor|].
  inversion H as [|? ? Hx Hl]; subst.
  destruct (P x); simpl; [|now apply IH].
  constructor; [|now apply IH].
  intros C. apply Hx. apply in_map_iff in C. destruct C as (y & E & Hy).
  apply filter_In in Hy. apply in_map_iff. exists y. tauto.
Qed.

Lemma combine_seq_In : forall (l : list FileMetadata) a i m,
  In (i, m) (combine (seq a (List.length l)) l) <->
  a <= i /\ nth_error l (i - a) = Some m.
Proof.
  induction l as [|x l IH]; intros a i m; simpl.
  - split; [intros [] | intros [_ H]]. destruct (i - a); discriminate.
  - rewrite IH. split.
    + intros [H|[H1 H2]].
      * inversion H; subst. split; [lia|]. now rewrite Nat.sub_diag.
      * split; [lia|]. replace (i - a) with (S (i - S a)) by lia. exact H2.
    + intros [H1 H2]. destruct (Nat.eq_dec a i) as [->|Hne].
      * left. rewrite Nat.sub_diag in H2. simpl in H2. now inversion H2.
      * right. split; [lia|].
        replace (i - a) with (S (i - S a)) in H2 by lia. exact H2.
Qed.

Lemma snapshot_In : forall l r,
  In r (snapshot l) <-> nth_error l (metadata r) = Some (row r).
Proof.
  intros l r. unfold snapshot. rewrite in_map_iff. split.
  - intros ([i m] & <- & H). apply combine_seq_In in H. cbn [row metadata fst snd].
    destruct H as [_ H]. now rewrite Nat.sub_0_r in H.
  - intros H. exists (metadata r, row r). split; [destruct r; reflexivity|].
    apply combine_seq_In. split; [lia|]. now rewrite Nat.sub_0_r.
Qed.

Lemma snapshot_pointers : forall l,
  map metadata (snapshot l) = seq 0 (List.length l).
Proof.
  intros l. unfold snapshot. rewrite map_map. cbn [metadata].
  assert (H : forall a, map (fun p : nat * FileMetadata => fst p)
                            (combine (seq a (List.length l)) l)
                        = seq a (List.length l)).
  { induction l as [|x l IH]; intros a; simpl; [reflexivity|]. now rewrite IH. }
  apply H.
Qed.

Lemma marked_record : forall m f k,
  folder m = Some f -> (k > 0)%Z ->
  fst (set_file_metadata (kw_mutual k) m) = Ok tt /\
  is_mutual (snd (set_file_metadata (kw_mutual k) m)) = true /\
  mutual_order (snd (set_file_metadata (kw_mutual k) m)) = k /\
  mutual_suffix (snd (set_file_metadata (kw_mutual k) m)) = "-" ++ format_02d k /\
  date_taken (snd (set_file_metadata (kw_mutual k) m)) = date_taken m /\
  ext (snd (set_file_metadata (kw_mutual k) m)) = ext m /\
  forall d, date_taken m = Some d -> d <> "" ->
    new_full_name (snd (set_file_metadata (kw_mutual k) m))
    = Some (concat_full_name (d ++ ("-" ++ format_02d k) ++ conflict_suffix m) (ext m)).
Proof.
  intros m f k Hf Hk.
  assert (Hgt : (k >? 0)%Z = true) by (apply Z.gtb_lt; lia).
  pose proof (set_file_metadata_basic (kw_mutual k) m) as B.
  basic_field B is_mutual. basic_field B mutual_order. basic_field B mutual_suffix.
  basic_field B date_taken. basic_field B ext. basic_field B conflict_suffix.
  rewrite basic_update_is_mutual in E.
  rewrite basic_update_mutual_order in E0.
  rewrite basic_update_mutual_suffix in E1.
  rewrite basic_update_date_taken in E2.
  rewrite basic_update_ext in E3.
  rewrite basic_update_conflict_suffix in E4.
  cbn [kw_mutual kw_is_mutual kw_mutual_order kw_date_taken kw_ext
       kw_conflict_suffix] in E, E0, E1, E2, E3, E4.
  rewrite Hgt in E0, E1. rewrite por_none in E2, E3.
  split; [apply (set_file_metadata_ok (kw_mutual k) m f); exact Hf|].
  split; [exact E|]. split; [exact E0|]. split; [exact E1|].
  split; [exact E2|]. split; [exact E3|].
  intros d Hd Hne.
  destruct (set_file_metadata_dated (kw_mutual k) m f d Hf Hd Hne)
    as (m'' & Em & _ & P).
  rewrite Em in *. cbn [snd] in *.
  cbv zeta in P. apply proposed_eq_inv' in P.
  rewrite P, E1, E3, E4. reflexivity.
Qed.

Section MutualFacts.

Variable FS : Type.
Local Abbreviation W := (World FS).

(** The records behind the pointers exist and have a folder. *)
Definition markable (w : W) (g : list nat) : Prop :=
  forall p, In p g ->
    exists m, nth_error (list_metadata w) p = Some m /\ folder m <> None.

Lemma mark_mutual_run : forall g idx (w : W),
  NoDup g -> markable w g -> (idx >= 0)%Z ->
  fst (mark_mutual idx g w) = Ok tt /\
  df_global_media (snd (mark_mutual idx g w)) = df_global_media w /\
  (forall p, ~ In p g ->
     nth_error (list_metadata (snd (mark_mutual idx g w))) p
     = nth_error (list_metadata w) p) /\
  (forall l1 p l2 m,
     g = (l1 ++ p :: l2)%list -> nth_error (list_metadata w) p = Some m ->
     nth_error (list_metadata (snd (mark_mutual idx g w))) p
     = Some (snd (set_file_metadata
                    (kw_mutual (idx + Z.of_nat (List.length l1) + 1)) m))).
Proof.
  induction g as [|q g IH]; intros idx w ND Hm Hidx.
  - simpl. repeat split; auto. intros [|? ?] p l2 m C; discriminate.
  - inversion ND as [|? ? Hq ND']; subst.
    destruct (Hm q (or_introl eq_refl)) as (mq & Nq & Fq).
    destruct (folder mq) as [f|] eqn:Ef; [|contradiction].
    assert (Hk : (idx + 1 > 0)%Z) by lia.
    destruct (marked_record mq f (idx + 1)%Z Ef Hk) as (Ok1 & _).
    simpl mark_mutual. unfold bind. unfold on_meta. rewrite Nq.
    fold (kw_mutual (idx + 1)).
    destruct (set_file_metadata (kw_mutual (idx + 1)) mq) as [r mq'] eqn:Es.
    cbn [fst] in Ok1. subst r.
    set (w1 := set_list_metadata (list_update q mq' (list_metadata w)) w).
    assert (Hm1 : markable w1 g).
    { intros p Hp. destruct (Hm p (or_intror Hp)) as (mp & Np & Fp).
      exists mp. split; [|exact Fp]. unfold w1. cbn [list_metadata set_list_metadata].
      rewrite list_update_other; [exact Np|]. intros ->. contradiction. }
    destruct (IH (idx + 1)%Z w1 ND' Hm1 ltac:(lia)) as (K & D & F & R).
    split; [exact K|]. split; [exact D|]. split.
    + intros p Hp. rewrite F; [|intros C; apply Hp; now right].
      unfold w1. cbn [list_metadata set_list_metadata].
      apply list_update_other. intros ->. apply Hp. now left.
    + intros l1 p l2 m Hg Np. destruct l1 as [|x l1]; simpl in Hg;
        inversion Hg; subst.
      * rewrite F; [|exact Hq]. unfold w1. cbn [list_metadata set_list_metadata].
        rewrite (list_update_same _ p mq' mq _ Nq).
        rewrite Nq in Np. inversion Np; subst m. cbn [List.length].
        replace (idx + Z.of_nat 0 + 1)%Z with (idx + 1)%Z by lia.
        now rewrite Es.
      * assert (Hpx : p <> x).
        { intros ->. apply Hq. apply in_or_app. right. now left. }
        rewrite (R l1 p l2 m eq_refl).
        -- cbn [List.length].
           replace (idx + 1 + Z.of_nat (List.length l1) + 1)%Z
             with (idx + Z.of_nat (S (List.length l1)) + 1)%Z by lia.
           reflexivity.
        -- unfold w1. cbn [list_metadata set_list_metadata].
           rewrite list_update_other; [exact Np | exact Hpx].
Qed.

(** The body of the outer loop of [search_mutual_names], on the pointers of
    one group. *)
Definition mark_group (g : list nat) : M W unit :=
  if (List.length g <=? 1)%nat then ret tt else mark_mutual 0 g.

Fixpoint disjoint_groups (gs : list (list nat)) : Prop :=
  match gs with
  | [] => True
  | g :: r =>
      (forall g' p, In g' r -> In p g -> ~ In p g') /\ disjoint_groups r
  end.

Lemma mark_group_run : forall g (w : W),
  NoDup g -> markable w g ->
  fst (mark_group g w) = Ok tt /\
  df_global_media (snd (mark_group g w)) = df_global_media w /\
  (forall p, ~ In p g \/ List.length g <= 1 ->
     nth_error (list_metadata (snd (mark_group g w))) p
     = nth_error (list_metadata w) p) /\
  (forall l1 p l2 m,
     g = (l1 ++ p :: l2)%list -> 2 <= List.length g ->
     nth_error (list_metadata w) p = Some m ->
     nth_error (list_metadata (snd (mark_group g w))) p
     = Some (snd (set_file_metadata
                    (kw_mutual (Z.of_nat (List.length l1) + 1)) m))).
Proof.
  intros g w ND Hm. unfold mark_group.
  destruct (List.length g <=? 1)%nat eqn:E.
  - apply Nat.leb_le in E. repeat split; auto. intros; lia.
  - apply Nat.leb_gt in E.
    destruct (mark_mutual_run g 0%Z w ND Hm ltac:(lia)) as (K & D & F & R).
    split; [exact K|]. split; [exact D|]. split.
    + intros p [Hp|Hp]; [now apply F | lia].
    + intros l1 p l2 m Hg _ Np. exact (R l1 p l2 m Hg Np).
Qed.

Lemma mark_groups_run : forall gs (w : W),
  (forall g, In g gs -> NoDup g /\ markable w g) ->
  disjoint_groups gs ->
  fst (for_each gs mark_group w) = Ok tt /\
  df_global_media (snd (for_each gs mark_group w)) = df_global_media w /\
  (forall i,
     (forall g, In g gs -> In i g -> List.length g <= 1) ->
     nth_error (list_metadata (snd (for_each gs mark_group w))) i
     = nth_error (list_metadata w) i) /\
  (forall i g l1 l2 m,
     In g gs -> g = (l1 ++ i :: l2)%list -> 2 <= List.length g ->
     nth_error (list_metadata w) i = Some m ->
     nth_error (list_metadata (snd (for_each gs mark_group w))) i
     = Some (snd (set_file_metadata
                    (kw_mutual (Z.of_nat (List.length l1) + 1)) m))).
Proof.
  induction gs as [|g gs IH]; intros w Hg Hd.
  - simpl. repeat split; auto. intros i g l1 l2 m [].
  - destruct Hd as [Hd1 Hd2].
    destruct (Hg g (or_introl eq_refl)) as [NDg Mg].
    destruct (mark_group_run g w NDg Mg) as (K & D & F & R).
    rewrite for_each_cons. unfold bind.
    destruct (mark_group g w) as [r w1]. cbn [fst snd] in *. subst r.
    assert (Hg1 : forall g', In g' gs -> NoDup g' /\ markable w1 g').
    { intros g' Hin. destruct (Hg g' (or_intror Hin)) as [ND' M'].
      split; [exact ND'|]. intros p Hp. destruct (M' p Hp) as (mp & Np & Fp).
      exists mp. split; [|exact Fp]. rewrite F; [exact Np|].
      left. intros C. exact (Hd1 g' p Hin C Hp). }
    destruct (IH w1 Hg1 Hd2) as (K1 & D1 & F1 & R1).
    split; [exact K1|]. split; [congruence|]. split.
    + intros i Hi. rewrite F1; [|intros g' Hin; apply Hi; now right].
      apply F. destruct (in_dec Nat.eq_dec i g) as [Hin|Hnin].
      * right. apply (Hi g (or_introl eq_refl) Hin).
      * now left.
    + intros i g0 l1 l2 m [<-|Hin] Hsplit Hlen Ni.
      * rewrite F1.
        -- exact (R l1 i l2 m Hsplit Hlen Ni).
        -- intros g' Hin' Hi. exfalso. apply (Hd1 g' i Hin'); [|exact Hi].
           rewrite Hsplit. apply in_or_app. right. now left.
      * apply (R1 i g0 l1 l2 m Hin Hsplit Hlen).
        rewrite F; [exact Ni|]. left. intros C.
        apply (Hd1 g0 i Hin C). rewrite Hsplit. apply in_or_app. right. now left.
Qed.

End MutualFacts.

Lemma NoDup_list_prod : forall A B (l1 : list A) (l2 : list B),
  NoDup l1 -> NoDup l2 -> NoDup (list_prod l1 l2).
Proof.
  intros A B l1 l2 H1 H2. induction H1 as [|x l1 Hx H1 IH]; simpl; [constructor|].
  apply NoDup_app.
  - apply Injective_map_NoDup; [|exact H2]. intros a b E. now inversion E.
  - exact IH.
  - intros [a b] Ha Hb. apply in_map_iff in Ha. destruct Ha as (y & E & _).
    inversion E; subst. apply in_prod_iff in Hb. tauto.
Qed.

Lemma opt_str_eqb_refl : forall a, opt_str_eqb a a = true.
Proof. intros a. now apply opt_str_eqb_eq. Qed.

Lemma unique_In : forall xs x, In x (unique xs) <-> In x xs.
Proof.
  induction xs as [|y xs IH]; intros x; simpl; [tauto|].
  rewrite filter_In, IH. split.
  - intros [H|[H _]]; auto.
  - intros [H|H]; [now left|].
    destruct (opt_str_eqb y x) eqn:E.
    + left. now apply opt_str_eqb_eq.
    + right. split; [exact H | reflexivity].
Qed.

Lemma unique_NoDup : forall xs, NoDup (unique xs).
Proof.
  induction xs as [|y xs IH]; simpl; constructor.
  - intros C. apply filter_In in C. destruct C as [_ C]. cbn beta in C.
    rewrite opt_str_eqb_refl in C. discriminate.
  - now apply NoDup_filter.
Qed.

(** The pointers of the group selected by one (date, extension) pair. *)
Definition pair_ptrs (df : list Row) (de : option string * string) : list nat :=
  map metadata (query_mutual df (fst de) (snd de)).

Lemma pair_ptrs_In : forall l dv e p,
  In p (pair_ptrs (snapshot l) (dv, e)) <->
  exists m, nth_error l p = Some m /\
            date_taken m = Some (fstr dv) /\ ext m = Some e.
Proof.
  intros l dv e p. unfold pair_ptrs, query_mutual. cbn [fst snd].
  rewrite in_map_iff. split.
  - intros (r & <- & Hr). apply filter_In in Hr. destruct Hr as [Hin Hb].
    apply andb_true_iff in Hb. destruct Hb as [H1 H2].
    apply opt_str_eqb_eq in H1. apply opt_str_eqb_eq in H2.
    apply snapshot_In in Hin. exists (row r). auto.
  - intros (m & Hn & Hd & He). exists (mkRow m p). split; [reflexivity|].
    apply filter_In. split.
    + apply snapshot_In. exact Hn.
    + cbn [row]. apply andb_true_iff. split; now apply opt_str_eqb_eq.
Qed.

Lemma pair_ptrs_NoDup : forall l de, NoDup (pair_ptrs (snapshot l) de).
Proof.
  intros l de. unfold pair_ptrs, query_mutual. apply NoDup_map_filter.
  rewrite snapshot_pointers. apply seq_NoDup.
Qed.

Lemma disjoint_groups_map : forall X (f : X -> list nat) (xs : list X),
  NoDup xs ->
  (forall x y p, In x xs -> In y xs -> In p (f x) -> In p (f y) -> x = y) ->
  disjoint_groups (map f xs).
Proof.
  intros X f xs ND. induction ND as [|x xs Hx ND IH]; intros H; simpl; [exact I|].
  split.
  - intros g' p Hg' Hp C. apply in_map_iff in Hg'. destruct Hg' as (y & <- & Hy).
    assert (x = y) by (apply (H x y p); simpl; auto). subst. contradiction.
  - apply IH. intros a b p Ha Hb. apply H; now right.
Qed.

Lemma FILE_EXTENSIONS_NoDup : NoDup FILE_EXTENSIONS.
Proof. unfold FILE_EXTENSIONS. repeat constructor; simpl; intuition discriminate. Qed.

Lemma search_mutual_names_unfold : forall FS (w : World FS),
  search_mutual_names NO w
  = (for_each
       (map (pair_ptrs (df_global_media w))
            (list_prod (unique (map (fun r => date_taken (row r))
                                    (df_global_media w)))
                       FILE_EXTENSIONS))
       (mark_group FS) ;;;
     create_df_global_media) w.
Proof.
  intros FS w. unfold search_mutual_names. cbn [NO]. unfold bind at 1. unfold get.
  rewrite for_each_map.
  rewrite (for_each_ext _ _ _ _
             (fun de => mark_group FS (pair_ptrs (df_global_media w) de))).
  - reflexivity.
  - intros de. unfold mark_group, pair_ptrs. now rewrite length_map.
Qed.

Lemma create_df_snapshot : forall FS (w : World FS),
  create_df_global_media w
  = (Ok tt, set_df (snapshot (list_metadata w)) w).
Proof. reflexivity. Qed.

Lemma ext_in_true : forall e l, In e l -> ext_in (Some e) l = true.
Proof.
  intros e l H. simpl. apply existsb_exists. exists e. split; [exact H|].
  apply String.eqb_refl.
Qed.

Section MutualGroups.

Variable FS : Type.
Variable w : World FS.
Hypothesis Hsync : df_global_media w = snapshot (list_metadata w).
Hypothesis Hrec : forall m, In m (list_metadata w) ->
                            folder m <> None /\ date_taken m <> None.

Let pairs : list (option string * string) :=
  list_prod (unique (map (fun r => date_taken (row r)) (df_global_media w)))
            FILE_EXTENSIONS.

Lemma pairs_dated : forall dv e, In (dv, e) pairs ->
  In e FILE_EXTENSIONS /\ exists d, dv = Some d.
Proof.
  intros dv e H. unfold pairs in H. apply in_prod_iff in H. destruct H as [H1 H2].
  split; [exact H2|]. apply (proj1 (unique_In _ _)) in H1. apply in_map_iff in H1.
  destruct H1 as (r & <- & Hr). rewrite Hsync in Hr. apply snapshot_In in Hr.
  apply nth_error_In in Hr. destruct (Hrec _ Hr) as [_ Hd].
  destruct (date_taken (row r)) as [d|]; [now exists d | contradiction].
Qed.

Lemma pairs_own : forall i m e,
  nth_error (list_metadata w) i = Some m -> In e FILE_EXTENSIONS ->
  In (date_taken m, e) pairs.
Proof.
  intros i m e Hn He. unfold pairs. apply in_prod_iff. split; [|exact He].
  apply (proj2 (unique_In _ _)). apply in_map_iff.
  exists (mkRow m i). split; [reflexivity|].
  rewrite Hsync. apply snapshot_In. exact Hn.
Qed.

Lemma pairs_member : forall dv e i m,
  In (dv, e) pairs -> nth_error (list_metadata w) i = Some m ->
  In i (pair_ptrs (df_global_media w) (dv, e)) ->
  dv = date_taken m /\ ext m = Some e.
Proof.
  intros dv e i m Hp Hn Hi. rewrite Hsync in Hi. apply pair_ptrs_In in Hi.
  destruct Hi as (m' & Hn' & Hd & He). rewrite Hn in Hn'. inversion Hn'; subst m'.
  destruct (pairs_dated dv e Hp) as [_ [d ->]]. simpl in Hd. now split.
Qed.

Lemma pairs_groups_ok : forall g,
  In g (map (pair_ptrs (df_global_media w)) pairs) ->
  NoDup g /\ markable FS w g.
Proof.
  intros g Hg. apply in_map_iff in Hg. destruct Hg as ([dv e] & <- & Hp).
  rewrite Hsync. split; [apply pair_ptrs_NoDup|].
  intros p Hin. apply pair_ptrs_In in Hin. destruct Hin as (m & Hn & _).
  exists m. split; [exact Hn|]. now destruct (Hrec m (nth_error_In _ _ Hn)).
Qed.

Lemma pairs_groups_disjoint :
  disjoint_groups (map (pair_ptrs (df_global_media w)) pairs).
Proof.
  apply disjoint_groups_map.
  - unfold pairs. apply NoDup_list_prod;
      [apply unique_NoDup | apply FILE_EXTENSIONS_NoDup].
  - intros [dv1 e1] [dv2 e2] p H1 H2 P1 P2.
    assert (Hp : exists m, nth_error (list_metadata w) p = Some m).
    { rewrite Hsync in P1. apply pair_ptrs_In in P1.
      destruct P1 as (m & Hn & _). now exists m. }
    destruct Hp as (m & Hn).
    destruct (pairs_member dv1 e1 p m H1 Hn P1) as [D1 E1].
    destruct (pairs_member dv2 e2 p m H2 Hn P2) as [D2 E2].
    congruence.
Qed.

Lemma search_mutual_names_run :
  fst (search_mutual_names NO w) = Ok tt /\
  df_global_media (snd (search_mutual_names NO w))
  = snapshot (list_metadata (snd (search_mutual_names NO w))) /\
  (forall i,
     (forall g, In g (map (pair_ptrs (df_global_media w)) pairs) ->
                In i g -> List.length g <= 1) ->
     nth_error (list_metadata (snd (search_mutual_names NO w))) i
     = nth_error (list_metadata w) i) /\
  (forall i g l1 l2 m,
     In g (map (pair_ptrs (df_global_media w)) pairs) ->
     g = (l1 ++ i :: l2)%list -> 2 <= List.length g ->
     nth_error (list_metadata w) i = Some m ->
     nth_error (list_metadata (snd (search_mutual_names NO w))) i
     = Some (snd (set_file_metadata
                    (kw_mutual (Z.of_nat (List.length l1) + 1)) m))).
Proof.
  rewrite search_mutual_names_unfold. fold pairs. unfold bind.
  destruct (mark_groups_run FS (map (pair_ptrs (df_global_media w)) pairs) w
              pairs_groups_ok pairs_groups_disjoint) as (K & D & F & R).
  destruct (for_each (map (pair_ptrs (df_global_media w)) pairs) (mark_group FS) w)
    as [r w1]. cbn [fst snd] in *. subst r.
  rewrite create_df_snapshot. cbn [fst snd list_metadata df_global_media set_df].
  repeat split; auto.
Qed.

End MutualGroups.

(** ** Mutual groups: the claims *)

(** Three pictures and one film that resolve to the same date. *)
Definition sample_mutual_world : World unit :=
  snd (create_df_global_media
         (mkWorld
            [discover_dated "X:\2018" "IMG_1" "jpg" 1 "20200101-090000";
             discover_dated "X:\2018" "IMG_2" "jpg" 2 "20200101-090000";
             discover_dated "X:\2018" "IMG_3" "jpg" 3 "20200101-090000";
             discover_dated "X:\2018" "MOV_1" "mov" 1 "20200101-090000"]
            [] [] [] tt [])).

(** Two pictures whose names hold a second dot: discovery splits at the first
    one, so their extension is [edited.jpg]. *)
Definition sample_edited_world : World unit :=
  snd (create_df_global_media
         (mkWorld
            (map (fun m => snd (set_file_metadata
                                  (kw_date (Some "20200101-090000")) m))
                 (records_of "X:\2018" 0 ["IMG_1.edited.jpg"; "IMG_2.edited.jpg"]))
            [] [] [] tt [])).

(** X23.  On a batch whose table is in step with the records, all with a
    folder and a resolved date, [search_mutual_names] ends normally and
    rebuilds the table.  The group of a record is the list of records with
    its date and its extension, in the order of the index.  When the
    extension is one of the supported ones and the group has at least two
    members, the record gets [is_mutual], its 1-based place in the group as
    [mutual_order] and the suffix "-NN"; a record alone in its group, or whose
    extension is not a supported one, is left as it is.  In conflict-only mode
    the pass does nothing.  On the example the three pictures become -01, -02,
    -03 and the film keeps its unsuffixed name. *)
Theorem search_mutual_names_orders_groups :
  (forall (FS : Type) (w : World FS),
      df_global_media w = snapshot (list_metadata w) ->
      (forall m, In m (list_metadata w) ->
                 folder m <> None /\ date_taken m <> None) ->
      fst (search_mutual_names NO w) = Ok tt /\
      df_global_media (snd (search_mutual_names NO w))
      = snapshot (list_metadata (snd (search_mutual_names NO w))) /\
      forall i m,
        nth_error (list_metadata w) i = Some m ->
        (ext_in (ext m) FILE_EXTENSIONS = false ->
         nth_error (list_metadata (snd (search_mutual_names NO w))) i = Some m) /\
        forall e, ext m = Some e ->
          (forall j,
              In j (pair_ptrs (df_global_media w) (date_taken m, e)) <->
              exists mj, nth_error (list_metadata w) j = Some mj /\
                         date_taken mj = date_taken m /\ ext mj = ext m) /\
          (List.length (pair_ptrs (df_global_media w) (date_taken m, e)) <= 1 ->
           nth_error (list_metadata (snd (search_mutual_names NO w))) i = Some m) /\
          (In e FILE_EXTENSIONS ->
           2 <= List.length (pair_ptrs (df_global_media w) (date_taken m, e)) ->
           exists l1 l2 m',
             pair_ptrs (df_global_media w) (date_taken m, e) = (l1 ++ i :: l2)%list /\
             nth_error (list_metadata (snd (search_mutual_names NO w))) i = Some m' /\
             is_mutual m' = true /\
             mutual_order m' = (Z.of_nat (List.length l1) + 1)%Z /\
             mutual_suffix m' = "-" ++ format_02d (Z.of_nat (List.length l1) + 1) /\
             date_taken m' = date_taken m /\ ext m' = ext m /\
             forall d, date_taken m = Some d -> d <> "" ->
               new_full_name m'
               = Some (concat_full_name
                         (d ++ ("-" ++ format_02d (Z.of_nat (List.length l1) + 1))
                            ++ conflict_suffix m)
                         (ext m)))) /\
  (forall (FS : Type) (w : World FS), search_mutual_names YES w = (Ok tt, w)) /\
  map (fun m => (mutual_order m, new_full_name m))
      (list_metadata (snd (search_mutual_names NO sample_mutual_world)))
  = [(1%Z, Some "20200101-090000-01.jpg");
     (2%Z, Some "20200101-090000-02.jpg");
     (3%Z, Some "20200101-090000-03.jpg");
     (0%Z, Some "20200101-090000.mov")].
Proof.
  split; [|split; [reflexivity | vm_compute; reflexivity]].
  intros FS w Hsync Hrec.
  destruct (search_mutual_names_run FS w Hsync Hrec) as (K & D & F & R).
  split; [exact K|]. split; [exact D|].
  intros i m Hn.
  destruct (Hrec m (nth_error_In _ _ Hn)) as [Hfold Hdate].
  destruct (folder m) as [f|] eqn:Ef; [|contradiction].
  destruct (date_taken m) as [d|] eqn:Ed; [|contradiction].
  split.
  - intros Hx. rewrite F; [exact Hn|]. intros g Hg Hi. exfalso.
    apply in_map_iff in Hg. destruct Hg as ([dv e] & <- & Hp).
    destruct (pairs_member FS w Hsync Hrec dv e i m Hp Hn Hi) as [_ He].
    destruct (pairs_dated FS w Hsync Hrec dv e Hp) as [Hin _].
    rewrite He, (ext_in_true e _ Hin) in Hx. discriminate.
  - intros e He. split; [|split].
    + intros j. rewrite Hsync, pair_ptrs_In. cbn [fstr]. rewrite He.
      split; intros (mj & A & B & C); exists mj; auto.
    + intros Hlen. rewrite F; [exact Hn|]. intros g Hg Hi.
      apply in_map_iff in Hg. destruct Hg as ([dv e'] & <- & Hp).
      destruct (pairs_member FS w Hsync Hrec dv e' i m Hp Hn Hi) as [Hd He'].
      rewrite He in He'. inversion He'; subst e'. rewrite Hd, Ed. exact Hlen.
    + intros Hin Hlen.
      assert (Hi : In i (pair_ptrs (df_global_media w) (Some d, e))).
      { rewrite Hsync. apply pair_ptrs_In. exists m. cbn [fstr]. auto. }
      destruct (in_split _ _ Hi) as (l1 & l2 & Hsplit).
      exists l1, l2,
        (snd (set_file_metadata (kw_mutual (Z.of_nat (List.length l1) + 1)) m)).
      split; [exact Hsplit|].
      split.
      { apply (R i (pair_ptrs (df_global_media w) (Some d, e)) l1 l2 m);
          [|exact Hsplit|exact Hlen|exact Hn].
        apply in_map. rewrite <- Ed. apply (pairs_own FS w Hsync i m e Hn Hin). }
      destruct (marked_record m f (Z.of_nat (List.length l1) + 1)%Z Ef ltac:(lia))
        as (_ & M1 & M2 & M3 & M4 & M5 & M6).
      rewrite Ed in M4.
      split; [exact M1|]. split; [exact M2|]. split; [exact M3|].
      split; [exact M4|]. split; [exact M5|].
      intros d' Hd' Hne. inversion Hd'; subst d'. apply M6; [exact Ed | exact Hne].
Qed.

Lemma sample_mutual_records : forall m,
  In m (list_metadata sample_mutual_world) ->
  folder m <> None /\ date_taken m <> None.
Proof.
  intros m H. vm_compute in H.
  destruct H as [<-|[<-|[<-|[<-|[]]]]]; split; discriminate.
Defined.

Lemma search_mutual_names_orders_groups_witness :
  fst (search_mutual_names NO sample_mutual_world) = Ok tt.
Proof.
  refine (proj1 (proj1 search_mutual_names_orders_groups unit sample_mutual_world
                   _ sample_mutual_records)).
  vm_compute. reflexivity.
Defined.

(** ** Mutual groups: names that hold a second dot *)

(** A folder that holds the two edited pictures, created at the same
    second, and nothing else; [os.rename] refuses a target that exists. *)
Definition edited_walk (_ : list string) (_ : string) : list string := ["X:\2018"].
Definition edited_dir (_ : list string) (_ : string) (e : string)
  : option (list string) :=
  if e =? "jpg" then Some ["IMG_1.edited.jpg"; "IMG_2.edited.jpg"] else None.
Definition edited_disk : list string :=
  ["X:\2018\IMG_1.edited.jpg"; "X:\2018\IMG_2.edited.jpg"].
Definition edited_time (_ : list string) (_ : string) : option datetime :=
  Some (mkDT 2020 1 1 9 0 0 0).
Definition edited_fetch : World (list string) :=
  snd (fetch_list_files edited_walk edited_dir "X:\" (initial_world edited_disk)).
Definition edited_run : World (list string) :=
  snd (main edited_walk edited_dir (fun _ _ => Ok (fun _ => None)) strptime_stamp
         (fun _ _ => None) (fun _ => None) edited_time edited_time
         (sample_rename "") "X:\" (initial_world edited_disk)).

(** C6, where the code departs from it.  The listing of [*.jpg] holds
    [IMG_1.edited.jpg] and [IMG_2.edited.jpg]; discovery splits each line at
    its first dot, so both records get the extension [edited.jpg], which
    [search_mutual_names] never queries.  The two records resolve to one date
    and share their extension, a group of two, yet neither is marked mutual
    nor given a mutual order, and both are proposed the name
    [20200101-090000.edited.jpg].  In the whole run the first picture takes
    that name and the rename of the second one is refused. *)
Lemma mutual_group_outside_supported_extensions :
  map split_dot ["IMG_1.edited.jpg"; "IMG_2.edited.jpg"]
  = [Some ("IMG_1", "edited.jpg"); Some ("IMG_2", "edited.jpg")] /\
  map (fun m => (no m, actual_full_name m, ext m)) (list_metadata edited_fetch)
  = [(1%Z, Some "IMG_1.edited.jpg", Some "edited.jpg");
     (2%Z, Some "IMG_2.edited.jpg", Some "edited.jpg")] /\
  map (fun m => (date_taken m, ext m)) (list_metadata sample_edited_world)
  = [(Some "20200101-090000", Some "edited.jpg");
     (Some "20200101-090000", Some "edited.jpg")] /\
  map (fun m => (is_mutual m, mutual_order m, mutual_suffix m, new_full_name m))
      (list_metadata (snd (search_mutual_names NO sample_edited_world)))
  = [(false, 0%Z, "", Some "20200101-090000.edited.jpg");
     (false, 0%Z, "", Some "20200101-090000.edited.jpg")] /\
  map (fun m => (date_taken m, ext m, is_mutual m, mutual_order m, new_full_name m))
      (list_metadata edited_run)
  = [(Some "20200101-090000", Some "edited.jpg", false, 0%Z,
      Some "20200101-090000.edited.jpg");
     (Some "20200101-090000", Some "edited.jpg", false, 0%Z,
      Some "20200101-090000.edited.jpg")] /\
  rename_calls edited_run
  = [("X:\2018\IMG_1.edited.jpg", "X:\2018\20200101-090000.edited.jpg");
     ("X:\2018\IMG_2.edited.jpg", "X:\2018\20200101-090000.edited.jpg")] /\
  disk edited_run
  = ["X:\2018\20200101-090000.edited.jpg"; "X:\2018\IMG_2.edited.jpg"] /\
  filter (fun e => match fst e with ERROR => true | INFO => false end)
         (logger edited_run)
  = [(ERROR, "2- IMG_2.edited.jpg - 20200101-090000.edited.jpg: Error: An error occurred while renaming file.")].
Proof. repeat split; vm_compute; reflexivity. Qed.

(** ** Date resolution: a film tag that does not parse *)

(** A folder with a picture and a film.  The film carries its creation time
    in the notation of EXIF, which [datetime.fromisoformat] rejects; both of
    its file-system stamps can be read. *)
Definition sample_dir_film (_ : unit) (_ : string) (e : string)
  : option (list string) :=
  if e =? "jpg" then Some ["IMG_1.jpg"]
  else if e =? "mov" then Some ["clip.mov"]
  else None.
Definition sample_film_tags (tag : string) : option string :=
  if tag =? "creation_time" then Some "2018:05:01 10:00:00" else None.
Definition sample_probe_film (_ : unit) (_ : string)
  : option (string -> option string) := Some sample_film_tags.

(** [datetime.fromisoformat] on the texts of the examples. *)
Definition sample_iso (s : string) : option datetime :=
  if s =? "2018-05-01T10:00:00+00:00" then Some (mkDT 2018 5 1 10 0 0 0) else None.

Definition sample_clip : FileMetadata :=
  snd (set_file_metadata (kw_discovered "X:\2018" "clip" "mov" 1) FileMetadata0).

Definition film_run : outcome unit * World unit :=
  main sample_walk sample_dir_film sample_fs_exif strptime_stamp
    sample_probe_film sample_iso sample_fs_time sample_fs_time
    sample_fs_rename "X:\" (initial_world tt).

(** C1, where the code departs from it.  The film [clip.mov] exists and can
    be read, and its fallback date is there: [get_os_date] returns
    2021-03-04 05:06:07.  Its [creation_time] tag is present but is not an
    ISO date; [get_ffmpeg_time] parses it outside any [try], so
    [find_date_taken] raises [ValueError] instead of falling back.  Nothing
    catches it: the run ends with that exception, the film has no resolved
    date and no proposed name, and no file of the batch is renamed, the
    picture dated before it included. *)
Theorem malformed_film_tag_leaves_no_date :
  actual_full_path sample_clip = Some "X:\2018\clip.mov" /\
  get_os_date sample_fs_time sample_fs_time tt "X:\2018\clip.mov"
  = Ok (Some (mkDT 2021 3 4 5 6 7 0)) /\
  get_ffmpeg_time sample_probe_film sample_iso tt "X:\2018\clip.mov"
  = Raise ValueError /\
  find_date_taken sample_fs_exif strptime_stamp sample_probe_film sample_iso
    sample_fs_time sample_fs_time tt sample_clip
  = Raise ValueError /\
  fst film_run = Raise ValueError /\
  map (fun m => (actual_full_name m, date_taken m, new_full_name m))
      (list_metadata (snd film_run))
  = [(Some "IMG_1.jpg", Some "20200101-090000", Some "20200101-090000.jpg");
     (Some "clip.mov", None, None)] /\
  rename_calls (snd film_run) = [].
Proof. repeat split; vm_compute; reflexivity. Qed.

(** * Further properties of the code *)

(** ** The earliest-date combinator *)

Lemma dt_leb_antisym : forall a b,
  dt_leb a b = true -> dt_leb b a = true -> a = b.
Proof.
  intros a b H1 H2. unfold dt_leb, dt_ltb in *.
  apply negb_true_iff in H1. apply negb_true_iff in H2.
  apply dt_key_inj, lex_ltb_total; auto.
Qed.

Lemma dt_min_comm : forall a b, dt_min a b = dt_min b a.
Proof.
  intros a b. apply dt_leb_antisym.
  - destruct (dt_min_cases b a) as [E|E]; rewrite E;
      [apply dt_min_r | apply dt_min_l].
  - destruct (dt_min_cases a b) as [E|E]; rewrite E;
      [apply dt_min_r | apply dt_min_l].
Qed.

Lemma dt_min_glb : forall a b c,
  dt_leb c a = true -> dt_leb c b = true -> dt_leb c (dt_min a b) = true.
Proof. intros a b c Ha Hb. destruct (dt_min_cases a b) as [E|E]; now rewrite E. Qed.

Lemma dt_min_assoc : forall a b c,
  dt_min a (dt_min b c) = dt_min (dt_min a b) c.
Proof.
  intros a b c. apply dt_leb_antisym.
  - apply dt_min_glb; [apply dt_min_glb|].
    + apply dt_min_l.
    + eapply dt_leb_trans; [apply dt_min_r | apply dt_min_l].
    + eapply dt_leb_trans; [apply dt_min_r | apply dt_min_r].
  - apply dt_min_glb; [|apply dt_min_glb].
    + eapply dt_leb_trans; [apply dt_min_l | apply dt_min_l].
    + eapply dt_leb_trans; [apply dt_min_l | apply dt_min_r].
    + apply dt_min_r.
Qed.

Lemma dt_min_idem : forall a, dt_min a a = a.
Proof. intros a. destruct (dt_min_cases a a); assumption. Qed.

(** X1.  [get_min] is a meet with [None] as its neutral element: it is
    idempotent, commutative and associative, [None] on either side returns
    the other argument, and the result is always one of the two arguments.
    The date resolved from several candidates therefore does not depend on
    the order in which they are combined. *)
Theorem get_min_is_a_meet :
  (forall a, get_min a None = a /\ get_min None a = a) /\
  (forall a, get_min a a = a) /\
  (forall a b, get_min a b = get_min b a) /\
  (forall a b c, get_min a (get_min b c) = get_min (get_min a b) c) /\
  (forall a b, get_min a b = a \/ get_min a b = b).
Proof.
  split; [|split; [|split; [|split]]].
  - intros [a|]; split; reflexivity.
  - intros [a|]; simpl; [now rewrite dt_min_idem | reflexivity].
  - intros [a|] [b|]; simpl; try reflexivity. now rewrite dt_min_comm.
  - intros [a|] [b|] [c|]; simpl; try reflexivity. now rewrite dt_min_assoc.
  - intros [a|] [b|]; simpl; auto.
    destruct (dt_min_cases a b) as [E|E]; rewrite E; auto.
Qed.

(** ** The FFmpeg decoder *)

Section FfmpegFacts.

Variable FS : Type.
Variable fs_exif : FS -> string -> outcome (string -> option string).
Variable strptime_DT : string -> option datetime.
Variable fs_probe : FS -> string -> option (string -> option string).
Variable fromisoformat : string -> option datetime.
Variable fs_ctime : FS -> string -> option datetime.
Variable fs_mtime : FS -> string -> option datetime.

(** The body of the loop of [get_ffmpeg_time]. *)
Definition ffmpeg_step (format_tags : string -> option string)
    (acc : outcome (option datetime)) (tag : string) : outcome (option datetime) :=
  match acc with
  | Raise e => Raise e
  | Ok date_ffmpeg =>
      match format_tags tag with
      | None => Ok date_ffmpeg
      | Some dt =>
          if dt =? "" then Ok date_ffmpeg
          else match fromisoformat (replace_Z dt) with
               | None => Raise ValueError
               | Some d => Ok (get_min date_ffmpeg (Some (get_utc_time d)))
               end
      end
  end.

Lemma get_ffmpeg_time_fold : forall fs path format_tags,
  fs_probe fs path = Some format_tags ->
  get_ffmpeg_time fs_probe fromisoformat fs path
  = fold_left (ffmpeg_step format_tags) FFMPEG_TAGS (Ok None).
Proof. intros fs path t H. unfold get_ffmpeg_time. rewrite H. reflexivity. Qed.

(** The tags that take part: present and not empty. *)
Definition usable_tags (format_tags : string -> option string) (tag : string)
  : option string :=
  match format_tags tag with
  | Some dt => if dt =? "" then None else Some dt
  | None => None
  end.

Definition parse_iso (raw : string) : option datetime :=
  fromisoformat (replace_Z raw).

Lemma usable_tags_inv : forall t tag raw,
  usable_tags t tag = Some raw <-> (t tag = Some raw /\ raw <> "").
Proof.
  intros t tag raw. unfold usable_tags. destruct (t tag) as [dt|]; [|split; [discriminate | intros [? _]; discriminate]].
  destruct (dt =? "") eqn:E.
  - apply String.eqb_eq in E. subst. split; [discriminate|].
    intros [H Hn]. inversion H. subst. contradiction.
  - split.
    + intros H. inversion H. subst. split; [reflexivity|].
      intros ->. discriminate.
    + intros [H _]. exact H.
Qed.

Lemma ffmpeg_fold_raise : forall t tags e,
  fold_left (ffmpeg_step t) tags (Raise e) = Raise e.
Proof. induction tags as [|x tags IH]; intros e; simpl; auto. Qed.

Lemma ffmpeg_step_parsed : forall t acc x,
  (forall raw, usable_tags t x = Some raw -> parse_iso raw <> None) ->
  ffmpeg_step t (Ok acc) x = Ok (exif_step parse_iso (usable_tags t) acc x).
Proof.
  intros t acc x H. unfold ffmpeg_step, exif_step, usable_tags in *.
  destruct (t x) as [dt|]; [|reflexivity].
  destruct (dt =? ""); [reflexivity|].
  specialize (H dt eq_refl). unfold parse_iso in *.
  destruct (fromisoformat (replace_Z dt)); [reflexivity | contradiction].
Qed.

(** When every usable tag parses the loop is the loop of the EXIF decoder. *)
Lemma ffmpeg_fold_parsed : forall t tags acc,
  (forall tag raw, In tag tags -> usable_tags t tag = Some raw ->
                   parse_iso raw <> None) ->
  fold_left (ffmpeg_step t) tags (Ok acc)
  = Ok (fold_left (exif_step parse_iso (usable_tags t)) tags acc).
Proof.
  induction tags as [|x tags IH]; intros acc H; [reflexivity|].
  cbn [fold_left]. rewrite ffmpeg_step_parsed.
  - apply IH. intros tag raw HIn. apply H. now right.
  - intros raw. apply H. now left.
Qed.

Lemma ffmpeg_fold_malformed : forall t tags tag raw acc,
  In tag tags -> usable_tags t tag = Some raw -> parse_iso raw = None ->
  (exists a, acc = Ok a) \/ acc = Raise ValueError ->
  fold_left (ffmpeg_step t) tags acc = Raise ValueError.
Proof.
  induction tags as [|x tags IH]; intros tag raw acc HIn Hu Hp Hacc; [destruct HIn|].
  simpl. destruct Hacc as [[a ->]| ->]; [|apply ffmpeg_fold_raise].
  destruct HIn as [->|HIn].
  - apply usable_tags_inv in Hu. destruct Hu as [Ht Hn]. simpl. rewrite Ht.
    destruct (raw =? "") eqn:E; [apply String.eqb_eq in E; contradiction|].
    unfold parse_iso in Hp. rewrite Hp. apply ffmpeg_fold_raise.
  - eapply IH; eauto. simpl.
    destruct (t x) as [dt|]; [|left; eauto].
    destruct (dt =? ""); [left; eauto|].
    destruct (fromisoformat (replace_Z dt)); [left; eauto | now right].
Qed.

(** X2.  [get_ffmpeg_time] returns [None] without raising when
    [ffmpeg.probe] fails.  When probing succeeds and every tag that is
    present and not empty parses, it returns the earliest of the parsed tags:
    a result no later than any of them and equal to one of them, [None]
    when there is none. *)
Theorem get_ffmpeg_time_earliest_wins :
  (forall fs path,
      fs_probe fs path = None ->
      get_ffmpeg_time fs_probe fromisoformat fs path = Ok None) /\
  (forall fs path format_tags,
      fs_probe fs path = Some format_tags ->
      (forall tag raw, In tag FFMPEG_TAGS -> format_tags tag = Some raw ->
                       raw <> "" -> fromisoformat (replace_Z raw) <> None) ->
      exists r,
        get_ffmpeg_time fs_probe fromisoformat fs path = Ok r /\
        (forall tag raw d,
            In tag FFMPEG_TAGS -> format_tags tag = Some raw -> raw <> "" ->
            fromisoformat (replace_Z raw) = Some d ->
            exists e, r = Some e /\ dt_leb e d = true) /\
        (forall e, r = Some e ->
            exists tag raw,
              In tag FFMPEG_TAGS /\ format_tags tag = Some raw /\ raw <> "" /\
              fromisoformat (replace_Z raw) = Some e) /\
        (r = None <->
           forall tag raw, In tag FFMPEG_TAGS -> format_tags tag = Some raw ->
                           raw = "")).
Proof.
  split.
  - intros fs path H. unfold get_ffmpeg_time. now rewrite H.
  - intros fs path t Hp Hall.
    assert (Hall' : forall tag raw, In tag FFMPEG_TAGS ->
              usable_tags t tag = Some raw -> parse_iso raw <> None).
    { intros tag raw HIn Hu. apply usable_tags_inv in Hu. destruct Hu as [Ht Hn].
      now apply (Hall tag raw). }
    eexists. split.
    { rewrite (get_ffmpeg_time_fold fs path t Hp).
      apply ffmpeg_fold_parsed. exact Hall'. }
    split; [|split; [|split]].
    + intros tag raw d HIn Ht Hn Hd.
      apply (exif_fold_below parse_iso (usable_tags t) FFMPEG_TAGS None tag raw d HIn).
      * apply usable_tags_inv. now split.
      * exact Hd.
    + intros e He. apply exif_fold_source in He.
      destruct He as [He | (tag & raw & HIn & Hu & Hd)]; [discriminate|].
      apply usable_tags_inv in Hu. destruct Hu as [Ht Hn].
      exists tag, raw. auto.
    + intros Hn tag raw HIn Ht.
      destruct (raw =? "") eqn:E; [now apply String.eqb_eq in E|].
      assert (Hne : raw <> "") by (intros ->; discriminate).
      destruct (fromisoformat (replace_Z raw)) as [d|] eqn:Hd.
      * destruct (exif_fold_below parse_iso (usable_tags t) FFMPEG_TAGS None tag raw d
                    HIn (proj2 (usable_tags_inv t tag raw) (conj Ht Hne)) Hd)
          as (r & Hr & _).
        congruence.
      * exfalso. exact (Hall tag raw HIn Ht Hne Hd).
    + intros Hempty.
      destruct (fold_left (exif_step parse_iso (usable_tags t)) FFMPEG_TAGS None)
        as [e|] eqn:E; [|reflexivity].
      apply exif_fold_source in E.
      destruct E as [E | (tag & raw & HIn & Hu & Hd)]; [discriminate|].
      apply usable_tags_inv in Hu. destruct Hu as [Ht Hn].
      exfalso. apply Hn. now apply (Hempty tag raw).
Qed.

(** X3.  A film tag that is present, not empty and rejected by
    [datetime.fromisoformat] is not skipped: [get_ffmpeg_time] raises
    [ValueError], and [find_date_taken] raises it too for a record of a film
    extension, without falling back to the operating-system stamps. *)
Theorem malformed_film_tag_raises :
  forall fs meta path e format_tags tag raw,
    actual_full_path meta = Some path ->
    ext meta = Some e -> In e ["mov"; "mp4"; "mpg"; "gif"] ->
    fs_probe fs path = Some format_tags ->
    In tag FFMPEG_TAGS -> format_tags tag = Some raw -> raw <> "" ->
    fromisoformat (replace_Z raw) = None ->
    get_ffmpeg_time fs_probe fromisoformat fs path = Raise ValueError /\
    find_date_taken fs_exif strptime_DT fs_probe fromisoformat fs_ctime fs_mtime
      fs meta = Raise ValueError.
Proof.
  intros fs meta path e t tag raw Hpath He HIn Hp Htag Ht Hn Hd.
  assert (G : get_ffmpeg_time fs_probe fromisoformat fs path = Raise ValueError).
  { rewrite (get_ffmpeg_time_fold fs path t Hp).
    apply (ffmpeg_fold_malformed t FFMPEG_TAGS tag raw); auto.
    - apply usable_tags_inv. now split.
    - left. eauto. }
  split; [exact G|].
  unfold find_date_taken. rewrite Hpath, He. unfold decoder_date.
  assert (E1 : ext_in (Some e) ["jpg"; "heic"] = false).
  { simpl in HIn. destruct HIn as [<-|[<-|[<-|[<-|[]]]]]; reflexivity. }
  assert (E2 : ext_in (Some e) ["mov"; "mp4"; "mpg"; "gif"] = true).
  { apply ext_in_true. exact HIn. }
  rewrite E1, E2, G. reflexivity.
Qed.

End FfmpegFacts.


(** ** The record mutator: what an update cannot do *)

Lemma por_keeps : forall a b, truthy b = true -> truthy (por a b) = true.
Proof. intros a b H. unfold por. destruct (truthy a) eqn:E; assumption. Qed.

Lemma por_idem : forall a b, por a (por a b) = por a b.
Proof. intros a b. unfold por. destruct (truthy a); reflexivity. Qed.

Lemma por_int_idem : forall a b, por_int a (por_int a b) = por_int a b.
Proof.
  intros a b. unfold por_int. destruct (a =? 0)%Z; reflexivity.
Qed.

(** The record after [set_file_metadata(meta, **kw)]. *)
Definition updated (kw : kwargs) (m : FileMetadata) : FileMetadata :=
  snd (set_file_metadata kw m).

Lemma updated_basic : forall kw m, basic (updated kw m) = basic (basic_update kw m).
Proof. intros. apply set_file_metadata_basic. Qed.

(** X4.  An update never clears a field that is set: whatever the arguments
    (also when the rebuild of the paths raises), a non-zero [no], a
    non-empty [folder], [first_name], [actual_name], [date_taken] or [ext]
    and a positive [mutual_order] are still set afterwards.  Passing [None],
    an empty string or zero leaves the old value. *)
Theorem set_file_metadata_never_clears : forall kw m,
  (no m <> 0%Z -> no (updated kw m) <> 0%Z) /\
  (truthy (folder m) = true -> truthy (folder (updated kw m)) = true) /\
  (truthy (first_name m) = true -> truthy (first_name (updated kw m)) = true) /\
  (truthy (actual_name m) = true -> truthy (actual_name (updated kw m)) = true) /\
  (truthy (date_taken m) = true -> truthy (date_taken (updated kw m)) = true) /\
  (truthy (ext m) = true -> truthy (ext (updated kw m)) = true) /\
  ((0 < mutual_order m)%Z -> (0 < mutual_order (updated kw m))%Z) /\
  (kw_no kw = 0%Z -> no (updated kw m) = no m) /\
  (truthy (kw_folder kw) = false -> folder (updated kw m) = folder m) /\
  (truthy (kw_date_taken kw) = false -> date_taken (updated kw m) = date_taken m) /\
  (truthy (kw_ext kw) = false -> ext (updated kw m) = ext m).
Proof.
  intros kw m. pose proof (updated_basic kw m) as B.
  repeat split.
  - intros H. basic_field B no. rewrite E, basic_update_no. unfold por_int.
    destruct (kw_no kw =? 0)%Z eqn:Z0; [exact H|].
    intros C. rewrite C in Z0. discriminate.
  - intros H. basic_field B folder. rewrite E, basic_update_folder. now apply por_keeps.
  - intros H. basic_field B first_name. rewrite E.
    assert (F : first_name (basic_update kw m) = por (kw_first_name kw) (first_name m))
      by basic_update_cases kw.
    rewrite F. now apply por_keeps.
  - intros H. basic_field B actual_name. rewrite E, basic_update_actual_name.
    now apply por_keeps.
  - intros H. basic_field B date_taken. rewrite E, basic_update_date_taken.
    now apply por_keeps.
  - intros H. basic_field B ext. rewrite E, basic_update_ext. now apply por_keeps.
  - intros H. basic_field B mutual_order. rewrite E, basic_update_mutual_order.
    destruct (kw_mutual_order kw >? 0)%Z eqn:G; [|exact H].
    apply Z.gtb_lt in G. exact G.
  - intros H. basic_field B no. rewrite E, basic_update_no, H. reflexivity.
  - intros H. basic_field B folder. rewrite E, basic_update_folder. unfold por.
    now rewrite H.
  - intros H. basic_field B date_taken. rewrite E, basic_update_date_taken. unfold por.
    now rewrite H.
  - intros H. basic_field B ext. rewrite E, basic_update_ext. unfold por. now rewrite H.
Qed.

(** ** The record mutator: repeating an update *)

Lemma meta_ext : forall a b,
  basic a = basic b -> proposed a = proposed b -> original a = original b -> a = b.
Proof.
  intros [] [] B P O. unfold basic, proposed, original in *. simpl in *.
  inversion B. inversion P. inversion O. subst. reflexivity.
Qed.

Lemma basic_update_twice : forall kw m m1,
  basic m1 = basic (basic_update kw m) ->
  basic (basic_update kw m1) = basic (basic_update kw m).
Proof.
  intros kw m m1 H.
  assert (F : forall x, first_name (basic_update kw x)
                        = por (kw_first_name kw) (first_name x))
    by (intros; basic_update_cases kw).
  basic_field H no. basic_field H folder. basic_field H first_name.
  basic_field H actual_name. basic_field H date_taken. basic_field H ext.
  basic_field H is_mutual. basic_field H mutual_order. basic_field H mutual_suffix.
  basic_field H has_conflict. basic_field H conflict_suffix.
  rewrite basic_update_no in E. rewrite basic_update_folder in E0.
  rewrite F in E1. rewrite basic_update_actual_name in E2.
  rewrite basic_update_date_taken in E3. rewrite basic_update_ext in E4.
  rewrite basic_update_is_mutual in E5. rewrite basic_update_mutual_order in E6.
  rewrite basic_update_mutual_suffix in E7. rewrite basic_update_has_conflict in E8.
  rewrite basic_update_conflict_suffix in E9.
  unfold basic.
  rewrite !basic_update_no, !basic_update_folder, !F, !basic_update_actual_name,
    !basic_update_date_taken, !basic_update_ext, !basic_update_is_mutual,
    !basic_update_mutual_order, !basic_update_mutual_suffix,
    !basic_update_has_conflict, !basic_update_conflict_suffix.
  rewrite E, E0, E1, E2, E3, E4, E5, E6, E7, E8, E9.
  rewrite por_int_idem, !por_idem.
  destruct (kw_is_mutual kw), (kw_mutual_order kw >? 0)%Z, (kw_has_conflict kw),
    (kw_conflict_suffix kw); reflexivity.
Qed.

Lemma por_falsy_both : forall a b,
  truthy (por a b) = false -> truthy a = false /\ truthy b = false.
Proof.
  intros a b H. unfold por in H. destruct (truthy a) eqn:E; [congruence|]. auto.
Qed.

(** X5.  On a record that has a folder and a resolved date the update is
    idempotent: running [set_file_metadata] a second time with the same
    arguments succeeds and leaves the record exactly as the first run left
    it (the proposed name is rebuilt from the date, never from the previous
    proposed name). *)
Theorem set_file_metadata_idempotent_when_dated : forall kw m f d,
  por (kw_folder kw) (folder m) = Some f ->
  por (kw_date_taken kw) (date_taken m) = Some d -> d <> "" ->
  set_file_metadata kw (updated kw m) = set_file_metadata kw m /\
  fst (set_file_metadata kw m) = Ok tt.
Proof.
  intros kw m f d Hf Hd Hne.
  destruct (set_file_metadata_dated kw m f d Hf Hd Hne) as (m1 & E1 & B1 & P1).
  assert (U : updated kw m = m1) by (unfold updated; now rewrite E1).
  rewrite U, E1. split; [|reflexivity].
  assert (Hf1 : por (kw_folder kw) (folder m1) = Some f).
  { basic_field B1 folder. rewrite E, basic_update_folder, Hf. rewrite <- Hf.
    apply por_idem. }
  assert (Hd1 : por (kw_date_taken kw) (date_taken m1) = Some d).
  { basic_field B1 date_taken. rewrite E, basic_update_date_taken, Hd. rewrite <- Hd.
    apply por_idem. }
  destruct (set_file_metadata_dated kw m1 f d Hf1 Hd1 Hne) as (m2 & E2 & B2 & P2).
  rewrite E2. f_equal.
  assert (B : basic m2 = basic m1).
  { rewrite B2, B1. now apply basic_update_twice. }
  apply meta_ext; [exact B| |].
  - cbv zeta in P1, P2. rewrite P1, P2.
    basic_field B mutual_suffix. basic_field B conflict_suffix. basic_field B ext.
    now rewrite E, E0, E3.
  - assert (O2 : original m2 = original (updated kw m1))
      by (unfold updated; now rewrite E2).
    assert (O1 : original m1 = original (updated kw m))
      by (unfold updated; now rewrite E1).
    rewrite O2, O1. unfold updated.
    assert (A1 : actual_name m1 = por (kw_actual_name kw) (actual_name m)).
    { basic_field B1 actual_name. now rewrite E, basic_update_actual_name. }
    assert (X1 : ext m1 = por (kw_ext kw) (ext m)).
    { basic_field B1 ext. now rewrite E, basic_update_ext. }
    destruct (truthy (por (kw_actual_name kw) (actual_name m))) eqn:T.
    + destruct (truthy_inv _ T) as (name & Hn & Hnn).
      rewrite (set_file_metadata_original kw m f name Hf Hn Hnn).
      rewrite (set_file_metadata_original kw m1 f name Hf1).
      * rewrite X1, por_idem. reflexivity.
      * rewrite A1, por_idem. exact Hn.
      * exact Hnn.
    + rewrite (set_file_metadata_original_inert kw m T).
      rewrite (set_file_metadata_original_inert kw m1).
      * rewrite O1. unfold updated.
        now rewrite (set_file_metadata_original_inert kw m T).
      * rewrite A1, por_idem. exact T.
Qed.


(** ** Clearing the conflict flags *)

Lemma list_update_app : forall A (l1 l2 : list A) x v,
  list_update (List.length l1) v (l1 ++ x :: l2) = (l1 ++ v :: l2)%list.
Proof. induction l1 as [|y l1 IH]; intros l2 x v; simpl; [reflexivity|]. now rewrite IH. Qed.

Lemma nth_error_middle : forall A (l1 l2 : list A) x,
  nth_error (l1 ++ x :: l2) (List.length l1) = Some x.
Proof. induction l1 as [|y l1 IH]; intros l2 x; simpl; auto. Qed.

(** What [reset_conflicts] does to one record. *)
Definition reset_record (m : FileMetadata) : FileMetadata :=
  if has_conflict m then updated kw_reset m else m.

Lemma reset_record_unflagged : forall m, has_conflict (reset_record m) = false.
Proof.
  intros m. unfold reset_record. destruct (has_conflict m) eqn:E; [|exact E].
  pose proof (updated_basic kw_reset m) as B. basic_field B has_conflict.
  rewrite E0, basic_update_has_conflict. reflexivity.
Qed.

Section ConflictPass.

Variable FS : Type.
Variable fs_walk : FS -> string -> list string.
Variable fs_dir : FS -> string -> string -> option (list string).
Variable fs_exif : FS -> string -> outcome (string -> option string).
Variable strptime_DT : string -> option datetime.
Variable fs_probe : FS -> string -> option (string -> option string).
Variable fromisoformat : string -> option datetime.
Variable fs_ctime : FS -> string -> option datetime.
Variable fs_mtime : FS -> string -> option datetime.
Variable fs_rename : FS -> string -> string -> option FS.
Local Abbreviation W := (World FS).

(** The body of the loop of [reset_conflicts]. *)
Definition reset_step (i : nat) : M W unit :=
  meta <- get_meta i ;;
  if negb (has_conflict meta) then ret tt
  else on_meta i (set_file_metadata kw_reset).

Lemma reset_conflicts_unfold : forall w : W,
  reset_conflicts w = for_each (seq 0 (List.length (list_metadata w))) reset_step w.
Proof. reflexivity. Qed.

Lemma set_list_metadata_same : forall w : W, set_list_metadata (list_metadata w) w = w.
Proof. intros []. reflexivity. Qed.

Lemma reset_sweep : forall l2 l1 (w : W),
  list_metadata w = (l1 ++ l2)%list ->
  Forall (fun m => folder m <> None) l2 ->
  for_each (seq (List.length l1) (List.length l2)) reset_step w
  = (Ok tt, set_list_metadata (l1 ++ map reset_record l2)%list w).
Proof.
  induction l2 as [|m l2 IH]; intros l1 w Hw Hf.
  - simpl. rewrite <- Hw, set_list_metadata_same. reflexivity.
  - inversion Hf as [|? ? Hm Hf']; subst.
    assert (L : forall x : FileMetadata,
              S (List.length l1) = List.length (l1 ++ [x])%list)
      by (intros; rewrite length_app; simpl; lia).
    cbn [List.length seq]. rewrite for_each_cons. unfold bind at 1.
    unfold reset_step at 1. unfold bind at 1. unfold get_meta.
    rewrite Hw, nth_error_middle. cbn [map]. unfold reset_record at 1.
    destruct (has_conflict m) eqn:Hc; cbn [negb].
    + unfold on_meta. rewrite Hw, nth_error_middle.
      destruct (folder m) as [f|] eqn:Ef; [|contradiction].
      pose proof (set_file_metadata_ok kw_reset m f) as K.
      cbn [kw_reset kw_folder] in K. rewrite por_none in K. specialize (K Ef).
      unfold updated. destruct (set_file_metadata kw_reset m) as [r m'].
      cbn [fst snd] in *. subst r. rewrite list_update_app.
      rewrite (L m'). rewrite (IH (l1 ++ [m'])%list).
      * rewrite <- app_assoc. reflexivity.
      * cbn [list_metadata set_list_metadata]. now rewrite <- app_assoc.
      * exact Hf'.
    + unfold ret. rewrite (L m). rewrite (IH (l1 ++ [m])%list).
      * rewrite <- app_assoc. reflexivity.
      * rewrite Hw, <- app_assoc. reflexivity.
      * exact Hf'.
Qed.


Lemma append_empty_r : forall s : string, s ++ "" = s.
Proof. induction s as [|c s IH]; simpl; [reflexivity | now rewrite IH]. Qed.

Lemma reset_record_dated : forall m f d,
  has_conflict m = true ->
  folder m = Some f -> date_taken m = Some d -> d <> "" ->
  conflict_suffix (reset_record m) = "" /\
  new_name (reset_record m) = Some (d ++ mutual_suffix m) /\
  new_full_name (reset_record m)
  = Some (concat_full_name (d ++ mutual_suffix m) (ext m)).
Proof.
  intros m f d Hc Hf Hd Hne. unfold reset_record. rewrite Hc.
  destruct (set_file_metadata_dated kw_reset m f d) as (m' & E & B & P); auto.
  unfold updated. rewrite E. cbn [snd]. cbv zeta in P.
  basic_field B conflict_suffix. basic_field B mutual_suffix. basic_field B ext.
  rewrite basic_update_conflict_suffix in E0.
  rewrite basic_update_mutual_suffix in E1. rewrite basic_update_ext in E2.
  cbn [kw_reset kw_conflict_suffix kw_mutual_order kw_ext] in E0, E1, E2.
  rewrite por_none in E2. change (0 >? 0)%Z with false in E1. cbv iota in E1.
  rewrite E0, E1, E2, append_empty_r in P.
  unfold proposed in P. inversion P as [[P1 P2 P3]]. auto.
Qed.

(** X6.  On a list whose records all have a folder, [reset_conflicts]
    returns normally; it rewrites exactly the flagged records, clearing their
    flag and their conflict suffix and rebuilding the proposed name of a dated
    record without that suffix, and leaves every other record, the log and
    the disk alone.  Afterwards no record is flagged, but the table is not
    rebuilt, so [conflict_exists] answers as it did before. *)
Theorem reset_conflicts_clears_every_flag : forall w : W,
  Forall (fun m => folder m <> None) (list_metadata w) ->
  reset_conflicts w
  = (Ok tt, set_list_metadata (map reset_record (list_metadata w)) w) /\
  Forall (fun m => has_conflict m = false)
         (list_metadata (snd (reset_conflicts w))) /\
  conflict_exists (snd (reset_conflicts w)) = conflict_exists w /\
  (forall m, has_conflict m = false -> reset_record m = m) /\
  (forall m f d,
      has_conflict m = true ->
      folder m = Some f -> date_taken m = Some d -> d <> "" ->
      conflict_suffix (reset_record m) = "" /\
      new_name (reset_record m) = Some (d ++ mutual_suffix m) /\
      new_full_name (reset_record m)
      = Some (concat_full_name (d ++ mutual_suffix m) (ext m))).
Proof.
  intros w Hf.
  assert (E : reset_conflicts w
              = (Ok tt, set_list_metadata (map reset_record (list_metadata w)) w)).
  { rewrite reset_conflicts_unfold.
    exact (reset_sweep (list_metadata w) [] w eq_refl Hf). }
  split; [exact E|]. rewrite E. cbn [snd list_metadata set_list_metadata].
  split; [|split; [reflexivity|split]].
  - apply Forall_forall. intros m' Hin. apply in_map_iff in Hin.
    destruct Hin as (m & <- & _). apply reset_record_unflagged.
  - intros m Hc. unfold reset_record. now rewrite Hc.
  - apply reset_record_dated.
Qed.

(** *** The conflict-only pass *)

Definition unflagged (w : W) : Prop :=
  Forall (fun m => has_conflict m = false) (list_metadata w).

(** From a state without flagged records, none is flagged afterwards and no
    file has been moved. *)
Definition stays_put (w w' : W) : Prop :=
  unflagged w -> unflagged w' /\ quiet FS w w'.

Lemma stays_put_refl : forall w, stays_put w w.
Proof. intros w H. split; [exact H | apply quiet_refl]. Qed.

Lemma stays_put_trans : forall a b c,
  stays_put a b -> stays_put b c -> stays_put a c.
Proof.
  intros a b c H1 H2 Ha. destruct (H1 Ha) as [Hb Q1]. destruct (H2 Hb) as [Hc Q2].
  split; [exact Hc | exact (quiet_trans FS _ _ _ Q1 Q2)].
Qed.

Lemma stays_put_same : forall w w' : W,
  list_metadata w' = list_metadata w -> disk w' = disk w ->
  rename_calls w' = rename_calls w -> stays_put w w'.
Proof.
  intros w w' S D C H. unfold unflagged. rewrite S. split; [exact H|]. now split.
Qed.

Lemma sp_log_info : forall msg, respects FS stays_put (log_info msg).
Proof. intros msg w. now apply stays_put_same. Qed.

Lemma sp_log_error : forall msg, respects FS stays_put (log_error msg).
Proof. intros msg w. now apply stays_put_same. Qed.

Lemma sp_logs_only : forall w w' : W, logs_only FS w w' -> stays_put w w'.
Proof. intros w w' (S & _ & _ & D & C). now apply stays_put_same. Qed.

Lemma sp_on_meta : forall i kw,
  kw_has_conflict kw = None ->
  respects FS stays_put (on_meta i (set_file_metadata kw)).
Proof.
  intros i kw Hk w Hu. unfold on_meta.
  destruct (nth_error (list_metadata w) i) as [m|] eqn:E;
    [|split; [exact Hu | apply quiet_refl]].
  pose proof (updated_basic kw m) as B. unfold updated in B.
  destruct (set_file_metadata kw m) as [r m']. cbn [fst snd] in *.
  split; [|split; reflexivity].
  unfold unflagged in *. cbn [list_metadata set_list_metadata].
  apply Forall_list_update; [exact Hu|].
  basic_field B has_conflict. rewrite E0, basic_update_has_conflict, Hk.
  apply nth_error_In in E. rewrite Forall_forall in Hu. now apply Hu.
Qed.

Lemma sp_rename_file : forall i,
  respects FS stays_put (rename_file fs_rename i YES).
Proof.
  intros i w Hu.
  destruct (nth_error (list_metadata w) i) as [m|] eqn:E.
  - rewrite (rename_file_unfold FS fs_rename i YES w m E).
    assert (Hc : has_conflict m = false).
    { apply nth_error_In in E. unfold unflagged in Hu.
      rewrite Forall_forall in Hu. now apply Hu. }
    rewrite Hc. cbn. split; [exact Hu | apply quiet_refl].
  - unfold rename_file, bind, get_meta. rewrite E. cbn.
    split; [exact Hu | apply quiet_refl].
Qed.

Lemma sp_log_header : forall meta what,
  respects FS stays_put (log_header meta what).
Proof. intros meta what w. apply sp_logs_only, logs_only_log_header. Qed.

Lemma sp_run_renamer : respects FS stays_put (run_renamer fs_rename YES).
Proof.
  unfold run_renamer.
  apply respects_bind; [apply stays_put_trans | apply sp_log_info |].
  intros _. apply respects_bind; [apply stays_put_trans | |].
  { apply respects_get, stays_put_refl. }
  intros w0. apply respects_for_each; [apply stays_put_refl | apply stays_put_trans |].
  intros i _. unfold run_renamer_step.
  apply respects_bind; [apply stays_put_trans | |].
  { apply respects_get_meta, stays_put_refl. }
  intros meta. apply respects_bind; [apply stays_put_trans | apply sp_log_header |].
  intros _. apply respects_try_except; [apply stays_put_trans | |].
  - apply respects_bind; [apply stays_put_trans | apply sp_log_info |].
    intros _. apply sp_rename_file.
  - intros e. apply respects_bind; [apply stays_put_trans | |].
    + apply respects_get_meta, stays_put_refl.
    + intros m. apply sp_log_error.
Qed.

Lemma sp_process_rest :
  respects FS stays_put
    (process_rest FS fs_exif strptime_DT fs_probe fromisoformat fs_ctime fs_mtime
       fs_rename YES).
Proof.
  unfold process_rest.
  apply respects_bind; [apply stays_put_trans | |].
  { intros w. now apply stays_put_same. }
  intros _. apply respects_bind; [apply stays_put_trans | |].
  { apply respects_get, stays_put_refl. }
  intros w0. apply respects_bind; [apply stays_put_trans | |].
  { apply respects_for_each; [apply stays_put_refl | apply stays_put_trans |].
    intros i _.
    apply respects_bind; [apply stays_put_trans | |].
    { apply respects_get_meta, stays_put_refl. }
    intros meta. apply respects_bind; [apply stays_put_trans | apply sp_log_header |].
    intros _. apply respects_bind; [apply stays_put_trans | |].
    { apply respects_if; [apply sp_log_info | apply respects_ret, stays_put_refl]. }
    intros _. apply respects_bind; [apply stays_put_trans | |].
    { apply respects_get, stays_put_refl. }
    intros w1. apply respects_bind; [apply stays_put_trans | |].
    { cbn [negb YES]. apply respects_ret, stays_put_refl. }
    intros d. apply sp_on_meta. reflexivity. }
  intros _. apply respects_bind; [apply stays_put_trans | |].
  { cbn [negb YES]. apply respects_ret, stays_put_refl. }
  intros _. apply respects_bind; [apply stays_put_trans | |].
  { apply respects_ret, stays_put_refl. }
  intros _. apply sp_run_renamer.
Qed.

Lemma sp_process_files :
  respects FS stays_put
    (process_files fs_exif strptime_DT fs_probe fromisoformat fs_ctime fs_mtime
       fs_rename YES).
Proof.
  intros w. rewrite process_files_unfold.
  destruct (YES && negb (conflict_exists w)); [apply stays_put_refl|].
  revert w. apply respects_bind; [apply stays_put_trans | |].
  - apply respects_ret, stays_put_refl.
  - intros _. apply sp_process_rest.
Qed.

Lemma on_meta_unfold : forall A i (c : M FileMetadata A) (w : W) m,
  nth_error (list_metadata w) i = Some m ->
  on_meta i c w
  = (fst (c m), set_list_metadata (list_update i (snd (c m)) (list_metadata w)) w).
Proof.
  intros A i c w m E. unfold on_meta. rewrite E. destruct (c m). reflexivity.
Qed.

Lemma reset_step_unfold : forall i (w : W) m,
  nth_error (list_metadata w) i = Some m ->
  reset_step i w
  = if has_conflict m
    then (fst (set_file_metadata kw_reset m),
          set_list_metadata (list_update i (updated kw_reset m) (list_metadata w)) w)
    else (Ok tt, w).
Proof.
  intros i w m E. unfold reset_step, bind, get_meta. rewrite E.
  destruct (has_conflict m); [|reflexivity].
  cbn [negb]. rewrite (on_meta_unfold unit i (set_file_metadata kw_reset) w m E).
  unfold updated. reflexivity.
Qed.

Lemma reset_step_missing : forall i (w : W),
  nth_error (list_metadata w) i = None -> reset_step i w = (Raise LookupError, w).
Proof. intros i w E. unfold reset_step, bind, get_meta. now rewrite E. Qed.

Lemma updated_reset_unflagged : forall m, has_conflict (updated kw_reset m) = false.
Proof.
  intros m. pose proof (updated_basic kw_reset m) as B. basic_field B has_conflict.
  rewrite E, basic_update_has_conflict. reflexivity.
Qed.

Lemma store_write_spec : forall x m m1 (w : W),
  nth_error (list_metadata w) x = Some m ->
  quiet FS w (set_list_metadata (list_update x m1 (list_metadata w)) w) /\
  List.length (list_metadata
                 (set_list_metadata (list_update x m1 (list_metadata w)) w))
  = List.length (list_metadata w) /\
  (forall j, j <> x ->
     nth_error (list_metadata
                  (set_list_metadata (list_update x m1 (list_metadata w)) w)) j
     = nth_error (list_metadata w) j) /\
  nth_error (list_metadata
               (set_list_metadata (list_update x m1 (list_metadata w)) w)) x
  = Some m1.
Proof.
  intros x m m1 w E. cbn [list_metadata set_list_metadata].
  split; [split; reflexivity|]. split; [apply list_update_length|].
  split; [intros j Hj; now apply list_update_other|].
  now apply (list_update_same _ x m1 m).
Qed.

Lemma reset_step_run : forall x (w : W),
  exists r w1,
    reset_step x w = (r, w1) /\
    quiet FS w w1 /\
    List.length (list_metadata w1) = List.length (list_metadata w) /\
    (forall j, j <> x -> nth_error (list_metadata w1) j = nth_error (list_metadata w) j) /\
    (r = Ok tt ->
     forall m', nth_error (list_metadata w1) x = Some m' -> has_conflict m' = false).
Proof.
  intros x w. destruct (nth_error (list_metadata w) x) as [m|] eqn:E.
  - destruct (has_conflict m) eqn:Hc.
    + destruct (store_write_spec x m (updated kw_reset m) w E) as (Q & L & O & S).
      eexists. eexists. split.
      { rewrite (reset_step_unfold x w m E), Hc. reflexivity. }
      split; [exact Q|]. split; [exact L|]. split; [exact O|].
      intros _ m' Hm'. rewrite S in Hm'. inversion Hm'.
      apply updated_reset_unflagged.
    + exists (Ok tt), w. split.
      { rewrite (reset_step_unfold x w m E), Hc. reflexivity. }
      split; [apply quiet_refl|]. split; [reflexivity|]. split; [reflexivity|].
      intros _ m' Hm'. congruence.
  - exists (Raise LookupError), w. split; [now apply reset_step_missing|].
    split; [apply quiet_refl|]. split; [reflexivity|]. split; [reflexivity|].
    intros C. discriminate.
Qed.

(** A loop over distinct pointers whose body rewrites at most the record it
    visits, moves no file and, when it returns, leaves that record in a state
    [P]: the loop moves no file, and when it returns every visited record
    is in state [P] and every other record is as it was. *)
Lemma sweep_post : forall (P : FileMetadata -> Prop) (body : nat -> M W unit),
  (forall x (w : W),
      exists r w1,
        body x w = (r, w1) /\
        quiet FS w w1 /\
        List.length (list_metadata w1) = List.length (list_metadata w) /\
        (forall j, j <> x ->
           nth_error (list_metadata w1) j = nth_error (list_metadata w) j) /\
        (r = Ok tt -> forall m', nth_error (list_metadata w1) x = Some m' -> P m')) ->
  forall xs (w : W),
    NoDup xs ->
    exists r w',
      for_each xs body w = (r, w') /\
      quiet FS w w' /\
      (r = Ok tt ->
       List.length (list_metadata w') = List.length (list_metadata w) /\
       forall j m', nth_error (list_metadata w') j = Some m' ->
         (In j xs -> P m') /\
         (~ In j xs -> nth_error (list_metadata w) j = Some m')).
Proof.
  intros P body Hbody. induction xs as [|x xs IH]; intros w ND.
  - exists (Ok tt), w. split; [reflexivity|]. split; [apply quiet_refl|].
    intros _. split; [reflexivity|].
    intros j m' H. split; [intros [] | intros _; exact H].
  - inversion ND as [|? ? Hx ND']; subst. rewrite for_each_cons. unfold bind.
    destruct (Hbody x w) as (r1 & w1 & E1 & Q1 & L1 & O1 & F1).
    rewrite E1. destruct r1 as [[]|e].
    2:{ exists (Raise e), w1. split; [reflexivity|]. split; [exact Q1|].
        intros C. discriminate. }
    destruct (IH w1 ND') as (r & w' & E2 & Q2 & F2).
    exists r, w'. split; [exact E2|].
    split; [exact (quiet_trans FS _ _ _ Q1 Q2)|].
    intros Hok. destruct (F2 Hok) as (L2 & G2).
    split; [congruence|].
    intros j m' Hj. destruct (G2 j m' Hj) as (A & B). split.
    + intros [<-|Hin]; [|now apply A].
      apply (F1 eq_refl). now apply B.
    + intros Hn. rewrite <- O1.
      * apply B. intros C. apply Hn. now right.
      * intros ->. apply Hn. now left.
Qed.

(** A loop over all the pointers of the list. *)
Lemma sweep_all : forall (P : FileMetadata -> Prop) (body : nat -> M W unit) (w : W),
  (forall x (w : W),
      exists r w1,
        body x w = (r, w1) /\
        quiet FS w w1 /\
        List.length (list_metadata w1) = List.length (list_metadata w) /\
        (forall j, j <> x ->
           nth_error (list_metadata w1) j = nth_error (list_metadata w) j) /\
        (r = Ok tt -> forall m', nth_error (list_metadata w1) x = Some m' -> P m')) ->
  exists r w',
    for_each (seq 0 (List.length (list_metadata w))) body w = (r, w') /\
    quiet FS w w' /\
    (r = Ok tt -> Forall P (list_metadata w')).
Proof.
  intros P body w Hbody.
  destruct (sweep_post P body Hbody (seq 0 (List.length (list_metadata w))) w
              (seq_NoDup _ _)) as (r & w' & E & Q & F).
  exists r, w'. split; [exact E|]. split; [exact Q|].
  intros Hok. destruct (F Hok) as (L & G).
  apply Forall_forall. intros m' Hin.
  apply In_nth_error in Hin. destruct Hin as (j & Hj).
  apply (G j m' Hj). apply in_seq.
  assert (j < List.length (list_metadata w')) by (apply nth_error_Some; congruence).
  lia.
Qed.

Lemma initialize_conflicts_unfold : forall w : W,
  initialize_conflicts w
  = if conflict_exists w
    then reset_conflicts
           (set_logger ((logger w ++ [(INFO, repeat_str "*" LINE_LENGTH)])
                          ++ [(INFO, center "CONFLICTS RUNNING" LINE_LENGTH " ")])%list
              w)
    else (Ok tt, w).
Proof.
  intros w. unfold initialize_conflicts. unfold bind at 1. unfold get at 1.
  destruct (conflict_exists w); reflexivity.
Qed.

Lemma sp_initialize_conflicts_flags : forall w : W,
  exists r w',
    initialize_conflicts w = (r, w') /\
    quiet FS w w' /\
    (r = Ok tt -> conflict_exists w = true -> unflagged w').
Proof.
  intros w. rewrite initialize_conflicts_unfold.
  destruct (conflict_exists w) eqn:C.
  2:{ exists (Ok tt), w. split; [reflexivity|]. split; [apply quiet_refl|].
      intros _ D. discriminate. }
  set (w2 := set_logger _ w).
  assert (Q0 : quiet FS w w2) by (split; reflexivity).
  rewrite reset_conflicts_unfold.
  destruct (sweep_all (fun m => has_conflict m = false) reset_step w2 reset_step_run)
    as (r & w' & E & Q & F).
  exists r, w'. split; [exact E|].
  split; [exact (quiet_trans FS _ _ _ Q0 Q)|].
  intros Hok _. exact (F Hok).
Qed.

(** The second half of the module body. *)
Definition conflict_pass : M W unit :=
  initialize_conflicts ;;;
  process_files fs_exif strptime_DT fs_probe fromisoformat fs_ctime fs_mtime
    fs_rename YES.

Lemma conflict_pass_quiet : forall w : W, quiet FS w (snd (conflict_pass w)).
Proof.
  intros w. unfold conflict_pass, bind.
  destruct (sp_initialize_conflicts_flags w) as (r & w1 & E1 & Q1 & U1).
  destruct (conflict_exists w) eqn:C.
  - rewrite E1. destruct r as [[]|e]; [|exact Q1].
    destruct (sp_process_files w1 (U1 eq_refl eq_refl)) as (_ & Q2).
    exact (quiet_trans FS _ _ _ Q1 Q2).
  - rewrite initialize_conflicts_unfold, C.
    rewrite process_files_unfold, C. apply quiet_refl.
Qed.

Lemma main_unfold : forall dir_year (w : W),
  main fs_walk fs_dir fs_exif strptime_DT fs_probe fromisoformat fs_ctime fs_mtime
    fs_rename dir_year w
  = (fetch_list_files fs_walk fs_dir dir_year ;;;
     process_files fs_exif strptime_DT fs_probe fromisoformat fs_ctime fs_mtime
       fs_rename NO ;;;
     conflict_pass) w.
Proof. reflexivity. Qed.

(** X7.  The conflict-only pass never renames a file.  Whatever the state,
    [initialize_conflicts] followed by [process_files(only_conflicts=YES)]
    leaves the disk as it was and calls [os.rename] not once: either the table
    shows no conflict and both return at once, or [reset_conflicts] clears
    every flag and [rename_file] then skips every record.  All renames of the
    module body are therefore those of the first pass. *)
Theorem conflict_pass_never_renames :
  (forall w : W,
      disk (snd (conflict_pass w)) = disk w /\
      rename_calls (snd (conflict_pass w)) = rename_calls w) /\
  (forall dir_year (w : W),
      rename_calls (snd (main fs_walk fs_dir fs_exif strptime_DT fs_probe
                           fromisoformat fs_ctime fs_mtime fs_rename dir_year w))
      = rename_calls
          (snd ((fetch_list_files fs_walk fs_dir dir_year ;;;
                 process_files fs_exif strptime_DT fs_probe fromisoformat fs_ctime
                   fs_mtime fs_rename NO) w))).
Proof.
  split.
  - intros w. destruct (conflict_pass_quiet w) as [D C]. split; assumption.
  - intros dir_year w. rewrite main_unfold.
    unfold bind at 1 3.
    destruct (fetch_list_files fs_walk fs_dir dir_year w) as [[[]|e] w1];
      [|reflexivity].
    unfold bind.
    destruct (process_files fs_exif strptime_DT fs_probe fromisoformat fs_ctime
                fs_mtime fs_rename NO w1) as [[[]|e] w2]; [|reflexivity].
    cbn [snd]. apply (conflict_pass_quiet w2).
Qed.

End ConflictPass.


(** ** The counters of the headers *)

Lemma find_map_key : forall (f : string -> nat) l s,
  find (fun p : string * nat => fst p =? s) (map (fun e => (e, f e)) l)
  = if existsb (String.eqb s) l then Some (s, f s) else None.
Proof.
  intros f l s. induction l as [|e l IH]; [reflexivity|].
  cbn [map find existsb fst]. rewrite (String.eqb_sym s e).
  destruct (e =? s) eqn:E; [|exact IH].
  apply String.eqb_eq in E. subst. reflexivity.
Qed.

Lemma list_sum_step : forall x l, list_sum (x :: l) = x + list_sum l.
Proof. reflexivity. Qed.

Lemma list_sum_map_add : forall A (a b : A -> nat) l,
  list_sum (map (fun e => a e + b e) l) = list_sum (map a l) + list_sum (map b l).
Proof. intros A a b l. induction l as [|x l IH]; simpl; [reflexivity | lia]. Qed.

Lemma list_sum_indicator : forall (s : string) (c : bool) l,
  NoDup l ->
  list_sum (map (fun e => if (s =? e) && c then 1 else 0) l)
  = if existsb (String.eqb s) l && c then 1 else 0.
Proof.
  intros s c l ND. induction ND as [|e l Hn ND IH]; [reflexivity|].
  cbn [map existsb]. rewrite list_sum_step, IH.
  destruct (s =? e) eqn:E; cbn [andb orb]; [|reflexivity].
  apply String.eqb_eq in E. subst e.
  assert (X : existsb (String.eqb s) l = false).
  { destruct (existsb (String.eqb s) l) eqn:X; [|reflexivity].
    apply existsb_exists in X. destruct X as (y & Hy & Ey).
    apply String.eqb_eq in Ey. subst y. contradiction. }
  rewrite X. cbn [andb]. destruct c; reflexivity.
Qed.

Lemma opt_str_eqb_some : forall o e,
  opt_str_eqb o (Some e) = match o with Some s => s =? e | None => false end.
Proof. intros [s|] e; reflexivity. Qed.

(** The records counted under extension [e]. *)
Definition counted (only_conflicts : bool) (e : string) (meta : FileMetadata) : bool :=
  opt_str_eqb (ext meta) (Some e)
  && (if only_conflicts then has_conflict meta else true).

Lemma counts_total : forall oc (l : list FileMetadata) exts,
  NoDup exts ->
  list_sum (map (fun e => List.length (filter (counted oc e) l)) exts)
  = List.length (filter (fun m => ext_in (ext m) exts
                                  && (if oc then has_conflict m else true)) l).
Proof.
  intros oc l exts ND. induction l as [|m l IH].
  - simpl. induction exts; simpl; auto. inversion ND; subst. auto.
  - cbn [filter].
    rewrite (map_ext _ (fun e => (if counted oc e m then 1 else 0)
                                 + List.length (filter (counted oc e) l))).
    2:{ intros e. destruct (counted oc e m); reflexivity. }
    rewrite list_sum_map_add, IH.
    assert (I : list_sum (map (fun e => if counted oc e m then 1 else 0) exts)
                = if ext_in (ext m) exts && (if oc then has_conflict m else true)
                  then 1 else 0).
    { unfold counted, ext_in. destruct (ext m) as [s|].
      - rewrite <- (list_sum_indicator s _ exts ND). reflexivity.
      - cbn [opt_str_eqb andb]. clear. induction exts; simpl; auto. }
    rewrite I.
    destruct (ext_in (ext m) exts && (if oc then has_conflict m else true));
      reflexivity.
Qed.

(** X8.  After [find_file_counts] the dictionary answers, for each supported
    extension, with the number of records of the list that carry it (in
    conflict-only mode: that carry it and are flagged), and with the default
    0 for any other key, [None] included.  Every record is counted at most
    once: the counts add up to the number of records with a supported
    extension.  The records themselves are not touched. *)
Theorem find_file_counts_lookup : forall FS only_conflicts (w : World FS),
  fst (find_file_counts only_conflicts w) = Ok tt /\
  (forall k,
      dict_get (dict_file_counts (snd (find_file_counts only_conflicts w))) k
      = if ext_in k FILE_EXTENSIONS
        then List.length
               (filter (fun m => opt_str_eqb (ext m) k
                                 && (if only_conflicts then has_conflict m else true))
                       (list_metadata w))
        else 0) /\
  list_sum (map snd (dict_file_counts (snd (find_file_counts only_conflicts w))))
  = List.length
      (filter (fun m => ext_in (ext m) FILE_EXTENSIONS
                        && (if only_conflicts then has_conflict m else true))
              (list_metadata w)) /\
  list_metadata (snd (find_file_counts only_conflicts w)) = list_metadata w.
Proof.
  intros FS oc w. split; [reflexivity|].
  change (dict_file_counts (snd (find_file_counts oc w)))
    with (map (fun e => (e, List.length (filter (counted oc e) (list_metadata w))))
              FILE_EXTENSIONS).
  split; [|split; [|reflexivity]].
  - intros [s|]; [|reflexivity]. unfold dict_get.
    rewrite (find_map_key
               (fun e => List.length (filter (counted oc e) (list_metadata w)))
               FILE_EXTENSIONS s).
    unfold ext_in. destruct (existsb (String.eqb s) FILE_EXTENSIONS); reflexivity.
  - rewrite map_map. cbn [snd].
    apply counts_total. apply FILE_EXTENSIONS_NoDup.
Qed.

(** ** The record built from a listed line *)

(** The record [fetch_list_files] builds for the line [name.x] of the listing
    of [root], numbered [n]. *)
Definition discovered (root name x : string) (n : Z) : FileMetadata :=
  updated (kw_discovered root name (lower x) n) FileMetadata0.

Lemma build_records_line : forall FS root i file name x (w : World FS),
  root <> "" -> split_dot file = Some (name, x) ->
  build_records root i [file] w
  = (Ok tt,
     set_list_metadata
       (list_metadata w ++ [discovered root name x (Z.of_nat i + 1)])%list w).
Proof.
  intros FS root i file name x w Hr Hs.
  rewrite (build_records_run FS [file] root i w Hr).
  - cbn [records_of]. rewrite Hs. unfold discovered, updated. reflexivity.
  - constructor; [congruence | constructor].
Qed.

(** The fields of a discovered record. *)
Lemma discovered_fields : forall root name x n,
  root <> "" -> name <> "" -> x <> "" -> n <> 0%Z ->
  no (discovered root name x n) = n /\
  folder (discovered root name x n) = Some root /\
  first_name (discovered root name x n) = Some name /\
  actual_name (discovered root name x n) = Some name /\
  ext (discovered root name x n) = Some (lower x) /\
  actual_full_name (discovered root name x n) = Some (name ++ "." ++ lower x) /\
  actual_full_path (discovered root name x n)
  = Some (root ++ SLASH ++ name ++ "." ++ lower x) /\
  date_taken (discovered root name x n) = None /\
  new_name (discovered root name x n) = None /\
  new_full_name (discovered root name x n) = None /\
  new_full_path (discovered root name x n) = None /\
  is_mutual (discovered root name x n) = false /\
  has_conflict (discovered root name x n) = false.
Proof.
  intros root name x n Hr Hn Hx Hno.
  set (kw := kw_discovered root name (lower x) n).
  assert (Hlx : lower x <> "") by (intros C; apply Hx; now apply lower_empty).
  change (discovered root name x n) with (updated kw FileMetadata0).
  pose proof (updated_basic kw FileMetadata0) as B.
  assert (F : first_name (basic_update kw FileMetadata0)
              = por (kw_first_name kw) (first_name FileMetadata0))
    by basic_update_cases kw.
  basic_field B no. basic_field B folder. basic_field B first_name.
  basic_field B actual_name. basic_field B date_taken. basic_field B ext.
  basic_field B is_mutual. basic_field B has_conflict.
  rewrite basic_update_no in E. rewrite basic_update_folder in E0.
  rewrite F in E1. rewrite basic_update_actual_name in E2.
  rewrite basic_update_date_taken in E3. rewrite basic_update_ext in E4.
  rewrite basic_update_is_mutual in E5. rewrite basic_update_has_conflict in E6.
  unfold kw in E, E0, E1, E2, E3, E4, E5, E6.
  cbn [kw_discovered kw_no kw_folder kw_first_name kw_actual_name kw_date_taken
       kw_ext kw_is_mutual kw_has_conflict FileMetadata0 no folder first_name
       actual_name date_taken ext is_mutual has_conflict] in E, E0, E1, E2, E3, E4, E5, E6.
  unfold por in E0, E1, E2, E4.
  rewrite (truthy_some root Hr) in E0. rewrite (truthy_some name Hn) in E1, E2.
  rewrite (truthy_some (lower x) Hlx) in E4.
  assert (O : original (updated kw FileMetadata0)
              = (Some (name ++ "." ++ lower x),
                 Some (root ++ SLASH ++ name ++ "." ++ lower x))).
  { unfold updated.
    rewrite (set_file_metadata_original kw FileMetadata0 root name).
    - unfold kw. cbn [kw_discovered kw_ext FileMetadata0 ext]. unfold por.
      rewrite (truthy_some (lower x) Hlx). unfold concat_full_name.
      destruct (lower x =? "") eqn:Z0; [apply String.eqb_eq in Z0; contradiction|].
      reflexivity.
    - apply kw_discovered_folder. exact Hr.
    - unfold kw. cbn [kw_discovered kw_actual_name FileMetadata0 actual_name].
      unfold por. now rewrite (truthy_some name Hn).
    - exact Hn. }
  apply original_inv in O. destruct O as [O1 O2].
  assert (P : proposed (updated kw FileMetadata0) = proposed FileMetadata0).
  { unfold updated. apply set_file_metadata_unnamed; reflexivity. }
  apply proposed_eq_inv in P. destruct P as (P1 & P2 & P3).
  subst kw. split.
  { rewrite E. unfold por_int. destruct (n =? 0)%Z eqn:Z0; [|reflexivity].
    apply Z.eqb_eq in Z0. contradiction. }
  repeat (split; [assumption|]). assumption.
Qed.

(** X9.  Discovery keeps the name of the file.  For a line [name.x] with a
    non-empty name and extension, listed under a non-empty [root],
    [build_records] appends one record and returns normally; the record
    holds the folder, the name (as [first_name] and [actual_name]), the
    extension in lower case and the loop index plus one, its full name is
    [name.lower(x)] and its path [root\name.lower(x)], and nothing is
    proposed yet.  When the extension is already in lower case the full name
    is the line itself. *)
Theorem discovery_keeps_the_name : forall FS root i file name x (w : World FS),
  root <> "" -> split_dot file = Some (name, x) -> name <> "" -> x <> "" ->
  exists m,
    build_records root i [file] w
    = (Ok tt, set_list_metadata (list_metadata w ++ [m])%list w) /\
    no m = (Z.of_nat i + 1)%Z /\
    folder m = Some root /\ first_name m = Some name /\ actual_name m = Some name /\
    ext m = Some (lower x) /\
    actual_full_name m = Some (name ++ "." ++ lower x) /\
    actual_full_path m = Some (root ++ SLASH ++ name ++ "." ++ lower x) /\
    date_taken m = None /\ new_name m = None /\ new_full_name m = None /\
    new_full_path m = None /\
    is_mutual m = false /\ has_conflict m = false /\
    (lower x = x ->
     actual_full_name m = Some file /\
     actual_full_path m = Some (root ++ SLASH ++ file)).
Proof.
  intros FS root i file name x w Hr Hs Hn Hx.
  exists (discovered root name x (Z.of_nat i + 1)).
  split; [now apply build_records_line|].
  assert (Hno : (Z.of_nat i + 1)%Z <> 0%Z) by lia.
  destruct (discovered_fields root name x (Z.of_nat i + 1) Hr Hn Hx Hno)
    as (A1 & A2 & A3 & A4 & A5 & A6 & A7 & A8 & A9 & A10 & A11 & A12 & A13).
  repeat (split; [assumption|]).
  intros Hl. rewrite A6, A7, Hl. rewrite (split_dot_join file name x Hs). auto.
Qed.


(** ** Dates come before renames *)

(** A date, once resolved, stays resolved. *)
Definition stays_dated (m m' : FileMetadata) : Prop :=
  truthy (date_taken m) = true -> truthy (date_taken m') = true.

Lemma stays_dated_keeps : forall kw, kw_keeps stays_dated kw.
Proof.
  intros kw m H. pose proof (set_file_metadata_basic kw m) as B.
  basic_field B date_taken. rewrite E, basic_update_date_taken. now apply por_keeps.
Qed.

(** A property that every record keeps is kept by the whole list. *)
Lemma store_rel_Forall : forall FS (P : FileMetadata -> Prop) (w w' : World FS),
  store_rel FS (fun m m' => P m -> P m') w w' ->
  Forall P (list_metadata w) -> Forall P (list_metadata w').
Proof.
  intros FS P w w' H. unfold store_rel in H.
  induction H as [|a b l l' Hab H IH]; intros F; [constructor|].
  inversion F; subst. constructor; auto.
Qed.

Lemma stays_dated_store : forall FS (w w' : World FS),
  store_rel FS stays_dated w w' ->
  Forall (fun m => truthy (date_taken m) = true) (list_metadata w) ->
  Forall (fun m => truthy (date_taken m) = true) (list_metadata w').
Proof.
  intros FS w w'.
  exact (store_rel_Forall FS (fun m => truthy (date_taken m) = true) w w').
Qed.

Section DatesFirst.

Variable FS : Type.
Variable fs_exif : FS -> string -> outcome (string -> option string).
Variable strptime_DT : string -> option datetime.
Variable fs_probe : FS -> string -> option (string -> option string).
Variable fromisoformat : string -> option datetime.
Variable fs_ctime : FS -> string -> option datetime.
Variable fs_mtime : FS -> string -> option datetime.
Variable fs_rename : FS -> string -> string -> option FS.
Local Abbreviation W := (World FS).
Local Abbreviation find_date :=
  (find_date_taken fs_exif strptime_DT fs_probe fromisoformat fs_ctime fs_mtime).

(** A resolved date is never [None]: the operating-system stamps are
    always part of the minimum. *)
Lemma find_date_taken_some : forall fs m r,
  find_date fs m = Ok r -> exists d, r = Some d.
Proof.
  intros fs m r H. unfold find_date_taken in H.
  destruct (actual_full_path m) as [path|]; [|discriminate].
  destruct (decoder_date _ _ _ _ _ _ _) as [x|e]; [|discriminate].
  unfold get_os_date in H.
  destruct (fs_ctime fs path) as [c|]; [|discriminate].
  destruct (fs_mtime fs path) as [t|]; [|discriminate].
  inversion H. cbn [get_min]. unfold get_utc_time. apply get_min_present.
Qed.

(** The body of the first loop of [process_files]. *)
Definition process_step (only_conflicts : bool) (i : nat) : M W unit :=
  meta <- get_meta i ;;
  log_header meta "processed" ;;;
  (if negb only_conflicts || has_conflict meta
   then log_info (str_int (no meta) ++ "- " ++ fstr (actual_full_name meta))
   else ret tt) ;;;
  w <- get ;;
  date_taken <-
    (if negb only_conflicts
     then d <- lift (find_date (disk w) meta) ;; ret (date_to_str d)
     else ret None) ;;
  on_meta i (set_file_metadata (kw_date date_taken)).

(** What follows that loop. *)
Definition process_tail (only_conflicts : bool) : M W unit :=
  (if negb only_conflicts then create_df_global_media else ret tt) ;;;
  search_mutual_names only_conflicts ;;;
  run_renamer fs_rename only_conflicts.

Lemma process_rest_unfold : forall oc (w : W),
  process_rest FS fs_exif strptime_DT fs_probe fromisoformat fs_ctime fs_mtime
    fs_rename oc w
  = (for_each (seq 0 (List.length (list_metadata w))) (process_step oc) ;;;
     process_tail oc) (snd (find_file_counts oc w)).
Proof. reflexivity. Qed.

Lemma process_step_missing : forall oc i (w : W),
  nth_error (list_metadata w) i = None ->
  process_step oc i w = (Raise LookupError, w).
Proof. intros oc i w E. unfold process_step, bind, get_meta. now rewrite E. Qed.

Lemma process_step_unfold : forall i (w : W) m,
  nth_error (list_metadata w) i = Some m ->
  process_step NO i w
  = (log_header m "processed" ;;;
     log_info (str_int (no m) ++ "- " ++ fstr (actual_full_name m)) ;;;
     w <- get ;;
     match find_date (disk w) m with
     | Ok d => on_meta i (set_file_metadata (kw_date (date_to_str d)))
     | Raise e => raise e
     end) w.
Proof.
  intros i w m E. unfold process_step. unfold bind at 1. unfold get_meta.
  rewrite E. cbn [NO negb orb]. unfold bind. 
  destruct (log_header m "processed" w) as [[[]|e] w0]; [|reflexivity].
  unfold log_info, modify, get, lift, ret.
  destruct (find_date _ m); reflexivity.
Qed.

Lemma kw_date_dated : forall d m,
  truthy (date_taken (updated (kw_date (date_to_str (Some d))) m)) = true.
Proof.
  intros d m. pose proof (updated_basic (kw_date (date_to_str (Some d))) m) as B.
  basic_field B date_taken. rewrite E, basic_update_date_taken.
  cbn [kw_date kw_date_taken date_to_str]. unfold por.
  now rewrite !(truthy_some _ (strftime_NAME_nonempty d)).
Qed.

Lemma process_step_run : forall x (w : W),
  exists r w1,
    process_step NO x w = (r, w1) /\
    quiet FS w w1 /\
    List.length (list_metadata w1) = List.length (list_metadata w) /\
    (forall j, j <> x -> nth_error (list_metadata w1) j = nth_error (list_metadata w) j) /\
    (r = Ok tt ->
     forall m', nth_error (list_metadata w1) x = Some m' ->
                truthy (date_taken m') = true).
Proof.
  intros x w. destruct (nth_error (list_metadata w) x) as [m|] eqn:E.
  2:{ exists (Raise LookupError), w. split; [now apply process_step_missing|].
      split; [apply quiet_refl|]. split; [reflexivity|]. split; [reflexivity|].
      intros C. discriminate. }
  rewrite (process_step_unfold x w m E). unfold bind at 1.
  pose proof (logs_only_log_header FS m "processed" w) as L0.
  destruct (log_header m "processed" w) as [[[]|e] w0]; cbn [snd] in L0.
  2:{ exists (Raise e), w0. split; [reflexivity|].
      destruct L0 as (S0 & _ & _ & D0 & C0).
      split; [now split|]. rewrite S0. split; [reflexivity|].
      split; [reflexivity|]. intros C. discriminate. }
  unfold bind at 1. unfold log_info at 1. unfold modify at 1.
  set (w1 := set_logger _ w0).
  assert (L1 : logs_only FS w w1).
  { destruct L0 as (S0 & F0 & K0 & D0 & C0). repeat split; assumption. }
  destruct L1 as (S1 & _ & _ & D1 & C1).
  assert (E1 : nth_error (list_metadata w1) x = Some m) by (now rewrite S1).
  unfold bind at 1. unfold get at 1.
  destruct (find_date (disk w1) m) as [r|e] eqn:Fd.
  2:{ exists (Raise e), w1. split; [reflexivity|]. split; [now split|].
      rewrite S1. split; [reflexivity|]. split; [reflexivity|].
      intros C. discriminate. }
  destruct (find_date_taken_some _ _ _ Fd) as (d & ->).
  rewrite (on_meta_unfold FS unit x _ w1 m E1).
  destruct (store_write_spec FS x m (updated (kw_date (date_to_str (Some d))) m) w1 E1)
    as (Q & L & O & S).
  exists (fst (set_file_metadata (kw_date (date_to_str (Some d))) m)),
    (set_list_metadata
       (list_update x (updated (kw_date (date_to_str (Some d))) m) (list_metadata w1))
       w1).
  split; [unfold updated; reflexivity|].
  split; [exact (quiet_trans FS _ _ _ (conj D1 C1) Q)|].
  split; [now rewrite L, S1|].
  split; [intros j Hj; now rewrite (O j Hj), S1|].
  intros _ m' Hm'. rewrite S in Hm'. inversion Hm'.
  apply kw_date_dated.
Qed.

Lemma sr_process_tail : forall oc,
  respects FS (store_rel FS stays_dated) (process_tail oc).
Proof.
  intros oc. unfold process_tail.
  assert (Rr : forall m, stays_dated m m) by (intros m H; exact H).
  assert (Rt : forall a b c, stays_dated a b -> stays_dated b c -> stays_dated a c)
    by (unfold stays_dated; intros; auto).
  apply respects_bind; [now apply store_rel_trans | |].
  { apply respects_if; [now apply sr_create_df|].
    apply respects_ret. now apply store_rel_refl. }
  intros _. apply respects_bind; [now apply store_rel_trans | |].
  { apply (pr_search_mutual_names FS (store_rel FS stays_dated)
             (kw_keeps stays_dated)).
    - now apply store_rel_refl.
    - now apply store_rel_trans.
    - now apply sr_create_df.
    - now apply sr_on_meta.
    - intros k. apply stays_dated_keeps. }
  intros _.
  apply (pr_run_renamer FS fs_rename (store_rel FS stays_dated)
           (kw_keeps stays_dated)).
  - now apply store_rel_refl.
  - now apply store_rel_trans.
  - now apply sr_log_info.
  - now apply sr_log_error.
  - now apply sr_os_rename.
  - now apply sr_on_meta.
  - intros n. apply stays_dated_keeps.
Qed.

Lemma quiet_check_conflicts : respects FS (quiet FS) (check_conflicts NO).
Proof.
  apply (pr_check_conflicts FS (quiet FS) (fun _ => True)).
  - apply quiet_refl.
  - apply quiet_trans.
  - intros msg w. apply logs_only_quiet, logs_only_log_info.
  - intros i kw _. apply quiet_on_meta.
  - intros n. exact I.
Qed.

Lemma process_files_full_run : forall w : W,
  exists r w',
    process_files fs_exif strptime_DT fs_probe fromisoformat fs_ctime fs_mtime
      fs_rename NO w = (r, w') /\
    ((quiet FS w w' /\ r <> Ok tt) \/
     Forall (fun m => truthy (date_taken m) = true) (list_metadata w')).
Proof.
  intros w. rewrite process_files_unfold. cbn [NO andb]. unfold bind at 1.
  pose proof (quiet_check_conflicts w) as Q0.
  destruct (check_conflicts NO w) as [[[]|e] w0]; cbn [snd] in Q0.
  2:{ exists (Raise e), w0. split; [reflexivity|]. left. split; [exact Q0|].
      intros C. discriminate C. }
  rewrite process_rest_unfold.
  set (w1 := snd (find_file_counts NO w0)).
  assert (Q1 : quiet FS w w1) by (destruct Q0; split; assumption).
  change (List.length (list_metadata w0)) with (List.length (list_metadata w1)).
  unfold bind at 1.
  destruct (sweep_all FS (fun m => truthy (date_taken m) = true) (process_step NO) w1
              process_step_run) as (r & w2 & E & Q2 & F).
  rewrite E. destruct r as [[]|e].
  2:{ exists (Raise e), w2. split; [reflexivity|]. left.
      split; [exact (quiet_trans FS _ _ _ Q1 Q2)|]. intros C. discriminate C. }
  pose proof (sr_process_tail NO w2) as T.
  destruct (process_tail NO w2) as [r3 w3]. cbn [snd] in T.
  exists r3, w3. split; [reflexivity|]. right.
  apply (stays_dated_store FS w2 w3 T). exact (F eq_refl).
Qed.

(** X10.  The first pass renames nothing before every date is resolved.
    Whatever the state, after [process_files] in full mode either the pass
    has raised, no file has been moved and [os.rename] has not been called
    (this is what happens when a date cannot be resolved: the exception
    leaves the loop before the renaming phase), or every record of the list
    carries a resolved date. *)
Theorem renames_follow_resolved_dates : forall w : W,
  (disk (snd (process_files fs_exif strptime_DT fs_probe fromisoformat fs_ctime
                fs_mtime fs_rename NO w)) = disk w /\
   rename_calls (snd (process_files fs_exif strptime_DT fs_probe fromisoformat
                        fs_ctime fs_mtime fs_rename NO w)) = rename_calls w /\
   fst (process_files fs_exif strptime_DT fs_probe fromisoformat fs_ctime
          fs_mtime fs_rename NO w) <> Ok tt) \/
  Forall (fun m => truthy (date_taken m) = true)
         (list_metadata
            (snd (process_files fs_exif strptime_DT fs_probe fromisoformat
                    fs_ctime fs_mtime fs_rename NO w))).
Proof.
  intros w. destruct (process_files_full_run w) as (r & w' & E & H).
  rewrite E. cbn [fst snd].
  destruct H as [[[D C] N]|H]; [left | right; exact H].
  split; [exact D|]. split; [exact C | exact N].
Qed.

End DatesFirst.


(** ** Counting the calls to [os.rename] *)

Section RenameCount.

Variable FS : Type.
Variable fs_walk : FS -> string -> list string.
Variable fs_dir : FS -> string -> string -> option (list string).
Variable fs_exif : FS -> string -> outcome (string -> option string).
Variable strptime_DT : string -> option datetime.
Variable fs_probe : FS -> string -> option (string -> option string).
Variable fromisoformat : string -> option datetime.
Variable fs_ctime : FS -> string -> option datetime.
Variable fs_mtime : FS -> string -> option datetime.
Variable fs_rename : FS -> string -> string -> option FS.
Local Abbreviation W := (World FS).

(** The list keeps its length and at most [k] calls are added. *)
Definition adds_at_most (k : nat) (w w' : W) : Prop :=
  List.length (list_metadata w') = List.length (list_metadata w) /\
  exists c, rename_calls w' = (rename_calls w ++ c)%list /\ List.length c <= k.

Definition calls_at_most {A} (k : nat) (c : M W A) : Prop :=
  forall w, adds_at_most k w (snd (c w)).

Lemma adds_refl : forall k w, adds_at_most k w w.
Proof.
  intros k w. split; [reflexivity|]. exists []. rewrite app_nil_r.
  split; [reflexivity|]. simpl. lia.
Qed.

Lemma adds_trans : forall k1 k2 a b c,
  adds_at_most k1 a b -> adds_at_most k2 b c -> adds_at_most (k1 + k2) a c.
Proof.
  intros k1 k2 a b c (L1 & c1 & E1 & B1) (L2 & c2 & E2 & B2).
  split; [congruence|]. exists (c1 ++ c2)%list.
  rewrite E2, E1, app_assoc, length_app. split; [reflexivity | lia].
Qed.

Lemma adds_weaken : forall k k' a b,
  k <= k' -> adds_at_most k a b -> adds_at_most k' a b.
Proof.
  intros k k' a b H (L & c & E & B). split; [exact L|].
  exists c. split; [exact E | lia].
Qed.

Lemma adds_zero_refl : forall w, adds_at_most 0 w w.
Proof. intros w. apply adds_refl. Qed.

Lemma adds_zero_trans : forall a b c,
  adds_at_most 0 a b -> adds_at_most 0 b c -> adds_at_most 0 a c.
Proof. intros a b c H1 H2. exact (adds_trans 0 0 a b c H1 H2). Qed.

Lemma adds_same : forall w w' : W,
  List.length (list_metadata w') = List.length (list_metadata w) ->
  rename_calls w' = rename_calls w -> adds_at_most 0 w w'.
Proof.
  intros w w' L C. split; [exact L|]. exists []. rewrite app_nil_r.
  split; [exact C|]. simpl. lia.
Qed.

Lemma calls_weaken : forall A k k' (c : M W A),
  k <= k' -> calls_at_most k c -> calls_at_most k' c.
Proof. intros A k k' c H Hc w. exact (adds_weaken k k' _ _ H (Hc w)). Qed.

Lemma calls_bind : forall A B k1 k2 (c : M W A) (f : A -> M W B),
  calls_at_most k1 c -> (forall a, calls_at_most k2 (f a)) ->
  calls_at_most (k1 + k2) (bind c f).
Proof.
  intros A B k1 k2 c f Hc Hf w. unfold bind. specialize (Hc w).
  destruct (c w) as [[a|e] w1]; cbn [snd] in *.
  - exact (adds_trans k1 k2 _ _ _ Hc (Hf a w1)).
  - apply (adds_weaken k1); [lia | exact Hc].
Qed.

Lemma calls_try_except : forall A k1 k2 (c : M W A) h,
  calls_at_most k1 c -> (forall e, calls_at_most k2 (h e)) ->
  calls_at_most (k1 + k2) (try_except c h).
Proof.
  intros A k1 k2 c h Hc Hh w. unfold try_except. specialize (Hc w).
  destruct (c w) as [[a|e] w1]; cbn [snd] in *.
  - apply (adds_weaken k1); [lia | exact Hc].
  - exact (adds_trans k1 k2 _ _ _ Hc (Hh e w1)).
Qed.

Lemma calls_for_each : forall X (xs : list X) body,
  (forall x, calls_at_most 1 (body x)) ->
  calls_at_most (List.length xs) (for_each xs body).
Proof.
  intros X xs body H. induction xs as [|x xs IH].
  - intros w. apply adds_refl.
  - rewrite for_each_cons. cbn [List.length].
    apply (calls_bind _ _ 1 (List.length xs)); [apply H | intros _; exact IH].
Qed.

Lemma calls_log_info : forall msg, calls_at_most 0 (log_info msg).
Proof. intros msg w. now apply adds_same. Qed.

Lemma calls_log_error : forall msg, calls_at_most 0 (log_error msg).
Proof. intros msg w. now apply adds_same. Qed.

Lemma calls_create_df : calls_at_most 0 (@create_df_global_media FS).
Proof. intros w. now apply adds_same. Qed.

Lemma calls_counts : forall oc, calls_at_most 0 (@find_file_counts FS oc).
Proof. intros oc w. now apply adds_same. Qed.

Lemma calls_on_meta : forall A i (c : M FileMetadata A),
  calls_at_most 0 (on_meta i c).
Proof.
  intros A i c w. destruct (touches_on_meta FS A i c w) as (L & _ & _ & _ & _ & _).
  apply adds_same; [exact L|]. unfold on_meta.
  destruct (nth_error (list_metadata w) i); [|reflexivity].
  destruct (c f). reflexivity.
Qed.

Lemma calls_get_meta : forall i, calls_at_most 0 (@get_meta FS i).
Proof. intros i. apply respects_get_meta, adds_zero_refl. Qed.

Lemma calls_log_header : forall meta what, calls_at_most 0 (@log_header FS meta what).
Proof.
  intros meta what w. destruct (logs_only_log_header FS meta what w) as (S & _ & _ & _ & C).
  apply adds_same; [now rewrite S | exact C].
Qed.

Lemma calls_os_rename : forall i, calls_at_most 1 (os_rename fs_rename i).
Proof.
  intros i w. split; [now rewrite os_rename_store|].
  unfold os_rename. run_m. unfold get_meta.
  destruct (nth_error (list_metadata w) i) as [m|].
  2:{ exists []. rewrite app_nil_r. split; [reflexivity | simpl; lia]. }
  destruct (actual_full_path m) as [src|].
  2:{ exists []. rewrite app_nil_r. split; [reflexivity | simpl; lia]. }
  destruct (new_full_path m) as [dst|].
  2:{ exists []. rewrite app_nil_r. split; [reflexivity | simpl; lia]. }
  cbn [disk set_rename_calls].
  destruct (fs_rename (disk w) src dst); exists [(src, dst)];
    (split; [reflexivity | simpl; lia]).
Qed.

Lemma calls_rename_file : forall i oc, calls_at_most 1 (rename_file fs_rename i oc).
Proof.
  intros i oc. unfold rename_file.
  apply (calls_bind _ _ 0 1); [apply calls_get_meta|].
  intros meta.
  destruct (oc && negb (has_conflict meta)).
  { intros w. apply adds_refl. }
  destruct (negb (truthy (new_full_path meta))).
  { intros w. apply adds_refl. }
  apply (calls_bind _ _ 1 0); [|intros _; apply calls_on_meta].
  destruct (opt_str_eqb (new_full_name meta) (actual_full_name meta)).
  - apply (calls_weaken _ 0); [lia | apply calls_log_info].
  - apply (calls_bind _ _ 1 0);
      [apply calls_os_rename | intros _; apply calls_log_info].
Qed.

Lemma calls_run_renamer_step : forall oc i,
  calls_at_most 1 (run_renamer_step fs_rename oc i).
Proof.
  intros oc i. unfold run_renamer_step.
  apply (calls_bind _ _ 0 1); [apply calls_get_meta|]. intros meta.
  apply (calls_bind _ _ 0 1); [apply calls_log_header|]. intros _.
  apply (calls_try_except _ 1 0).
  - apply (calls_bind _ _ 0 1);
      [apply calls_log_info | intros _; apply calls_rename_file].
  - intros e. apply (calls_bind _ _ 0 0); [apply calls_get_meta|].
    intros m. apply calls_log_error.
Qed.

Lemma calls_run_renamer : forall oc (w : W),
  adds_at_most (List.length (list_metadata w)) w (snd (run_renamer fs_rename oc w)).
Proof.
  intros oc w. rewrite run_renamer_unfold.
  set (w1 := set_logger _ w).
  pose proof (calls_for_each nat (seq 0 (List.length (list_metadata w)))
                (run_renamer_step fs_rename oc)
                (calls_run_renamer_step oc) w1) as H.
  rewrite length_seq in H.
  destruct H as (L & c & E & B). split; [exact L|]. exists c. split; [exact E | exact B].
Qed.

Lemma calls_search_mutual_names : forall oc, calls_at_most 0 (@search_mutual_names FS oc).
Proof.
  intros oc.
  apply (pr_search_mutual_names FS (adds_at_most 0) (fun _ => True)).
  - apply adds_zero_refl.
  - apply adds_zero_trans.
  - apply calls_create_df.
  - intros i kw _. apply calls_on_meta.
  - intros k. exact I.
Qed.

Lemma calls_check_conflicts : forall oc, calls_at_most 0 (@check_conflicts FS oc).
Proof.
  intros oc.
  apply (pr_check_conflicts FS (adds_at_most 0) (fun _ => True)).
  - apply adds_zero_refl.
  - apply adds_zero_trans.
  - apply calls_log_info.
  - intros i kw _. apply calls_on_meta.
  - intros n. exact I.
Qed.

Lemma calls_initialize_conflicts : calls_at_most 0 (@initialize_conflicts FS).
Proof.
  apply (pr_initialize_conflicts FS (adds_at_most 0) (fun _ => True)).
  - apply adds_zero_refl.
  - apply adds_zero_trans.
  - apply calls_log_info.
  - intros i kw _. apply calls_on_meta.
  - exact I.
Qed.

Lemma calls_process_step : forall oc i,
  calls_at_most 0
    (process_step FS fs_exif strptime_DT fs_probe fromisoformat fs_ctime fs_mtime oc i).
Proof.
  intros oc i. unfold process_step.
  apply respects_bind; [apply adds_zero_trans | apply calls_get_meta |].
  intros meta.
  apply respects_bind; [apply adds_zero_trans | apply calls_log_header |].
  intros _. apply respects_bind; [apply adds_zero_trans | |].
  { apply respects_if; [apply calls_log_info | apply respects_ret, adds_zero_refl]. }
  intros _. apply respects_bind; [apply adds_zero_trans | |].
  { apply respects_get, adds_zero_refl. }
  intros w1. apply respects_bind; [apply adds_zero_trans | |].
  { apply respects_if; [|apply respects_ret, adds_zero_refl].
    apply respects_bind; [apply adds_zero_trans | apply respects_lift, adds_zero_refl |].
    intros d. apply respects_ret, adds_zero_refl. }
  intros d. apply calls_on_meta.
Qed.

Lemma calls_process_tail : forall oc (w : W),
  adds_at_most (List.length (list_metadata w)) w
    (snd (process_tail FS fs_rename oc w)).
Proof.
  intros oc w. unfold process_tail. unfold bind at 1.
  assert (H1 : adds_at_most 0 w
                 (snd ((if negb oc then create_df_global_media else ret tt) w))).
  { destruct oc; [apply adds_zero_refl | apply calls_create_df]. }
  destruct ((if negb oc then create_df_global_media else ret tt) w) as [[[]|e] w1];
    cbn [snd] in H1.
  2:{ apply (adds_weaken 0); [lia | exact H1]. }
  unfold bind at 1.
  pose proof (calls_search_mutual_names oc w1) as H2.
  destruct (search_mutual_names oc w1) as [[[]|e] w2]; cbn [snd] in H2.
  2:{ apply (adds_weaken 0); [lia|]. exact (adds_zero_trans _ _ _ H1 H2). }
  pose proof (calls_run_renamer oc w2) as H3.
  pose proof (adds_zero_trans _ _ _ H1 H2) as H12.
  assert (L : List.length (list_metadata w2) = List.length (list_metadata w))
    by (destruct H12; assumption).
  rewrite L in H3. exact (adds_trans 0 _ _ _ _ H12 H3).
Qed.

Lemma calls_process_files : forall oc (w : W),
  adds_at_most (List.length (list_metadata w)) w
    (snd (process_files fs_exif strptime_DT fs_probe fromisoformat fs_ctime fs_mtime
            fs_rename oc w)).
Proof.
  intros oc w. rewrite process_files_unfold.
  destruct (oc && negb (conflict_exists w)); [apply adds_refl|].
  unfold bind at 1.
  pose proof (calls_check_conflicts oc w) as H0.
  destruct (check_conflicts oc w) as [[[]|e] w0]; cbn [snd] in H0.
  2:{ apply (adds_weaken 0); [lia | exact H0]. }
  rewrite process_rest_unfold.
  set (w1 := snd (find_file_counts oc w0)).
  assert (H1 : adds_at_most 0 w w1).
  { exact (adds_zero_trans _ _ _ H0 (calls_counts oc w0)). }
  change (List.length (list_metadata w0)) with (List.length (list_metadata w1)).
  unfold bind at 1.
  pose proof (respects_for_each FS (adds_at_most 0) adds_zero_refl adds_zero_trans nat
                (seq 0 (List.length (list_metadata w1)))
                (process_step FS fs_exif strptime_DT fs_probe fromisoformat fs_ctime
                   fs_mtime oc)
                (fun x _ => calls_process_step oc x) w1) as H2.
  destruct (for_each _ _ w1) as [[[]|e] w2]; cbn [snd] in H2.
  2:{ apply (adds_weaken 0); [lia|]. exact (adds_zero_trans _ _ _ H1 H2). }
  pose proof (adds_zero_trans _ _ _ H1 H2) as H12.
  pose proof (calls_process_tail oc w2) as H3.
  assert (L : List.length (list_metadata w2) = List.length (list_metadata w))
    by (destruct H12; assumption).
  rewrite L in H3. exact (adds_trans 0 _ _ _ _ H12 H3).
Qed.

(** Discovery calls [os.rename] not at all. *)
Definition same_calls (w w' : W) : Prop := rename_calls w' = rename_calls w.

Lemma same_calls_build_records : forall lines root i,
  respects FS same_calls (build_records root i lines).
Proof.
  induction lines as [|file lines IH]; intros root i w; [reflexivity|].
  cbn [build_records].
  destruct (split_dot file) as [[name extension]|]; [|reflexivity].
  destruct (set_file_metadata _ FileMetadata0) as [res file_meta].
  unfold bind at 1. unfold lift at 1.
  destruct res as [[]|e]; [|reflexivity].
  unfold bind at 1. unfold modify at 1.
  unfold same_calls. rewrite (IH root (S i) _). reflexivity.
Qed.

Lemma same_calls_fetch : forall base_folder,
  respects FS same_calls (fetch_list_files fs_walk fs_dir base_folder).
Proof.
  assert (Rr : forall w : W, same_calls w w) by reflexivity.
  assert (Rt : forall a b c : W, same_calls a b -> same_calls b c -> same_calls a c)
    by (unfold same_calls; intros; congruence).
  intros base_folder. unfold fetch_list_files.
  apply respects_bind; [exact Rt | intros w; reflexivity |].
  intros _. apply respects_bind; [exact Rt | now apply respects_get |].
  intros w0. apply respects_for_each; [exact Rr | exact Rt |].
  intros root _. apply respects_bind; [exact Rt | | intros _ w; reflexivity].
  apply respects_for_each; [exact Rr | exact Rt |].
  intros e _. apply respects_bind; [exact Rt | now apply respects_get |].
  intros w1. destruct (fs_dir (disk w1) root e).
  - apply same_calls_build_records.
  - now apply respects_ret.
Qed.

Lemma conflict_pass_length : forall w : W,
  List.length
    (list_metadata
       (snd (conflict_pass FS fs_exif strptime_DT fs_probe fromisoformat fs_ctime
               fs_mtime fs_rename w)))
  = List.length (list_metadata w).
Proof.
  intros w. unfold conflict_pass, bind.
  pose proof (calls_initialize_conflicts w) as I1.
  destruct (initialize_conflicts w) as [[[]|e] w3]; cbn [snd] in I1.
  - destruct (calls_process_files YES w3) as [L4 _]. destruct I1. congruence.
  - destruct I1. assumption.
Qed.

Lemma main_run_bound : forall dir_year fs,
  exists r w',
    main fs_walk fs_dir fs_exif strptime_DT fs_probe fromisoformat fs_ctime fs_mtime
      fs_rename dir_year (initial_world fs) = (r, w') /\
    List.length (rename_calls w') <= List.length (list_metadata w').
Proof.
  intros dir_year fs. rewrite main_unfold. unfold bind at 1.
  pose proof (same_calls_fetch dir_year (initial_world fs)) as F.
  unfold same_calls in F. cbn [rename_calls initial_world] in F.
  destruct (fetch_list_files fs_walk fs_dir dir_year (initial_world fs))
    as [[[]|e] w1]; cbn [snd] in F.
  2:{ exists (Raise e), w1. split; [reflexivity|]. rewrite F. simpl. lia. }
  unfold bind at 1.
  pose proof (calls_process_files NO w1) as P.
  destruct (process_files fs_exif strptime_DT fs_probe fromisoformat fs_ctime
              fs_mtime fs_rename NO w1) as [[[]|e] w2]; cbn [snd] in P;
    destruct P as (L & c & E & B).
  2:{ exists (Raise e), w2. split; [reflexivity|]. rewrite E, F, L. simpl. exact B. }
  destruct (conflict_pass_quiet FS fs_exif strptime_DT fs_probe fromisoformat
              fs_ctime fs_mtime fs_rename w2) as [_ C].
  pose proof (conflict_pass_length w2) as L3.
  destruct (conflict_pass FS fs_exif strptime_DT fs_probe fromisoformat fs_ctime
              fs_mtime fs_rename w2) as [r3 w3]. cbn [snd] in C, L3.
  exists r3, w3. split; [reflexivity|].
  rewrite C, L3, E, F, L. simpl. exact B.
Qed.

(** X11.  A pass calls [os.rename] at most once per record: the calls that
    [process_files] adds (in either mode) are no more than the records of the
    list, whose number it keeps.  A whole run of the module body from an
    empty state therefore calls [os.rename] no more often than it has
    discovered files. *)
Theorem at_most_one_rename_per_record :
  (forall only_conflicts (w : W),
      List.length
        (list_metadata
           (snd (process_files fs_exif strptime_DT fs_probe fromisoformat fs_ctime
                   fs_mtime fs_rename only_conflicts w)))
      = List.length (list_metadata w) /\
      exists c,
        rename_calls
          (snd (process_files fs_exif strptime_DT fs_probe fromisoformat fs_ctime
                  fs_mtime fs_rename only_conflicts w))
        = (rename_calls w ++ c)%list /\
        List.length c <= List.length (list_metadata w)) /\
  (forall dir_year fs,
      List.length
        (rename_calls
           (snd (main fs_walk fs_dir fs_exif strptime_DT fs_probe fromisoformat
                   fs_ctime fs_mtime fs_rename dir_year (initial_world fs))))
      <= List.length
           (list_metadata
              (snd (main fs_walk fs_dir fs_exif strptime_DT fs_probe fromisoformat
                      fs_ctime fs_mtime fs_rename dir_year (initial_world fs))))).
Proof.
  split; [exact calls_process_files|].
  intros dir_year fs. destruct (main_run_bound dir_year fs) as (r & w' & E & B).
  rewrite E. exact B.
Qed.

End RenameCount.


(** ** Renaming keeps a file in its folder *)

(** A path field is either unset or made of the folder of the record and of
    the matching full name. *)
Definition path_in_folder (m : FileMetadata) (path name : option string) : Prop :=
  forall p, path = Some p ->
    exists f n, folder m = Some f /\ name = Some n /\ p = f ++ SLASH ++ n.

Definition consistent (m : FileMetadata) : Prop :=
  path_in_folder m (actual_full_path m) (actual_full_name m) /\
  path_in_folder m (new_full_path m) (new_full_name m).

Lemma set_actual_name_consistent : forall m,
  consistent m -> consistent (snd (set_actual_name m)).
Proof.
  intros m [Ha Hn]. unfold set_actual_name. run_m.
  destruct (actual_name m) as [name|]; [|split; assumption].
  destruct (name =? ""); [split; assumption|].
  unfold concat_full_path. destruct (folder m) as [f|] eqn:Ef; cbn [snd].
  - split.
    + intros p Hp. cbn in Hp. inversion Hp. exists f, (concat_full_name name (ext m)).
      cbn. rewrite Ef. auto.
    + intros p Hp. cbn in Hp. destruct (Hn p Hp) as (f' & n & F & N & E).
      exists f', n. cbn. rewrite Ef in F. rewrite Ef. auto.
  - split.
    + intros p Hp. cbn in Hp. destruct (Ha p Hp) as (f' & n & F & _).
      rewrite Ef in F. discriminate.
    + intros p Hp. cbn in Hp. destruct (Hn p Hp) as (f' & n & F & _).
      rewrite Ef in F. discriminate.
Qed.

Lemma set_new_name_consistent : forall m,
  consistent m -> consistent (snd (set_new_name m)).
Proof.
  intros m [Ha Hn]. unfold set_new_name. run_m.
  destruct (negb (truthy (date_taken m)) && negb (truthy (new_name m)));
    [split; assumption|].
  unfold concat_full_path. destruct (folder m) as [f|] eqn:Ef; cbn [snd].
  - split.
    + intros p Hp. cbn in Hp. destruct (Ha p Hp) as (f' & n & F & N & E).
      exists f', n. cbn. rewrite Ef in F. rewrite Ef. auto.
    + intros p Hp. cbn in Hp. inversion Hp. exists f. eexists. cbn. rewrite Ef.
      split; [reflexivity|]. split; reflexivity.
  - split.
    + intros p Hp. cbn in Hp. destruct (Ha p Hp) as (f' & n & F & _).
      rewrite Ef in F. discriminate.
    + intros p Hp. cbn in Hp. destruct (Hn p Hp) as (f' & n & F & _).
      rewrite Ef in F. discriminate.
Qed.

Lemma basic_update_consistent : forall kw m,
  truthy (kw_folder kw) = false -> consistent m -> consistent (basic_update kw m).
Proof.
  intros kw m Hk [Ha Hn].
  destruct (basic_update_derived kw m) as (D1 & D2 & D3 & D4).
  pose proof (basic_update_folder kw m) as F. unfold por in F. rewrite Hk in F.
  split; intros p Hp.
  - rewrite D2 in Hp. destruct (Ha p Hp) as (f & n & X & Y & Z).
    exists f, n. rewrite F, D1. auto.
  - rewrite D4 in Hp. destruct (Hn p Hp) as (f & n & X & Y & Z).
    exists f, n. rewrite F, D3. auto.
Qed.

Lemma updated_consistent : forall kw m,
  truthy (kw_folder kw) = false -> consistent m -> consistent (updated kw m).
Proof.
  intros kw m Hk Hc. unfold updated. rewrite set_file_metadata_split. unfold bind.
  pose proof (set_actual_name_consistent _ (basic_update_consistent kw m Hk Hc)) as C1.
  destruct (set_actual_name (basic_update kw m)) as [[[]|e] m1]; cbn [snd] in *.
  - now apply set_new_name_consistent.
  - exact C1.
Qed.

Lemma FileMetadata0_consistent : consistent FileMetadata0.
Proof. split; intros p Hp; discriminate. Qed.

(** A record built from scratch is consistent whatever is passed. *)
Lemma fresh_record_consistent : forall kw, consistent (updated kw FileMetadata0).
Proof.
  intros kw. unfold updated. rewrite set_file_metadata_split. unfold bind.
  assert (C0 : consistent (basic_update kw FileMetadata0)).
  { destruct (basic_update_derived kw FileMetadata0) as (D1 & D2 & D3 & D4).
    split; intros p Hp; [rewrite D2 in Hp | rewrite D4 in Hp]; discriminate. }
  pose proof (set_actual_name_consistent _ C0) as C1.
  destruct (set_actual_name (basic_update kw FileMetadata0)) as [[[]|e] m1];
    cbn [snd] in *.
  - now apply set_new_name_consistent.
  - exact C1.
Qed.

Section FolderFacts.

Variable FS : Type.
Variable fs_walk : FS -> string -> list string.
Variable fs_dir : FS -> string -> string -> option (list string).
Variable fs_exif : FS -> string -> outcome (string -> option string).
Variable strptime_DT : string -> option datetime.
Variable fs_probe : FS -> string -> option (string -> option string).
Variable fromisoformat : string -> option datetime.
Variable fs_ctime : FS -> string -> option datetime.
Variable fs_mtime : FS -> string -> option datetime.
Variable fs_rename : FS -> string -> string -> option FS.
Local Abbreviation W := (World FS).

Definition keeps_consistent (m m' : FileMetadata) : Prop :=
  consistent m -> consistent m'.

Lemma keeps_consistent_kw : forall kw,
  truthy (kw_folder kw) = false -> kw_keeps keeps_consistent kw.
Proof. intros kw Hk m Hc. now apply updated_consistent. Qed.

Lemma consistent_process_files : forall oc (w : W),
  Forall consistent (list_metadata w) ->
  Forall consistent
    (list_metadata
       (snd (process_files fs_exif strptime_DT fs_probe fromisoformat fs_ctime
               fs_mtime fs_rename oc w))).
Proof.
  intros oc w. apply (store_rel_Forall FS consistent).
  apply (sr_process_files FS fs_exif strptime_DT fs_probe fromisoformat fs_ctime
           fs_mtime fs_rename keeps_consistent).
  - intros m H; exact H.
  - unfold keeps_consistent; intros; auto.
  - intros n. now apply keeps_consistent_kw.
  - intros d. now apply keeps_consistent_kw.
  - intros k. now apply keeps_consistent_kw.
  - intros n. now apply keeps_consistent_kw.
Qed.

Lemma consistent_initialize_conflicts : forall w : W,
  Forall consistent (list_metadata w) ->
  Forall consistent (list_metadata (snd (initialize_conflicts w))).
Proof.
  intros w. apply (store_rel_Forall FS consistent).
  apply (sr_initialize_conflicts FS keeps_consistent).
  - intros m H; exact H.
  - unfold keeps_consistent; intros; auto.
  - now apply keeps_consistent_kw.
Qed.

(** Discovery builds consistent records only. *)
Definition consistent_store (w w' : W) : Prop :=
  Forall consistent (list_metadata w) -> Forall consistent (list_metadata w').

Lemma build_records_cons : forall lines root i file name x (w : W),
  split_dot file = Some (name, x) ->
  build_records root i (file :: lines) w
  = match fst (set_file_metadata
                 (kw_discovered root name (lower x) (Z.of_nat i + 1)) FileMetadata0)
    with
    | Ok _ =>
        build_records root (S i) lines
          (set_list_metadata
             (list_metadata w ++ [discovered root name x (Z.of_nat i + 1)])%list w)
    | Raise e => (Raise e, w)
    end.
Proof.
  intros lines root i file name x w Hs. cbn [build_records]. rewrite Hs.
  unfold discovered, updated, kw_discovered.
  destruct (set_file_metadata _ FileMetadata0) as [[[]|e] fm]; reflexivity.
Qed.

Lemma consistent_build_records : forall lines root i,
  respects FS consistent_store (build_records root i lines).
Proof.
  induction lines as [|file lines IH]; intros root i w H; [exact H|].
  destruct (split_dot file) as [[name x]|] eqn:Hs.
  2:{ cbn [build_records]. rewrite Hs. exact H. }
  rewrite (build_records_cons lines root i file name x w Hs).
  destruct (fst (set_file_metadata _ FileMetadata0)) as [[]|e]; [|exact H].
  apply IH. cbn [list_metadata set_list_metadata].
  apply Forall_app. split; [exact H|].
  constructor; [apply fresh_record_consistent | constructor].
Qed.

Lemma consistent_fetch : forall base_folder (w : W),
  Forall consistent
    (list_metadata (snd (fetch_list_files fs_walk fs_dir base_folder w))).
Proof.
  assert (Rr : forall w : W, consistent_store w w) by (intros w H; exact H).
  assert (Rt : forall a b c : W,
             consistent_store a b -> consistent_store b c -> consistent_store a c)
    by (unfold consistent_store; intros; auto).
  intros base_folder w. unfold fetch_list_files. unfold bind at 1.
  unfold modify at 1.
  set (w0 := set_list_metadata [] w).
  assert (H0 : Forall consistent (list_metadata w0)) by constructor.
  revert H0. generalize w0. clear w0. intros w0.
  change (consistent_store w0
            (snd ((w1 <- get ;;
                   for_each (fs_walk (disk w1) base_folder)
                     (fun root =>
                        for_each FILE_EXTENSIONS
                          (fun e => w2 <- get ;;
                                    match fs_dir (disk w2) root e with
                                    | Some lines => build_records root 0 lines
                                    | None => ret tt
                                    end) ;;;
                        create_df_global_media)) w0))).
  revert w0.
  apply respects_bind; [exact Rt | now apply respects_get |].
  intros w1. apply respects_for_each; [exact Rr | exact Rt |].
  intros root _. apply respects_bind; [exact Rt | | intros _ w2 H; exact H].
  apply respects_for_each; [exact Rr | exact Rt |].
  intros e _. apply respects_bind; [exact Rt | now apply respects_get |].
  intros w2. destruct (fs_dir (disk w2) root e).
  - apply consistent_build_records.
  - now apply respects_ret.
Qed.

(** What [rename_file] adds to the calls. *)
Lemma rename_file_call : forall i oc (w : W) m,
  nth_error (list_metadata w) i = Some m ->
  exists r w',
    rename_file fs_rename i oc w = (r, w') /\
    (rename_calls w' = rename_calls w \/
     exists src dst,
       actual_full_path m = Some src /\ new_full_path m = Some dst /\
       rename_calls w' = (rename_calls w ++ [(src, dst)])%list).
Proof.
  intros i oc w m E. rewrite (rename_file_unfold FS fs_rename i oc w m E).
  destruct (oc && negb (has_conflict m)).
  { exists (Ok tt), w. split; [reflexivity | now left]. }
  destruct (negb (truthy (new_full_path m))).
  { eexists. exists w. split; [reflexivity | now left]. }
  set (kw := mkKw None None (new_name m) None None None None 0 None None 0).
  unfold bind at 1.
  destruct (opt_str_eqb (new_full_name m) (actual_full_name m)).
  - unfold log_info at 1. unfold modify at 1.
    set (w2 := set_logger _ w).
    destruct (quiet_on_meta FS unit i (set_file_metadata kw) w2) as [_ C].
    destruct (on_meta i (set_file_metadata kw) w2) as [r w3]. cbn [snd] in C.
    exists r, w3. split; [reflexivity|]. left. exact C.
  - unfold bind at 1.
    destruct (actual_full_path m) as [src|] eqn:Es.
    2:{ unfold os_rename, bind, get_meta. rewrite E, Es.
        eexists. exists w. split; [reflexivity | now left]. }
    destruct (new_full_path m) as [dst|] eqn:Ed.
    2:{ unfold os_rename, bind, get_meta. rewrite E, Es, Ed.
        eexists. exists w. split; [reflexivity | now left]. }
    rewrite (os_rename_unfold FS fs_rename i w m src dst E Es Ed).
    destruct (fs_rename (disk w) src dst) as [fs'|].
    2:{ eexists. eexists. split; [reflexivity|]. right. exists src, dst.
        split; [reflexivity|]. split; reflexivity. }
    unfold log_info at 1. unfold modify at 1.
    set (w2 := set_logger _ _).
    destruct (quiet_on_meta FS unit i (set_file_metadata kw) w2) as [_ C].
    destruct (on_meta i (set_file_metadata kw) w2) as [r w3]. cbn [snd] in C.
    exists r, w3. split; [reflexivity|]. right. exists src, dst.
    split; [reflexivity|]. split; [reflexivity|]. rewrite C. reflexivity.
Qed.

(** X12.  Renaming keeps a file in its folder.  A record is consistent when
    each of its two paths is unset or is its folder joined to the matching
    full name.  Every record built by discovery is consistent, both passes
    and the conflict reset keep every record consistent, and on a consistent
    record [rename_file] adds at most the one call
    [os.rename(folder\actual_full_name, folder\new_full_name)]: source and
    destination lie in the same folder, that of the record. *)
Theorem renaming_stays_in_the_folder :
  (forall base_folder (w : W),
      Forall consistent
        (list_metadata (snd (fetch_list_files fs_walk fs_dir base_folder w)))) /\
  (forall only_conflicts (w : W),
      Forall consistent (list_metadata w) ->
      Forall consistent
        (list_metadata
           (snd (process_files fs_exif strptime_DT fs_probe fromisoformat fs_ctime
                   fs_mtime fs_rename only_conflicts w))) /\
      Forall consistent (list_metadata (snd (initialize_conflicts w)))) /\
  (forall i only_conflicts (w : W) m,
      nth_error (list_metadata w) i = Some m -> consistent m ->
      rename_calls (snd (rename_file fs_rename i only_conflicts w)) = rename_calls w \/
      exists f a b,
        folder m = Some f /\ actual_full_name m = Some a /\
        new_full_name m = Some b /\
        rename_calls (snd (rename_file fs_rename i only_conflicts w))
        = (rename_calls w
           ++ [((f ++ SLASH ++ a)%string, (f ++ SLASH ++ b)%string)])%list).
Proof.
  split; [exact consistent_fetch|]. split.
  - intros oc w H. split;
      [now apply consistent_process_files | now apply consistent_initialize_conflicts].
  - intros i oc w m E [Ha Hn].
    destruct (rename_file_call i oc w m E) as (r & w' & R & Q). rewrite R. cbn [snd].
    destruct Q as [Q|(src & dst & Es & Ed & Q)]; [now left|].
    right. destruct (Ha src Es) as (f & a & F & A & ->).
    destruct (Hn dst Ed) as (f' & b & F' & B & ->).
    assert (f' = f) by congruence. subst f'.
    exists f, a, b. auto.
Qed.

End FolderFacts.


(** ** The names built from a date *)

Definition NAME_LENGTH : nat := 15.

(** A date as Python holds it, with a year of four digits. *)
Definition valid_datetime (d : datetime) : Prop :=
  1000 <= year d < 100 * 100 /\ 1 <= month d <= 12 /\ 1 <= day d <= 31 /\
  hour d <= 23 /\ minute d <= 59 /\ second d <= 59.

(** The fields that the name shows. *)
Definition sec_key (d : datetime) : list nat :=
  [year d; month d; day d; hour d; minute d; second d].

Fixpoint lex_compare (a b : list nat) : comparison :=
  match a, b with
  | x :: a', y :: b' =>
      match Nat.compare x y with
      | Eq => lex_compare a' b'
      | c => c
      end
  | [], [] => Eq
  | [], _ :: _ => Lt
  | _ :: _, [] => Gt
  end.

Definition two_digits (n : nat) : string := zfill 2 (dec n).

Definition cmp_eqb (a b : comparison) : bool :=
  match a, b with
  | Eq, Eq | Lt, Lt | Gt, Gt => true
  | _, _ => false
  end.

Lemma cmp_eqb_eq : forall a b, cmp_eqb a b = true -> a = b.
Proof. intros [] [] H; try reflexivity; discriminate. Qed.

Lemma forallb_below : forall (f : nat -> bool) n,
  forallb f (seq 0 n) = true -> forall x, x < n -> f x = true.
Proof.
  intros f n H x Hx. rewrite forallb_forall in H. apply H. apply in_seq. lia.
Qed.

Lemma two_digits_length : forall n, n < 100 -> String.length (two_digits n) = 2.
Proof.
  intros n Hn.
  assert (H : forallb (fun n => String.length (two_digits n) =? 2)%nat (seq 0 100) = true)
    by (vm_compute; reflexivity).
  apply Nat.eqb_eq. exact (forallb_below _ _ H n Hn).
Qed.

(** The character of a decimal digit. *)
Definition digit_char (d : nat) : ascii := ascii_of_nat (48 + d).

Lemma two_digits_chars : forall n, n < 100 ->
  two_digits n = String (digit_char (n / 10)) (String (digit_char (n mod 10)) "").
Proof.
  intros n Hn.
  assert (H : forallb
                (fun n => two_digits n
                          =? String (digit_char (n / 10))
                               (String (digit_char (n mod 10)) ""))
                (seq 0 100) = true)
    by (vm_compute; reflexivity).
  apply String.eqb_eq. exact (forallb_below _ _ H n Hn).
Qed.

Lemma digit_char_compare : forall a b, a < 10 -> b < 10 ->
  Ascii.compare (digit_char a) (digit_char b) = Nat.compare a b.
Proof.
  intros a b Ha Hb.
  assert (H : forallb
                (fun a => forallb
                            (fun b => cmp_eqb (Ascii.compare (digit_char a)
                                                 (digit_char b))
                                        (Nat.compare a b))
                            (seq 0 10))
                (seq 0 10) = true)
    by (vm_compute; reflexivity).
  apply cmp_eqb_eq.
  exact (forallb_below _ _ (forallb_below _ _ H a Ha) b Hb).
Qed.

(** Comparing two numbers is comparing their quotients by [k], then the
    remainders. *)
Lemma compare_div_mod : forall k x y,
  0 < k ->
  Nat.compare x y
  = match Nat.compare (x / k) (y / k) with
    | Eq => Nat.compare (x mod k) (y mod k)
    | c => c
    end.
Proof.
  intros k x y Hk.
  pose proof (Nat.div_mod_eq x k) as Ex. pose proof (Nat.div_mod_eq y k) as Ey.
  assert (Bx : x mod k < k) by (apply Nat.mod_upper_bound; lia).
  assert (By : y mod k < k) by (apply Nat.mod_upper_bound; lia).
  destruct (Nat.compare_spec (x / k) (y / k)) as [H|H|H].
  - destruct (Nat.compare_spec (x mod k) (y mod k)) as [G|G|G].
    + apply Nat.compare_eq_iff. rewrite Ex, Ey, H, G. reflexivity.
    + apply Nat.compare_lt_iff. rewrite Ex, Ey, H. lia.
    + apply Nat.compare_gt_iff. rewrite Ex, Ey, H. lia.
  - apply Nat.compare_lt_iff. rewrite Ex, Ey. nia.
  - apply Nat.compare_gt_iff. rewrite Ex, Ey. nia.
Qed.

Lemma two_digits_compare : forall a b, a < 100 -> b < 100 ->
  String.compare (two_digits a) (two_digits b) = Nat.compare a b.
Proof.
  intros a b Ha Hb.
  rewrite (two_digits_chars a Ha), (two_digits_chars b Hb). cbn [String.compare].
  assert (Qa : a / 10 < 10) by (apply Nat.Div0.div_lt_upper_bound; lia).
  assert (Qb : b / 10 < 10) by (apply Nat.Div0.div_lt_upper_bound; lia).
  assert (Ra : a mod 10 < 10) by (apply Nat.mod_upper_bound; lia).
  assert (Rb : b mod 10 < 10) by (apply Nat.mod_upper_bound; lia).
  rewrite (digit_char_compare _ _ Qa Qb), (digit_char_compare _ _ Ra Rb).
  rewrite (compare_div_mod 10 a b) by lia.
  destruct (Nat.compare (a / 10) (b / 10)); [|reflexivity|reflexivity].
  destruct (Nat.compare (a mod 10) (b mod 10)); reflexivity.
Qed.

(** The decimal numeral with the digits [a b c e]. *)
Definition dig (k : nat) (d : Decimal.uint) : Decimal.uint :=
  match k with
  | 0 => Decimal.D0 d | 1 => Decimal.D1 d | 2 => Decimal.D2 d | 3 => Decimal.D3 d
  | 4 => Decimal.D4 d | 5 => Decimal.D5 d | 6 => Decimal.D6 d | 7 => Decimal.D7 d
  | 8 => Decimal.D8 d | _ => Decimal.D9 d
  end.

Ltac each_digit k :=
  do 10 (destruct k as [|k]; [try reflexivity|]); [lia].

Lemma of_uint_acc_dig : forall k d acc,
  k < 10 -> Nat.of_uint_acc (dig k d) acc = Nat.of_uint_acc d (10 * acc + k).
Proof.
  intros k d acc Hk.
  do 10 (destruct k as [|k];
         [cbn [dig Nat.of_uint_acc]; rewrite Nat.tail_mul_spec; f_equal; lia|]).
  lia.
Qed.

Lemma string_of_dig : forall k d,
  k < 10 ->
  NilEmpty.string_of_uint (dig k d)
  = String (digit_char k) (NilEmpty.string_of_uint d).
Proof. intros k d Hk. each_digit k. Qed.

Lemma string_of_unorm_dig : forall k d,
  0 < k < 10 ->
  NilZero.string_of_uint (Decimal.unorm (dig k d))
  = String (digit_char k) (NilEmpty.string_of_uint d).
Proof.
  intros k d Hk. destruct k as [|k]; [lia|].
  do 9 (destruct k as [|k]; [reflexivity|]). lia.
Qed.

Lemma unorm_dig_zero : forall d, Decimal.unorm (dig 0 d) = Decimal.unorm d.
Proof. reflexivity. Qed.

Lemma four_digits_chars : forall a b c e,
  a < 10 -> b < 10 -> c < 10 -> e < 10 ->
  zfill 4 (NilZero.string_of_uint
             (Decimal.unorm (dig a (dig b (dig c (dig e Decimal.Nil))))))
  = String (digit_char a)
      (String (digit_char b) (String (digit_char c) (String (digit_char e) ""))).
Proof.
  intros a b c e Ha Hb Hc He.
  destruct a as [|a].
  2:{ rewrite string_of_unorm_dig by lia. rewrite !string_of_dig by lia. reflexivity. }
  rewrite unorm_dig_zero. destruct b as [|b].
  2:{ rewrite string_of_unorm_dig by lia. rewrite !string_of_dig by lia. reflexivity. }
  rewrite unorm_dig_zero. destruct c as [|c].
  2:{ rewrite string_of_unorm_dig by lia. rewrite !string_of_dig by lia. reflexivity. }
  rewrite unorm_dig_zero. destruct e as [|e]; [reflexivity|].
  rewrite string_of_unorm_dig by lia. reflexivity.
Qed.

Lemma four_digits_split : forall y, y < 100 * 100 ->
  zfill 4 (dec y) = two_digits (y / 100) ++ two_digits (y mod 100).
Proof.
  intros y Hy.
  pose proof (Nat.div_mod_eq y 100) as Ey.
  assert (Hq : y / 100 < 100) by (apply Nat.Div0.div_lt_upper_bound; lia).
  assert (Hr : y mod 100 < 100) by (apply Nat.mod_upper_bound; lia).
  rewrite (two_digits_chars _ Hq), (two_digits_chars _ Hr).
  pose proof (Nat.div_mod_eq (y / 100) 10) as Eq.
  pose proof (Nat.div_mod_eq (y mod 100) 10) as Er.
  assert (Ha : y / 100 / 10 < 10) by (apply Nat.Div0.div_lt_upper_bound; lia).
  assert (Hb : (y / 100) mod 10 < 10) by (apply Nat.mod_upper_bound; lia).
  assert (Hc : y mod 100 / 10 < 10) by (apply Nat.Div0.div_lt_upper_bound; lia).
  assert (He : (y mod 100) mod 10 < 10) by (apply Nat.mod_upper_bound; lia).
  revert Ey Eq Er Ha Hb Hc He.
  generalize (y / 100 / 10) ((y / 100) mod 10) (y mod 100 / 10) ((y mod 100) mod 10).
  generalize (y / 100) (y mod 100). intros q r a b c e Ey Eq Er Ha Hb Hc He.
  assert (E : y = Nat.of_uint (dig a (dig b (dig c (dig e Decimal.Nil))))).
  { unfold Nat.of_uint. rewrite !of_uint_acc_dig by assumption.
    cbn [Nat.of_uint_acc]. lia. }
  unfold dec. rewrite E, DecimalNat.Unsigned.to_of.
  rewrite (four_digits_chars a b c e Ha Hb Hc He). reflexivity.
Qed.

Lemma length_append : forall a b : string,
  String.length (a ++ b) = String.length a + String.length b.
Proof. induction a as [|c a IH]; intros b; simpl; [reflexivity | now rewrite IH]. Qed.

Lemma compare_append : forall a1 a2 b1 b2 : string,
  String.length a1 = String.length a2 ->
  String.compare (a1 ++ b1) (a2 ++ b2)
  = match String.compare a1 a2 with
    | Eq => String.compare b1 b2
    | c => c
    end.
Proof.
  induction a1 as [|c1 a1 IH]; intros [|c2 a2] b1 b2 L; simpl in L; try discriminate.
  - reflexivity.
  - simpl. destruct (Ascii.compare c1 c2); [|reflexivity|reflexivity].
    apply IH. lia.
Qed.

(** The name as a sequence of two-digit groups. *)
Definition name_groups (d : datetime) : list nat :=
  [year d / 100; year d mod 100; month d; day d].

Definition clock_groups (d : datetime) : list nat :=
  [hour d; minute d; second d].

Fixpoint groups_str (l : list nat) : string :=
  match l with
  | [] => ""
  | n :: r => two_digits n ++ groups_str r
  end.

Lemma append_assoc : forall a b c : string, (a ++ b) ++ c = a ++ b ++ c.
Proof. induction a as [|x a IH]; intros b c; simpl; [reflexivity | now rewrite IH]. Qed.

Lemma strftime_NAME_groups : forall d,
  year d < 100 * 100 ->
  strftime_NAME d
  = groups_str (name_groups d) ++ "-" ++ groups_str (clock_groups d).
Proof.
  intros d Hy. unfold strftime_NAME. rewrite (four_digits_split _ Hy).
  unfold name_groups, clock_groups. cbn [groups_str]. fold (two_digits (month d)).
  fold (two_digits (day d)). fold (two_digits (hour d)).
  fold (two_digits (minute d)). fold (two_digits (second d)).
  rewrite !append_assoc, !append_empty_r. reflexivity.
Qed.

Lemma groups_str_length : forall l,
  Forall (fun n => n < 100) l -> String.length (groups_str l) = 2 * List.length l.
Proof.
  induction l as [|n l IH]; intros H; [reflexivity|].
  inversion H; subst. cbn [groups_str List.length].
  rewrite length_append, two_digits_length, IH; auto. lia.
Qed.

Lemma groups_str_compare : forall l1 l2,
  Forall (fun n => n < 100) l1 -> Forall (fun n => n < 100) l2 ->
  List.length l1 = List.length l2 ->
  forall r1 r2,
    String.compare (groups_str l1 ++ r1) (groups_str l2 ++ r2)
    = match lex_compare l1 l2 with
      | Eq => String.compare r1 r2
      | c => c
      end.
Proof.
  induction l1 as [|a l1 IH]; intros [|b l2] H1 H2 L r1 r2; simpl in L;
    try discriminate; [reflexivity|].
  inversion H1; subst. inversion H2; subst.
  cbn [groups_str lex_compare]. rewrite !append_assoc.
  rewrite compare_append by (rewrite !two_digits_length; auto).
  rewrite two_digits_compare by assumption.
  destruct (Nat.compare a b); [|reflexivity|reflexivity].
  apply IH; auto.
Qed.

Lemma lex_compare_app : forall a1 a2 b1 b2,
  List.length a1 = List.length a2 ->
  lex_compare (a1 ++ b1) (a2 ++ b2)
  = match lex_compare a1 a2 with
    | Eq => lex_compare b1 b2
    | c => c
    end.
Proof.
  induction a1 as [|x a1 IH]; intros [|y a2] b1 b2 L; simpl in L; try discriminate.
  - reflexivity.
  - simpl. destruct (Nat.compare x y); [|reflexivity|reflexivity]. apply IH. lia.
Qed.

Lemma valid_groups : forall d,
  valid_datetime d ->
  year d < 100 * 100 /\
  Forall (fun n => n < 100) (name_groups d) /\
  Forall (fun n => n < 100) (clock_groups d).
Proof.
  intros d (Hy & Hm & Hd & Hh & Hmi & Hs).
  split; [lia|]. split.
  - unfold name_groups.
    apply Forall_cons; [apply Nat.Div0.div_lt_upper_bound; lia|].
    apply Forall_cons; [apply Nat.mod_upper_bound; lia|].
    apply Forall_cons; [lia|]. apply Forall_cons; [lia|]. apply Forall_nil.
  - unfold clock_groups.
    apply Forall_cons; [lia|]. apply Forall_cons; [lia|].
    apply Forall_cons; [lia|]. apply Forall_nil.
Qed.

Lemma strftime_NAME_compare : forall d1 d2,
  valid_datetime d1 -> valid_datetime d2 ->
  String.compare (strftime_NAME d1) (strftime_NAME d2)
  = lex_compare (sec_key d1) (sec_key d2).
Proof.
  intros d1 d2 V1 V2.
  destruct (valid_groups d1 V1) as (Y1 & N1 & C1).
  destruct (valid_groups d2 V2) as (Y2 & N2 & C2).
  rewrite (strftime_NAME_groups d1 Y1), (strftime_NAME_groups d2 Y2).
  rewrite (groups_str_compare _ _ N1 N2 eq_refl).
  change ("-" ++ groups_str (clock_groups d1))
    with (String "-"%char (groups_str (clock_groups d1))).
  change ("-" ++ groups_str (clock_groups d2))
    with (String "-"%char (groups_str (clock_groups d2))).
  cbn [String.compare]. change (Ascii.compare "-" "-") with Eq. cbv iota.
  rewrite <- (append_empty_r (groups_str (clock_groups d1))).
  rewrite <- (append_empty_r (groups_str (clock_groups d2))).
  rewrite (groups_str_compare _ _ C1 C2 eq_refl).
  change (String.compare "" "") with Eq.
  unfold sec_key, name_groups, clock_groups.
  cbn [lex_compare]. rewrite (compare_div_mod 100 (year d1) (year d2)) by lia.
  destruct (Nat.compare (year d1 / 100) (year d2 / 100)); [|reflexivity|reflexivity].
  destruct (Nat.compare (year d1 mod 100) (year d2 mod 100));
    [|reflexivity|reflexivity].
  destruct (Nat.compare (month d1) (month d2)); [|reflexivity|reflexivity].
  destruct (Nat.compare (day d1) (day d2)); [|reflexivity|reflexivity].
  destruct (Nat.compare (hour d1) (hour d2)); [|reflexivity|reflexivity].
  destruct (Nat.compare (minute d1) (minute d2)); [|reflexivity|reflexivity].
  destruct (Nat.compare (second d1) (second d2)); reflexivity.
Qed.

Lemma lex_compare_eq : forall a b, lex_compare a b = Eq -> a = b.
Proof.
  induction a as [|x a IH]; intros [|y b] H; simpl in H; try discriminate; auto.
  destruct (Nat.compare x y) eqn:E; try discriminate.
  apply Nat.compare_eq_iff in E. subst. f_equal. now apply IH.
Qed.

Lemma string_compare_refl : forall s : string, String.compare s s = Eq.
Proof.
  induction s as [|c s IH]; simpl; [reflexivity|].
  unfold Ascii.compare. now rewrite N.compare_refl.
Qed.

Lemma lex_compare_refl : forall a, lex_compare a a = Eq.
Proof.
  induction a as [|x a IH]; simpl; [reflexivity|]. now rewrite Nat.compare_refl.
Qed.

Lemma lex_compare_ltb : forall a b,
  List.length a = List.length b ->
  lex_ltb a b = match lex_compare a b with Lt => true | _ => false end.
Proof.
  induction a as [|x a IH]; intros [|y b] L; simpl in L; try discriminate;
    [reflexivity|].
  simpl. destruct (Nat.compare_spec x y) as [H|H|H].
  - subst. rewrite Nat.ltb_irrefl, Nat.eqb_refl. simpl. apply IH. lia.
  - apply Nat.ltb_lt in H. rewrite H. reflexivity.
  - assert (X : (x <? y)%nat = false) by (apply Nat.ltb_ge; lia).
    assert (Y : (x =? y)%nat = false) by (apply Nat.eqb_neq; lia).
    rewrite X, Y. reflexivity.
Qed.

Lemma dt_key_sec_key : forall d, dt_key d = (sec_key d ++ [microsecond d])%list.
Proof. reflexivity. Qed.

(** X13.  The name built from a date has [NAME_LENGTH] = 15 characters, and
    it tells dates apart to the second: two dates get the same name exactly
    when they agree on year, month, day, hour, minute and second (the
    microseconds are dropped).  This holds for every date Python can hold
    with a year of four digits. *)
Theorem strftime_NAME_tells_seconds_apart : forall d1 d2,
  valid_datetime d1 -> valid_datetime d2 ->
  String.length (strftime_NAME d1) = NAME_LENGTH /\
  (strftime_NAME d1 = strftime_NAME d2 <-> sec_key d1 = sec_key d2) /\
  (date_to_str (Some d1) = date_to_str (Some d2) <-> sec_key d1 = sec_key d2).
Proof.
  intros d1 d2 V1 V2.
  assert (I : strftime_NAME d1 = strftime_NAME d2 <-> sec_key d1 = sec_key d2).
  { split; intros H.
    - apply lex_compare_eq. rewrite <- (strftime_NAME_compare d1 d2 V1 V2).
      rewrite H. apply string_compare_refl.
    - apply String.compare_eq_iff. rewrite (strftime_NAME_compare d1 d2 V1 V2).
      rewrite H. apply lex_compare_refl. }
  split; [|split; [exact I|]].
  - destruct (valid_groups d1 V1) as (Y1 & N1 & C1).
    rewrite (strftime_NAME_groups d1 Y1), !length_append.
    rewrite (groups_str_length _ N1), (groups_str_length _ C1). reflexivity.
  - cbn [date_to_str]. split; intros H.
    + apply I. now inversion H.
    + f_equal. now apply I.
Qed.

(** X14.  Names sort the way the dates do.  For dates with a year of four
    digits, comparing two names as strings gives the result of comparing the
    dates field by field down to the second; in particular a name is smaller
    exactly when its date is earlier to the second, and a date that is not
    later than another never gets the larger name. *)
Theorem strftime_NAME_sorts_chronologically : forall d1 d2,
  valid_datetime d1 -> valid_datetime d2 ->
  String.compare (strftime_NAME d1) (strftime_NAME d2)
  = lex_compare (sec_key d1) (sec_key d2) /\
  String.ltb (strftime_NAME d1) (strftime_NAME d2)
  = lex_ltb (sec_key d1) (sec_key d2) /\
  (dt_leb d1 d2 = true ->
   String.leb (strftime_NAME d1) (strftime_NAME d2) = true).
Proof.
  intros d1 d2 V1 V2.
  pose proof (strftime_NAME_compare d1 d2 V1 V2) as C.
  split; [exact C|]. split.
  - unfold String.ltb. rewrite C.
    now rewrite (lex_compare_ltb (sec_key d1) (sec_key d2) eq_refl).
  - intros H. unfold String.leb. rewrite C.
    unfold dt_leb, dt_ltb in H. apply negb_true_iff in H.
    rewrite (lex_compare_ltb (dt_key d2) (dt_key d1) eq_refl) in H.
    rewrite !dt_key_sec_key in H.
    rewrite (lex_compare_app (sec_key d2) (sec_key d1) _ _ eq_refl) in H.
    destruct (lex_compare (sec_key d1) (sec_key d2)) eqn:E; try reflexivity.
    assert (G : lex_compare (sec_key d2) (sec_key d1) = Lt).
    { clear - E. revert E. generalize (sec_key d1) (sec_key d2).
      induction l as [|x a IH]; intros [|y b] E; simpl in *; try discriminate;
        try reflexivity.
      rewrite (Nat.compare_antisym x y).
      destruct (Nat.compare x y); simpl in *; try discriminate; auto. }
    rewrite G in H. discriminate.
Qed.


(** * MoveMedia: moving the files that sit in the wrong year folder

    The development follows [src/MoveMedia.py]. *)

Module MoveMedia.

Definition FILE_EXTENSIONS : list string :=
  ["jpg"; "heic"; "gif"; "mov"; "mpg"; "mp4"; "m4a"].

(** [s.split(".")]: the pieces between the dots; never an empty list. *)
Fixpoint split (s : string) : list string :=
  match s with
  | EmptyString => [""]
  | String c r =>
      if Ascii.eqb c "."%char then "" :: split r
      else match split r with
           | h :: t => String c h :: t
           | [] => [String c ""]
           end
  end.

(** [file_name.lower().split(".")[-1] in FILE_EXTENSIONS]. *)
Definition is_valid_media_file (file_name : string) : bool :=
  existsb (String.eqb (last (split (lower file_name)) "")) FILE_EXTENSIONS.

(** [s[:n]]. *)
Fixpoint take (n : nat) (s : string) : string :=
  match n, s with
  | S k, String c r => String c (take k r)
  | _, _ => ""
  end.

(** A [pathlib] path: its anchor (drive and root) and its components. *)
Record Path : Type := mkPath {
  anchor : string;
  parts : list string
}.

(** [p.parent]: the path without its last component. *)
Definition parent (p : Path) : Path := mkPath (anchor p) (removelast (parts p)).

(** [p.name]: the last component, empty when there is none. *)
Definition name (p : Path) : string := last (parts p) "".

(** [p / child] for a plain file name [child]. *)
Definition joinpath (p : Path) (child : string) : Path :=
  mkPath (anchor p) (parts p ++ [child])%list.

Definition is_wrong_place (file_name : string) (source_path : Path) : bool :=
  let parent := name (parent source_path) in
  negb (take 4 file_name =? take 4 parent).

Section Scan.

(** The file system is an external collaborator. *)
Variable FS : Type.
(** The directories that [os.walk(base_folder)] visits, in order.  Moving
    files leaves the tree of directories as it is. *)
Variable fs_walk : FS -> string -> list string.
(** The files of a directory at the time [os.walk] reaches it. *)
Variable fs_files : FS -> string -> list string.
(** [Path(s)]. *)
Variable Path_of : string -> Path.
(** [shutil.move(src, dst)]; [None] stands for the error it raises. *)
Variable shutil_move : FS -> Path -> Path -> option FS.

Record State : Type := mkState {
  disk : FS;
  stdout : list string;
  moves : list (Path * Path)
}.

Definition print (msg : string) : M State unit :=
  modify (fun s => mkState (disk s) (stdout s ++ [msg])%list (moves s)).

Definition move (src dst : Path) : M State unit :=
  modify (fun s => mkState (disk s) (stdout s) (moves s ++ [(src, dst)])%list) ;;;
  s <- get ;;
  match shutil_move (disk s) src dst with
  | Some fs' => modify (fun s => mkState fs' (stdout s) (moves s))
  | None => raise OSError
  end.

(** The body of the inner loop of [scan_media_folder]. *)
Definition scan_file (dest_folder source_folder file : string) : M State unit :=
  let source_path := joinpath (Path_of source_folder) file in
  let dest_path := joinpath (Path_of dest_folder) file in
  if negb (is_valid_media_file file) then ret tt
  else if is_wrong_place file source_path then move source_path dest_path
       else ret tt.

Definition scan_media_folder (base_folder dest_folder : string) : M State unit :=
  s <- get ;;
  for_each (fs_walk (disk s) base_folder)
    (fun source_folder =>
       print ("Scanning: " ++ source_folder) ;;;
       s <- get ;;
       for_each (fs_files (disk s) source_folder)
         (scan_file dest_folder source_folder)).

End Scan.

End MoveMedia.

(** ** Which files MoveMedia takes for media files *)

Fixpoint no_dot (s : string) : bool :=
  match s with
  | EmptyString => true
  | String c r => negb (Ascii.eqb c "."%char) && no_dot r
  end.

Lemma split_nonempty : forall s, MoveMedia.split s <> [].
Proof.
  intros [|c r]; simpl; [discriminate|].
  destruct (Ascii.eqb c "."); [discriminate|].
  destruct (MoveMedia.split r); discriminate.
Qed.

Lemma split_no_dot : forall s, no_dot s = true -> MoveMedia.split s = [s].
Proof.
  induction s as [|c r IH]; intros H; [reflexivity|].
  simpl in *. apply andb_true_iff in H. destruct H as [Hc Hr].
  apply negb_true_iff in Hc. rewrite Hc, (IH Hr). reflexivity.
Qed.

Lemma split_after_dot : forall a b,
  exists l, l <> [] /\
    MoveMedia.split (a ++ String "."%char b) = (l ++ MoveMedia.split b)%list.
Proof.
  induction a as [|c a IH]; intros b.
  - exists [""]. split; [discriminate | reflexivity].
  - destruct (IH b) as (l & Hl & E). simpl. rewrite E.
    destruct l as [|h t]; [contradiction|].
    destruct (Ascii.eqb c ".").
    + exists ("" :: h :: t). split; [discriminate | reflexivity].
    + exists (String c h :: t). split; [discriminate | reflexivity].
Qed.

Lemma last_app_nonempty : forall (l1 l2 : list string) d,
  l2 <> [] -> last (l1 ++ l2) d = last l2 d.
Proof.
  induction l1 as [|x l1 IH]; intros l2 d H; [reflexivity|].
  simpl. destruct (l1 ++ l2)%list eqn:E.
  - apply app_eq_nil in E. destruct E. contradiction.
  - rewrite <- E. now apply IH.
Qed.

Lemma last_split_after_dot : forall a b,
  last (MoveMedia.split (a ++ String "."%char b)) ""
  = last (MoveMedia.split b) "".
Proof.
  intros a b. destruct (split_after_dot a b) as (l & _ & E). rewrite E.
  apply last_app_nonempty, split_nonempty.
Qed.

Lemma lower_append : forall a b, lower (a ++ b) = lower a ++ lower b.
Proof.
  induction a as [|c a IH]; intros b; [reflexivity|].
  unfold lower in *. simpl. now rewrite IH.
Qed.

Lemma lower_ascii_dot : forall c,
  Ascii.eqb (lower_ascii c) "."%char = Ascii.eqb c "."%char.
Proof. intros [[] [] [] [] [] [] [] []]; reflexivity. Qed.

Lemma lower_ascii_idem : forall c, lower_ascii (lower_ascii c) = lower_ascii c.
Proof. intros [[] [] [] [] [] [] [] []]; reflexivity. Qed.

Lemma no_dot_lower : forall s, no_dot (lower s) = no_dot s.
Proof.
  induction s as [|c r IH]; [reflexivity|].
  unfold lower in *. simpl. now rewrite lower_ascii_dot, IH.
Qed.

Lemma lower_idem : forall s, lower (lower s) = lower s.
Proof.
  induction s as [|c r IH]; [reflexivity|].
  unfold lower in *. simpl. now rewrite lower_ascii_idem, IH.
Qed.

Lemma same_extensions : forall s,
  existsb (String.eqb s) MoveMedia.FILE_EXTENSIONS
  = existsb (String.eqb s) FILE_EXTENSIONS.
Proof.
  intros s. unfold MoveMedia.FILE_EXTENSIONS, FILE_EXTENSIONS. cbn [existsb].
  destruct (s =? "jpg"), (s =? "heic"), (s =? "gif"), (s =? "mov"), (s =? "mpg"),
    (s =? "mp4"), (s =? "m4a"); reflexivity.
Qed.

Lemma supported_no_dot : forall s,
  existsb (String.eqb s) FILE_EXTENSIONS = true -> no_dot s = true.
Proof.
  intros s H. apply existsb_exists in H. destruct H as (e & He & E).
  apply String.eqb_eq in E. subst s.
  simpl in He. repeat (destruct He as [<-|He]; [reflexivity|]). destruct He.
Qed.

(** X15.  MoveMedia classifies a file by what follows its last dot, without
    regard to case: [stem.e] is a media file exactly when the lower-cased
    [e] is one of the seven extensions, whatever dots the stem holds, and a
    name without any dot is compared as a whole (a file called [jpg] is
    accepted).  The renamer splits at the first dot instead: for a line with
    a single dot both scripts agree on whether the extension is supported,
    for a line with further dots the renamer never supports its extension. *)
Theorem is_valid_media_file_reads_the_last_dot :
  (forall stem e,
      no_dot e = true ->
      MoveMedia.is_valid_media_file (stem ++ "." ++ e)
      = existsb (String.eqb (lower e)) MoveMedia.FILE_EXTENSIONS) /\
  (forall e,
      no_dot e = true ->
      MoveMedia.is_valid_media_file e
      = existsb (String.eqb (lower e)) MoveMedia.FILE_EXTENSIONS) /\
  (forall file, MoveMedia.is_valid_media_file (lower file)
                = MoveMedia.is_valid_media_file file) /\
  (forall file name x,
      split_dot file = Some (name, x) ->
      (no_dot x = true ->
       MoveMedia.is_valid_media_file file = ext_in (Some (lower x)) FILE_EXTENSIONS) /\
      (no_dot x = false -> ext_in (Some (lower x)) FILE_EXTENSIONS = false)).
Proof.
  assert (A : forall stem e, no_dot e = true ->
            MoveMedia.is_valid_media_file (stem ++ "." ++ e)
            = existsb (String.eqb (lower e)) MoveMedia.FILE_EXTENSIONS).
  { intros stem e He. unfold MoveMedia.is_valid_media_file.
    rewrite lower_append.
    change (lower ("." ++ e)) with (String "."%char (lower e)).
    rewrite last_split_after_dot.
    rewrite split_no_dot by (now rewrite no_dot_lower). reflexivity. }
  split; [exact A|]. split; [|split].
  - intros e He. unfold MoveMedia.is_valid_media_file.
    rewrite split_no_dot by (now rewrite no_dot_lower). reflexivity.
  - intros file. unfold MoveMedia.is_valid_media_file. now rewrite lower_idem.
  - intros file name x Hs. split.
    + intros Hx. rewrite (split_dot_join file name x Hs), (A name x Hx).
      unfold ext_in. apply same_extensions.
    + intros Hx. unfold ext_in.
      destruct (existsb (String.eqb (lower x)) FILE_EXTENSIONS) eqn:E; [|reflexivity].
      apply supported_no_dot in E. rewrite no_dot_lower in E. congruence.
Qed.

(** ** Where MoveMedia finds a file misplaced *)

Lemma take_append : forall s t, MoveMedia.take (String.length s) (s ++ t) = s.
Proof. induction s as [|c s IH]; intros t; simpl; [destruct t|]; congruence. Qed.

Lemma parent_joinpath : forall p child,
  MoveMedia.name (MoveMedia.parent (MoveMedia.joinpath p child)) = MoveMedia.name p.
Proof.
  intros p child. unfold MoveMedia.name, MoveMedia.parent, MoveMedia.joinpath.
  cbn [MoveMedia.parts]. now rewrite removelast_last.
Qed.

Lemma year_digits_length : forall y,
  y < 100 * 100 -> String.length (zfill 4 (dec y)) = 4.
Proof.
  intros y Hy. rewrite (four_digits_split y Hy), length_append.
  rewrite !two_digits_length; [reflexivity | |].
  - apply Nat.mod_upper_bound. lia.
  - apply Nat.Div0.div_lt_upper_bound. lia.
Qed.

(** X16.  A file is misplaced when the first four characters of its name
    differ from the first four of the name of its folder.  For a file that
    the renamer has named after its date, these four characters are the year:
    such a file, whatever suffix and extension follow the date, is misplaced
    exactly when the name of its folder does not start with the four digits
    of the year of the date. *)
Theorem renamed_file_belongs_to_its_year : forall d rest folder,
  valid_datetime d ->
  MoveMedia.take 4 (strftime_NAME d ++ rest) = zfill 4 (dec (year d)) /\
  MoveMedia.is_wrong_place (strftime_NAME d ++ rest)
    (MoveMedia.joinpath folder (strftime_NAME d ++ rest))
  = negb (zfill 4 (dec (year d)) =? MoveMedia.take 4 (MoveMedia.name folder)).
Proof.
  intros d rest folder V. destruct (valid_groups d V) as (Hy & _ & _).
  assert (T : MoveMedia.take 4 (strftime_NAME d ++ rest) = zfill 4 (dec (year d))).
  { unfold strftime_NAME. rewrite !append_assoc.
    rewrite <- (year_digits_length (year d) Hy) at 1. apply take_append. }
  split; [exact T|].
  unfold MoveMedia.is_wrong_place. cbv zeta. now rewrite parent_joinpath, T.
Qed.

(** ** What the scan moves *)

Lemma for_each_invariant : forall S X (I : S -> Prop) (xs : list X)
    (body : X -> M S unit),
  (forall x s, In x xs -> I s -> I (snd (body x s))) ->
  forall s, I s -> I (snd (for_each xs body s)).
Proof.
  intros S X I xs body. induction xs as [|x xs IH]; intros H s Hs; [exact Hs|].
  rewrite for_each_cons. unfold bind.
  pose proof (H x s (or_introl eq_refl) Hs) as H1.
  destruct (body x s) as [[[]|e] s1]; cbn [snd] in *; [|exact H1].
  apply IH; [|exact H1]. intros y s' Hy. apply H. now right.
Qed.

Section ScanFacts.

Variable FS : Type.
Variable fs_walk : FS -> string -> list string.
Variable fs_files : FS -> string -> list string.
Variable Path_of : string -> MoveMedia.Path.
Variable shutil_move : FS -> MoveMedia.Path -> MoveMedia.Path -> option FS.

(** A call [shutil.move(src, dst)] that the scan may make, walking
    [folders], towards [dest_folder]. *)
Definition wanted_move (folders : list string) (dest_folder : string)
    (c : MoveMedia.Path * MoveMedia.Path) : Prop :=
  exists source_folder file,
    In source_folder folders /\
    fst c = MoveMedia.joinpath (Path_of source_folder) file /\
    snd c = MoveMedia.joinpath (Path_of dest_folder) file /\
    MoveMedia.is_valid_media_file file = true /\
    MoveMedia.take 4 file
    <> MoveMedia.take 4 (MoveMedia.name (Path_of source_folder)).

(** The calls added since the state [s0] are all wanted. *)
Definition adds_wanted (folders : list string) (dest_folder : string)
    (s0 s : MoveMedia.State FS) : Prop :=
  exists c, MoveMedia.moves FS s = (MoveMedia.moves FS s0 ++ c)%list /\
            Forall (wanted_move folders dest_folder) c.

Lemma scan_file_moves : forall folders dest_folder source_folder file
    (s0 s : MoveMedia.State FS),
  In source_folder folders ->
  adds_wanted folders dest_folder s0 s ->
  adds_wanted folders dest_folder s0
    (snd (MoveMedia.scan_file FS Path_of shutil_move dest_folder source_folder
            file s)).
Proof.
  intros folders dest_folder source_folder file s0 s Hin H.
  unfold MoveMedia.scan_file. cbv zeta.
  destruct (MoveMedia.is_valid_media_file file) eqn:V; cbn [negb]; [|exact H].
  destruct (MoveMedia.is_wrong_place file _) eqn:Wp; [|exact H].
  assert (W : wanted_move folders dest_folder
                (MoveMedia.joinpath (Path_of source_folder) file,
                 MoveMedia.joinpath (Path_of dest_folder) file)).
  { exists source_folder, file. split; [exact Hin|]. repeat split; [exact V|].
    unfold MoveMedia.is_wrong_place in Wp. cbv zeta in Wp.
    rewrite parent_joinpath in Wp. apply negb_true_iff in Wp.
    intros C. rewrite C, String.eqb_refl in Wp. discriminate. }
  destruct H as (c & E & F).
  assert (G : adds_wanted folders dest_folder s0
                (MoveMedia.mkState FS (MoveMedia.disk FS s) (MoveMedia.stdout FS s)
                   (MoveMedia.moves FS s
                    ++ [(MoveMedia.joinpath (Path_of source_folder) file,
                         MoveMedia.joinpath (Path_of dest_folder) file)])%list)).
  { exists (c ++ [(MoveMedia.joinpath (Path_of source_folder) file,
                   MoveMedia.joinpath (Path_of dest_folder) file)])%list.
    cbn [MoveMedia.moves]. rewrite E, app_assoc. split; [reflexivity|].
    apply Forall_app. split; [exact F | constructor; [exact W | constructor]]. }
  unfold MoveMedia.move. run_m. cbn [MoveMedia.disk].
  destruct (shutil_move (MoveMedia.disk FS s) _ _); cbn [snd]; exact G.
Qed.

(** X17.  The scan moves nothing but misplaced media files, and moves them
    flat into the destination folder: the calls to [shutil.move] that
    [scan_media_folder] adds each have as their source a file name joined to
    one of the folders of the walk, a name that [is_valid_media_file]
    accepts and whose first four characters differ from those of the name
    of that folder, and as their destination the destination folder joined
    to the same file name. *)
Theorem scan_moves_only_misplaced_media :
  forall base_folder dest_folder (s : MoveMedia.State FS),
    exists c,
      MoveMedia.moves FS
        (snd (MoveMedia.scan_media_folder FS fs_walk fs_files Path_of shutil_move
                base_folder dest_folder s))
      = (MoveMedia.moves FS s ++ c)%list /\
      Forall (wanted_move (fs_walk (MoveMedia.disk FS s) base_folder) dest_folder) c.
Proof.
  intros base_folder dest_folder s. unfold MoveMedia.scan_media_folder.
  unfold bind at 1. unfold get at 1.
  set (folders := fs_walk (MoveMedia.disk FS s) base_folder).
  change (adds_wanted folders dest_folder s
            (snd (for_each folders
                    (fun source_folder =>
                       MoveMedia.print FS ("Scanning: " ++ source_folder) ;;;
                       s1 <- get ;;
                       for_each (fs_files (MoveMedia.disk FS s1) source_folder)
                         (MoveMedia.scan_file FS Path_of shutil_move dest_folder
                            source_folder)) s))).
  apply (for_each_invariant _ _ (adds_wanted folders dest_folder s)).
  2:{ exists []. rewrite app_nil_r. split; [reflexivity | constructor]. }
  intros source_folder s1 Hin H1. unfold bind at 1. unfold MoveMedia.print at 1.
  unfold modify at 1. unfold bind at 1. unfold get at 1. cbn [MoveMedia.disk].
  apply (for_each_invariant _ _ (adds_wanted folders dest_folder s)); [|exact H1].
  intros file s2 _ H2. now apply scan_file_moves.
Qed.

End ScanFacts.


(** * lib_logger: where a log record ends up

    The development follows [src/lib/lib_logger.py]; records are dispatched
    the way the [logging] module of Python does it. *)

Module lib_logger.

(** The levels of [logging]. *)
Definition DEBUG : Z := 10.
Definition INFO : Z := 20.
Definition WARNING : Z := 30.
Definition ERROR : Z := 40.
Definition CRITICAL : Z := 50.

Definition FOLDER : string := "log".

Record LogRecord : Type := mkRecord {
  levelno : Z;
  message : string;
  lineno : Z;
  asctime : string;
  funcName : string
}.

(** Filters log records to only allow those at or below a specified level. *)
Record MaxLevelFilter : Type := mkFilter { max_level : Z }.

Definition filter (self : MaxLevelFilter) (record : LogRecord) : bool :=
  (levelno record <=? max_level self)%Z.

Inductive Formatter : Type :=
  | info_formatter     (* "%(message)s" *)
  | error_formatter    (* "%(message)s - Line: %(lineno)d" *)
  | debug_formatter.   (* "%(asctime)s - :%(lineno)d - %(funcName)s - %(message)s" *)

Definition format (f : Formatter) (record : LogRecord) : string :=
  match f with
  | info_formatter => message record
  | error_formatter => message record ++ " - Line: " ++ str_int (lineno record)
  | debug_formatter =>
      asctime record ++ " - :" ++ str_int (lineno record) ++ " - "
      ++ funcName record ++ " - " ++ message record
  end.

Inductive Stream : Type :=
  | Console                   (* [logging.StreamHandler()] *)
  | LogFile (path : string).  (* [logging.FileHandler(path, mode="a")] *)

Record Handler : Type := mkHandler {
  stream : Stream;
  level : Z;
  formatter : Formatter;
  filters : list MaxLevelFilter
}.

Record Logger : Type := mkLogger {
  name : string;
  logger_level : Z;
  propagate : bool;
  handlers : list Handler
}.

(** [setup_logging(app_name)]: the logger it returns.  [TODAY] is the date
    of the run, [sep] the separator of [os.path.join], and [registered] the
    handlers that the logger called [app_name] already has. *)
Definition setup_logging (TODAY sep : string) (registered : list Handler)
    (app_name : string) : Logger :=
  let log_file := app_name ++ "-" ++ TODAY ++ ".log" in
  let log_path := FOLDER ++ sep ++ log_file in
  (* handler: INFO (screen + file) *)
  let info_console := mkHandler Console INFO info_formatter [mkFilter WARNING] in
  let info_file := mkHandler (LogFile log_path) INFO info_formatter [mkFilter WARNING] in
  (* handler: ERROR (screen + file) *)
  let error_console := mkHandler Console ERROR error_formatter [] in
  let error_file := mkHandler (LogFile log_path) ERROR error_formatter [] in
  mkLogger app_name INFO false
    (match registered with
     | [] => [info_console; info_file; error_console; error_file]
     | _ => registered
     end).

(** [Handler.handle] behind the level test of [Logger.callHandlers]: the
    line written, if any. *)
Definition handle (h : Handler) (record : LogRecord) : list (Stream * string) :=
  if (level h <=? levelno record)%Z && forallb (fun f => filter f record) (filters h)
  then [(stream h, format (formatter h) record)]
  else [].

(** [Logger.handle] for a logger that does not propagate: nothing below the
    level of the logger, then every handler in turn. *)
Definition emit (logger : Logger) (record : LogRecord) : list (Stream * string) :=
  if (logger_level logger <=? levelno record)%Z
  then flat_map (fun h => handle h record) (handlers logger)
  else [].

End lib_logger.

(** X18.  The logger that [setup_logging] builds writes every record once
    or not at all to each stream: a record below INFO is dropped; a record
    from INFO to WARNING goes to the screen and to the log file as its bare
    message; a record at ERROR or above goes to both with the number of the
    line appended; a level strictly between WARNING and ERROR reaches no
    handler.  Calling [setup_logging] again for a logger that already has
    its handlers adds none, so no line is ever doubled. *)
Theorem setup_logging_routes_each_record_once :
  forall TODAY sep app_name record,
    let logger := lib_logger.setup_logging TODAY sep [] app_name in
    let path := lib_logger.FOLDER ++ sep ++ app_name ++ "-" ++ TODAY ++ ".log" in
    let lvl := lib_logger.levelno record in
    lib_logger.emit logger record
    = (if (lvl <? lib_logger.INFO)%Z then []
       else if (lvl <=? lib_logger.WARNING)%Z
            then [(lib_logger.Console, lib_logger.message record);
                  (lib_logger.LogFile path, lib_logger.message record)]
            else if (lvl <? lib_logger.ERROR)%Z then []
                 else [(lib_logger.Console,
                        lib_logger.message record ++ " - Line: "
                        ++ str_int (lib_logger.lineno record));
                       (lib_logger.LogFile path,
                        lib_logger.message record ++ " - Line: "
                        ++ str_int (lib_logger.lineno record))]) /\
    lib_logger.setup_logging TODAY sep (lib_logger.handlers logger) app_name = logger.
Proof.
  intros TODAY sep app_name record logger path lvl. split; [|reflexivity].
  unfold lib_logger.emit, logger, lib_logger.setup_logging. cbv zeta.
  cbn [lib_logger.logger_level lib_logger.handlers flat_map].
  unfold lib_logger.handle.
  cbn [lib_logger.level lib_logger.filters lib_logger.stream lib_logger.formatter
       lib_logger.format forallb lib_logger.filter lib_logger.max_level].
  unfold lib_logger.filter. cbn [lib_logger.max_level]. fold lvl. fold path.
  unfold lib_logger.INFO, lib_logger.WARNING, lib_logger.ERROR.
  destruct (Z.ltb_spec lvl 20) as [A|A]; destruct (Z.leb_spec lvl 30) as [B|B];
    destruct (Z.ltb_spec lvl 40) as [C|C]; destruct (Z.leb_spec 20 lvl) as [D|D];
    destruct (Z.leb_spec 40 lvl) as [E|E]; try reflexivity; exfalso; lia.
Qed.


(** * The renamer again: the table, and files outside the decoders *)

Lemma map_snd_combine_seq : forall A (l : list A) a,
  map snd (combine (seq a (List.length l)) l) = l.
Proof.
  induction l as [|x l IH]; intros a; [reflexivity|]. simpl. now rewrite IH.
Qed.

Lemma map_fst_combine_seq : forall A (l : list A) a,
  map fst (combine (seq a (List.length l)) l) = seq a (List.length l).
Proof.
  induction l as [|x l IH]; intros a; [reflexivity|]. simpl. now rewrite IH.
Qed.

Lemma filter_empty_existsb : forall A (f : A -> bool) l,
  negb (match filter f l with [] => true | _ => false end) = existsb f l.
Proof.
  intros A f l. induction l as [|x l IH]; [reflexivity|].
  simpl. destruct (f x); [reflexivity | exact IH].
Qed.

(** X19.  The table is a snapshot.  [create_df_global_media] builds one row
    per record, in the order of the list, holding a copy of the record and
    the pointer to it, so that afterwards [conflict_exists] tells whether a
    record of the list is flagged.  A later update of a record does not show
    in the table: the rows, and with them the answer of [conflict_exists],
    stay as they were until the table is rebuilt. *)
Theorem create_df_global_media_snapshots : forall FS (w : World FS),
  fst (create_df_global_media w) = Ok tt /\
  map row (df_global_media (snd (create_df_global_media w))) = list_metadata w /\
  map metadata (df_global_media (snd (create_df_global_media w)))
  = seq 0 (List.length (list_metadata w)) /\
  list_metadata (snd (create_df_global_media w)) = list_metadata w /\
  conflict_exists (snd (create_df_global_media w))
  = existsb has_conflict (list_metadata w) /\
  (forall i kw,
      df_global_media (snd (on_meta i (set_file_metadata kw) w)) = df_global_media w /\
      conflict_exists (snd (on_meta i (set_file_metadata kw) w)) = conflict_exists w).
Proof.
  intros FS w. split; [reflexivity|].
  assert (R : map row (df_global_media (snd (create_df_global_media w)))
              = list_metadata w).
  { unfold create_df_global_media, modify. cbn [snd df_global_media set_df].
    rewrite map_map. cbn [row]. apply map_snd_combine_seq. }
  split; [exact R|]. split.
  { unfold create_df_global_media, modify. cbn [snd df_global_media set_df].
    rewrite map_map. cbn [metadata]. apply map_fst_combine_seq. }
  split; [reflexivity|]. split.
  - unfold conflict_exists. rewrite filter_empty_existsb.
    transitivity (existsb has_conflict
                    (map row (df_global_media (snd (create_df_global_media w)))));
      [|now rewrite R].
    generalize (df_global_media (snd (create_df_global_media w))).
    intros df. induction df as [|r df IH]; [reflexivity|].
    simpl. now rewrite IH.
  - intros i kw.
    destruct (touches_on_meta FS unit i (set_file_metadata kw) w)
      as (_ & _ & D & _).
    split; [exact D|]. unfold conflict_exists. now rewrite D.
Qed.

Section OutsideTheDecoders.

Variable FS : Type.
Variable fs_exif : FS -> string -> outcome (string -> option string).
Variable strptime_DT : string -> option datetime.
Variable fs_probe : FS -> string -> option (string -> option string).
Variable fromisoformat : string -> option datetime.
Variable fs_ctime : FS -> string -> option datetime.
Variable fs_mtime : FS -> string -> option datetime.

Lemma get_os_date_outcome : forall fs path r,
  get_os_date fs_ctime fs_mtime fs path = Ok r -> exists d, r = Some d.
Proof.
  intros fs path r H. unfold get_os_date in H.
  destruct (fs_ctime fs path); [|discriminate].
  destruct (fs_mtime fs path); [|discriminate].
  inversion H. cbn [get_min]. eauto.
Qed.

Lemma find_date_taken_undecoded : forall fs meta path,
  actual_full_path meta = Some path ->
  ext_in (ext meta) ["jpg"; "heic"] = false ->
  ext_in (ext meta) ["mov"; "mp4"; "mpg"; "gif"] = false ->
  find_date_taken fs_exif strptime_DT fs_probe fromisoformat fs_ctime fs_mtime fs meta
  = get_os_date fs_ctime fs_mtime fs path.
Proof.
  intros fs meta path Hp H1 H2. unfold find_date_taken, decoder_date.
  rewrite Hp, H1, H2.
  destruct (get_os_date fs_ctime fs_mtime fs path) as [r|e]; reflexivity.
Qed.

Lemma sublist_supported : forall s l,
  (forall e, In e l -> In e FILE_EXTENSIONS) ->
  no_dot s = false -> ext_in (Some s) l = false.
Proof.
  intros s l Hl Hs. unfold ext_in.
  destruct (existsb (String.eqb s) l) eqn:E; [|reflexivity].
  apply existsb_exists in E. destruct E as (e & He & Ee).
  apply String.eqb_eq in Ee. subst e.
  assert (X : existsb (String.eqb s) FILE_EXTENSIONS = true).
  { apply existsb_exists. exists s. split; [now apply Hl | apply String.eqb_refl]. }
  apply supported_no_dot in X. congruence.
Qed.

(** X20.  A file whose name holds more than one dot is dated from the
    operating system alone.  Discovery splits a line at its first dot, so
    for a line [name.x] where [x] still holds a dot the record gets the
    extension [lower(x)], which is none of the extensions of the decoders:
    [find_date_taken] then opens neither the EXIF data nor the FFmpeg tags
    and returns what [get_os_date] returns for [root\name.lower(x)], whatever
    the file holds (a picture [a.b.jpg] included). *)
Theorem dotted_names_are_dated_from_the_os : forall root name x n fs,
  root <> "" -> name <> "" -> no_dot x = false -> n <> 0%Z ->
  ext (discovered root name x n) = Some (lower x) /\
  ext_in (ext (discovered root name x n)) FILE_EXTENSIONS = false /\
  find_date_taken fs_exif strptime_DT fs_probe fromisoformat fs_ctime fs_mtime fs
    (discovered root name x n)
  = get_os_date fs_ctime fs_mtime fs (root ++ SLASH ++ name ++ "." ++ lower x).
Proof.
  intros root name x n fs Hr Hn Hx Hno.
  assert (Hx' : x <> "") by (intros ->; discriminate).
  destruct (discovered_fields root name x n Hr Hn Hx' Hno)
    as (_ & _ & _ & _ & E & _ & P & _).
  assert (Hl : no_dot (lower x) = false) by (now rewrite no_dot_lower).
  split; [exact E|]. split.
  - rewrite E. apply sublist_supported; [auto | exact Hl].
  - apply find_date_taken_undecoded; [exact P | |]; rewrite E;
      (apply sublist_supported; [|exact Hl]); intros e He; simpl in He; simpl;
      repeat (destruct He as [<-|He]; [tauto|]); destruct He.
Qed.

End OutsideTheDecoders.


(** * The properties above on sample inputs *)

(** A film with one readable tag, and one with a tag that does not parse. *)
Definition sample_film : FileMetadata :=
  mkMeta 1 (Some "X:\2018") (Some "clip") (Some "clip") (Some "clip.mov")
    (Some "X:\2018\clip.mov") None None None None (Some "mov") NO 0 "" NO "".

Definition sample_tags (tag : string) : option string :=
  if tag =? "creation_time" then Some "2018-05-01T10:00:00Z" else None.

Definition sample_bad_tags (tag : string) : option string :=
  if tag =? "creation_time" then Some "yesterday" else None.

Definition sample_stamp (_ : unit) (_ : string) : option datetime :=
  Some (mkDT 2019 1 1 0 0 0 0).

Definition sample_no_exif (_ : unit) (_ : string)
  : outcome (string -> option string) := Ok (fun _ => None).

Lemma get_ffmpeg_time_earliest_wins_witness :
  exists r,
    get_ffmpeg_time (fun (_ : unit) (_ : string) => Some sample_tags) sample_iso tt
      "X:\2018\clip.mov" = Ok r /\
    (forall e, r = Some e ->
       exists tag raw,
         In tag FFMPEG_TAGS /\ sample_tags tag = Some raw /\ raw <> "" /\
         sample_iso (replace_Z raw) = Some e).
Proof.
  destruct (proj2 (get_ffmpeg_time_earliest_wins unit
                     (fun _ _ => Some sample_tags) sample_iso)
              tt "X:\2018\clip.mov" sample_tags eq_refl)
    as (r & E & _ & S & _).
  - intros tag raw [<-|[<-|[]]] H Hn; vm_compute in H; [discriminate|].
    inversion H. vm_compute. discriminate.
  - exists r. split; [exact E | exact S].
Defined.

Lemma malformed_film_tag_raises_witness :
  find_date_taken sample_no_exif (fun _ => None)
    (fun (_ : unit) (_ : string) => Some sample_bad_tags) sample_iso
    sample_stamp sample_stamp tt sample_film
  = Raise ValueError.
Proof.
  refine (proj2 (malformed_film_tag_raises unit sample_no_exif (fun _ => None)
                   (fun _ _ => Some sample_bad_tags) sample_iso sample_stamp
                   sample_stamp tt sample_film "X:\2018\clip.mov" "mov"
                   sample_bad_tags "creation_time" "yesterday"
                   eq_refl eq_refl _ eq_refl _ eq_refl _ eq_refl)).
  - left. reflexivity.
  - right. left. reflexivity.
  - discriminate.
Defined.

(** A dated picture of the folder [X:\2018]. *)
Definition sample_dated : FileMetadata :=
  mkMeta 1 (Some "X:\2018") (Some "IMG_1") (Some "IMG_1") (Some "IMG_1.jpg")
    (Some "X:\2018\IMG_1.jpg") (Some "20180501-100000") (Some "20180501-100000")
    (Some "20180501-100000.jpg") (Some "X:\2018\20180501-100000.jpg")
    (Some "jpg") NO 0 "" NO "".

(** The same picture, flagged as a conflict. *)
Definition sample_flagged : FileMetadata :=
  mkMeta 2 (Some "X:\2018") (Some "IMG_2") (Some "IMG_2") (Some "IMG_2.jpg")
    (Some "X:\2018\IMG_2.jpg") (Some "20180501-100000") (Some "20180501-1000002")
    (Some "20180501-1000002.jpg") (Some "X:\2018\20180501-1000002.jpg")
    (Some "jpg") NO 0 "" YES "2".

Lemma set_file_metadata_never_clears_witness :
  truthy (date_taken (updated (kw_date (Some "")) sample_dated)) = true /\
  date_taken (updated (kw_date (Some "")) sample_dated) = date_taken sample_dated.
Proof.
  destruct (set_file_metadata_never_clears (kw_date (Some "")) sample_dated)
    as (_ & _ & _ & _ & D & _ & _ & _ & _ & K & _).
  split; [apply D | apply K]; reflexivity.
Defined.

Lemma set_file_metadata_idempotent_when_dated_witness :
  set_file_metadata (kw_mutual 2) (updated (kw_mutual 2) sample_dated)
  = set_file_metadata (kw_mutual 2) sample_dated.
Proof.
  refine (proj1 (set_file_metadata_idempotent_when_dated (kw_mutual 2) sample_dated
                   "X:\2018" "20180501-100000" eq_refl eq_refl _)).
  discriminate.
Defined.

Definition sample_flagged_world : World unit :=
  mkWorld [sample_dated; sample_flagged] [] [] [] tt [].

Lemma reset_conflicts_clears_every_flag_witness :
  Forall (fun m => has_conflict m = false)
         (list_metadata (snd (reset_conflicts sample_flagged_world))) /\
  new_name (reset_record sample_flagged) = Some ("20180501-100000" ++ "").
Proof.
  assert (F : Forall (fun m => folder m <> None) (list_metadata sample_flagged_world)).
  { repeat constructor; discriminate. }
  destruct (reset_conflicts_clears_every_flag unit sample_flagged_world F)
    as (_ & U & _ & _ & D).
  split; [exact U|].
  refine (proj1 (proj2 (D sample_flagged "X:\2018" "20180501-100000"
                          eq_refl eq_refl eq_refl _))).
  discriminate.
Defined.

Lemma discovery_keeps_the_name_witness :
  exists m,
    build_records "X:\2018" 0 ["IMG_1.JPG"] (initial_world tt)
    = (Ok tt, set_list_metadata [m] (initial_world tt)) /\
    actual_full_name m = Some "IMG_1.jpg" /\
    actual_full_path m = Some "X:\2018\IMG_1.jpg".
Proof.
  destruct (discovery_keeps_the_name unit "X:\2018" 0 "IMG_1.JPG" "IMG_1" "JPG"
              (initial_world tt))
    as (m & E & _ & _ & _ & _ & _ & N & P & _); try discriminate; [reflexivity|].
  exists m. split; [exact E|]. split; [exact N | exact P].
Defined.

Lemma sample_dated_consistent : consistent sample_dated.
Proof.
  split; intros p Hp; inversion Hp; subst.
  - exists "X:\2018", "IMG_1.jpg". repeat split.
  - exists "X:\2018", "20180501-100000.jpg". repeat split.
Defined.

Definition sample_rename_ok (_ : unit) (_ _ : string) : option unit := Some tt.

Lemma renaming_stays_in_the_folder_witness :
  rename_calls
    (snd (rename_file sample_rename_ok 0 NO
            (mkWorld [sample_dated] [] [] [] tt [])))
  = [] \/
  exists f a b,
    folder sample_dated = Some f /\ actual_full_name sample_dated = Some a /\
    new_full_name sample_dated = Some b /\
    rename_calls
      (snd (rename_file sample_rename_ok 0 NO
              (mkWorld [sample_dated] [] [] [] tt [])))
    = [((f ++ SLASH ++ a)%string, (f ++ SLASH ++ b)%string)].
Proof.
  exact (proj2 (proj2 (renaming_stays_in_the_folder unit (fun _ _ => [])
                         (fun _ _ _ => None) sample_no_exif (fun _ => None)
                         (fun _ _ => None) sample_iso sample_stamp sample_stamp
                         sample_rename_ok))
           0 NO (mkWorld [sample_dated] [] [] [] tt []) sample_dated eq_refl
           sample_dated_consistent).
Defined.

Definition sample_morning : datetime := mkDT 2018 5 1 9 59 59 900.
Definition sample_noon : datetime := mkDT 2018 5 1 12 0 0 0.

Lemma sample_morning_valid : valid_datetime sample_morning.
Proof. unfold valid_datetime, sample_morning. simpl. lia. Defined.

Lemma sample_noon_valid : valid_datetime sample_noon.
Proof. unfold valid_datetime, sample_noon. simpl. lia. Defined.

Lemma strftime_NAME_tells_seconds_apart_witness :
  String.length (strftime_NAME sample_morning) = NAME_LENGTH /\
  (strftime_NAME sample_morning = strftime_NAME sample_noon
   <-> sec_key sample_morning = sec_key sample_noon).
Proof.
  destruct (strftime_NAME_tells_seconds_apart sample_morning sample_noon
              sample_morning_valid sample_noon_valid) as (L & I & _).
  split; [exact L | exact I].
Defined.

Lemma strftime_NAME_sorts_chronologically_witness :
  String.ltb (strftime_NAME sample_morning) (strftime_NAME sample_noon)
  = lex_ltb (sec_key sample_morning) (sec_key sample_noon).
Proof.
  exact (proj1 (proj2 (strftime_NAME_sorts_chronologically sample_morning sample_noon
                         sample_morning_valid sample_noon_valid))).
Defined.

Lemma is_valid_media_file_reads_the_last_dot_witness :
  MoveMedia.is_valid_media_file ("holiday.2018" ++ "." ++ "JPG")
  = existsb (String.eqb (lower "JPG")) MoveMedia.FILE_EXTENSIONS /\
  ext_in (Some (lower "2018.JPG")) FILE_EXTENSIONS = false.
Proof.
  destruct is_valid_media_file_reads_the_last_dot as (A & _ & _ & D).
  split; [apply A; reflexivity|].
  apply (proj2 (D "holiday.2018.JPG" "holiday" "2018.JPG" eq_refl)). reflexivity.
Defined.

Lemma renamed_file_belongs_to_its_year_witness :
  MoveMedia.is_wrong_place (strftime_NAME sample_noon ++ "-01.jpg")
    (MoveMedia.joinpath (MoveMedia.mkPath "X:\" ["_Media"; "2018"])
       (strftime_NAME sample_noon ++ "-01.jpg"))
  = negb (zfill 4 (dec (year sample_noon))
          =? MoveMedia.take 4 (MoveMedia.name (MoveMedia.mkPath "X:\" ["_Media"; "2018"]))).
Proof.
  exact (proj2 (renamed_file_belongs_to_its_year sample_noon "-01.jpg"
                  (MoveMedia.mkPath "X:\" ["_Media"; "2018"]) sample_noon_valid)).
Defined.

Lemma dotted_names_are_dated_from_the_os_witness :
  find_date_taken sample_fs_exif strptime_stamp sample_fs_probe sample_fromisoformat
    sample_fs_time sample_fs_time tt (discovered "X:\2018" "IMG_1" "edited.JPG" 1)
  = get_os_date sample_fs_time sample_fs_time tt "X:\2018\IMG_1.edited.jpg".
Proof.
  refine (proj2 (proj2 (dotted_names_are_dated_from_the_os unit sample_fs_exif
                          strptime_stamp sample_fs_probe sample_fromisoformat
                          sample_fs_time sample_fs_time
                          "X:\2018" "IMG_1" "edited.JPG" 1 tt _ _ _ _))).
  - discriminate.
  - discriminate.
  - reflexivity.
  - discriminate.
Defined.

(** ** When no date is resolved *)

Section ResolutionFails.

Variable FS : Type.
Variable fs_exif : FS -> string -> outcome (string -> option string).
Variable strptime_DT : string -> option datetime.
Variable fs_probe : FS -> string -> option (string -> option string).
Variable fromisoformat : string -> option datetime.
Variable fs_ctime : FS -> string -> option datetime.
Variable fs_mtime : FS -> string -> option datetime.

(** Either every usable tag of the list parses, or one of them does not. *)
Lemma usable_tags_parse_or_not : forall t tags,
  (forall tag raw, In tag tags -> usable_tags t tag = Some raw ->
                   parse_iso fromisoformat raw <> None) \/
  (exists tag raw, In tag tags /\ usable_tags t tag = Some raw /\
                   parse_iso fromisoformat raw = None).
Proof.
  intros t tags. induction tags as [|x tags IH].
  - left. intros tag raw [].
  - destruct IH as [IH|(tag & raw & HIn & Hu & Hp)].
    + destruct (usable_tags t x) as [raw|] eqn:Hu.
      * destruct (parse_iso fromisoformat raw) as [d|] eqn:Hp.
        -- left. intros tag raw' [<-|HIn] Hu'.
           ++ rewrite Hu in Hu'. inversion Hu'; subst raw'. rewrite Hp. discriminate.
           ++ now apply (IH tag raw').
        -- right. exists x, raw. split; [now left|]. now split.
      * left. intros tag raw' [<-|HIn] Hu'.
        -- rewrite Hu in Hu'. discriminate.
        -- now apply (IH tag raw').
    + right. exists tag, raw. split; [now right|]. now split.
Qed.

(** The decoder stage raises exactly when the picture cannot be opened or a
    film tag does not parse. *)
Lemma decoder_date_raises : forall fs path x,
  (exists e, decoder_date fs_exif strptime_DT fs_probe fromisoformat fs path x = Raise e)
  <->
  (ext_in x ["jpg"; "heic"] = true /\ exists e, fs_exif fs path = Raise e) \/
  (ext_in x ["jpg"; "heic"] = false /\
   ext_in x ["mov"; "mp4"; "mpg"; "gif"] = true /\
   exists format_tags tag raw,
     fs_probe fs path = Some format_tags /\ In tag FFMPEG_TAGS /\
     format_tags tag = Some raw /\ raw <> "" /\
     fromisoformat (replace_Z raw) = None).
Proof.
  intros fs path x. unfold decoder_date.
  destruct (ext_in x ["jpg"; "heic"]) eqn:E1.
  - unfold get_date_taken. destruct (fs_exif fs path) as [exif|e] eqn:Ex.
    + split.
      * intros (e & C). discriminate.
      * intros [(_ & e & C)|(C & _)]; discriminate.
    + split.
      * intros _. left. split; [reflexivity|]. now exists e.
      * intros _. now exists e.
  - destruct (ext_in x ["mov"; "mp4"; "mpg"; "gif"]) eqn:E2.
    + destruct (fs_probe fs path) as [t|] eqn:Hp.
      * rewrite (get_ffmpeg_time_fold FS fs_probe fromisoformat fs path t Hp).
        destruct (usable_tags_parse_or_not t FFMPEG_TAGS)
          as [Hall|(tag & raw & HIn & Hu & Hd)].
        -- rewrite (ffmpeg_fold_parsed fromisoformat t FFMPEG_TAGS None Hall).
           split.
           ++ intros (e & C). discriminate.
           ++ intros [(C & _)|(_ & _ & t' & tag & raw & Ht & HIn & Hr & Hn & Hd)];
                [discriminate|].
              inversion Ht; subst t'. exfalso.
              apply (Hall tag raw HIn); [|exact Hd].
              apply usable_tags_inv. now split.
        -- rewrite (ffmpeg_fold_malformed fromisoformat t FFMPEG_TAGS tag raw (Ok None)
                      HIn Hu Hd (or_introl (ex_intro _ None eq_refl))).
           split.
           ++ intros _. right. split; [reflexivity|]. split; [reflexivity|].
              apply usable_tags_inv in Hu. destruct Hu as [Ht Hn].
              exists t, tag, raw. auto.
           ++ intros _. now exists ValueError.
      * unfold get_ffmpeg_time. rewrite Hp. split.
        -- intros (e & C). discriminate.
        -- intros [(C & _)|(_ & _ & t' & tag & raw & Ht & _)]; discriminate.
    + split.
      * intros (e & C). discriminate.
      * intros [(C & _)|(_ & C & _)]; discriminate.
Qed.

(** X24.  When a date is resolved and when not.  For a record whose file
    has both of its stamps readable, [find_date_taken] either returns a date,
    which is then no later than either stamp, or raises; and it raises in
    exactly two cases: the record is a picture ([jpg], [heic]) whose file
    cannot be opened and read for EXIF data, or it is a film ([mov], [mp4],
    [mpg], [gif]) that can be probed and carries a date tag that is not empty
    and that [datetime.fromisoformat] rejects.  Every other file with readable
    stamps gets a date: a picture without any usable EXIF tag, a film that
    cannot be probed, a file of any other extension. *)
Theorem find_date_taken_raises_exactly_when : forall fs meta path c t,
  actual_full_path meta = Some path ->
  fs_ctime fs path = Some c -> fs_mtime fs path = Some t ->
  ((exists d,
      find_date_taken fs_exif strptime_DT fs_probe fromisoformat fs_ctime fs_mtime
        fs meta = Ok (Some d) /\
      dt_leb d c = true /\ dt_leb d t = true) \/
   (exists e,
      find_date_taken fs_exif strptime_DT fs_probe fromisoformat fs_ctime fs_mtime
        fs meta = Raise e)) /\
  ((exists e,
      find_date_taken fs_exif strptime_DT fs_probe fromisoformat fs_ctime fs_mtime
        fs meta = Raise e)
   <->
   (ext_in (ext meta) ["jpg"; "heic"] = true /\ exists e, fs_exif fs path = Raise e) \/
   (ext_in (ext meta) ["jpg"; "heic"] = false /\
    ext_in (ext meta) ["mov"; "mp4"; "mpg"; "gif"] = true /\
    exists format_tags tag raw,
      fs_probe fs path = Some format_tags /\ In tag FFMPEG_TAGS /\
      format_tags tag = Some raw /\ raw <> "" /\
      fromisoformat (replace_Z raw) = None)).
Proof.
  intros fs meta path c t Hp Hc Ht.
  pose proof (decoder_date_raises fs path (ext meta)) as D.
  assert (F : find_date_taken fs_exif strptime_DT fs_probe fromisoformat fs_ctime
                fs_mtime fs meta
              = match decoder_date fs_exif strptime_DT fs_probe fromisoformat fs path
                        (ext meta) with
                | Ok x => Ok (get_min x (Some (dt_min c t)))
                | Raise e => Raise e
                end).
  { unfold find_date_taken. rewrite Hp.
    rewrite (get_os_date_present FS fs_ctime fs_mtime fs path c t Hc Ht).
    reflexivity. }
  rewrite F.
  destruct (decoder_date fs_exif strptime_DT fs_probe fromisoformat fs path (ext meta))
    as [x|e] eqn:E.
  - split.
    + left. destruct x as [d|]; cbn [get_min].
      * exists (dt_min d (dt_min c t)). split; [reflexivity|]. split.
        -- eapply dt_leb_trans; [apply dt_min_r | apply dt_min_l].
        -- eapply dt_leb_trans; [apply dt_min_r | apply dt_min_r].
      * exists (dt_min c t). split; [reflexivity|].
        split; [apply dt_min_l | apply dt_min_r].
    + split.
      * intros (e & C). discriminate.
      * intros H. apply D in H. destruct H as (e & C). discriminate.
  - split.
    + right. now exists e.
    + split.
      * intros _. apply D. now exists e.
      * intros _. now exists e.
Qed.

End ResolutionFails.

Lemma find_date_taken_raises_exactly_when_witness :
  exists d,
    find_date_taken sample_fs_exif strptime_stamp sample_fs_probe sample_fromisoformat
      sample_fs_time sample_fs_time tt sample_clip = Ok (Some d) /\
    dt_leb d (mkDT 2021 3 4 5 6 7 0) = true.
Proof.
  destruct (find_date_taken_raises_exactly_when unit sample_fs_exif strptime_stamp
              sample_fs_probe sample_fromisoformat sample_fs_time sample_fs_time
              tt sample_clip "X:\2018\clip.mov"
              (mkDT 2021 3 4 5 6 7 0) (mkDT 2021 3 4 5 6 7 0) eq_refl eq_refl eq_refl)
    as [[(d & E & L & _)|(e & E)] _].
  - exists d. split; [exact E | exact L].
  - vm_compute in E. discriminate.
Defined.
